(** * Editorial workflow: status-driven pipeline

    A shallow embedding of the status bookkeeping of the editorial
    pipeline (Notion CLI commands, Git commands, the Devin and Copilot
    GitHub Actions) and the properties of its specification.

    Stores are finite maps from identifiers to items.  Asynchronous code
    is sequential: every [await] is a bind of the state-and-exception
    monad [Js.M].  The outside world (Notion, GitHub, Perplexity, Claude)
    is scripted: each remote call consumes one entry of a list of faults,
    and provider replies are functions of the prompt. *)

From Stdlib Require Import Ascii String.
From stdpp Require Import gmap strings list fin_maps pretty.

Open Scope string_scope.
Open Scope list_scope.
Set Warnings "-register-all".

(** ** JavaScript values, exceptions and the effect monad *)

Module Js.

(** A thrown value.  [message] is [error.message]; the other fields are
    the ad-hoc properties that the catch blocks of the Devin action look
    for ([error.topicId], [error.draftId], [error.blogPostId]). *)
Record Error := mkError {
  message : string;
  topicId : option string;
  draftId : option string;
  blogPostId : option string
}.

(** [new Error(msg)] *)
Definition new_Error (msg : string) : Error :=
  {| message := msg; topicId := None; draftId := None; blogPostId := None |}.

(** Truthiness of a string: only the empty string is falsy. *)
Definition truthy (s : string) : bool :=
  match s with EmptyString => false | String _ _ => true end.

(** Truthiness of [x?.y] when the value is a string or undefined. *)
Definition truthy_opt (o : option string) : bool :=
  match o with Some s => truthy s | None => false end.

(** [a || b] on strings *)
Definition or_else (a b : string) : string := if truthy a then a else b.

(** The line feed character of the template literals. *)
Definition nl : string := String "010"%char EmptyString.

Inductive Res (A : Type) : Type :=
| Ok (a : A)
| Throw (e : Error).
Arguments Ok {A} a.
Arguments Throw {A} e.

(** A computation over a world [W]: it returns or throws, and leaves a
    world behind in both cases. *)
Definition M (W A : Type) : Type := W -> Res A * W.

Section Ops.
Context {W : Type}.

Definition ret {A} (a : A) : M W A := fun w => (Ok a, w).

Definition bind {A B} (m : M W A) (k : A -> M W B) : M W B :=
  fun w =>
    match m w with
    | (Ok a, w') => k a w'
    | (Throw e, w') => (Throw e, w')
    end.

Definition throw {A} (e : Error) : M W A := fun w => (Throw e, w).

(** [try { body } catch (error) { handler }] *)
Definition try_catch {A} (body : M W A) (handler : Error -> M W A) : M W A :=
  fun w =>
    match body w with
    | (Ok a, w') => (Ok a, w')
    | (Throw e, w') => handler e w'
    end.

Definition get : M W W := fun w => (Ok w, w).
Definition modify (f : W -> W) : M W unit := fun w => (Ok tt, f w).

(** [if (c) { m }] *)
Definition when (c : bool) (m : M W unit) : M W unit :=
  if c then m else ret tt.

(** [if (id) { k id }] for an identifier that may be undefined *)
Definition when_id (id : option string) (k : string -> M W unit) : M W unit :=
  match id with
  | Some i => if truthy i then k i else ret tt
  | None => ret tt
  end.

(** [for (const x of xs) { body x }]; a [continue] is a [ret tt] of the
    body. *)
Fixpoint for_of {A} (xs : list A) (body : A -> M W unit) : M W unit :=
  match xs with
  | [] => ret tt
  | x :: rest => bind (body x) (fun _ => for_of rest body)
  end.
End Ops.

(** Worlds that keep a trace of events, oldest first. *)
Class Traced (W Ev : Type) := trace_of : W -> list Ev.

(** [emits ok m]: whatever the world, [m] only appends events, and every
    event it appends satisfies [ok]. *)
Definition emits {W Ev A} `{Traced W Ev} (ok : Ev -> Prop) (m : M W A) : Prop :=
  forall w, exists evs, trace_of (snd (m w)) = (trace_of w ++ evs)%list /\ Forall ok evs.

(** An error with none of the ad-hoc properties, and a computation that
    throws only such errors. *)
Definition untagged (e : Error) : Prop :=
  topicId e = None /\ draftId e = None /\ blogPostId e = None.

Definition throws_untagged {W A} (m : M W A) : Prop :=
  forall w e w', m w = (Throw e, w') -> untagged e.

End Js.

Export Js.

Declare Scope js_scope.
Delimit Scope js_scope with js.
Notation "x <- m ;; k" := (Js.bind m (fun x => k))
  (at level 100, m at next level, right associativity) : js_scope.
Notation "m ;; k" := (Js.bind m (fun _ => k))
  (at level 100, right associativity) : js_scope.
Open Scope js_scope.

(** ** The Sources section (research.js, GitResearchCommand.js, Devin research) *)

Module Sources.

(** [citations.forEach((citation, index) => { enhancedContent +=
    `${index + 1}. ${citation}\n`; })], started at [index]. *)
Fixpoint forEach (citations : list string) (index : nat) (enhancedContent : string)
  : string :=
  match citations with
  | [] => enhancedContent
  | citation :: rest =>
      forEach rest (S index)
        (enhancedContent +:+ (pretty (index + 1) +:+ ". " +:+ citation +:+ nl))
  end.

(** [let enhancedContent = content; if (citations?.length) { ... }];
    [citations] is [None] when the provider reply has no such field. *)
Definition enhance (content : string) (citations : option (list string)) : string :=
  match citations with
  | Some (c :: cs) => forEach (c :: cs) 0 (content +:+ (nl +:+ nl +:+ "## Sources" +:+ nl))
  | Some [] => content
  | None => content
  end.




End Sources.

(** ** Status transitions (Copilot action, utils/helpers) *)

Module Helpers.

Inductive WorkflowStatus :=
| Ready_for_Research
| Research_In_Progress
| Ready_for_Draft
| Draft_In_Progress
| Ready_for_Review
| Draft_Complete
| Error
| Published.

#[export] Instance WorkflowStatus_eq_dec : EqDecision WorkflowStatus.
Proof. solve_decision. Defined.

(** The literal behind each member of the union type. *)
Definition literal (s : WorkflowStatus) : string :=
  match s with
  | Ready_for_Research => "Ready for Research"
  | Research_In_Progress => "Research In Progress"
  | Ready_for_Draft => "Ready for Draft"
  | Draft_In_Progress => "Draft In Progress"
  | Ready_for_Review => "Ready for Review"
  | Draft_Complete => "Draft Complete"
  | Error => "Error"
  | Published => "Published"
  end.

Definition validTransitions (from : WorkflowStatus) : list WorkflowStatus :=
  match from with
  | Ready_for_Research => [Research_In_Progress; Error]
  | Research_In_Progress => [Ready_for_Draft; Error]
  | Ready_for_Draft => [Draft_In_Progress; Error]
  | Draft_In_Progress => [Ready_for_Review; Draft_Complete; Error]
  | Ready_for_Review => [Published; Error]
  | Draft_Complete => [Ready_for_Review; Error]
  | Error => [Ready_for_Research; Ready_for_Draft; Ready_for_Review]
  | Published => []
  end.

(** [validTransitions[from]?.includes(to) || false] *)
Definition isValidStatusTransition (from to : WorkflowStatus) : bool :=
  bool_decide (to ∈ validTransitions from).

(** The state machine as the specification words it: the forward chain,
    [Error] from the two in-progress states, recovery from [Error] to a
    stage's starting state. *)
Definition spec_transition (from to : WorkflowStatus) : bool :=
  match from, to with
  | Ready_for_Research, Research_In_Progress
  | Research_In_Progress, Ready_for_Draft
  | Ready_for_Draft, Draft_In_Progress
  | Draft_In_Progress, Ready_for_Review => true
  | Research_In_Progress, Error
  | Draft_In_Progress, Error => true
  | Error, Ready_for_Research
  | Error, Ready_for_Draft => true
  | _, _ => false
  end.

(** What the table admits beyond the specification's machine. *)
Definition extra_transition (from to : WorkflowStatus) : bool :=
  match from, to with
  | Ready_for_Research, Error
  | Ready_for_Draft, Error
  | Ready_for_Review, Error
  | Draft_Complete, Error => true
  | Draft_In_Progress, Draft_Complete
  | Draft_Complete, Ready_for_Review
  | Ready_for_Review, Published
  | Error, Ready_for_Review => true
  | _, _ => false
  end.

End Helpers.

(** ** Provider replies (Perplexity over axios, Claude over the Anthropic SDK) *)

Module Provider.

(** What [researchTopic] returns: [content], [citations] (absent when the
    reply has none) and whether [usage] is present. *)
Record Research := {
  content : string;
  citations : option (list string);
  usage : bool
}.

(** Outcome of [client.post('/chat/completions', requestBody)]. *)
Inductive AxiosReply :=
| Responded (choice : option Research)
    (* a response; [None] when [data], [choices] or [choices[0]] is missing *)
| ErrResponse (data : option (option string)) (msg : string)
    (* [error.response] is set: [response.data], when there is one, with
       its [error?.message], and [error.message] *)
| ErrRequest
    (* [error.request] is set, no response *)
| ErrOther (msg : string).

(** The body of [researchTopic] (shared/perplexity/client.js, and the same
    function of the Devin research action) after the request is built:
    the [try] with its [catch]. *)
Definition researchTopic_reply (r : AxiosReply) : Js.Res Research :=
  match r with
  | Responded (Some research) => Js.Ok research
  | Responded None =>
      (* thrown inside the [try], so it reaches the last branch of the
         [catch] and is wrapped once more *)
      Js.Throw (new_Error ("Perplexity API error: " +:+
                           "Invalid response format from Perplexity API"))
  | ErrResponse None msg =>
      (* [error.response.data.error] on a response without [data]: a
         TypeError thrown by the [catch] itself *)
      Js.Throw (new_Error "Cannot read properties of undefined (reading 'error')")
  | ErrResponse (Some api_message) msg =>
      Js.Throw (new_Error ("Perplexity API error: " +:+
                           (if truthy_opt api_message then default "" api_message else msg)))
  | ErrRequest => Js.Throw (new_Error "No response received from Perplexity API")
  | ErrOther msg => Js.Throw (new_Error ("Perplexity API error: " +:+ msg))
  end.

(** What [generateContent] returns. *)
Record Generated := {
  text : string;
  gen_usage : bool
}.

(** Outcome of [anthropic.messages.create(params)]. *)
Inductive ClaudeReply :=
| Completed (g : Generated)
| ApiError (msg : string).

(** [generateContent]: both branches of its [catch] throw the same
    wrapped error. *)
Definition generateContent_reply (r : ClaudeReply) : Js.Res Generated :=
  match r with
  | Completed g => Js.Ok g
  | ApiError msg => Js.Throw (new_Error ("Claude API error: " +:+ msg))
  end.

End Provider.

(** ** The Notion store and the Notion CLI commands *)

Module Notion.
Import Provider.

(** *** Blocks and the two removeLinks.js *)

(** A rich-text item: its text, [href] and [text.link] (the url of the
    link object; [None] when [text] or its [link] is absent or [null]). *)
Record RichText := { plain : string; href : option string; link : option string }.

Inductive Block :=
| Blk (type : string) (rich_text : option (list RichText)) (children : list Block).

Definition richTextContainers : list string :=
  ["paragraph"; "heading_1"; "heading_2"; "heading_3";
   "bulleted_list_item"; "numbered_list_item"; "to_do";
   "toggle"; "quote"; "callout"].

(** utils/removeLinks.js of the Devin actions.
    [removeLinksFromRichText]: [if (textObj && textObj.href) delete
    textObj.href] *)
Definition removeLinksFromRichText (richTextArray : list RichText) : list RichText :=
  map (fun textObj =>
         {| plain := plain textObj;
            href := if truthy_opt (href textObj) then None else href textObj;
            link := link textObj |}) richTextArray.

(** [removeAllLinks] with [processRichTextInBlock], on one block. A block
    holds the container named by its own type. *)
Fixpoint removeLinksBlock (block : Block) : Block :=
  match block with
  | Blk type rich_text children =>
      Blk type
        (if bool_decide (type ∈ richTextContainers)
         then removeLinksFromRichText <$> rich_text else rich_text)
        (map removeLinksBlock children)
  end.

Definition removeAllLinks (blocks : list Block) : list Block :=
  map removeLinksBlock blocks.

(** utilities/removeLinks.js, which shared/notion/client.js imports: the
    [rich_text] of [block[block.type]], whatever the type, loses the
    [text.link] of its items (a link object is truthy); [href] stays. *)
Module Utilities.

Definition removeLink (textItem : RichText) : RichText :=
  {| plain := plain textItem; href := href textItem; link := None |}.

Fixpoint removeLinksBlock (block : Block) : Block :=
  match block with
  | Blk type rich_text children =>
      Blk type (map removeLink <$> rich_text) (map removeLinksBlock children)
  end.

Definition removeAllLinks (blocks : list Block) : list Block :=
  map removeLinksBlock blocks.

End Utilities.

Definition heading_1 (title : string) : Block :=
  Blk "heading_1" (Some [{| plain := title; href := None; link := None |}]) [].

(** *** Pages, the world and the remote calls *)

(** A page: the database it lives in, its properties (each reduced to
    the one string the pipeline reads or writes: the status name, the
    title text, the related page id, ...) and its child blocks. *)
Record Page := {
  parent : string;
  properties : gmap string string;
  blocks : list Block
}.

Inductive Event :=
| Queried (database_id : string) (status : string)
| Updated (page_id : string) (props : gmap string string)
| Created (page_id : string) (database_id : string)
| Appended (block_id : string) (count : nat)
| Read (page_id : string)
| ProviderCalled (prompt : string) (seen : gmap string Page)
| Skipped (page_id : string)
| SetFailed (msg : string)
| Exited (code : nat).

(** [faults]: the fate of the coming remote calls, one entry per call
    ([Some msg]: the call rejects with that message); calls beyond the
    list succeed.  [next_id]: the counter behind the ids Notion gives
    to new pages.  [trace]: what happened, oldest first. *)
Record World := {
  pages : gmap string Page;
  faults : list (option string);
  next_id : nat;
  trace : list Event
}.

Definition set_pages (f : gmap string Page -> gmap string Page) (w : World) : World :=
  {| pages := f (pages w); faults := faults w; next_id := next_id w; trace := trace w |}.
Definition set_faults (fs : list (option string)) (w : World) : World :=
  {| pages := pages w; faults := fs; next_id := next_id w; trace := trace w |}.
Definition bump_id (w : World) : World :=
  {| pages := pages w; faults := faults w; next_id := S (next_id w); trace := trace w |}.
Definition record (ev : Event) (w : World) : World :=
  {| pages := pages w; faults := faults w; next_id := next_id w; trace := trace w ++ [ev] |}.

Definition log (ev : Event) : Js.M World unit := Js.modify (record ev).

#[export] Instance World_traced : Js.Traced World Event := trace.

(** Events other than provider calls. *)
Definition quiet (ev : Event) : Prop :=
  match ev with
  | ProviderCalled _ _ => False
  | _ => True
  end.

(** The events of a run that starts in [w] and ends in [w']. *)
Definition new_events (w w' : World) : list Event :=
  drop (length (trace w)) (trace w').

(** The fate of the next remote call, and the world once it is consumed. *)
Definition next_fault (w : World) : option string :=
  match faults w with
  | fault :: _ => fault
  | [] => None
  end.
Definition pop (w : World) : World := set_faults (tail (faults w)) w.

(** A remote call: rejected when the script says so.  The error of a
    client library carries its message and none of the ad-hoc properties
    [topicId], [draftId], [blogPostId]. *)
Definition remote {A} (call : Js.M World A) : Js.M World A :=
  fun w =>
    match next_fault w with
    | Some msg => (Js.Throw (new_Error msg), pop w)
    | None => call (pop w)
    end.

Definition property_of (ps : gmap string Page) (id name : string) : option string :=
  p ← ps !! id; properties p !! name.

Definition status_of (ps : gmap string Page) (id : string) : option string :=
  property_of ps id "Status".

(** A query result with no usable title:
    [!topic.properties.Title?.title[0]?.plain_text]. *)
Definition untitled (topic : string * Page) : Prop :=
  truthy_opt (properties topic.2 !! "Title") = false.

(** [client.databases.query({database_id, filter: {property: "Status",
    status: {equals}}})]: the pages of that database whose Status is the
    given name, in store order. *)
Definition matches (database_id equals : string) (entry : string * Page) : bool :=
  bool_decide (parent entry.2 = database_id) &&
  bool_decide (properties entry.2 !! "Status" = Some equals).

Definition databases_query (database_id equals : string)
  : Js.M World (list (string * Page)) :=
  remote (fun w =>
    (Js.Ok (filter (fun e => matches database_id equals e) (map_to_list (pages w))),
     record (Queried database_id equals) w)).

(** [client.pages.update({page_id, properties})]: the given properties
    replace the page's properties of the same name. *)
Definition pages_update (page_id : string) (props : gmap string string)
  : Js.M World unit :=
  remote (fun w =>
    match pages w !! page_id with
    | None => (Js.Throw (new_Error "Could not find page"), w)
    | Some p =>
        (Js.Ok tt,
         record (Updated page_id props)
           (set_pages (insert page_id
              {| parent := parent p;
                 properties := props ∪ properties p;
                 blocks := blocks p |}) w))
    end).

Definition new_page_id (w : World) : string := "page-" +:+ pretty (next_id w).

(** [client.pages.create({parent: {database_id}, properties, children})] *)
Definition pages_create (database_id : string) (props : gmap string string)
    (children : list Block) : Js.M World string :=
  remote (fun w =>
    let id := new_page_id w in
    (Js.Ok id,
     record (Created id database_id)
       (bump_id (set_pages (insert id
          {| parent := database_id; properties := props; blocks := children |}) w)))).

(** [client.blocks.children.append({block_id, children})] *)
Definition blocks_children_append (block_id : string) (children : list Block)
  : Js.M World unit :=
  remote (fun w =>
    match pages w !! block_id with
    | None => (Js.Throw (new_Error "Could not find block"), w)
    | Some p =>
        (Js.Ok tt,
         record (Appended block_id (length children))
           (set_pages (insert block_id
              {| parent := parent p;
                 properties := properties p;
                 blocks := blocks p ++ children |}) w))
    end).

(** *** The environment of the commands *)

(** Libraries and templates the commands call but this model does not
    look into, the provider replies, and the command-line options. *)
Record Env := {
  blogPostsDbId : string;
  draftsDbId : string;
  (* @tryfabric/martian; [inl msg] when the conversion throws *)
  markdownToBlocks : string -> string + list Block;
  (* notion-to-md: pageToMarkdown then toMarkdownString *)
  toMarkdownString : list Block -> string;
  productivityPrompt : string -> string;
  draftwriterSystemPrompt : string -> string;
  draftwriterUserPrompt : string -> string -> string;
  perplexity : string -> AxiosReply;
  claude : string -> string -> ClaudeReply;
  toISOString : string;
  dryRun : bool;
  singleItem : bool;
  option_id : option string
}.

Section Commands.
Context (env : Env).

Definition lift {A} (r : Js.Res A) : Js.M World A := fun w => (r, w).

Definition convert (markdown : string) : Js.M World (list Block) :=
  match markdownToBlocks env markdown with
  | inl msg => Js.throw (new_Error msg)
  | inr bs => Js.ret bs
  end.

(** [PerplexityClient.researchTopic(prompt, options)] *)
Definition researchTopic (prompt : string) : Js.M World Research :=
  w <- Js.get ;;
  log (ProviderCalled prompt (pages w)) ;;
  lift (researchTopic_reply (perplexity env prompt)).

(** [ClaudeClient.generateContent(userPrompt, options)] *)
Definition generateContent (userPrompt systemPrompt : string)
  : Js.M World Generated :=
  w <- Js.get ;;
  log (ProviderCalled userPrompt (pages w)) ;;
  lift (generateContent_reply (claude env systemPrompt userPrompt)).

(** *** shared/notion/client.js *)

Definition getBlogPostsReadyForResearch : Js.M World (list (string * Page)) :=
  databases_query (blogPostsDbId env) "Ready for Research".

Definition updateBlogPostStatus (blogPostId newStatus : string) : Js.M World unit :=
  Js.try_catch
    (pages_update blogPostId {[ "Status" := newStatus ]})
    (fun error => Js.throw error).

Definition updateBlogPostError (blogPostId errorMessage : string)
    (setErrorStatus : bool) : Js.M World unit :=
  Js.try_catch
    (let properties : gmap string string := {[ "Error" := errorMessage ]} in
     let properties :=
       if setErrorStatus then <[ "Status" := "Error" ]> properties else properties in
     pages_update blogPostId properties)
    (fun _ => Js.ret tt).

(** The loop of [appendBlocksInBatches]: [i] advances by [batchSize];
    [fuel] bounds the number of rounds. *)
Fixpoint appendBlocksInBatches_from (fuel : nat) (blockId : string)
    (blocks : list Block) (batchSize i : nat) : Js.M World unit :=
  match fuel with
  | 0 => Js.ret tt
  | S fuel' =>
      if Nat.ltb i (length blocks) then
        let batchEnd := Nat.min (i + batchSize) (length blocks) in
        let batch := take (batchEnd - i) (drop i blocks) in
        blocks_children_append blockId batch ;;
        appendBlocksInBatches_from fuel' blockId blocks batchSize (i + batchSize)
      else Js.ret tt
  end.

Definition appendBlocksInBatches (blockId : string) (blocks : list Block)
  : Js.M World unit :=
  appendBlocksInBatches_from (length blocks) blockId blocks 100 0.

Definition createResearchBrief (blogPostId blogPostTitle markdownContent : string)
  : Js.M World string :=
  Js.try_catch
    (allBlocks <- convert markdownContent ;;
     let allBlocks := Utilities.removeAllLinks allBlocks in
     newDraftPage <- pages_create (draftsDbId env)
       (<[ "Title" := blogPostTitle ]>
        (<[ "Status" := "Ready to Start" ]>
         (<[ "Type" := "Research Brief" ]>
          {[ "Blog Posts" := blogPostId ]})))
       [heading_1 blogPostTitle] ;;
     appendBlocksInBatches newDraftPage allBlocks ;;
     updateBlogPostStatus blogPostId "Ready for Draft" ;;
     Js.ret newDraftPage)
    (fun error => Js.throw error).

(** The [properties] object of [createBlogDraft]: the base properties,
    and the Blog Posts relation when a blog post id is given. *)
Definition blogDraft_properties (title : string) (blogPostId : option string)
  : gmap string string :=
  let properties : gmap string string :=
    <[ "Title" := title ]>
    (<[ "Status" := "Ready for Review" ]>
     (<[ "Type" := "Blog Draft" ]>
      {[ "Last Modified Date" := toISOString env ]})) in
  match blogPostId with
  | Some id => if truthy id then <[ "Blog Posts" := id ]> properties else properties
  | None => properties
  end.

Definition createBlogDraft (researchBriefId title content : string)
    (blogPostId : option string) : Js.M World string :=
  Js.try_catch
    (allBlocks <- convert content ;;
     let allBlocks := Utilities.removeAllLinks allBlocks in
     let properties := blogDraft_properties title blogPostId in
     newDraftPage <- Js.try_catch
       (pages_create (draftsDbId env) properties [heading_1 title])
       (fun pageError => Js.throw pageError) ;;
     Js.try_catch
       (appendBlocksInBatches newDraftPage allBlocks)
       (fun contentError => Js.throw contentError) ;;
     Js.ret newDraftPage)
    (fun error => Js.throw error).

End Commands.

End Notion.

(** *** commands/research.js *)

Module ResearchCommand.
Import Provider Notion.

Section Command.
Context (env : Env).

(** The [try] block of [processTopic]. *)
Definition processTopic_try (topicId topicTitle : string) : Js.M World unit :=
  updateBlogPostStatus topicId "Research In Progress" ;;
  if dryRun env then Js.ret tt
  else
    research <- researchTopic env (productivityPrompt env topicTitle) ;;
    (* the usage log reads [research.usage.prompt_tokens] *)
    (if usage research then Js.ret tt
     else Js.throw (new_Error
            "Cannot read properties of undefined (reading 'prompt_tokens')")) ;;
    let enhancedContent := Sources.enhance (content research) (citations research) in
    createResearchBrief env topicId topicTitle enhancedContent ;;
    Js.ret tt.

(** [error.message || 'Unknown error occurred during research'] *)
Definition errorMessage (error : Js.Error) : string :=
  or_else (message error) "Unknown error occurred during research".

Definition processTopic (topicId topicTitle : string) : Js.M World unit :=
  Js.try_catch
    (processTopic_try topicId topicTitle)
    (fun error => updateBlogPostError topicId (errorMessage error) true).

(** The body of the [for] loop of [execute]. *)
Definition execute_topic (topic : string * Page) : Js.M World unit :=
  let topicId := topic.1 in
  let topicTitle := properties topic.2 !! "Title" in
  if truthy_opt topicTitle
  then processTopic topicId (default "" topicTitle)
  else log (Skipped topicId).

Definition execute : Js.M World unit :=
  Js.try_catch
    (if truthy_opt (option_id env) then Js.ret tt
     else
       topics <- getBlogPostsReadyForResearch env ;;
       let topicsToProcess := if singleItem env then take 1 topics else topics in
       Js.for_of topicsToProcess execute_topic)
    (fun error => log (Exited 1)).
End Command.

End ResearchCommand.

(** *** commands/draftwriter.js *)

Module DraftwriterCommand.
Import Provider Notion.

Section Command.
Context (env : Env).

(** The [try] block of [processDraft]. *)
Definition processDraft_try (draftId draftTitle researchContent : string)
    (blogPostId : option string) : Js.M World unit :=
  updateBlogPostStatus draftId "Writing in Progress" ;;
  if dryRun env then Js.ret tt
  else
    Js.when_id blogPostId (fun id => updateBlogPostStatus id "Draft In Progress") ;;
    blogPost <- generateContent env
      (draftwriterUserPrompt env draftTitle researchContent)
      (draftwriterSystemPrompt env draftTitle) ;;
    createBlogDraft env draftId draftTitle (text blogPost) blogPostId ;;
    updateBlogPostStatus draftId "Research Processed" ;;
    Js.when_id blogPostId (fun id => updateBlogPostStatus id "Draft Created").

Definition processDraft (draftId draftTitle researchContent : string)
    (blogPostId : option string) : Js.M World unit :=
  Js.try_catch
    (processDraft_try draftId draftTitle researchContent blogPostId)
    (fun error =>
       Js.try_catch
         (updateBlogPostStatus draftId "Ready to Start")
         (fun resetError => Js.ret tt) ;;
       Js.when_id blogPostId (fun id =>
         updateBlogPostError id
           (or_else (message error) "Unknown error occurred during draft writing")
           true)).
End Command.

End DraftwriterCommand.

(** ** The Devin GitHub Actions (actions/research and actions/draft-writing) *)

Module Devin.
Import Provider Notion.

Section Action.
(** [env]: libraries, inline prompt templates and provider replies;
    [inputs]: the action inputs read by [core.getInput]. *)
Context (env : Env) (inputs : gmap string string).

(** [core.getInput(name, { required: true })] *)
Definition getInput (name : string) : Js.M World string :=
  if truthy_opt (inputs !! name) then Js.ret (default "" (inputs !! name))
  else Js.throw (new_Error ("Input required and not supplied: " +:+ name)).

Definition updateBlogPostStatus (blogPostId newStatus : string) : Js.M World unit :=
  Js.try_catch
    (pages_update blogPostId {[ "Status" := newStatus ]})
    (fun error => Js.throw error).

Definition updateBlogPostError (blogPostId errorMessage : string)
    (setErrorStatus : bool) : Js.M World unit :=
  Js.try_catch
    (let properties : gmap string string := {[ "Error" := errorMessage ]} in
     let properties :=
       if setErrorStatus then <[ "Status" := "Error" ]> properties else properties in
     pages_update blogPostId properties)
    (fun _ => Js.ret tt).

Definition createResearchBrief (blogPostId blogPostTitle markdownContent draftsDbId : string)
  : Js.M World string :=
  Js.try_catch
    (allBlocks <- convert env markdownContent ;;
     let allBlocks := removeAllLinks allBlocks in
     newDraftPage <- pages_create draftsDbId
       (<[ "Title" := blogPostTitle ]>
        (<[ "Status" := "Ready to Start" ]>
         (<[ "Type" := "Research Brief" ]>
          {[ "Blog Posts" := blogPostId ]})))
       [heading_1 blogPostTitle] ;;
     appendBlocksInBatches newDraftPage allBlocks ;;
     Js.ret newDraftPage)
    (fun error => Js.throw error).

Definition createBlogDraft (researchBriefId title content : string)
    (blogPostId : option string) (draftsDbId : string) : Js.M World string :=
  Js.try_catch
    (allBlocks <- convert env content ;;
     let allBlocks := removeAllLinks allBlocks in
     let properties := blogDraft_properties env title blogPostId in
     newDraftPage <- Js.try_catch
       (pages_create draftsDbId properties [heading_1 title])
       (fun pageError => Js.throw pageError) ;;
     Js.try_catch
       (appendBlocksInBatches newDraftPage allBlocks)
       (fun contentError => Js.throw contentError) ;;
     Js.ret newDraftPage)
    (fun error => Js.throw error).

(** The [try] block of [run] in actions/research/index.js. *)
Definition research_try : Js.M World unit :=
  notionApiKey <- getInput "notion-api-key" ;;
  blogPostsDbId <- getInput "notion-blog-posts-id" ;;
  draftsDbId <- getInput "notion-drafts-id" ;;
  perplexityApiKey <- getInput "perplexity-api-key" ;;
  topics <- databases_query blogPostsDbId "Ready for Research" ;;
  match topics with
  | [] => Js.ret tt
  | topic :: _ =>
      let topicId := topic.1 in
      let topicTitle := properties topic.2 !! "Title" in
      if negb (truthy_opt topicTitle) then log (Skipped topicId)
      else
        let topicTitle := default "" topicTitle in
        updateBlogPostStatus topicId "Research In Progress" ;;
        research <- researchTopic env (productivityPrompt env topicTitle) ;;
        (if usage research then Js.ret tt
         else Js.throw (new_Error
                "Cannot read properties of undefined (reading 'prompt_tokens')")) ;;
        let enhancedContent :=
          Sources.enhance (content research) (citations research) in
        createResearchBrief topicId topicTitle enhancedContent draftsDbId ;;
        updateBlogPostStatus topicId "Ready for Draft"
  end.

(** The [catch] block of the research [run]. *)
Definition research_catch (error : Js.Error) : Js.M World unit :=
  log (SetFailed ("Research workflow failed: " +:+ message error)) ;;
  Js.when_id (topicId error) (fun id =>
    Js.try_catch
      (notionApiKey <- getInput "notion-api-key" ;;
       updateBlogPostError id
         (or_else (message error) "Unknown error occurred during research") true)
      (fun updateError => Js.ret tt)).

Definition research_run : Js.M World unit :=
  Js.try_catch research_try research_catch.

(** [n2m.pageToMarkdown(draftId)] then [n2m.toMarkdownString(mdBlocks)] *)
Definition pageToMarkdown (pageId : string) : Js.M World string :=
  remote (fun w =>
    match pages w !! pageId with
    | None => (Js.Throw (new_Error "Could not find block"), w)
    | Some p => (Js.Ok (toMarkdownString env (blocks p)), record (Read pageId) w)
    end).

(** The [try] block of [run] in actions/draft-writing/index.js. *)
Definition draft_try : Js.M World unit :=
  notionApiKey <- getInput "notion-api-key" ;;
  blogPostsDbId <- getInput "notion-blog-posts-id" ;;
  draftsDbId <- getInput "notion-drafts-id" ;;
  anthropicApiKey <- getInput "anthropic-api-key" ;;
  drafts <- databases_query draftsDbId "Ready to Start" ;;
  match drafts with
  | [] => Js.ret tt
  | draft :: _ =>
      let draftId := draft.1 in
      let draftTitle := properties draft.2 !! "Title" in
      let blogPostRelation := properties draft.2 !! "Blog Posts" in
      researchContent <- pageToMarkdown draftId ;;
      if negb (truthy_opt draftTitle) || negb (truthy researchContent)
      then log (Skipped draftId)
      else
        let draftTitle := default "" draftTitle in
        updateBlogPostStatus draftId "Writing in Progress" ;;
        Js.when_id blogPostRelation (fun id =>
          updateBlogPostStatus id "Draft In Progress") ;;
        blogPost <- generateContent env
          (draftwriterUserPrompt env draftTitle researchContent)
          (draftwriterSystemPrompt env draftTitle) ;;
        (if gen_usage blogPost then Js.ret tt
         else Js.throw (new_Error
                "Cannot read properties of undefined (reading 'input_tokens')")) ;;
        createBlogDraft draftId draftTitle (text blogPost) blogPostRelation draftsDbId ;;
        updateBlogPostStatus draftId "Research Processed" ;;
        Js.when_id blogPostRelation (fun id =>
          updateBlogPostStatus id "Draft Created")
  end.

(** The [catch] block of the draft-writing [run]. *)
Definition draft_catch (error : Js.Error) : Js.M World unit :=
  log (SetFailed ("Draft writing workflow failed: " +:+ message error)) ;;
  Js.when_id (draftId error) (fun id =>
    Js.try_catch
      (notionApiKey <- getInput "notion-api-key" ;;
       updateBlogPostStatus id "Ready to Start" ;;
       Js.when_id (blogPostId error) (fun bp =>
         updateBlogPostError bp
           (or_else (message error) "Unknown error occurred during draft writing")
           true))
      (fun resetError => Js.ret tt)).

Definition draft_run : Js.M World unit :=
  Js.try_catch draft_try draft_catch.
End Action.

End Devin.

(** ** The Git store (shared/github/GitHubFileClient.js) *)

Module Git.
Import Provider.

(** A markdown file as gray-matter sees it: [matter(fileContent)] gives
    [{data, content}], and a file's text is kept as this pair.
    Front-matter values are strings. *)
Record Doc := {
  data : gmap string string;
  body : string
}.

(** *** gray-matter *)

(** The YAML side of gray-matter: what [matter] reads from a text that
    opens a front-matter block (the opening [---], the block up to the
    closing [---], then the content).  The blocks are taken to be well
    formed, and the cache that [matter] keeps of its parses is left
    out. *)
Class GrayMatter := frontMatterBlock : string -> Doc.

(** A text opens a front-matter block when it starts with the delimiter
    and no fourth dash follows: [str.slice(0, 3) === '---'] and
    [str.charAt(3) !== '-']. *)
Definition opensFrontMatter (text : string) : bool :=
  String.eqb (substring 0 3 text) "---" &&
  negb (bool_decide (String.get 3 text = Some "-"%char)).

(** [newline(str)] of gray-matter's stringify: a line feed is appended to
    a string that does not end with one. *)
Fixpoint endsWithNewline (str : string) : bool :=
  match str with
  | EmptyString => false
  | String c EmptyString => Ascii.eqb c "010"
  | String _ rest => endsWithNewline rest
  end.

Definition newline (str : string) : string :=
  if endsWithNewline str then str else str +:+ nl.

Section Matter.
Context {gm : GrayMatter}.

(** [matter(text)] *)
Definition matter (text : string) : Doc :=
  if opensFrontMatter text then frontMatterBlock text
  else {| data := ∅; body := text |}.

(** [matter.stringify(content, data)], as the file its text is.  The
    string [content] is parsed first, and what the parse finds lies under
    [data]: [Object.assign({}, file.data, data)].  The text is the block
    of these data between two [---] lines, unless there are none, then
    [newline(file.content)]. *)
Definition stringify (content : string) (frontMatter : gmap string string) : Doc :=
  let file := matter content in
  let merged := frontMatter ∪ data file in
  if bool_decide (merged = ∅) then matter (newline (body file))
  else {| data := merged; body := newline (body file) |}.

End Matter.

(** A file of the branch with its blob sha (a version counter here). *)
Record File := {
  doc : Doc;
  sha : nat
}.

Inductive Event :=
| Fetched (path : string)
| Committed (path : string) (d : Doc) (message : string)
| ProviderCalled (prompt : string) (seen : gmap string File)
| Warned (msg : string).

Record World := {
  files : gmap string File;
  faults : list (option string);
  trace : list Event
}.

Definition set_files (f : gmap string File -> gmap string File) (w : World) : World :=
  {| files := f (files w); faults := faults w; trace := trace w |}.
Definition set_faults (fs : list (option string)) (w : World) : World :=
  {| files := files w; faults := fs; trace := trace w |}.
Definition record (ev : Event) (w : World) : World :=
  {| files := files w; faults := faults w; trace := trace w ++ [ev] |}.

Definition log (ev : Event) : Js.M World unit := Js.modify (record ev).
Definition lift {A} (r : Js.Res A) : Js.M World A := fun w => (r, w).

#[export] Instance World_traced : Js.Traced World Event := trace.

(** Events other than provider calls. *)
Definition quiet (ev : Event) : Prop :=
  match ev with
  | ProviderCalled _ _ => False
  | _ => True
  end.

(** The events of a run that starts in [w] and ends in [w']. *)
Definition new_events (w w' : World) : list Event :=
  drop (length (trace w)) (trace w').

(** The fate of the next remote call, and the world once it is consumed. *)
Definition next_fault (w : World) : option string :=
  match faults w with
  | fault :: _ => fault
  | [] => None
  end.
Definition pop (w : World) : World := set_faults (tail (faults w)) w.

(** A remote call: rejected when the script says so.  The error of a
    client library carries its message and none of the ad-hoc properties
    [topicId], [draftId], [blogPostId]. *)
Definition remote {A} (call : Js.M World A) : Js.M World A :=
  fun w =>
    match next_fault w with
    | Some msg => (Js.Throw (new_Error msg), pop w)
    | None => call (pop w)
    end.

(** The next [n] remote calls are not rejected. *)
Definition accepts (n : nat) (w : World) : Prop :=
  Forall (fun fault => fault = None) (take n (faults w)).

Definition field_of (fs : gmap string File) (path key : string) : option string :=
  f ← fs !! path; data (doc f) !! key.

Definition status_of (fs : gmap string File) (path : string) : option string :=
  field_of fs path "status".

(** [octokit.repos.getContent({owner, repo, path, ref})] on a file path *)
Definition repos_getContent (path : string) : Js.M World File :=
  remote (fun w =>
    match files w !! path with
    | None => (Js.Throw (new_Error "Not Found"), w)
    | Some f => (Js.Ok f, record (Fetched path) w)
    end).

(** [octokit.repos.createOrUpdateFileContents({path, message, content,
    sha, branch})]: creates a missing file when no sha is given, and
    updates an existing one when its current sha is given. *)
Definition repos_createOrUpdateFileContents (path : string) (content : Doc)
    (given_sha : option nat) (message : string) : Js.M World unit :=
  remote (fun w =>
    match files w !! path, given_sha with
    | None, None =>
        (Js.Ok tt,
         record (Committed path content message)
           (set_files (insert path {| doc := content; sha := 0 |}) w))
    | None, Some _ => (Js.Throw (new_Error "Not Found"), w)
    | Some f, None => (Js.Throw (new_Error "Invalid request: sha was not supplied"), w)
    | Some f, Some s =>
        if bool_decide (s = sha f) then
          (Js.Ok tt,
           record (Committed path content message)
             (set_files (insert path {| doc := content; sha := S (sha f) |}) w))
        else (Js.Throw (new_Error "sha does not match"), w)
    end).

(** shared/github/getFileSha.js *)
Definition getFileSha (filePath : string) : Js.M World nat :=
  f <- repos_getContent filePath ;;
  Js.ret (sha f).

Definition readFile (filePath : string) : Js.M World Doc :=
  Js.try_catch
    (f <- repos_getContent filePath ;; Js.ret (doc f))
    (fun error => Js.throw error).

(** [writeFile(filePath, content, { sha, message })] *)
Definition writeFile (filePath : string) (content : Doc) (given_sha : option nat)
    (message : string) : Js.M World unit :=
  sha <- match given_sha with
         | Some s => Js.ret (Some s)
         | None =>
             Js.try_catch
               (s <- getFileSha filePath ;; Js.ret (Some s))
               (fun e => Js.ret None)
         end ;;
  Js.try_catch
    (repos_createOrUpdateFileContents filePath content sha message)
    (fun error => Js.throw error).

Definition createFile (filePath : string) (content : Doc) (message : string)
  : Js.M World unit :=
  Js.try_catch
    (repos_createOrUpdateFileContents filePath content None message)
    (fun error => Js.throw error).

Section FrontMatter.
Context {gm : GrayMatter}.

(** [updateYamlFrontMatter(filePath, updates, { message })]: every key of
    [updates] is assigned (no update of the commands is [null]). *)
Definition updateYamlFrontMatter (filePath : string) (updates : gmap string string)
    (given_sha : option nat) (message : string) : Js.M World unit :=
  fileContent <- readFile filePath ;;
  let frontMatter := updates ∪ data fileContent in
  let updatedFileContent := stringify (body fileContent) frontMatter in
  writeFile filePath updatedFileContent None message.

End FrontMatter.

(** Templates, libraries, provider replies and options of the Git
    commands. *)
Record Env := {
  productivityPrompt : string -> string;
  draftwriterUserPrompt : string -> string -> string;
  perplexity : string -> AxiosReply;
  claude : string -> ClaudeReply;
  slugify : string -> string;
  contentDirDrafts : string;
  toLocaleDateString : string;
  dryRun : bool
}.

Section Clients.
Context (env : Env).

Definition researchTopic (prompt : string) : Js.M World Research :=
  w <- Js.get ;;
  log (ProviderCalled prompt (files w)) ;;
  lift (researchTopic_reply (perplexity env prompt)).

Definition generateContent (userPrompt : string) : Js.M World Generated :=
  w <- Js.get ;;
  log (ProviderCalled userPrompt (files w)) ;;
  lift (generateContent_reply (claude env userPrompt)).
End Clients.

End Git.

(** *** commands/git/GitResearchCommand.js *)

Module GitResearchCommand.
Import Provider Git.

Section Command.
Context {gm : GrayMatter} (env : Env).

(** The [try] block of [processTopic]. *)
Definition processTopic_try (topicFilePath topicTitle : string)
    (currentFrontMatter : gmap string string) : Js.M World unit :=
  updateYamlFrontMatter topicFilePath
    {[ "status" := "Research In Progress" ]} None
    ("WIP: Start research for " +:+ topicTitle) ;;
  let researchPrompt := productivityPrompt env topicTitle in
  researchResult <- researchTopic env researchPrompt ;;
  let enhancedContent :=
    Sources.enhance (or_else (content researchResult) "") (citations researchResult) in
  let updatedFrontMatter :=
    <[ "date_researched" := toLocaleDateString env ]>
    (<[ "status" := "Ready for Draft" ]> currentFrontMatter) in
  let updatedFileContent := stringify enhancedContent updatedFrontMatter in
  writeFile topicFilePath updatedFileContent None
    ("Update research for " +:+ topicTitle) ;;
  updateYamlFrontMatter topicFilePath
    {[ "status" := "Research Complete" ]} None
    ("Done: Complete research for " +:+ topicTitle).

(** The [catch] block of [processTopic]. *)
Definition processTopic_catch (topicFilePath topicTitle : string)
    (error : Js.Error) : Js.M World unit :=
  Js.try_catch
    (updateYamlFrontMatter topicFilePath
       (<[ "status" := "Error" ]> {[ "error_message" := message error ]}) None
       ("Error: Research failed for " +:+ topicTitle))
    (fun updateError => Js.ret tt).

Definition processTopic (topicFilePath topicTitle : string)
    (currentFrontMatter : gmap string string) : Js.M World unit :=
  if dryRun env then Js.ret tt
  else
    Js.try_catch
      (processTopic_try topicFilePath topicTitle currentFrontMatter)
      (processTopic_catch topicFilePath topicTitle).
End Command.

End GitResearchCommand.

(** *** commands/git/GitDraftwriterCommand.js *)

Module GitDraftwriterCommand.
Import Provider Git.

Section Command.
Context {gm : GrayMatter} (env : Env).

(** [...(frontMatter[key] && { [key]: frontMatter[key] })] *)
Definition spread_if (key : string) (frontMatter target : gmap string string)
  : gmap string string :=
  match frontMatter !! key with
  | Some v => if truthy v then <[ key := v ]> target else target
  | None => target
  end.

Definition draftPath_of (researchFileTitle : string) : string :=
  contentDirDrafts env +:+ "/" +:+ slugify env researchFileTitle +:+ "-draft.md".

Definition draftFrontMatter_of (researchFilePath researchFileTitle
    originalBlogFilePath : string) (researchFileFrontMatter : gmap string string)
  : gmap string string :=
  spread_if "category" researchFileFrontMatter
    (spread_if "tags" researchFileFrontMatter
      (<[ "date_drafted" := toLocaleDateString env ]>
       (<[ "status" := "Ready for Review" ]>
        (<[ "blog_post_filePath" := originalBlogFilePath ]>
         (<[ "research_brief_filePath" := researchFilePath ]>
          (<[ "original_title" := researchFileTitle ]>
           {[ "title" := "Draft: " +:+ researchFileTitle ]})))))).

(** The method [getFileSha] of the command: [null] on any error. *)
Definition getFileSha_or_null (filePath : string) : Js.M World (option nat) :=
  Js.try_catch
    (f <- repos_getContent filePath ;; Js.ret (Some (sha f)))
    (fun error => Js.ret None).

(** The [try] block of [processDraft].  [originalBlogFilePath] is a
    string, as in the single-file branch of [execute], which always
    computes one. *)
Definition processDraft_try (researchFilePath researchFileTitle researchContent
    originalBlogFilePath : string) (researchFileFrontMatter : gmap string string)
  : Js.M World unit :=
  updateYamlFrontMatter researchFilePath
    {[ "status" := "Draft In Progress" ]} None
    ("WIP: Start drafting for " +:+ researchFileTitle) ;;
  let draftPrompt := draftwriterUserPrompt env researchFileTitle researchContent in
  draftResult <- generateContent env draftPrompt ;;
  let draftPath := draftPath_of researchFileTitle in
  let draftFrontMatter :=
    draftFrontMatter_of researchFilePath researchFileTitle originalBlogFilePath
      researchFileFrontMatter in
  let draftContent := stringify (text draftResult) draftFrontMatter in
  createFile draftPath draftContent
    ("Feat: Create draft for " +:+ researchFileTitle) ;;
  updateYamlFrontMatter researchFilePath
    (<[ "status" := "Draft Complete" ]> {[ "draft_filePath" := draftPath ]}) None
    ("Done: Complete draft for " +:+ researchFileTitle +:+ ", draft at " +:+ draftPath) ;;
  Js.when (truthy originalBlogFilePath)
    (updateYamlFrontMatter originalBlogFilePath
       (<[ "status" := "Draft Complete" ]> {[ "draft_filePath" := draftPath ]}) None
       ("Done: Complete draft for " +:+ researchFileTitle +:+ ", draft at " +:+ draftPath)).

(** The [catch] block of [processDraft]. *)
Definition processDraft_catch (researchFilePath researchFileTitle
    originalBlogFilePath : string) (error : Js.Error) : Js.M World unit :=
  let failed : gmap string string :=
    <[ "status" := "Error" ]>
    {[ "error_message" := "Drafting failed: " +:+ message error ]} in
  Js.try_catch
    (updateYamlFrontMatter researchFilePath failed None
       ("Error: Drafting failed for " +:+ researchFileTitle) ;;
     Js.when (truthy originalBlogFilePath)
       (blogPostSha <- getFileSha_or_null originalBlogFilePath ;;
        match blogPostSha with
        | Some _ =>
            (* [updateYamlFrontMatter] ignores the [sha] it is handed *)
            updateYamlFrontMatter originalBlogFilePath failed blogPostSha
              ("Error: Drafting failed for blog post related to " +:+ researchFileTitle)
        | None => log (Warned originalBlogFilePath)
        end))
    (fun updateError => Js.ret tt).

Definition processDraft (researchFilePath researchFileTitle researchContent
    originalBlogFilePath : string) (researchFileFrontMatter : gmap string string)
  : Js.M World unit :=
  if dryRun env then Js.ret tt
  else
    Js.try_catch
      (processDraft_try researchFilePath researchFileTitle researchContent
         originalBlogFilePath researchFileFrontMatter)
      (processDraft_catch researchFilePath researchFileTitle originalBlogFilePath).
End Command.

End GitDraftwriterCommand.

(** ** The Copilot action: selection of research files *)

Module Copilot.
Import Git.

(** [GitHubClient.getFileContent(filePath)]: any failure is wrapped. *)
Definition getFileContent (filePath : string) : Js.M World File :=
  Js.try_catch
    (repos_getContent filePath)
    (fun error =>
       Js.throw (new_Error ("Failed to get file content for " +:+ filePath +:+ ": "
                            +:+ message error))).

(** [ResearchAction.getFilesReadyForResearch(filePaths)] with its
    accumulator [readyFiles]. *)
Fixpoint getFilesReadyForResearch_loop (filePaths readyFiles : list string)
  : Js.M World (list string) :=
  match filePaths with
  | [] => Js.ret readyFiles
  | filePath :: rest =>
      readyFiles' <- Js.try_catch
        (fileContent <- getFileContent filePath ;;
         if bool_decide (data (doc fileContent) !! "status" = Some "Ready for Research")
         then Js.ret (readyFiles ++ [filePath])%list
         else Js.ret readyFiles)
        (fun error => Js.ret readyFiles) ;;
      getFilesReadyForResearch_loop rest readyFiles'
  end.

Definition getFilesReadyForResearch (filePaths : list string)
  : Js.M World (list string) :=
  getFilesReadyForResearch_loop filePaths [].

End Copilot.

(** ** Scenarios: concrete environments and worlds *)

Module Scenario.
Import Provider.

Definition bar : Research := {| content := "bar"; citations := Some []; usage := true |}.

(** A paragraph of one text item that carries a link. *)
Definition linked (markdown : string) : Notion.Block :=
  Notion.Blk "paragraph"
    (Some [{| Notion.plain := markdown; Notion.href := None;
              Notion.link := Some "https://example.com" |}]) [].

(** A Notion environment: the conversion makes one paragraph of the
    markdown, as one linked item; the research provider gives [reply],
    Claude gives a fixed draft. *)
Definition notion_env (dry : bool) (reply : AxiosReply) : Notion.Env :=
  {| Notion.blogPostsDbId := "blog-posts";
     Notion.draftsDbId := "drafts";
     Notion.markdownToBlocks := fun markdown => inr [linked markdown];
     Notion.toMarkdownString := fun blocks =>
       match blocks with
       | Notion.Blk _ (Some (t :: _)) _ :: _ => Notion.plain t
       | _ => ""
       end;
     Notion.productivityPrompt := fun title => "Research " +:+ title;
     Notion.draftwriterSystemPrompt := fun title => "Write about " +:+ title;
     Notion.draftwriterUserPrompt := fun title research => title +:+ ": " +:+ research;
     Notion.perplexity := fun _ => reply;
     Notion.claude := fun _ _ => Completed {| text := "the draft"; gen_usage := true |};
     Notion.toISOString := "2025-05-01T00:00:00.000Z";
     Notion.dryRun := dry;
     Notion.singleItem := false;
     Notion.option_id := None |}.

(** The topic of Scenario 1: title Foo, Ready for Research. *)
Definition foo : Notion.Page :=
  {| Notion.parent := "blog-posts";
     Notion.properties := <[ "Title" := "Foo" ]> {[ "Status" := "Ready for Research" ]};
     Notion.blocks := [] |}.

(** A research brief with no blog post behind it, ready to be drafted. *)
Definition brief : Notion.Page :=
  {| Notion.parent := "drafts";
     Notion.properties := <[ "Title" := "Foo" ]> {[ "Status" := "Ready to Start" ]};
     Notion.blocks := [] |}.

(** The topic of Scenario 2: an empty title, Ready for Research. *)
Definition untitled : Notion.Page :=
  {| Notion.parent := "blog-posts";
     Notion.properties := <[ "Title" := "" ]> {[ "Status" := "Ready for Research" ]};
     Notion.blocks := [] |}.

(** The inputs of the Devin actions. *)
Definition inputs : gmap string string :=
  <[ "notion-api-key" := "secret" ]>
  (<[ "notion-blog-posts-id" := "blog-posts" ]>
   (<[ "notion-drafts-id" := "drafts" ]>
    (<[ "perplexity-api-key" := "secret" ]>
     {[ "anthropic-api-key" := "secret" ]}))).

Definition notion_world (id : string) (page : Notion.Page)
    (faults : list (option string)) : Notion.World :=
  {| Notion.pages := {[ id := page ]};
     Notion.faults := faults;
     Notion.next_id := 0;
     Notion.trace := [] |}.

(** A store with a blog post already in Draft-ready state and the
    research brief made from it. *)
Definition researched : Notion.Page :=
  {| Notion.parent := "blog-posts";
     Notion.properties := <[ "Title" := "Foo" ]> {[ "Status" := "Ready for Draft" ]};
     Notion.blocks := [] |}.

Definition brief_of (blogPostId : string) : Notion.Page :=
  {| Notion.parent := "drafts";
     Notion.properties :=
       <[ "Title" := "Foo" ]>
       (<[ "Status" := "Ready to Start" ]> {[ "Blog Posts" := blogPostId ]});
     Notion.blocks := [] |}.

Definition drafting_world : Notion.World :=
  {| Notion.pages := <[ "topic-1" := researched ]> {[ "brief-1" := brief_of "topic-1" ]};
     Notion.faults := [];
     Notion.next_id := 0;
     Notion.trace := [] |}.

Definition ready_frontMatter : gmap string string :=
  <[ "title" := "Foo" ]> {[ "status" := "Ready for Draft" ]}.

Definition ready_file : Git.File :=
  {| Git.doc := {| Git.data := ready_frontMatter; Git.body := "bar" |}; Git.sha := 3 |}.

Definition git_env (dry : bool) (reply : AxiosReply) : Git.Env :=
  {| Git.productivityPrompt := fun title => "Research " +:+ title;
     Git.draftwriterUserPrompt := fun title research => title +:+ ": " +:+ research;
     Git.perplexity := fun _ => reply;
     Git.claude := fun _ => Completed {| text := "the draft"; gen_usage := true |};
     Git.slugify := fun title => title;
     Git.contentDirDrafts := "content/drafts";
     Git.toLocaleDateString := "2025-05-01";
     Git.dryRun := dry |}.

Definition foo_frontMatter : gmap string string :=
  <[ "title" := "Foo" ]> {[ "status" := "Ready for Research" ]}.

Definition foo_file : Git.File :=
  {| Git.doc := {| Git.data := foo_frontMatter; Git.body := "" |}; Git.sha := 7 |}.

Definition git_world (path : string) (file : Git.File)
    (faults : list (option string)) : Git.World :=
  {| Git.files := {[ path := file ]}; Git.faults := faults; Git.trace := [] |}.

(** The lines of a text; [line] holds the characters of the current
    line. *)
Fixpoint lines_from (line text : string) : list string :=
  match text with
  | EmptyString => [line]
  | String c rest =>
      if Ascii.eqb c "010" then line :: lines_from "" rest
      else lines_from (line +:+ String c "") rest
  end.

(** A line [key: value] of a front-matter block. *)
Definition entry (line : string) : option (string * string) :=
  n ← index 0 ": " line;
  Some (substring 0 n line, substring (n + 2) (String.length line) line).

(** gray-matter for the scenarios: after the opening [---], the block of
    [key: value] lines runs to the first line that starts with [---];
    the content is what follows that line. *)
Definition yaml : Git.GrayMatter := fun text =>
  let str := substring 3 (String.length text) text in
  let closeIndex := default (String.length str) (index 0 (nl +:+ "---") str) in
  let block := substring 0 closeIndex str in
  let content := substring (closeIndex + 4) (String.length str) str in
  {| Git.data := list_to_map (omap entry (lines_from "" block));
     Git.body := match content with
                 | String c rest => if Ascii.eqb c "010" then rest else content
                 | EmptyString => content
                 end |}.

End Scenario.

(** ** Links in blocks (utils/removeLinks) *)

Module Links.
Import Notion.

(** No rich-text item of a container block, at any depth, carries a link:
    [textObj.href] is absent or falsy. *)
Fixpoint linkFree (block : Block) : bool :=
  match block with
  | Blk type rich_text children =>
      (if bool_decide (type ∈ richTextContainers)
       then forallb (fun textObj => negb (truthy_opt (href textObj))) (default [] rich_text)
       else true)
      && forallb linkFree children
  end.

(** A block with the link of every rich-text item dropped, container or
    not: what two blocks share when they differ by links only. *)
Fixpoint withoutLinks (block : Block) : Block :=
  match block with
  | Blk type rich_text children =>
      Blk type (removeLinksFromRichText <$> rich_text) (map withoutLinks children)
  end.

(** No rich-text item of a block, at any depth, carries a [text.link]. *)
Fixpoint noTextLink (block : Block) : bool :=
  match block with
  | Blk type rich_text children =>
      forallb (fun textItem => bool_decide (link textItem = None)) (default [] rich_text)
      && forallb noTextLink children
  end.

(** What a block holds apart from the [text.link] of its items: its
    type, the text and the [href] of each item, and its children. *)
Inductive Plain :=
| PlainBlk (type : string) (items : option (list (string * option string)))
    (children : list Plain).

Fixpoint plainOf (block : Block) : Plain :=
  match block with
  | Blk type rich_text children =>
      PlainBlk type (map (fun textItem => (plain textItem, href textItem)) <$> rich_text)
        (map plainOf children)
  end.

End Links.

(** ** The rest of shared/notion/client.js and commands/draftwriter.js *)

Module NotionClient.
Import Provider Notion.

Section Client.
Context (env : Env).

(** [client.databases.retrieve({database_id})]: the schema, which
    [getDraftsReadyToStart] only prints. *)
Definition databases_retrieve (database_id : string) : Js.M World unit :=
  remote (Js.ret tt).

Definition getDraftsReadyToStart : Js.M World (list (string * Page)) :=
  Js.try_catch
    (databases_retrieve (draftsDbId env))
    (fun error => Js.ret tt) ;;
  databases_query (draftsDbId env) "Ready to Start".

Definition getPageContent (pageId : string) : Js.M World string :=
  Js.try_catch
    (Devin.pageToMarkdown env pageId)
    (fun error => Js.throw error).

End Client.

End NotionClient.

Module DraftwriterExecute.
Import Provider Notion NotionClient.

Section Command.
Context (env : Env).

(** The body of the [for] loop of [DraftwriterCommand.execute]. *)
Definition execute_draft (draft : string * Page) : Js.M World unit :=
  let draftId := draft.1 in
  let draftTitle := properties draft.2 !! "Title" in
  let blogPostRelation := properties draft.2 !! "Blog Posts" in
  researchContent <- getPageContent env draftId ;;
  if negb (truthy_opt draftTitle) || negb (truthy researchContent)
  then log (Skipped draftId)
  else DraftwriterCommand.processDraft env draftId (default "" draftTitle)
         researchContent blogPostRelation.

Definition execute : Js.M World unit :=
  Js.try_catch
    (if truthy_opt (option_id env) then Js.ret tt
     else
       drafts <- getDraftsReadyToStart env ;;
       let draftsToProcess := if singleItem env then take 1 drafts else drafts in
       Js.for_of draftsToProcess execute_draft)
    (fun error => log (Exited 1)).

End Command.

End DraftwriterExecute.

(** The number of [blocks.children.append] calls that [n] blocks take. *)
Definition batchCount (n : nat) : nat := (n + 99) / 100.

(** ** Reading a trace *)

Module Observe.

(** Events other than [process.exit]. *)
Definition unexited (ev : Notion.Event) : Prop :=
  match ev with
  | Notion.Exited _ => False
  | _ => True
  end.

Definition providerCall (ev : Notion.Event) : bool :=
  match ev with
  | Notion.ProviderCalled _ _ => true
  | _ => false
  end.

(** The number of provider calls in a list of events. *)
Fixpoint providerCalls (evs : list Notion.Event) : nat :=
  match evs with
  | [] => 0
  | ev :: rest => (if providerCall ev then 1 else 0) + providerCalls rest
  end.

(** A page with its Status set to [status]. *)
Definition with_status (status : string) (p : Notion.Page) : Notion.Page :=
  {| Notion.parent := Notion.parent p;
     Notion.properties := {[ "Status" := status ]} ∪ Notion.properties p;
     Notion.blocks := Notion.blocks p |}.

(** A computation that returns whatever the world. *)
Definition returns {W A} (m : Js.M W A) : Prop :=
  forall w, exists a w1, m w = (Js.Ok a, w1).

(** A computation that only appends events, at most [n] of them
    provider calls. *)
Definition calls_at_most {A} (n : nat) (m : Js.M Notion.World A) : Prop :=
  forall w, exists evs,
    Notion.trace (snd (m w)) = Notion.trace w ++ evs /\ providerCalls evs <= n.

End Observe.

(** ** More scenarios *)

Module Cases.
Import Provider.

(** The Notion environment of the scenarios, with Claude failing. *)
Definition claude_down : Notion.Env :=
  {| Notion.blogPostsDbId := "blog-posts";
     Notion.draftsDbId := "drafts";
     Notion.markdownToBlocks := Notion.markdownToBlocks (Scenario.notion_env false ErrRequest);
     Notion.toMarkdownString := Notion.toMarkdownString (Scenario.notion_env false ErrRequest);
     Notion.productivityPrompt := fun title => "Research " +:+ title;
     Notion.draftwriterSystemPrompt := fun title => "Write about " +:+ title;
     Notion.draftwriterUserPrompt := fun title research => title +:+ ": " +:+ research;
     Notion.perplexity := fun _ => ErrRequest;
     Notion.claude := fun _ _ => ApiError "overloaded";
     Notion.toISOString := "2025-05-01T00:00:00.000Z";
     Notion.dryRun := false;
     Notion.singleItem := false;
     Notion.option_id := None |}.


(** The topic of Scenario 1 once more, after a failure: back at Ready
    for Research by hand, the message of the failure still on it. *)
Definition foo_again : Notion.Page :=
  {| Notion.parent := "blog-posts";
     Notion.properties :=
       <[ "Title" := "Foo" ]>
       (<[ "Status" := "Ready for Research" ]>
        {[ "Error" := "No response received from Perplexity API" ]});
     Notion.blocks := [] |}.

Definition foo_again_frontMatter : gmap string string :=
  <[ "title" := "Foo" ]>
  (<[ "status" := "Ready for Research" ]>
   {[ "error_message" := "No response received from Perplexity API" ]}).

Definition foo_again_file : Git.File :=
  {| Git.doc := {| Git.data := foo_again_frontMatter; Git.body := "" |}; Git.sha := 9 |}.

(** A file whose body opens with a front-matter block of its own. *)
Definition nested_file : Git.File :=
  {| Git.doc := {| Git.data := Scenario.ready_frontMatter;
                   Git.body := "---" +:+ nl +:+ "title: Bar" +:+ nl +:+ "---" +:+ nl +:+ "bar" |};
     Git.sha := 4 |}.

(** A branch with a research file ready to be drafted and the blog post
    it belongs to. *)
Definition git_drafting_world : Git.World :=
  {| Git.files := <[ "content/research/foo.md" := Scenario.ready_file ]>
                  {[ "content/blog/foo.md" := Scenario.foo_file ]};
     Git.faults := [];
     Git.trace := [] |}.

End Cases.

(** ** More of GitHubFileClient.js and of the Git commands *)

Module GitClient.
Import Git.

(** The [for (const key in updates)] loop of [updateYamlFrontMatter]: a
    [null] deletes the key, any other value is assigned to it. *)
Definition applyUpdates (updates : gmap string (option string))
    (frontMatter : gmap string string) : gmap string string :=
  merge (fun update current =>
           match update with
           | Some None => None
           | Some (Some value) => Some value
           | None => current
           end) updates frontMatter.

(** [updateYamlFrontMatter(filePath, updates, { message })] with updates
    that may be [null]. *)
Definition updateYamlFrontMatter_any {gm : GrayMatter} (filePath : string)
    (updates : gmap string (option string)) (message : string) : Js.M World unit :=
  fileContent <- readFile filePath ;;
  let frontMatter := applyUpdates updates (data fileContent) in
  let updatedFileContent := stringify (body fileContent) frontMatter in
  writeFile filePath updatedFileContent None message.

End GitClient.

Module GitResearchExecute.
Import Provider Git.

(** An entry of the JSON index served at [researchJsonPath]. *)
Record Candidate := {
  c_status : option string;
  c_filePath : option string;
  c_title : option string
}.

(** An element of [topicsToProcess]. *)
Record Topic := {
  filePath : string;
  title : string;
  frontMatter : gmap string string
}.

Section Command.
(** [env] and [options.singleItem]; [researchJson] is what
    [fetchJsonFromServer(researchJsonPath)] gives: [None] for its [null]
    (the fetch failed), otherwise the [entries] of the reply, which may
    be missing. *)
Context {gm : GrayMatter} (env : Env) (singleItem : bool).
Context (researchJson : option (option (list Candidate))).

(** The loop over [readyForResearchCandidates], with its [continue] and
    its [break]. *)
Fixpoint gather (candidates : list Candidate) (topicsToProcess : list Topic)
  : Js.M World (list Topic) :=
  match candidates with
  | [] => Js.ret topicsToProcess
  | candidate :: rest =>
      if negb (truthy_opt (c_filePath candidate)) || negb (truthy_opt (c_title candidate))
      then gather rest topicsToProcess
      else
        let path := default "" (c_filePath candidate) in
        topicsToProcess' <- Js.try_catch
          (fileContent <- readFile path ;;
           if bool_decide (data fileContent !! "status" = Some "Ready for Research")
           then Js.ret (topicsToProcess ++
                          [{| filePath := path;
                              title := default "" (c_title candidate);
                              frontMatter := data fileContent |}])
           else Js.ret topicsToProcess)
          (fun fileError => Js.ret topicsToProcess) ;;
        if singleItem && Nat.ltb 0 (length topicsToProcess')
        then Js.ret topicsToProcess'
        else gather rest topicsToProcess'
  end.

Definition readyForResearch (candidate : Candidate) : bool :=
  bool_decide (c_status candidate = Some "Ready for Research").

(** How [execute] fills [topicsToProcess] when neither
    [options.topicFilePath] nor [options.topicsJsonPath] is set.  The
    [catch] returns from [execute]: nothing is processed, as with an
    empty list. *)
Definition topics : Js.M World (list Topic) :=
  Js.try_catch
    (match researchJson with
     | None => Js.throw (new_Error "Cannot read properties of null (reading 'entries')")
     | Some entries =>
         let candidates := default [] entries in
         gather (filter (fun candidate => readyForResearch candidate) candidates) []
     end)
    (fun error => Js.ret []).

(** [execute], in that case. *)
Definition execute : Js.M World unit :=
  topicsToProcess <- topics ;;
  Js.for_of topicsToProcess (fun topic =>
    GitResearchCommand.processTopic env (filePath topic) (title topic) (frontMatter topic)).

End Command.

End GitResearchExecute.

Module GitDraftwriterExecute.
Import Provider Git.

Section Command.
Context {gm : GrayMatter} (env : Env) (contentDirBlog : string).

(** [frontMatter.blog_post_filePath ||
     `${contentDirBlog}/${slugify(frontMatter.title)}.md`]; slugify
    throws on a title that is not a string. *)
Definition blogPostFilePath_of (frontMatter : gmap string string) : Js.M World string :=
  if truthy_opt (frontMatter !! "blog_post_filePath")
  then Js.ret (default "" (frontMatter !! "blog_post_filePath"))
  else match frontMatter !! "title" with
       | Some title => Js.ret (contentDirBlog +:+ "/" +:+ slugify env title +:+ ".md")
       | None => Js.throw (new_Error "slugify: string argument expected")
       end.

(** [execute] when [options.researchFilePath] is set. *)
Definition execute_single (researchFilePath : string) : Js.M World unit :=
  briefsToProcess <- Js.try_catch
    (fileContent <- readFile researchFilePath ;;
     let frontMatter := data fileContent in
     if bool_decide (frontMatter !! "status" = Some "Ready for Draft") then
       blogPostFilePath <- blogPostFilePath_of frontMatter ;;
       Js.ret [(researchFilePath,
                or_else (default "" (frontMatter !! "title")) "Untitled Research",
                body fileContent, blogPostFilePath, frontMatter)]
     else Js.ret [])
    (fun error => Js.ret []) ;;
  Js.for_of briefsToProcess (fun brief =>
    match brief with
    | (filePath, title, researchContent, originalBlogFilePath, frontMatter) =>
        GitDraftwriterCommand.processDraft env filePath title researchContent
          originalBlogFilePath frontMatter
    end).

End Command.

End GitDraftwriterExecute.

Module GitObserve.
Import Git.

Definition providerCall (ev : Event) : bool :=
  match ev with
  | ProviderCalled _ _ => true
  | _ => false
  end.

Fixpoint providerCalls (evs : list Event) : nat :=
  match evs with
  | [] => 0
  | ev :: rest => (if providerCall ev then 1 else 0) + providerCalls rest
  end.

(** An event that is no commit, or a commit to [path]. *)
Definition on_path (path : string) (ev : Event) : Prop :=
  match ev with
  | Committed q _ _ => q = path
  | _ => True
  end.

(** The updates of the last two steps of a successful
    [GitDraftwriterCommand.processDraft]. *)
Definition draftComplete (draftPath : string) : gmap string string :=
  <[ "status" := "Draft Complete" ]> {[ "draft_filePath" := draftPath ]}.

(** A computation that only appends events: at most [n] provider calls,
    and commits to files that satisfy [on] only. *)
Definition confined {A} (n : nat) (on : string -> Prop) (m : Js.M World A) : Prop :=
  forall w, exists evs,
    trace (snd (m w)) = trace w ++ evs /\ providerCalls evs <= n /\
    Forall (fun ev => match ev with Committed path _ _ => on path | _ => True end) evs.

End GitObserve.

(** ** The Copilot action: helpers, GitHub client, research action *)

Module CopilotHelpers.

(** A commit of a push payload: [added] and [modified] may be missing. *)
Record Commit := {
  added : option (list string);
  modified : option (list string)
}.

(** [[...new Set(files)]]: the first occurrence of each element, in
    order; [seen] holds the elements met so far. *)
Fixpoint newSet (seen files : list string) : list string :=
  match files with
  | [] => []
  | file :: rest =>
      if bool_decide (file ∈ seen) then newSet seen rest
      else file :: newSet (file :: seen) rest
  end.

(** The loop of [parseChangedFiles] over [payload.commits]. *)
Fixpoint pushAll (commits : list Commit) (files : list string) : list string :=
  match commits with
  | [] => files
  | commit :: rest =>
      let files := files ++ default [] (added commit) in
      let files := files ++ default [] (modified commit) in
      pushAll rest files
  end.

(** [parseChangedFiles(payload)]; [commits] is [payload.commits], which a
    payload other than a push lacks. *)
Definition parseChangedFiles (commits : option (list Commit)) : list string :=
  newSet [] (pushAll (default [] commits) []).

(** [createErrorFrontMatter(currentFrontMatter, error)] *)
Definition createErrorFrontMatter (currentFrontMatter : gmap string string)
    (error : Js.Error) : gmap string string :=
  <[ "error_message" := message error ]> (<[ "status" := "Error" ]> currentFrontMatter).

(** [createCommitMessage(action, title, oldStatus?, newStatus?)] *)
Definition createCommitMessage (action title : string)
    (oldStatus newStatus : option Helpers.WorkflowStatus) : string :=
  let message := action +:+ ": " +:+ title in
  match oldStatus, newStatus with
  | Some old, Some new =>
      message +:+ " (" +:+ Helpers.literal old +:+ " → " +:+ Helpers.literal new +:+ ")"
  | None, Some new => message +:+ " (status: " +:+ Helpers.literal new +:+ ")"
  | _, None => message
  end.

Definition statuses : list Helpers.WorkflowStatus :=
  [Helpers.Ready_for_Research; Helpers.Research_In_Progress; Helpers.Ready_for_Draft;
   Helpers.Draft_In_Progress; Helpers.Ready_for_Review; Helpers.Draft_Complete;
   Helpers.Error; Helpers.Published].

(** The key of [validTransitions] that a string is, if any. *)
Definition ownKey (from : string) : option Helpers.WorkflowStatus :=
  List.find (fun status => String.eqb (Helpers.literal status) from) statuses.

(** The names every object inherits from [Object.prototype]:
    [validTransitions[name]] is then defined, and has no [includes]. *)
Definition inheritedKeys : list string :=
  ["constructor"; "__defineGetter__"; "__defineSetter__"; "hasOwnProperty";
   "__lookupGetter__"; "__lookupSetter__"; "isPrototypeOf"; "propertyIsEnumerable";
   "toString"; "valueOf"; "__proto__"; "toLocaleString"].

(** [isValidStatusTransition(from, to)] on the value a front matter
    holds under [status], which may be missing or any string. *)
Definition isValidStatusTransition_of (from : option string) (to : Helpers.WorkflowStatus)
  : Js.Res bool :=
  match from with
  | None => Js.Ok false
  | Some name =>
      match ownKey name with
      | Some status => Js.Ok (Helpers.isValidStatusTransition status to)
      | None =>
          if bool_decide (name ∈ inheritedKeys)
          then Js.Throw (new_Error "validTransitions[from]?.includes is not a function")
          else Js.Ok false
      end
  end.

End CopilotHelpers.

Module CopilotClient.
Import Git.

Definition updateFile (filePath : string) (content : Doc) (commitMessage : string)
    (sha : nat) : Js.M World unit :=
  Js.try_catch
    (repos_createOrUpdateFileContents filePath content (Some sha) commitMessage)
    (fun error =>
       Js.throw (new_Error ("Failed to update file " +:+ filePath +:+ ": "
                            +:+ message error))).

Definition createFile (filePath : string) (content : Doc) (commitMessage : string)
  : Js.M World unit :=
  Js.try_catch
    (repos_createOrUpdateFileContents filePath content None commitMessage)
    (fun error =>
       Js.throw (new_Error ("Failed to create file " +:+ filePath +:+ ": "
                            +:+ message error))).

(** [updateFrontMatter(filePath, updates, commitMessage, sha,
    bodyContent)]: the front matter is read afresh, the sha and the body
    are the caller's. *)
Definition updateFrontMatter {gm : GrayMatter} (filePath : string)
    (updates : gmap string string) (commitMessage : string) (sha : nat)
    (bodyContent : string) : Js.M World unit :=
  Js.try_catch
    (fileContent <- Copilot.getFileContent filePath ;;
     let updatedFrontMatter := updates ∪ data (doc fileContent) in
     let newContent := stringify bodyContent updatedFrontMatter in
     updateFile filePath newContent commitMessage sha)
    (fun error =>
       Js.throw (new_Error ("Failed to update frontmatter for " +:+ filePath +:+ ": "
                            +:+ message error))).

End CopilotClient.

Module CopilotResearch.
Import Git CopilotHelpers CopilotClient.

(** Outcome of the [fetch] of [generateResearch] and of reading its
    body. *)
Inductive FetchReply :=
| Rejected (msg : string)
    (* [fetch] or [response.json()] rejects *)
| NotOk (status statusText : string)
    (* [!response.ok] *)
| Json (content : option string).
    (* [data.choices?.[0]?.message?.content] *)

(** [PerplexityClient.generateResearch] after the prompt is built: the
    [try] with its [catch]; of the parsed result the action uses
    [content] only. *)
Definition generateResearch_reply (r : FetchReply) : Js.Res string :=
  match r with
  | Rejected msg => Js.Throw (new_Error ("Failed to generate research: " +:+ msg))
  | NotOk status statusText =>
      Js.Throw (new_Error ("Failed to generate research: " +:+
                           ("Perplexity API error: " +:+ status +:+ " " +:+ statusText)))
  | Json content =>
      if truthy_opt content then Js.Ok (default "" content)
      else Js.Throw (new_Error ("Failed to generate research: " +:+
                                "No content returned from Perplexity API"))
  end.

(** [ProcessingResult] *)
Record ProcessingResult := {
  success : bool;
  result_message : string;
  result_filePath : string;
  newStatus : string
}.

Section Action.
Context {gm : GrayMatter}.
(** [basePrompt]: the template of [buildResearchPrompt] around the
    topic.  [fetch]: Perplexity's reply to a prompt.  [titleFromText]:
    what [extractTitleFromContent] makes of a file without a title (its
    two regular expressions on the raw text, else Untitled).
    [replaceResearchSection original section]:
    [original.replace(/## Research[\s\S]*?(?=\n## |$)/, section.trim())].
    [toISOString]: the clock. *)
Context (basePrompt : string -> string) (fetch : string -> FetchReply).
Context (titleFromText : Doc -> string).
Context (replaceResearchSection : string -> string -> string).
Context (toISOString : string).

Definition buildResearchPrompt (topic existingContent : string) : string :=
  if truthy existingContent then
    basePrompt topic +:+ nl +:+ nl +:+
    "Note: There is existing content on this topic:" +:+ nl +:+
    existingContent +:+ nl +:+ nl +:+
    "Please expand on this existing content rather than duplicating it."
  else basePrompt topic.

Definition generateResearch (topic existingContent : string) : Js.M World string :=
  let prompt := buildResearchPrompt topic existingContent in
  w <- Js.get ;;
  log (ProviderCalled prompt (files w)) ;;
  lift (generateResearch_reply (fetch prompt)).

Definition extractTitleFromContent (fileContent : File) : string :=
  if truthy_opt (data (doc fileContent) !! "title")
  then default "" (data (doc fileContent) !! "title")
  else titleFromText (doc fileContent).

(** [originalContent.includes('## Research')] *)
Definition includes (s sub : string) : bool :=
  match index 0 sub s with
  | Some _ => true
  | None => false
  end.

Definition buildUpdatedContent (originalContent researchContent : string) : string :=
  let researchSection := nl +:+ nl +:+ "## Research" +:+ nl +:+ nl +:+ researchContent +:+ nl in
  if includes originalContent "## Research"
  then replaceResearchSection originalContent researchSection
  else originalContent +:+ researchSection.

Definition updateFileStatus (fileContent : File) (newStatus commitMessage filePath : string)
  : Js.M World unit :=
  updateFrontMatter filePath {[ "status" := newStatus ]} commitMessage
    (sha fileContent) (body (doc fileContent)).

Definition handleResearchError (filePath : string) (error : Js.Error) : Js.M World unit :=
  Js.try_catch
    (fileContent <- Copilot.getFileContent filePath ;;
     let errorFrontMatter := createErrorFrontMatter (data (doc fileContent)) error in
     updateFrontMatter filePath errorFrontMatter
       ("Research error: " +:+ message error)
       (sha fileContent) (body (doc fileContent)))
    (fun updateError => Js.ret tt).

(** The [try] block of [processResearchFile]. *)
Definition processResearchFile_try (filePath : string) : Js.M World ProcessingResult :=
  fileContent <- Copilot.getFileContent filePath ;;
  let title := extractTitleFromContent fileContent in
  let status := data (doc fileContent) !! "status" in
  valid <- lift (isValidStatusTransition_of status Helpers.Research_In_Progress) ;;
  (if valid then Js.ret tt
   else Js.throw (new_Error ("Invalid status transition from " +:+
                             default "undefined" status +:+ " to Research In Progress"))) ;;
  updateFileStatus fileContent "Research In Progress" ("Start research for " +:+ title)
    filePath ;;
  researchResult <- generateResearch title (body (doc fileContent)) ;;
  let updatedContent := buildUpdatedContent (body (doc fileContent)) researchResult in
  let updatedFrontMatter : gmap string string :=
    <[ "date_researched" := toISOString ]> {[ "status" := "Ready for Draft" ]} in
  updateFrontMatter filePath updatedFrontMatter
    (createCommitMessage "Complete research" title
       (Some Helpers.Research_In_Progress) (Some Helpers.Ready_for_Draft))
    (sha fileContent) updatedContent ;;
  Js.ret {| success := true;
            result_message := "Research completed successfully for " +:+ title;
            result_filePath := filePath;
            newStatus := "Ready for Draft" |}.

Definition processResearchFile (filePath : string) : Js.M World ProcessingResult :=
  Js.try_catch
    (processResearchFile_try filePath)
    (fun error =>
       handleResearchError filePath error ;;
       Js.ret {| success := false;
                 result_message := "Research failed for " +:+ filePath +:+ ": "
                                   +:+ message error;
                 result_filePath := filePath;
                 newStatus := "Error" |}).

End Action.

End CopilotResearch.

(** ** The Copilot action: draft action *)

Module CopilotDraft.
Import Git CopilotHelpers CopilotClient CopilotResearch.

(** [ClaudeClient.generateDraft] after the prompt is built: the [try]
    with its [catch]; the reply carries [data.content?.[0]?.text], and of
    the parsed result the action uses [content] only. *)
Definition generateDraft_reply (r : FetchReply) : Js.Res string :=
  match r with
  | Rejected msg => Js.Throw (new_Error ("Failed to generate draft: " +:+ msg))
  | NotOk status statusText =>
      Js.Throw (new_Error ("Failed to generate draft: " +:+
                           ("Claude API error: " +:+ status +:+ " " +:+ statusText)))
  | Json content =>
      if truthy_opt content then Js.Ok (default "" content)
      else Js.Throw (new_Error ("Failed to generate draft: " +:+
                                "No content returned from Claude API"))
  end.

Section Action.
Context {gm : GrayMatter}.
(** [buildDraftPrompt]: the prompt for a title, a research text and the
    optional audience.  [fetch]: Claude's reply to a prompt.
    [titleFromText]: as in the research action.  [generateSlug]: slugify
    with the helper's options.  [contentDirBlog]: the blog directory of
    the context.  [blogPost title researchFilePath content]: the text
    [buildBlogPostContent(createBlogPostFrontMatter(title,
    researchFilePath), content)], as the file it makes.  [toISOString]:
    the clock. *)
Context (buildDraftPrompt : string -> string -> option string -> string).
Context (fetch : string -> FetchReply).
Context (titleFromText : Doc -> string).
Context (generateSlug : string -> string) (contentDirBlog : string).
Context (blogPost : string -> string -> string -> Doc).
Context (toISOString : string).

Definition generateDraft (title researchContent : string) (targetAudience : option string)
  : Js.M World string :=
  let prompt := buildDraftPrompt title researchContent targetAudience in
  w <- Js.get ;;
  log (ProviderCalled prompt (files w)) ;;
  lift (generateDraft_reply (fetch prompt)).

Definition generateBlogPostPath (title contentDir : string) : string :=
  contentDir +:+ "/" +:+ generateSlug title +:+ ".md".

(** [frontMatter.blog_post_filePath || generateBlogPostPath(...)] *)
Definition blogPostPath_of (fileContent : File) : string :=
  let title := extractTitleFromContent titleFromText fileContent in
  if truthy_opt (data (doc fileContent) !! "blog_post_filePath")
  then default "" (data (doc fileContent) !! "blog_post_filePath")
  else generateBlogPostPath title contentDirBlog.

Definition updateFileStatus (fileContent : File) (newStatus commitMessage filePath : string)
  : Js.M World unit :=
  updateFrontMatter filePath {[ "status" := newStatus ]} commitMessage
    (sha fileContent) (body (doc fileContent)).

Definition handleDraftError (filePath : string) (error : Js.Error) : Js.M World unit :=
  Js.try_catch
    (fileContent <- Copilot.getFileContent filePath ;;
     let errorFrontMatter := createErrorFrontMatter (data (doc fileContent)) error in
     updateFrontMatter filePath errorFrontMatter
       ("Draft error: " +:+ message error)
       (sha fileContent) (body (doc fileContent)))
    (fun updateError => Js.ret tt).

(** The [try] block of [processDraftFile]. *)
Definition processDraftFile_try (filePath : string) : Js.M World ProcessingResult :=
  fileContent <- Copilot.getFileContent filePath ;;
  let title := extractTitleFromContent titleFromText fileContent in
  let status := data (doc fileContent) !! "status" in
  valid <- lift (isValidStatusTransition_of status Helpers.Draft_In_Progress) ;;
  (if valid then Js.ret tt
   else Js.throw (new_Error ("Invalid status transition from " +:+
                             default "undefined" status +:+ " to Draft In Progress"))) ;;
  updateFileStatus fileContent "Draft In Progress" ("Start draft writing for " +:+ title)
    filePath ;;
  draftResult <- generateDraft title (body (doc fileContent))
                   (data (doc fileContent) !! "category") ;;
  let blogPostPath := blogPostPath_of fileContent in
  let blogPostContent := blogPost title filePath draftResult in
  createFile blogPostPath blogPostContent
    (createCommitMessage "Create draft" title None (Some Helpers.Ready_for_Review)) ;;
  let updatedFrontMatter : gmap string string :=
    <[ "blog_post_filePath" := blogPostPath ]>
    (<[ "date_drafted" := toISOString ]> {[ "status" := "Draft Complete" ]}) in
  updateFrontMatter filePath updatedFrontMatter
    (createCommitMessage "Complete draft" title
       (Some Helpers.Draft_In_Progress) (Some Helpers.Draft_Complete))
    (sha fileContent) (body (doc fileContent)) ;;
  Js.ret {| success := true;
            result_message := "Draft created successfully for " +:+ title +:+ " at "
                              +:+ blogPostPath;
            result_filePath := filePath;
            newStatus := "Draft Complete" |}.

Definition processDraftFile (filePath : string) : Js.M World ProcessingResult :=
  Js.try_catch
    (processDraftFile_try filePath)
    (fun error =>
       handleDraftError filePath error ;;
       Js.ret {| success := false;
                 result_message := "Draft failed for " +:+ filePath +:+ ": "
                                   +:+ message error;
                 result_filePath := filePath;
                 newStatus := "Error" |}).

End Action.

End CopilotDraft.

(** * Properties *)

(** ** Strings *)



Lemma truthy_append_l (a b : string) : truthy a = true -> truthy (a +:+ b) = true.
Proof. destruct a; [discriminate | reflexivity]. Qed.

Lemma or_else_truthy (a b : string) : truthy b = true -> truthy (or_else a b) = true.
Proof. unfold or_else. destruct (truthy a) eqn:Ha; auto. Qed.

(** ** The effect monad *)

Section MonadFacts.
Context {W Ev : Type} `{Js.Traced W Ev}.

Lemma bind_ok {A B} (m : Js.M W A) (k : A -> Js.M W B) w a w1 :
  m w = (Js.Ok a, w1) -> Js.bind m k w = k a w1.
Proof. intros Hm. unfold Js.bind. by rewrite Hm. Qed.

Lemma bind_throw {A B} (m : Js.M W A) (k : A -> Js.M W B) w e w1 :
  m w = (Js.Throw e, w1) -> Js.bind m k w = (Js.Throw e, w1).
Proof. intros Hm. unfold Js.bind. by rewrite Hm. Qed.

Lemma try_catch_ok {A} (m : Js.M W A) (h : Js.Error -> Js.M W A) w a w1 :
  m w = (Js.Ok a, w1) -> Js.try_catch m h w = (Js.Ok a, w1).
Proof. intros Hm. unfold Js.try_catch. by rewrite Hm. Qed.

Lemma try_catch_throw {A} (m : Js.M W A) (h : Js.Error -> Js.M W A) w e w1 :
  m w = (Js.Throw e, w1) -> Js.try_catch m h w = h e w1.
Proof. intros Hm. unfold Js.try_catch. by rewrite Hm. Qed.

(** Catching only to throw the same error again changes nothing. *)
Lemma try_catch_rethrow {A} (m : Js.M W A) w :
  Js.try_catch m (fun error => Js.throw error) w = m w.
Proof. unfold Js.try_catch, Js.throw. by destruct (m w) as [[a|e] w1]. Qed.

(** Stepping through the body of a [try]. *)
Lemma try_catch_bind_ok {A B} (m : Js.M W A) (k : A -> Js.M W B) h w a w1 :
  m w = (Js.Ok a, w1) -> Js.try_catch (Js.bind m k) h w = Js.try_catch (k a) h w1.
Proof. intros Hm. unfold Js.try_catch, Js.bind. by rewrite Hm. Qed.

Lemma try_catch_bind_throw {A B} (m : Js.M W A) (k : A -> Js.M W B) h w e w1 :
  m w = (Js.Throw e, w1) -> Js.try_catch (Js.bind m k) h w = h e w1.
Proof. intros Hm. unfold Js.try_catch, Js.bind. by rewrite Hm. Qed.

Lemma bind_inv {A B} (m : Js.M W A) (k : A -> Js.M W B) w r w2 :
  Js.bind m k w = (r, w2) ->
  (exists e, m w = (Js.Throw e, w2) /\ r = Js.Throw e) \/
  (exists a w1, m w = (Js.Ok a, w1) /\ k a w1 = (r, w2)).
Proof.
  unfold Js.bind. destruct (m w) as [[a|e] w1]; intros Hk.
  - right. eauto.
  - left. inversion Hk; subst. eauto.
Qed.

Lemma emits_mono {A} (ok ok' : Ev -> Prop) (m : Js.M W A) :
  (forall ev, ok ev -> ok' ev) -> Js.emits ok m -> Js.emits ok' m.
Proof.
  intros Himp Hm w. destruct (Hm w) as (evs & Ht & Hok).
  exists evs. split; [done|]. eapply Forall_impl; eauto.
Qed.

Lemma emits_ret {A} ok (a : A) : Js.emits ok (Js.ret (W:=W) a).
Proof. intros w. exists []. by rewrite app_nil_r. Qed.

Lemma emits_throw {A} ok e : Js.emits ok (Js.throw (W:=W) (A:=A) e).
Proof. intros w. exists []. by rewrite app_nil_r. Qed.

Lemma emits_get ok : Js.emits ok (Js.get (W:=W)).
Proof. intros w. exists []. by rewrite app_nil_r. Qed.

Lemma emits_bind {A B} ok (m : Js.M W A) (k : A -> Js.M W B) :
  Js.emits ok m -> (forall a, Js.emits ok (k a)) -> Js.emits ok (Js.bind m k).
Proof.
  intros Hm Hk w. unfold Js.bind.
  destruct (Hm w) as (evs & Ht & Hok).
  destruct (m w) as [[a|e] w1]; simpl in *.
  - destruct (Hk a w1) as (evs' & Ht' & Hok').
    exists (evs ++ evs'). rewrite Ht', Ht, app_assoc. split; [done|].
    by apply Forall_app.
  - exists evs. done.
Qed.

Lemma emits_try_catch {A} ok (m : Js.M W A) (h : Js.Error -> Js.M W A) :
  Js.emits ok m -> (forall e, Js.emits ok (h e)) -> Js.emits ok (Js.try_catch m h).
Proof.
  intros Hm Hh w. unfold Js.try_catch.
  destruct (Hm w) as (evs & Ht & Hok).
  destruct (m w) as [[a|e] w1]; simpl in *.
  - exists evs. done.
  - destruct (Hh e w1) as (evs' & Ht' & Hok').
    exists (evs ++ evs'). rewrite Ht', Ht, app_assoc. split; [done|].
    by apply Forall_app.
Qed.

Lemma emits_when ok (c : bool) (m : Js.M W unit) :
  Js.emits ok m -> Js.emits ok (Js.when c m).
Proof. intros Hm. destruct c; [done | apply emits_ret]. Qed.

Lemma emits_when_id ok (id : option string) (k : string -> Js.M W unit) :
  (forall i, Js.emits ok (k i)) -> Js.emits ok (Js.when_id id k).
Proof.
  intros Hk. destruct id as [i|]; simpl; [|apply emits_ret].
  destruct (truthy i); [apply Hk | apply emits_ret].
Qed.

Lemma emits_for_of {A} ok (xs : list A) (body : A -> Js.M W unit) :
  (forall x, Js.emits ok (body x)) -> Js.emits ok (Js.for_of xs body).
Proof.
  intros Hb. induction xs as [|x xs IH]; simpl; [apply emits_ret|].
  apply emits_bind; auto.
Qed.

End MonadFacts.

(** ** The Sources section *)

Section SourcesFacts.
Import Sources.




End SourcesFacts.

(** ** The transition table *)

Section TransitionFacts.
Import Helpers.

(** C9, as stated, fails: the table lets an item that is only ready for
    research go to Error, which the specification's machine does not. *)
Lemma C9_counterexample :
  isValidStatusTransition Ready_for_Research Error = true /\
  spec_transition Ready_for_Research Error = false.
Proof. split; reflexivity. Qed.

(** C9, amended: the table admits the specification's machine and, beyond
    it, exactly Error from the four other non-terminal states, Draft In
    Progress to Draft Complete, Draft Complete to Ready for Review, Ready
    for Review to Published and Error to Ready for Review; Published has no
    successor and no status is its own successor. *)
Theorem C9_transition_table (from to : WorkflowStatus) :
  isValidStatusTransition from to = spec_transition from to || extra_transition from to /\
  (spec_transition from to = true -> extra_transition from to = false) /\
  isValidStatusTransition Published to = false /\
  isValidStatusTransition from from = false.
Proof.
  split; [|split; [|split]].
  - destruct from, to; reflexivity.
  - destruct from, to; simpl; congruence.
  - destruct to; reflexivity.
  - destruct from; reflexivity.
Qed.

Lemma C9_transition_table_witness :
  spec_transition Research_In_Progress Error = true /\
  extra_transition Research_In_Progress Error = false.
Proof.
  split; [reflexivity|].
  apply (proj1 (proj2 (C9_transition_table Research_In_Progress Error))).
  reflexivity.
Defined.

End TransitionFacts.

(** ** The Notion store *)

Section NotionFacts.
Import Provider Notion.

Lemma trace_of_trace (w : World) : Js.trace_of w = trace w.
Proof. reflexivity. Qed.

Lemma trace_of_record (ev : Event) (w : World) :
  Js.trace_of (record ev w) = trace w ++ [ev].
Proof. reflexivity. Qed.

(** *** What the remote calls emit *)

Lemma emits_remote {A} ok (call : Js.M World A) :
  Js.emits ok call -> Js.emits ok (remote call).
Proof.
  intros Hc w. unfold remote. destruct (next_fault w).
  - exists []. by rewrite app_nil_r.
  - destruct (Hc (pop w)) as (evs & Ht & Hok). by exists evs.
Qed.

Lemma emits_log ok ev : ok ev -> Js.emits ok (log ev).
Proof. intros Hev w. exists [ev]. split; [reflexivity | by constructor]. Qed.

Lemma emits_lift {A} ok (r : Js.Res A) : Js.emits ok (lift r).
Proof. intros w. exists []. by rewrite app_nil_r. Qed.

Lemma emits_pages_update ok page_id props :
  ok (Updated page_id props) -> Js.emits ok (pages_update page_id props).
Proof.
  intros Hev. apply emits_remote. intros w.
  destruct (pages w !! page_id) as [p|].
  - exists [Updated page_id props]. split; [reflexivity | by constructor].
  - exists []. by rewrite app_nil_r.
Qed.

Lemma emits_pages_create ok database_id props children :
  (forall id, ok (Created id database_id)) ->
  Js.emits ok (pages_create database_id props children).
Proof.
  intros Hev. apply emits_remote. intros w.
  exists [Created (new_page_id w) database_id]. split; [reflexivity | by constructor].
Qed.

Lemma emits_blocks_children_append ok block_id children :
  (forall n, ok (Appended block_id n)) ->
  Js.emits ok (blocks_children_append block_id children).
Proof.
  intros Hev. apply emits_remote. intros w.
  destruct (pages w !! block_id) as [p|].
  - exists [Appended block_id (length children)]. split; [reflexivity | by constructor].
  - exists []. by rewrite app_nil_r.
Qed.

Lemma emits_databases_query ok database_id equals :
  ok (Queried database_id equals) -> Js.emits ok (databases_query database_id equals).
Proof.
  intros Hev. apply emits_remote. intros w.
  exists [Queried database_id equals]. split; [reflexivity | by constructor].
Qed.

Lemma emits_appendBlocksInBatches_from ok fuel blockId blocks batchSize :
  (forall n, ok (Appended blockId n)) ->
  forall i, Js.emits ok (appendBlocksInBatches_from fuel blockId blocks batchSize i).
Proof.
  intros Hev. induction fuel as [|fuel IH]; intros i; simpl; [apply emits_ret|].
  destruct (Nat.ltb i (length blocks)); [|apply emits_ret].
  apply emits_bind; [by apply emits_blocks_children_append | auto].
Qed.

Lemma emits_convert env ok markdown : Js.emits ok (convert env markdown).
Proof. unfold convert. destruct (markdownToBlocks env markdown); [apply emits_throw | apply emits_ret]. Qed.

(** Only [researchTopic] and [generateContent] call a provider. *)
Lemma quiet_updateBlogPostStatus id status : Js.emits quiet (updateBlogPostStatus id status).
Proof.
  apply emits_try_catch; [by apply emits_pages_update | intros; apply emits_throw].
Qed.

Lemma quiet_updateBlogPostError id msg b : Js.emits quiet (updateBlogPostError id msg b).
Proof.
  apply emits_try_catch; [by apply emits_pages_update | intros; apply emits_ret].
Qed.

Lemma quiet_createResearchBrief env id title markdown :
  Js.emits quiet (createResearchBrief env id title markdown).
Proof.
  apply emits_try_catch; [|intros; apply emits_throw].
  apply emits_bind; [apply emits_convert | intros bs].
  apply emits_bind; [by apply emits_pages_create | intros newId].
  apply emits_bind; [by apply emits_appendBlocksInBatches_from | intros _].
  apply emits_bind; [apply quiet_updateBlogPostStatus | intros _; apply emits_ret].
Qed.

(** *** The status write *)

Lemma pages_update_cases page_id props w :
  (exists msg, next_fault w = Some msg /\
     pages_update page_id props w = (Js.Throw (new_Error msg), pop w)) \/
  (next_fault w = None /\ pages w !! page_id = None /\
     pages_update page_id props w = (Js.Throw (new_Error "Could not find page"), pop w)) \/
  (exists p, next_fault w = None /\ pages w !! page_id = Some p /\
     pages_update page_id props w =
       (Js.Ok tt,
        record (Updated page_id props)
          (set_pages (insert page_id
             {| parent := parent p; properties := props ∪ properties p;
                blocks := blocks p |}) (pop w)))).
Proof.
  unfold pages_update, remote. destruct (next_fault w) as [msg|]; [left; eauto|].
  right. change (pages (pop w)) with (pages w).
  destruct (pages w !! page_id) as [p|]; [right; eauto | left; eauto].
Qed.

(** A status write that returns has been applied: the page now carries
    the new status, and nothing else moved. *)
Lemma updateBlogPostStatus_ok id status w w1 :
  updateBlogPostStatus id status w = (Js.Ok tt, w1) ->
  trace w1 = trace w ++ [Updated id {[ "Status" := status ]}] /\
  status_of (pages w1) id = Some status /\
  (forall j, j <> id -> pages w1 !! j = pages w !! j) /\
  is_Some (pages w !! id) /\
  next_id w1 = next_id w /\ next_fault w = None /\ faults w1 = tail (faults w) /\
  (forall name, name <> "Status" ->
     property_of (pages w1) id name = property_of (pages w) id name).
Proof.
  unfold updateBlogPostStatus. rewrite try_catch_rethrow.
  destruct (pages_update_cases id {[ "Status" := status ]} w)
    as [(msg & _ & ->) | [(_ & _ & ->) | (p & Hf & Hp & ->)]]; try discriminate.
  intros [= <-]. simpl. repeat split; auto.
  - unfold status_of, property_of. rewrite lookup_insert_eq. simpl.
    apply lookup_union_Some_l, lookup_singleton_eq.
  - intros j Hj. by rewrite lookup_insert_ne.
  - intros name Hname. unfold property_of. rewrite lookup_insert_eq, Hp. simpl.
    rewrite lookup_union_r; [done|]. by apply lookup_singleton_ne.
Qed.

(** A status write that throws has changed neither the pages nor the
    trace. *)
Lemma updateBlogPostStatus_throw id status w e w1 :
  updateBlogPostStatus id status w = (Js.Throw e, w1) ->
  w1 = pop w /\ (next_fault w = None -> pages w !! id = None).
Proof.
  unfold updateBlogPostStatus. rewrite try_catch_rethrow.
  destruct (pages_update_cases id {[ "Status" := status ]} w)
    as [(msg & Hf & ->) | [(_ & Hp & ->) | (p & Hf & Hp & ->)]]; try discriminate.
  - intros [= _ <-]. split; [done|]. congruence.
  - intros [= _ <-]. done.
Qed.

Lemma researchTopic_eq env prompt w :
  researchTopic env prompt w =
  (researchTopic_reply (perplexity env prompt), record (ProviderCalled prompt (pages w)) w).
Proof. reflexivity. Qed.

Lemma generateContent_eq env userPrompt systemPrompt w :
  generateContent env userPrompt systemPrompt w =
  (generateContent_reply (claude env systemPrompt userPrompt),
   record (ProviderCalled userPrompt (pages w)) w).
Proof. reflexivity. Qed.

(** *** commands/research.js: the events of one [processTopic] *)

Lemma ResearchCommand_catch_quiet id (e : Js.Error) :
  Js.emits quiet (updateBlogPostError id (ResearchCommand.errorMessage e) true).
Proof. apply quiet_updateBlogPostError. Qed.

(** Either the run calls no provider, or its events start with the
    in-progress write, then the provider call, which sees the item in
    progress, and no second provider call follows. *)
Lemma ResearchCommand_processTopic_events env id title w :
  exists evs,
    trace (snd (ResearchCommand.processTopic env id title w)) = trace w ++ evs /\
    (Forall quiet evs /\
     (dryRun env = true \/ (next_fault w = None -> pages w !! id = None)) \/
     exists seen rest,
       evs = Updated id {[ "Status" := "Research In Progress" ]}
             :: ProviderCalled (productivityPrompt env title) seen :: rest /\
       status_of seen id = Some "Research In Progress" /\ Forall quiet rest).
Proof.
  unfold ResearchCommand.processTopic, ResearchCommand.processTopic_try.
  destruct (updateBlogPostStatus id "Research In Progress" w) as [[[]|e] w1] eqn:Hu.
  - rewrite (try_catch_bind_ok _ _ _ _ _ _ Hu).
    apply updateBlogPostStatus_ok in Hu as (Ht & Hs & _).
    destruct (dryRun env).
    + exists [Updated id {[ "Status" := "Research In Progress" ]}].
      split; [done|]. left. split; [by repeat constructor | by left].
    + pose proof (researchTopic_eq env (productivityPrompt env title) w1) as Hr.
      destruct (researchTopic_reply (perplexity env (productivityPrompt env title)))
        as [research|e].
      * rewrite (try_catch_bind_ok _ _ _ _ _ _ Hr).
        match goal with |- context [Js.try_catch ?m ?h ?w2] =>
          assert (Js.emits quiet (Js.try_catch m h)) as Hq end.
        { apply emits_try_catch; [|intros; apply ResearchCommand_catch_quiet].
          apply emits_bind.
          - destruct (usage research); [apply emits_ret | apply emits_throw].
          - intros _. apply emits_bind; [apply quiet_createResearchBrief|].
            intros _. apply emits_ret. }
        destruct (Hq (record (ProviderCalled (productivityPrompt env title) (pages w1)) w1))
          as (evs & Hevs & Hok).
        rewrite trace_of_trace, trace_of_record in Hevs. rewrite Hevs, Ht.
        eexists. rewrite <- !app_assoc. split; [reflexivity|].
        right. simpl. eauto.
      * rewrite (try_catch_bind_throw _ _ _ _ _ _ Hr).
        destruct (ResearchCommand_catch_quiet id e
                    (record (ProviderCalled (productivityPrompt env title) (pages w1)) w1))
          as (evs & Hevs & Hok).
        rewrite trace_of_trace, trace_of_record in Hevs. rewrite Hevs, Ht.
        eexists. rewrite <- !app_assoc. split; [reflexivity|].
        right. simpl. eauto.
  - rewrite (try_catch_bind_throw _ _ _ _ _ _ Hu).
    apply updateBlogPostStatus_throw in Hu as (-> & Hnone).
    destruct (ResearchCommand_catch_quiet id e (pop w)) as (evs & Hevs & Hok).
    exists evs. split; [exact Hevs | left; auto].
Qed.

End NotionFacts.

(** ** The Git store *)

Section GitFacts.
Import Provider Git.

Lemma git_trace_of_record (ev : Event) (w : World) :
  Js.trace_of (record ev w) = trace w ++ [ev].
Proof. reflexivity. Qed.

Lemma git_trace_of_trace (w : World) : Js.trace_of w = trace w.
Proof. reflexivity. Qed.

Ltac git_traces H :=
  repeat match type of H with
         | context [Js.trace_of ?x] => change (Js.trace_of x) with (trace x) in H
         end.

(** *** gray-matter *)

Lemma endsWithNewline_app (str : string) : endsWithNewline (str +:+ nl) = true.
Proof.
  induction str as [|c [|c' rest] IH]; [reflexivity..|].
  exact IH.
Qed.

Lemma endsWithNewline_newline (str : string) : endsWithNewline (newline str) = true.
Proof.
  unfold newline. destruct (endsWithNewline str) eqn:He; [done|].
  apply endsWithNewline_app.
Qed.

Lemma newline_idem (str : string) : newline (newline str) = newline str.
Proof. unfold newline at 1. by rewrite endsWithNewline_newline. Qed.

(** The line feed that [newline] appends opens no front-matter block. *)
Lemma opensFrontMatter_newline (str : string) :
  opensFrontMatter (newline str) = opensFrontMatter str.
Proof.
  unfold newline. destruct (endsWithNewline str) eqn:He; [done|].
  unfold opensFrontMatter.
  destruct str as [|a [|b [|c [|d rest]]]]; simpl;
    rewrite ?andb_false_r; reflexivity.
Qed.


(** A text that opens no front-matter block is all content. *)
Lemma matter_plain {gm : GrayMatter} (text : string) :
  opensFrontMatter text = false -> matter text = {| data := ∅; body := text |}.
Proof. intros Ho. unfold matter. by rewrite Ho. Qed.

(** What [stringify] is given as data is in the file it makes. *)
Lemma stringify_lookup {gm : GrayMatter} content frontMatter key value :
  frontMatter !! key = Some value ->
  data (stringify content frontMatter) !! key = Some value.
Proof.
  intros Hk. unfold stringify. case_bool_decide as He.
  - apply (f_equal (fun m => m !! key)) in He.
    by rewrite (lookup_union_Some_l _ _ _ _ Hk), lookup_empty in He.
  - simpl. by apply lookup_union_Some_l.
Qed.

(** Over a content that opens no front-matter block, the file holds the
    data and the content with its line feed. *)
Lemma stringify_plain {gm : GrayMatter} content frontMatter :
  opensFrontMatter content = false ->
  stringify content frontMatter = {| data := frontMatter; body := newline content |}.
Proof.
  intros Ho. unfold stringify. rewrite (matter_plain _ Ho). simpl.
  rewrite (right_id_L ∅ (∪)). case_bool_decide as He; [|done].
  rewrite matter_plain by (by rewrite opensFrontMatter_newline). by rewrite He.
Qed.

(** A second [stringify], over the body of the first and with updates to
    its data, changes the data only. *)
Lemma stringify_plain_update {gm : GrayMatter} content frontMatter updates :
  opensFrontMatter content = false ->
  let file := stringify content frontMatter in
  stringify (body file) (updates ∪ data file)
  = {| data := updates ∪ frontMatter; body := newline content |}.
Proof.
  intros Ho file. unfold file. rewrite (stringify_plain _ _ Ho). simpl.
  rewrite stringify_plain by (by rewrite opensFrontMatter_newline).
  by rewrite newline_idem.
Qed.

(** *** What the remote calls emit *)

Lemma git_emits_remote {A} ok (call : Js.M World A) :
  Js.emits ok call -> Js.emits ok (remote call).
Proof.
  intros Hc w. unfold remote. destruct (next_fault w).
  - exists []. by rewrite app_nil_r.
  - destruct (Hc (pop w)) as (evs & Ht & Hok). by exists evs.
Qed.

Lemma emits_repos_getContent ok path :
  ok (Fetched path) -> Js.emits ok (repos_getContent path).
Proof.
  intros Hev. apply git_emits_remote. intros w.
  destruct (files w !! path) as [f|].
  - exists [Fetched path]. split; [reflexivity | by constructor].
  - exists []. by rewrite app_nil_r.
Qed.

Lemma emits_repos_createOrUpdateFileContents ok path content given message :
  ok (Committed path content message) ->
  Js.emits ok (repos_createOrUpdateFileContents path content given message).
Proof.
  intros Hev. apply git_emits_remote. intros w.
  destruct (files w !! path) as [f|], given as [s|]; simpl;
    try (exists []; by rewrite app_nil_r);
    try (exists [Committed path content message]; split; [reflexivity | by constructor]).
  destruct (bool_decide (s = sha f)).
  - exists [Committed path content message]. split; [reflexivity | by constructor].
  - exists []. by rewrite app_nil_r.
Qed.

Lemma quiet_readFile path : Js.emits quiet (readFile path).
Proof.
  apply emits_try_catch; [|intros; apply emits_throw].
  apply emits_bind; [by apply emits_repos_getContent | intros; apply emits_ret].
Qed.

Lemma quiet_writeFile path content given message :
  Js.emits quiet (writeFile path content given message).
Proof.
  apply emits_bind.
  - destruct given; [apply emits_ret|].
    apply emits_try_catch; [|intros; apply emits_ret].
    apply emits_bind; [|intros; apply emits_ret].
    apply emits_bind; [by apply emits_repos_getContent | intros; apply emits_ret].
  - intros sha. apply emits_try_catch; [|intros; apply emits_throw].
    by apply emits_repos_createOrUpdateFileContents.
Qed.

Lemma quiet_createFile path content message :
  Js.emits quiet (createFile path content message).
Proof.
  apply emits_try_catch; [|intros; apply emits_throw].
  by apply emits_repos_createOrUpdateFileContents.
Qed.

Lemma quiet_updateYamlFrontMatter {gm : GrayMatter} path updates given message :
  Js.emits quiet (updateYamlFrontMatter path updates given message).
Proof.
  apply emits_bind; [apply quiet_readFile | intros; apply quiet_writeFile].
Qed.

(** *** The remote calls, case by case *)

Lemma repos_getContent_cases path w :
  (exists e, repos_getContent path w = (Js.Throw e, pop w) /\
     (next_fault w = None -> files w !! path = None)) \/
  (exists f, next_fault w = None /\ files w !! path = Some f /\
     repos_getContent path w = (Js.Ok f, record (Fetched path) (pop w))).
Proof.
  unfold repos_getContent, remote. destruct (next_fault w) as [msg|].
  - left. eexists. split; [reflexivity | discriminate].
  - change (files (pop w)) with (files w).
    destruct (files w !! path) as [f|]; [right; eauto | left; eauto].
Qed.

Lemma readFile_cases path w :
  (exists e, readFile path w = (Js.Throw e, pop w) /\
     (next_fault w = None -> files w !! path = None)) \/
  (exists f, next_fault w = None /\ files w !! path = Some f /\
     readFile path w = (Js.Ok (doc f), record (Fetched path) (pop w))).
Proof.
  unfold readFile. rewrite try_catch_rethrow.
  destruct (repos_getContent_cases path w) as [(e & He & Hn) | (f & Hf & Hp & Hg)].
  - left. exists e. by rewrite (bind_throw _ _ _ _ _ He).
  - right. exists f. by rewrite (bind_ok _ _ _ _ _ Hg).
Qed.

(** The sha lookup of [writeFile]: [undefined] when the lookup fails. *)
Lemma sha_lookup_cases path w :
  let lookup := Js.try_catch (s <- getFileSha path ;; Js.ret (Some s))
                             (fun e => Js.ret None) in
  (lookup w = (Js.Ok None, pop w) /\ (next_fault w = None -> files w !! path = None)) \/
  (exists f, next_fault w = None /\ files w !! path = Some f /\
     lookup w = (Js.Ok (Some (sha f)), record (Fetched path) (pop w))).
Proof.
  intros lookup. unfold lookup, getFileSha.
  destruct (repos_getContent_cases path w) as [(e & He & Hn) | (f & Hf & Hp & Hg)].
  - left. split; [|done].
    erewrite try_catch_throw; [reflexivity|].
    by rewrite (bind_throw _ _ _ _ _ (bind_throw _ _ _ _ _ He)).
  - right. exists f. repeat split; [done..|].
    erewrite try_catch_ok; [reflexivity|].
    erewrite bind_ok; [reflexivity|]. by rewrite (bind_ok _ _ _ _ _ Hg).
Qed.

Lemma repos_createOrUpdateFileContents_cases path content given message w :
  (exists e, repos_createOrUpdateFileContents path content given message w
             = (Js.Throw e, pop w) /\
     (next_fault w = None ->
      match files w !! path, given with
      | None, None => False
      | Some f, Some s => s <> sha f
      | _, _ => True
      end)) \/
  (exists new_sha, next_fault w = None /\
     repos_createOrUpdateFileContents path content given message w =
       (Js.Ok tt, record (Committed path content message)
                    (set_files (insert path {| doc := content; sha := new_sha |}) (pop w))) /\
     match files w !! path, given with
     | None, None => new_sha = 0
     | Some f, Some s => s = sha f /\ new_sha = S (sha f)
     | _, _ => False
     end).
Proof.
  unfold repos_createOrUpdateFileContents, remote.
  destruct (next_fault w) as [msg|].
  { left. eexists. split; [reflexivity | discriminate]. }
  change (files (pop w)) with (files w).
  destruct (files w !! path) as [f|], given as [s|]; try (left; eauto; fail).
  - destruct (bool_decide_reflect (s = sha f)); [right | left; eauto].
    exists (S (sha f)). auto.
  - right. exists 0. auto.
Qed.

Lemma accepts_S n w : accepts (S n) w <-> next_fault w = None /\ accepts n (pop w).
Proof.
  unfold accepts, next_fault, pop. simpl. destruct (faults w) as [|fault rest]; simpl.
  - rewrite take_nil. split; [intros _; split; [done | constructor] | constructor].
  - rewrite Forall_cons. done.
Qed.

Lemma accepts_record n ev w : accepts n (record ev w) <-> accepts n w.
Proof. reflexivity. Qed.

(** [updateYamlFrontMatter]: three remote calls (read, sha lookup,
    commit).  Either it throws and no file has changed, or it returns and
    the file carries the updated front matter over its old body. *)
Lemma updateYamlFrontMatter_inv {gm : GrayMatter} path updates given message w r w1 :
  updateYamlFrontMatter path updates given message w = (r, w1) ->
  (exists e fetched, r = Js.Throw e /\ files w1 = files w /\
     trace w1 = trace w ++ fetched /\ Forall (fun ev => ev = Fetched path) fetched /\
     (accepts 3 w -> files w !! path = None)) \/
  (exists f, r = Js.Ok tt /\ files w !! path = Some f /\
     files w1 = <[path := {| doc := stringify (body (doc f)) (updates ∪ data (doc f));
                             sha := S (sha f) |}]> (files w) /\
     trace w1 = trace w ++ [Fetched path; Fetched path;
        Committed path (stringify (body (doc f)) (updates ∪ data (doc f))) message]).
Proof.
  unfold updateYamlFrontMatter.
  destruct (readFile_cases path w) as [(e & He & Hn) | (f & Hf & Hp & Hr)].
  { rewrite (bind_throw _ _ _ _ _ He). intros [= <- <-]. left. exists e, [].
    rewrite app_nil_r. repeat split; auto. intros [H0 _]%accepts_S. auto. }
  rewrite (bind_ok _ _ _ _ _ Hr). unfold writeFile.
  set (w2 := record (Fetched path) (pop w)).
  destruct (sha_lookup_cases path w2) as [(Hl & Hn) | (f' & Hf' & Hp' & Hl)]; simpl in Hl.
  - rewrite (bind_ok _ _ _ _ _ Hl), try_catch_rethrow.
    destruct (repos_createOrUpdateFileContents_cases path
                (stringify (body (doc f)) (updates ∪ data (doc f))) None message (pop w2))
      as [(e & -> & _) | (ns & _ & _ & Hm)].
    + intros [= <- <-]. left. exists e, [Fetched path]. repeat split; auto.
      intros (_ & (H1 & _)%accepts_S)%accepts_S. specialize (Hn H1).
      change (files w2) with (files w) in Hn. congruence.
    + change (files (pop w2)) with (files w) in Hm. by rewrite Hp in Hm.
  - rewrite (bind_ok _ _ _ _ _ Hl), try_catch_rethrow.
    change (files w2) with (files w) in Hp'. rewrite Hp in Hp'. injection Hp' as <-.
    set (w3 := record (Fetched path) (pop w2)).
    destruct (repos_createOrUpdateFileContents_cases path
                (stringify (body (doc f)) (updates ∪ data (doc f)))
                (Some (sha f)) message w3)
      as [(e & -> & Hn) | (ns & _ & -> & Hm)].
    + intros [= <- <-]. left. exists e, [Fetched path; Fetched path].
      simpl. rewrite <- app_assoc. repeat split; auto.
      intros (_ & (_ & (H2 & _)%accepts_S)%accepts_S)%accepts_S. specialize (Hn H2).
      change (files w3) with (files w) in Hn. rewrite Hp in Hn. done.
    + change (files w3) with (files w) in Hm. rewrite Hp in Hm. destruct Hm as [_ ->].
      intros [= <- <-]. right. exists f. simpl. rewrite <- !app_assoc. auto.
Qed.

(** When the store accepts the three calls and the file exists, the
    update goes through. *)
Lemma updateYamlFrontMatter_accepted {gm : GrayMatter} path updates given message w f :
  accepts 3 w -> files w !! path = Some f ->
  exists w1, updateYamlFrontMatter path updates given message w = (Js.Ok tt, w1) /\
    files w1 = <[path := {| doc := stringify (body (doc f)) (updates ∪ data (doc f));
                            sha := S (sha f) |}]> (files w).
Proof.
  intros Hacc Hp.
  destruct (updateYamlFrontMatter path updates given message w) as [r w1] eqn:Hu.
  apply updateYamlFrontMatter_inv in Hu
    as [(e & fetched & _ & _ & _ & _ & Hn) | (f' & -> & Hp' & Hfs & _)].
  - specialize (Hn Hacc). congruence.
  - exists w1. rewrite Hp in Hp'. injection Hp' as <-. auto.
Qed.

Lemma createFile_inv path content message w r w1 :
  createFile path content message w = (r, w1) ->
  (exists e, r = Js.Throw e /\ files w1 = files w /\ trace w1 = trace w) \/
  (r = Js.Ok tt /\ files w !! path = None /\
   files w1 = <[path := {| doc := content; sha := 0 |}]> (files w) /\
   trace w1 = trace w ++ [Committed path content message]).
Proof.
  unfold createFile. rewrite try_catch_rethrow.
  destruct (repos_createOrUpdateFileContents_cases path content None message w)
    as [(e & -> & _) | (ns & _ & -> & Hm)].
  - intros [= <- <-]. left. eauto.
  - intros [= <- <-]. right. destruct (files w !! path); [done|]. subst ns. auto.
Qed.

Lemma git_researchTopic_eq env prompt w :
  researchTopic env prompt w =
  (researchTopic_reply (perplexity env prompt), record (ProviderCalled prompt (files w)) w).
Proof. reflexivity. Qed.

Lemma git_generateContent_eq env prompt w :
  generateContent env prompt w =
  (generateContent_reply (claude env prompt), record (ProviderCalled prompt (files w)) w).
Proof. reflexivity. Qed.

(** *** GitResearchCommand.js: the events of one [processTopic] *)

Lemma GitResearchCommand_catch_quiet {gm : GrayMatter} path title (e : Js.Error) :
  Js.emits quiet (GitResearchCommand.processTopic_catch path title e).
Proof.
  apply emits_try_catch; [apply quiet_updateYamlFrontMatter | intros; apply emits_ret].
Qed.

(** Either the run calls no provider, or its events start with the commit
    of the in-progress status, then the provider call, which sees the file
    in progress, and no second provider call follows. *)
Lemma GitResearchCommand_processTopic_events {gm : GrayMatter} env path title frontMatter w :
  exists evs,
    trace (snd (GitResearchCommand.processTopic env path title frontMatter w))
      = trace w ++ evs /\
    (Forall quiet evs /\
     (dryRun env = true \/ (accepts 3 w -> files w !! path = None)) \/
     exists committed seen rest,
       evs = [Fetched path; Fetched path;
              Committed path committed ("WIP: Start research for " +:+ title);
              ProviderCalled (productivityPrompt env title) seen] ++ rest /\
       data committed !! "status" = Some "Research In Progress" /\
       status_of seen path = Some "Research In Progress" /\ Forall quiet rest).
Proof.
  unfold GitResearchCommand.processTopic.
  destruct (dryRun env).
  { exists []. rewrite app_nil_r. split; [reflexivity | left; auto]. }
  unfold GitResearchCommand.processTopic_try.
  destruct (updateYamlFrontMatter path {[ "status" := "Research In Progress" ]} None
              ("WIP: Start research for " +:+ title) w) as [r w1] eqn:Hu.
  pose proof Hu as Hinv. apply updateYamlFrontMatter_inv in Hinv
    as [(e & fetched & -> & _ & Ht & Hfetched & Hnone) | (f & -> & Hp & Hfs & Ht)].
  - rewrite (try_catch_bind_throw _ _ _ _ _ _ Hu).
    destruct (GitResearchCommand_catch_quiet path title e w1) as (evs & Hevs & Hok).
    git_traces Hevs. rewrite Hevs, Ht.
    exists (fetched ++ evs). rewrite app_assoc. split; [done|]. left.
    split; [|by right].
    apply Forall_app. split; [|done].
    eapply Forall_impl; [exact Hfetched|]. by intros ev ->.
  - rewrite (try_catch_bind_ok _ _ _ _ _ _ Hu).
    assert (status_of (files w1) path = Some "Research In Progress") as Hs.
    { unfold status_of, field_of. rewrite Hfs, lookup_insert_eq. simpl.
      apply stringify_lookup, lookup_union_Some_l, lookup_singleton_eq. }
    pose proof (git_researchTopic_eq env (productivityPrompt env title) w1) as Hr.
    set (w2 := record (ProviderCalled (productivityPrompt env title) (files w1)) w1) in *.
    assert (exists evs, trace (snd (Js.try_catch
              (researchResult <- researchTopic env (productivityPrompt env title) ;;
               writeFile path
                 (stringify
                    (Sources.enhance (or_else (content researchResult) "")
                       (citations researchResult))
                    (<[ "date_researched" := toLocaleDateString env ]>
                       (<[ "status" := "Ready for Draft" ]> frontMatter))) None
                 ("Update research for " +:+ title) ;;
               updateYamlFrontMatter path {[ "status" := "Research Complete" ]} None
                 ("Done: Complete research for " +:+ title))
              (GitResearchCommand.processTopic_catch path title) w1))
            = trace w2 ++ evs /\ Forall quiet evs) as (evs & Hevs & Hok).
    { destruct (researchTopic_reply (perplexity env (productivityPrompt env title)))
        as [research|e].
      - rewrite (try_catch_bind_ok _ _ _ _ _ _ Hr).
        match goal with |- context [Js.try_catch ?m ?h w2] =>
          assert (Js.emits quiet (Js.try_catch m h)) as Hq end.
        { apply emits_try_catch; [|intros; apply GitResearchCommand_catch_quiet].
          apply emits_bind; [apply quiet_writeFile|].
          intros _. apply quiet_updateYamlFrontMatter. }
        destruct (Hq w2) as (evs & Hevs & Hok). git_traces Hevs. eauto.
      - rewrite (try_catch_bind_throw _ _ _ _ _ _ Hr).
        destruct (GitResearchCommand_catch_quiet path title e w2)
          as (evs & Hevs & Hok). git_traces Hevs. eauto. }
    rewrite Hevs. unfold w2. simpl. rewrite Ht.
    eexists. rewrite <- !app_assoc. split; [reflexivity|].
    right. exists (stringify (body (doc f))
                     ({[ "status" := "Research In Progress" ]} ∪ data (doc f))),
                  (files w1), evs.
    repeat split; auto.
    apply stringify_lookup, lookup_union_Some_l, lookup_singleton_eq.
Qed.

End GitFacts.

(** ** In progress before the provider is called *)

Section InProgressFirst.
Import Provider.

Lemma notion_new_events_app (w w' : Notion.World) evs :
  Notion.trace w' = Notion.trace w ++ evs -> Notion.new_events w w' = evs.
Proof. intros Ht. unfold Notion.new_events. by rewrite Ht, drop_app_length. Qed.

Lemma git_new_events_app (w w' : Git.World) evs :
  Git.trace w' = Git.trace w ++ evs -> Git.new_events w w' = evs.
Proof. intros Ht. unfold Git.new_events. by rewrite Ht, drop_app_length. Qed.

(** C1: in a run of [processTopic], of the Notion command and of the Git
    command, every provider call sees the item with its in-progress status
    persisted, and the write (the commit) that set it is an earlier event
    of the same run.  And the call is made: unless the run is a dry run,
    once the store takes the in-progress write of an item it holds (one
    remote call for Notion, three for Git), the write is an event of the
    run and the provider call follows it. *)
Theorem C1_in_progress_before_provider {gm : Git.GrayMatter} :
  (forall env id title w i prompt seen,
     let w' := snd (ResearchCommand.processTopic env id title w) in
     Notion.new_events w w' !! i = Some (Notion.ProviderCalled prompt seen) ->
     Notion.status_of seen id = Some "Research In Progress" /\
     exists j, j < i /\
       Notion.new_events w w' !! j =
         Some (Notion.Updated id {[ "Status" := "Research In Progress" ]})) /\
  (forall env path title frontMatter w i prompt seen,
     let w' := snd (GitResearchCommand.processTopic env path title frontMatter w) in
     Git.new_events w w' !! i = Some (Git.ProviderCalled prompt seen) ->
     Git.status_of seen path = Some "Research In Progress" /\
     exists j committed, j < i /\
       Git.new_events w w' !! j =
         Some (Git.Committed path committed ("WIP: Start research for " +:+ title)) /\
       Git.data committed !! "status" = Some "Research In Progress") /\
  (forall env id title w,
     let w' := snd (ResearchCommand.processTopic env id title w) in
     Notion.dryRun env = false ->
     Notion.next_fault w = None -> is_Some (Notion.pages w !! id) ->
     Notion.new_events w w' !! 0 =
       Some (Notion.Updated id {[ "Status" := "Research In Progress" ]}) /\
     exists seen,
       Notion.new_events w w' !! 1 =
         Some (Notion.ProviderCalled (Notion.productivityPrompt env title) seen)) /\
  (forall env path title frontMatter w,
     let w' := snd (GitResearchCommand.processTopic env path title frontMatter w) in
     Git.dryRun env = false ->
     Git.accepts 3 w -> is_Some (Git.files w !! path) ->
     exists committed seen,
       Git.new_events w w' !! 2 =
         Some (Git.Committed path committed ("WIP: Start research for " +:+ title)) /\
       Git.new_events w w' !! 3 =
         Some (Git.ProviderCalled (Git.productivityPrompt env title) seen)).
Proof.
  split; [|split; [|split]].
  - intros env id title w i prompt seen w' Hi. subst w'.
    destruct (ResearchCommand_processTopic_events env id title w)
      as (evs & Ht & [[Hq _] | (seen' & rest & -> & Hs & Hq)]);
      rewrite (notion_new_events_app _ _ _ Ht) in *.
    + by destruct (Forall_lookup_1 _ _ _ _ Hq Hi).
    + destruct i as [|[|i]]; simpl in Hi.
      * discriminate.
      * injection Hi as <- <-. split; [done|]. exists 0. split; [lia | done].
      * by destruct (Forall_lookup_1 _ _ _ _ Hq Hi).
  - intros env path title frontMatter w i prompt seen w' Hi. subst w'.
    destruct (GitResearchCommand_processTopic_events env path title frontMatter w)
      as (evs & Ht & [[Hq _] | (committed & seen' & rest & -> & Hc & Hs & Hq)]);
      rewrite (git_new_events_app _ _ _ Ht) in *.
    + by destruct (Forall_lookup_1 _ _ _ _ Hq Hi).
    + destruct i as [|[|[|[|i]]]]; simpl in Hi; try discriminate.
      * injection Hi as <- <-. split; [done|]. exists 2, committed.
        split; [lia | done].
      * by destruct (Forall_lookup_1 _ _ _ _ Hq Hi).
  - intros env id title w w' Hdry Hfault [p Hp]. subst w'.
    destruct (ResearchCommand_processTopic_events env id title w)
      as (evs & Ht & [[_ [Hd | Hnone]] | (seen' & rest & -> & _ & _)]);
      rewrite (notion_new_events_app _ _ _ Ht).
    + congruence.
    + rewrite (Hnone Hfault) in Hp. discriminate.
    + split; [reflexivity | by exists seen'].
  - intros env path title frontMatter w w' Hdry Hacc [f Hf]. subst w'.
    destruct (GitResearchCommand_processTopic_events env path title frontMatter w)
      as (evs & Ht & [[_ [Hd | Hnone]] | (committed & seen' & rest & -> & _ & _ & _)]);
      rewrite (git_new_events_app _ _ _ Ht).
    + congruence.
    + rewrite (Hnone Hacc) in Hf. discriminate.
    + by exists committed, seen'.
Qed.

(** The theorem at Scenario 1, for both commands.  Notion: the provider
    call is the second event and the snapshot it carries shows the topic
    in progress.  Git: the commit of the in-progress status is the third
    event, the provider call the fourth, and the snapshot it carries
    shows the file in progress. *)
Lemma C1_in_progress_before_provider_witness :
  (let w := Scenario.notion_world "topic-1" Scenario.foo [] in
   let env := Scenario.notion_env false (Responded (Some Scenario.bar)) in
   exists seen,
     Notion.new_events w (snd (ResearchCommand.processTopic env "topic-1" "Foo" w)) !! 1
       = Some (Notion.ProviderCalled "Research Foo" seen) /\
     Notion.status_of seen "topic-1" = Some "Research In Progress") /\
  (let w := Scenario.git_world "content/foo.md" Scenario.foo_file [] in
   let env := Scenario.git_env false (Responded (Some Scenario.bar)) in
   let w' := snd (GitResearchCommand.processTopic (gm := Scenario.yaml) env
                    "content/foo.md" "Foo" Scenario.foo_frontMatter w) in
   exists committed seen,
     Git.new_events w w' !! 2 =
       Some (Git.Committed "content/foo.md" committed "WIP: Start research for Foo") /\
     Git.new_events w w' !! 3 = Some (Git.ProviderCalled "Research Foo" seen) /\
     Git.status_of seen "content/foo.md" = Some "Research In Progress").
Proof.
  split.
  - eexists. split; [vm_compute; reflexivity|].
    eapply (proj1 (C1_in_progress_before_provider (gm := Scenario.yaml))
              (Scenario.notion_env false (Responded (Some Scenario.bar)))
              "topic-1" "Foo" (Scenario.notion_world "topic-1" Scenario.foo []) 1).
    vm_compute. reflexivity.
  - destruct (proj2 (proj2 (proj2 (C1_in_progress_before_provider (gm := Scenario.yaml))))
                (Scenario.git_env false (Responded (Some Scenario.bar)))
                "content/foo.md" "Foo" Scenario.foo_frontMatter
                (Scenario.git_world "content/foo.md" Scenario.foo_file []))
      as (committed & seen & H2 & H3).
    + reflexivity.
    + constructor.
    + eexists. apply lookup_singleton_eq.
    + exists committed, seen. split; [exact H2|]. split; [exact H3|].
      eapply (proj1 (proj2 (C1_in_progress_before_provider (gm := Scenario.yaml)))
                (Scenario.git_env false (Responded (Some Scenario.bar)))
                "content/foo.md" "Foo" Scenario.foo_frontMatter
                (Scenario.git_world "content/foo.md" Scenario.foo_file []) 3).
      exact H3.
Defined.

End InProgressFirst.

(** ** Failures are caught and recorded *)

Section FailureRecorded.
Import Provider.

(** The error-recording write of the Notion client never throws: it sets
    Status and Error when the store takes it, and changes no page
    otherwise. *)
Lemma updateBlogPostError_cases id msg (w : Notion.World) :
  exists w', Notion.updateBlogPostError id msg true w = (Js.Ok tt, w') /\
    ((exists p, Notion.next_fault w = None /\ Notion.pages w !! id = Some p /\
        Notion.status_of (Notion.pages w') id = Some "Error" /\
        Notion.property_of (Notion.pages w') id "Error" = Some msg /\
        (forall j, j <> id -> Notion.pages w' !! j = Notion.pages w !! j)) \/
     ((Notion.next_fault w <> None \/ Notion.pages w !! id = None) /\
        Notion.pages w' = Notion.pages w)).
Proof.
  unfold Notion.updateBlogPostError.
  destruct (pages_update_cases id (<[ "Status" := "Error" ]> {[ "Error" := msg ]}) w)
    as [(m & Hf & Hu) | [(Hf & Hp & Hu) | (p & Hf & Hp & Hu)]].
  - rewrite (try_catch_throw _ _ _ _ _ Hu). eexists. split; [reflexivity|].
    right. split; [left; congruence | reflexivity].
  - rewrite (try_catch_throw _ _ _ _ _ Hu). eexists. split; [reflexivity|].
    right. split; [by right | reflexivity].
  - rewrite (try_catch_ok _ _ _ _ _ Hu). eexists. split; [reflexivity|].
    left. exists p. repeat split; auto.
    + unfold Notion.status_of, Notion.property_of. simpl.
      rewrite lookup_insert_eq. simpl.
      apply lookup_union_Some_l, lookup_insert_eq.
    + unfold Notion.property_of. simpl. rewrite lookup_insert_eq. simpl.
      apply lookup_union_Some_l. by rewrite lookup_insert_ne, lookup_singleton_eq.
    + intros j Hj. simpl. by rewrite lookup_insert_ne.
Qed.

Lemma errorMessage_truthy (e : Js.Error) :
  truthy (ResearchCommand.errorMessage e) = true /\
  (ResearchCommand.errorMessage e = message e \/
   message e = "" /\
   ResearchCommand.errorMessage e = "Unknown error occurred during research").
Proof.
  unfold ResearchCommand.errorMessage, or_else.
  destruct (message e) as [|c m]; simpl; auto.
Qed.

(** Every failure of the research provider carries a message. *)
Lemma researchTopic_reply_message (reply : AxiosReply) (e : Js.Error) :
  researchTopic_reply reply = Js.Throw e -> truthy (message e) = true.
Proof.
  destruct reply as [[research|] | [api|] msg | | msg]; simpl; intros [= <-]; reflexivity.
Qed.

(** C2, as stated, fails: when the provider fails and Notion then rejects
    the error-recording write, the run ends normally with the topic still
    in progress and no error message on it. *)
Lemma C2_counterexample :
  let w := Scenario.notion_world "topic-1" Scenario.foo [None; Some "rate limited"] in
  let env := Scenario.notion_env false ErrRequest in
  fst (ResearchCommand.processTopic_try env "topic-1" "Foo" w)
    = Js.Throw (new_Error "No response received from Perplexity API") /\
  fst (ResearchCommand.processTopic env "topic-1" "Foo" w) = Js.Ok tt /\
  Notion.status_of
    (Notion.pages (snd (ResearchCommand.processTopic env "topic-1" "Foo" w))) "topic-1"
    = Some "Research In Progress" /\
  Notion.property_of
    (Notion.pages (snd (ResearchCommand.processTopic env "topic-1" "Foo" w))) "topic-1" "Error"
    = None.
Proof. vm_compute. auto. Qed.

(** C2, amended.  A run of [processTopic] never throws.  When a step of
    its [try] block fails, the Notion command issues one error-recording
    write whose message is never empty (the failure's message, or a fixed
    text when that is empty) and the Git command one whose message is the
    failure's message; when the store takes that write the item ends with
    status Error and that message, and otherwise the store is left as the
    failure left it.  A failure of the research provider always carries a
    message. *)
Theorem C2_failure_recorded {gm : Git.GrayMatter} :
  (forall env id title w,
     fst (ResearchCommand.processTopic env id title w) = Js.Ok tt /\
     forall e w1, ResearchCommand.processTopic_try env id title w = (Js.Throw e, w1) ->
       let msg := ResearchCommand.errorMessage e in
       let w' := snd (ResearchCommand.processTopic env id title w) in
       truthy msg = true /\
       (msg = message e \/ message e = "") /\
       ((Notion.next_fault w1 = None /\ is_Some (Notion.pages w1 !! id) /\
         Notion.status_of (Notion.pages w') id = Some "Error" /\
         Notion.property_of (Notion.pages w') id "Error" = Some msg) \/
        ((Notion.next_fault w1 <> None \/ Notion.pages w1 !! id = None) /\
         Notion.pages w' = Notion.pages w1))) /\
  (forall env path title frontMatter w,
     fst (GitResearchCommand.processTopic env path title frontMatter w) = Js.Ok tt /\
     forall e w1, Git.dryRun env = false ->
       GitResearchCommand.processTopic_try env path title frontMatter w = (Js.Throw e, w1) ->
       let w' := snd (GitResearchCommand.processTopic env path title frontMatter w) in
       ((is_Some (Git.files w1 !! path) /\
         Git.status_of (Git.files w') path = Some "Error" /\
         Git.field_of (Git.files w') path "error_message" = Some (message e)) \/
        ((Git.accepts 3 w1 -> Git.files w1 !! path = None) /\
         Git.files w' = Git.files w1))) /\
  (forall reply e, researchTopic_reply reply = Js.Throw e -> truthy (message e) = true).
Proof.
  split; [|split; [|exact researchTopic_reply_message]].
  - intros env id title w. unfold ResearchCommand.processTopic. split.
    + unfold Js.try_catch.
      destruct (ResearchCommand.processTopic_try env id title w) as [[[]|e] w1]; [done|].
      by destruct (updateBlogPostError_cases id (ResearchCommand.errorMessage e) w1)
        as (w' & -> & _).
    + intros e w1 Htry.
      rewrite (try_catch_throw _ _ _ _ _ Htry).
      destruct (errorMessage_truthy e) as (Ht & Hm).
      split; [done|]. split; [destruct Hm as [?|[? _]]; auto|].
      destruct (updateBlogPostError_cases id (ResearchCommand.errorMessage e) w1)
        as (w' & -> & [(p & Hf & Hp & Hs & He & _) | (Hrej & Hsame)]); simpl.
      * left. eauto.
      * right. auto.
  - intros env path title frontMatter w. unfold GitResearchCommand.processTopic. split.
    + destruct (Git.dryRun env); [done|]. unfold Js.try_catch.
      destruct (GitResearchCommand.processTopic_try env path title frontMatter w)
        as [[[]|e] w1]; [done|].
      unfold GitResearchCommand.processTopic_catch, Js.try_catch.
      by destruct (Git.updateYamlFrontMatter _ _ _ _ w1) as [[[]|e'] w2].
    + intros e w1 Hdry Htry. rewrite Hdry.
      rewrite (try_catch_throw _ _ _ _ _ Htry).
      unfold GitResearchCommand.processTopic_catch.
      destruct (Git.updateYamlFrontMatter path
                  (<[ "status" := "Error" ]> {[ "error_message" := message e ]}) None
                  ("Error: Research failed for " +:+ title) w1) as [r w2] eqn:Hu.
      pose proof Hu as Hinv. apply updateYamlFrontMatter_inv in Hinv
        as [(e' & fetched & -> & Hfs & _ & _ & Hn) | (f & -> & Hp & Hfs & _)].
      * rewrite (try_catch_throw _ _ _ _ _ Hu). right. auto.
      * rewrite (try_catch_ok _ _ _ _ _ Hu). left. simpl.
        split; [eauto|]. unfold Git.status_of, Git.field_of.
        rewrite Hfs, lookup_insert_eq. simpl. split.
        -- apply stringify_lookup, lookup_union_Some_l, lookup_insert_eq.
        -- apply stringify_lookup, lookup_union_Some_l.
           by rewrite lookup_insert_ne, lookup_singleton_eq.
Qed.

(** The theorem at a run whose provider fails while Notion takes the
    error-recording write: the topic ends with status Error and the
    provider's message. *)
Lemma C2_failure_recorded_witness :
  let w := Scenario.notion_world "topic-1" Scenario.foo [] in
  let env := Scenario.notion_env false ErrRequest in
  let w' := snd (ResearchCommand.processTopic env "topic-1" "Foo" w) in
  truthy "No response received from Perplexity API" = true /\
  (Notion.status_of (Notion.pages w') "topic-1" = Some "Error" /\
   Notion.property_of (Notion.pages w') "topic-1" "Error"
     = Some "No response received from Perplexity API").
Proof.
  pose proof (proj2 (proj1 (C2_failure_recorded (gm := Scenario.yaml))
                (Scenario.notion_env false ErrRequest) "topic-1" "Foo"
                (Scenario.notion_world "topic-1" Scenario.foo []))
              (new_Error "No response received from Perplexity API")
              (snd (ResearchCommand.processTopic_try
                      (Scenario.notion_env false ErrRequest) "topic-1" "Foo"
                      (Scenario.notion_world "topic-1" Scenario.foo [])))
              eq_refl) as (Ht & _ & [(_ & _ & Hs & He) | ([Hf | Hp] & _)]).
  - split; [exact Ht | split; [exact Hs | exact He]].
  - exfalso. apply Hf. vm_compute. reflexivity.
  - exfalso. vm_compute in Hp. discriminate.
Defined.

End FailureRecorded.

(** ** Selection by entry status *)

Section Selection.

Lemma filter_none {A} (P : A -> bool) (l : list A) :
  (forall x, x ∈ l -> P x = false) -> filter (fun x => P x) l = [].
Proof.
  induction l as [|x l IH]; intros Hl; [reflexivity|].
  rewrite filter_cons. rewrite (Hl x) by apply list_elem_of_here. simpl.
  apply IH. intros y Hy. apply Hl. by apply list_elem_of_further.
Qed.

(** The loop of [getFilesReadyForResearch] always returns, reads only,
    and adds to its accumulator only paths whose file is ready for
    research. *)
Lemma getFilesReadyForResearch_loop_spec (filePaths : list string) :
  forall (readyFiles : list string) (w : Git.World),
  exists ready w',
    Copilot.getFilesReadyForResearch_loop filePaths readyFiles w = (Js.Ok ready, w') /\
    Git.files w' = Git.files w /\
    forall p, p ∈ ready ->
      p ∈ readyFiles \/
      (p ∈ filePaths /\ Git.status_of (Git.files w) p = Some "Ready for Research").
Proof.
  induction filePaths as [|filePath rest IH]; intros readyFiles w; simpl.
  { exists readyFiles, w. auto. }
  unfold Copilot.getFileContent.
  destruct (repos_getContent_cases filePath w) as [(e & He & _) | (f & Hf & Hp & Hg)].
  - erewrite bind_ok; cycle 1.
    { erewrite try_catch_throw; [reflexivity|].
      erewrite bind_throw; [reflexivity|].
      erewrite try_catch_throw; [reflexivity | exact He]. }
    destruct (IH readyFiles (Git.pop w)) as (ready & w' & -> & Hfs & Hin).
    exists ready, w'. split; [done|]. split; [done|].
    intros p Hp. destruct (Hin p Hp) as [?|[? ?]]; [by left | right].
    split; [by apply list_elem_of_further | done].
  - destruct (bool_decide_reflect
                (Git.data (Git.doc f) !! "status" = Some "Ready for Research")) as [Hs|Hs].
    + erewrite bind_ok; cycle 1.
      { erewrite try_catch_ok; [reflexivity|].
        erewrite bind_ok; cycle 1.
        { erewrite try_catch_ok; [reflexivity | exact Hg]. }
        rewrite bool_decide_eq_true_2 by done. reflexivity. }
      destruct (IH (readyFiles ++ [filePath]) (Git.record (Git.Fetched filePath) (Git.pop w)))
        as (ready & w' & -> & Hfs & Hin).
      exists ready, w'. split; [done|]. split; [done|].
      intros p Hpin. destruct (Hin p Hpin) as [[?|Heq]%elem_of_app | [? ?]].
      * by left.
      * apply list_elem_of_singleton in Heq as ->. right.
        split; [apply list_elem_of_here|].
        unfold Git.status_of, Git.field_of. by rewrite Hp.
      * right. split; [by apply list_elem_of_further | done].
    + erewrite bind_ok; cycle 1.
      { erewrite try_catch_ok; [reflexivity|].
        erewrite bind_ok; cycle 1.
        { erewrite try_catch_ok; [reflexivity | exact Hg]. }
        rewrite bool_decide_eq_false_2 by done. reflexivity. }
      destruct (IH readyFiles (Git.record (Git.Fetched filePath) (Git.pop w)))
        as (ready & w' & -> & Hfs & Hin).
      exists ready, w'. split; [done|]. split; [done|].
      intros p Hpin. destruct (Hin p Hpin) as [?|[? ?]]; [by left | right].
      split; [by apply list_elem_of_further | done].
Qed.

(** The Notion query returns pages of the store whose Status is the one
    asked for. *)
Lemma databases_query_spec database_id equals (w : Notion.World) topics w' :
  Notion.databases_query database_id equals w = (Js.Ok topics, w') ->
  Notion.pages w' = Notion.pages w /\
  forall id page, (id, page) ∈ topics ->
    Notion.pages w !! id = Some page /\
    Notion.parent page = database_id /\
    Notion.properties page !! "Status" = Some equals.
Proof.
  unfold Notion.databases_query, Notion.remote.
  destruct (Notion.next_fault w); [discriminate|].
  intros [= <- <-]. split; [reflexivity|].
  intros id page [Hm Hin]%list_elem_of_filter.
  apply elem_of_map_to_list in Hin.
  unfold Notion.matches in Hm. simpl in Hm.
  apply Is_true_true, andb_true_iff in Hm as [Hd Hs].
  apply bool_decide_eq_true in Hd, Hs. auto.
Qed.

(** C3: selection returns only items whose status is the stage's entry
    status (the front-matter test of the Copilot action, the status filter
    of the Notion query), so an item in any other status is never
    selected; and a run of the Notion research command over a store with
    no item in the entry status changes no page and calls no provider. *)
Theorem C3_selection_by_entry_status :
  (forall filePaths (w : Git.World),
     exists ready w',
       Copilot.getFilesReadyForResearch filePaths w = (Js.Ok ready, w') /\
       Git.files w' = Git.files w /\
       forall p, p ∈ ready ->
         p ∈ filePaths /\ Git.status_of (Git.files w) p = Some "Ready for Research") /\
  (forall env (w : Notion.World) topics w',
     Notion.getBlogPostsReadyForResearch env w = (Js.Ok topics, w') ->
     Notion.pages w' = Notion.pages w /\
     forall id page, (id, page) ∈ topics ->
       Notion.pages w !! id = Some page /\
       Notion.status_of (Notion.pages w) id = Some "Ready for Research") /\
  (forall env (w : Notion.World),
     (forall id, Notion.status_of (Notion.pages w) id <> Some "Ready for Research") ->
     let w' := snd (ResearchCommand.execute env w) in
     Notion.pages w' = Notion.pages w /\
     (Notion.new_events w w' = [] \/
      Notion.new_events w w'
        = [Notion.Queried (Notion.blogPostsDbId env) "Ready for Research"] \/
      Notion.new_events w w' = [Notion.Exited 1])).
Proof.
  split; [|split].
  - intros filePaths w.
    destruct (getFilesReadyForResearch_loop_spec filePaths [] w)
      as (ready & w' & Hr & Hfs & Hin).
    exists ready, w'. split; [exact Hr|]. split; [exact Hfs|].
    intros p Hp. destruct (Hin p Hp) as [Hnil|?]; [|done].
    by apply elem_of_nil in Hnil.
  - intros env w topics w' Hq.
    apply databases_query_spec in Hq as [Hp Hin]. split; [exact Hp|].
    intros id page Hel. destruct (Hin id page Hel) as (Hl & _ & Hs).
    split; [exact Hl|]. unfold Notion.status_of, Notion.property_of. by rewrite Hl.
  - intros env w Hnone. unfold ResearchCommand.execute.
    destruct (truthy_opt (Notion.option_id env)).
    { simpl. split; [reflexivity|]. left.
      unfold Notion.new_events. simpl. apply drop_all. }
    unfold Notion.getBlogPostsReadyForResearch, Notion.databases_query, Notion.remote.
    unfold Js.try_catch, Js.bind.
    destruct (Notion.next_fault w).
    { simpl. split; [reflexivity|]. right. right.
      unfold Notion.new_events. simpl. by rewrite drop_app_length. }
    rewrite filter_none.
    { simpl. destruct (Notion.singleItem env); simpl; (split; [reflexivity|]);
        right; left; unfold Notion.new_events; simpl; by rewrite drop_app_length. }
    intros [id page] Hin. apply elem_of_map_to_list in Hin. simpl in Hin.
    unfold Notion.matches. simpl.
    apply andb_false_iff. right. apply bool_decide_eq_false.
    intros Hs. apply (Hnone id).
    unfold Notion.status_of, Notion.property_of. by rewrite Hin.
Qed.

(** The theorem at a store whose only topic is already in progress: a new
    run of the research command leaves it as it is. *)
Lemma C3_selection_by_entry_status_witness :
  let in_progress :=
    {| Notion.parent := "blog-posts";
       Notion.properties := <[ "Title" := "Foo" ]> {[ "Status" := "Research In Progress" ]};
       Notion.blocks := [] |} in
  let w := Scenario.notion_world "topic-1" in_progress [] in
  let env := Scenario.notion_env false (Provider.Responded (Some Scenario.bar)) in
  Notion.pages (snd (ResearchCommand.execute env w)) = Notion.pages w.
Proof.
  intros in_progress w env.
  apply (proj2 (proj2 C3_selection_by_entry_status) env w).
  intros id. unfold Notion.status_of, Notion.property_of. subst w. simpl.
  destruct (decide (id = "topic-1")) as [->|Hne].
  - rewrite lookup_singleton_eq. vm_compute. discriminate.
  - rewrite lookup_singleton_ne by done. discriminate.
Defined.

End Selection.

(** ** Dry run *)

Section DryRun.
Import Provider.

(** The Git commands test the dry-run flag first: nothing is read,
    written or asked of a provider. *)
Lemma git_dry_run_is_silent {gm : Git.GrayMatter} env path title frontMatter (w : Git.World) :
  Git.dryRun env = true ->
  GitResearchCommand.processTopic env path title frontMatter w = (Js.Ok tt, w).
Proof. intros Hdry. unfold GitResearchCommand.processTopic. by rewrite Hdry. Qed.

(** [ResearchCommand.processTopic] tests the flag after the status write:
    whenever Notion takes that write, a dry run leaves the topic in
    progress. *)
Lemma notion_dry_run_writes env id title (w : Notion.World) p :
  Notion.dryRun env = true ->
  Notion.next_fault w = None -> Notion.pages w !! id = Some p ->
  let w' := snd (ResearchCommand.processTopic env id title w) in
  Notion.status_of (Notion.pages w') id = Some "Research In Progress" /\
  Notion.new_events w w' = [Notion.Updated id {[ "Status" := "Research In Progress" ]}].
Proof.
  intros Hdry Hf Hp. unfold ResearchCommand.processTopic, ResearchCommand.processTopic_try.
  destruct (Notion.updateBlogPostStatus id "Research In Progress" w) as [[[]|e] w1] eqn:Hu.
  - rewrite (try_catch_bind_ok _ _ _ _ _ _ Hu), Hdry.
    apply updateBlogPostStatus_ok in Hu as (Ht & Hs & _). simpl.
    split; [exact Hs|]. unfold Notion.new_events. by rewrite Ht, drop_app_length.
  - apply updateBlogPostStatus_throw in Hu as (_ & Hnone). specialize (Hnone Hf). congruence.
Qed.

(** C7 at the failing input: a dry run of the Notion research command on
    the topic of Scenario 1 performs one write, which moves the topic to
    Research In Progress, where it stays. *)
Theorem C7_dry_run_writes_status :
  let w := Scenario.notion_world "topic-1" Scenario.foo [] in
  let env := Scenario.notion_env true (Responded (Some Scenario.bar)) in
  let w' := snd (ResearchCommand.processTopic env "topic-1" "Foo" w) in
  Notion.status_of (Notion.pages w) "topic-1" = Some "Ready for Research" /\
  Notion.status_of (Notion.pages w') "topic-1" = Some "Research In Progress" /\
  Notion.new_events w w'
    = [Notion.Updated "topic-1" {[ "Status" := "Research In Progress" ]}].
Proof. vm_compute. auto. Qed.

End DryRun.

(** ** The Git research command ends at Research Complete *)

Section GitResearchStatus.
Import Provider.

(** Every successful run of the Git research command ends with the file
    in status Research Complete: the last step overwrites the Ready for
    Draft that the step before it wrote. *)
Lemma git_research_success_status {gm : Git.GrayMatter} env path title frontMatter
    (w w' : Git.World) :
  GitResearchCommand.processTopic_try env path title frontMatter w = (Js.Ok tt, w') ->
  Git.status_of (Git.files w') path = Some "Research Complete".
Proof.
  unfold GitResearchCommand.processTopic_try. intros Hrun.
  apply bind_inv in Hrun as [(e & _ & [=]) | ([] & w1 & _ & Hrun)].
  apply bind_inv in Hrun as [(e & _ & [=]) | (research & w2 & _ & Hrun)].
  apply bind_inv in Hrun as [(e & _ & [=]) | ([] & w3 & _ & Hrun)].
  apply updateYamlFrontMatter_inv in Hrun
    as [(e & fetched & [=] & _) | (f & _ & Hp & Hfs & _)].
  unfold Git.status_of, Git.field_of. rewrite Hfs, lookup_insert_eq. simpl.
  apply stringify_lookup, lookup_union_Some_l, lookup_singleton_eq.
Qed.

End GitResearchStatus.

(** ** Untitled items are skipped *)

Section Untitled.
Import Provider.

Lemma execute_topic_untitled env topic (w : Notion.World) :
  Notion.untitled topic ->
  ResearchCommand.execute_topic env topic w
    = (Js.Ok tt, Notion.record (Notion.Skipped topic.1) w).
Proof. intros Hu. unfold ResearchCommand.execute_topic. by rewrite Hu. Qed.

Lemma for_of_untitled env (topics : list (string * Notion.Page)) :
  Forall Notion.untitled topics ->
  forall w : Notion.World,
  exists w', Js.for_of topics (ResearchCommand.execute_topic env) w = (Js.Ok tt, w') /\
    Notion.pages w' = Notion.pages w /\ Notion.faults w' = Notion.faults w /\
    Notion.trace w' = Notion.trace w ++ map (fun topic => Notion.Skipped topic.1) topics.
Proof.
  induction 1 as [|topic topics Hu _ IH]; intros w; simpl.
  - exists w. by rewrite app_nil_r.
  - rewrite (bind_ok _ _ _ _ _ (execute_topic_untitled env topic w Hu)).
    destruct (IH (Notion.record (Notion.Skipped topic.1) w)) as (w' & -> & Hp & Hf & Ht).
    exists w'. repeat split; auto.
    rewrite Ht. simpl. by rewrite <- app_assoc.
Qed.

(** C8: an item whose title is empty or absent is skipped (the skip is
    noted, nothing is written, no remote call is made) and the run goes
    on: in the loop of the Notion research command the item counts for
    nothing but its note, a run over untitled items only returns with
    every page as it was, and the Devin research action returns without
    failing. *)
Theorem C8_untitled_items_are_skipped env (topic : string * Notion.Page) :
  Notion.untitled topic ->
  (forall w : Notion.World,
     ResearchCommand.execute_topic env topic w
       = (Js.Ok tt, Notion.record (Notion.Skipped topic.1) w)) /\
  (forall rest (w : Notion.World),
     Js.for_of (topic :: rest) (ResearchCommand.execute_topic env) w
       = Js.for_of rest (ResearchCommand.execute_topic env)
           (Notion.record (Notion.Skipped topic.1) w)) /\
  (forall topics (w : Notion.World), Forall Notion.untitled topics ->
     exists w', Js.for_of topics (ResearchCommand.execute_topic env) w = (Js.Ok tt, w') /\
       Notion.pages w' = Notion.pages w /\ Notion.faults w' = Notion.faults w /\
       Notion.new_events w w' = map (fun t => Notion.Skipped t.1) topics) /\
  (forall inputs rest (w wq : Notion.World),
     Forall (fun name => truthy_opt (inputs !! name) = true)
       ["notion-api-key"; "notion-blog-posts-id"; "notion-drafts-id"; "perplexity-api-key"] ->
     Notion.databases_query (default "" (inputs !! "notion-blog-posts-id"))
       "Ready for Research" w = (Js.Ok (topic :: rest), wq) ->
     Devin.research_run env inputs w
       = (Js.Ok tt, Notion.record (Notion.Skipped topic.1) wq) /\
     Notion.pages (Notion.record (Notion.Skipped topic.1) wq) = Notion.pages w).
Proof.
  intros Hu. split; [|split; [|split]].
  - intros w. by apply execute_topic_untitled.
  - intros rest w. simpl. by rewrite (bind_ok _ _ _ _ _ (execute_topic_untitled env topic w Hu)).
  - intros topics w Hall.
    destruct (for_of_untitled env topics Hall w) as (w' & Hr & Hp & Hf & Ht).
    exists w'. repeat split; auto.
    unfold Notion.new_events. by rewrite Ht, drop_app_length.
  - intros inputs rest w wq Hin Hq.
    apply Forall_cons in Hin as [H1 Hin]. apply Forall_cons in Hin as [H2 Hin].
    apply Forall_cons in Hin as [H3 Hin]. apply Forall_cons in Hin as [H4 _].
    split.
    + unfold Devin.research_run, Devin.research_try, Devin.getInput.
      rewrite H1, H2, H3, H4.
      unfold Js.try_catch, Js.bind at 1 2 3 4. simpl.
      unfold Js.bind at 1. rewrite Hq.
      unfold Notion.untitled in Hu. rewrite Hu. reflexivity.
    + apply databases_query_spec in Hq as [Hp _]. exact Hp.
Qed.

(** The theorem at Scenario 2: the topic with the empty title is skipped
    by the loop of the Notion research command. *)
Lemma C8_untitled_items_are_skipped_witness :
  let w := Scenario.notion_world "topic-2" Scenario.untitled [] in
  let env := Scenario.notion_env false (Responded (Some Scenario.bar)) in
  ResearchCommand.execute_topic env ("topic-2", Scenario.untitled) w
    = (Js.Ok tt, Notion.record (Notion.Skipped "topic-2") w).
Proof.
  intros w env.
  apply (proj1 (C8_untitled_items_are_skipped env ("topic-2", Scenario.untitled) eq_refl)).
Defined.

(** Scenario 2 as a whole run: the command queries, skips the topic and
    returns; no page has changed. *)
Lemma scenario_2_run :
  let w := Scenario.notion_world "topic-2" Scenario.untitled [] in
  let env := Scenario.notion_env false (Responded (Some Scenario.bar)) in
  fst (ResearchCommand.execute env w) = Js.Ok tt /\
  Notion.pages (snd (ResearchCommand.execute env w)) = Notion.pages w /\
  Notion.new_events w (snd (ResearchCommand.execute env w))
    = [Notion.Queried "blog-posts" "Ready for Research"; Notion.Skipped "topic-2"].
Proof. vm_compute. auto. Qed.

End Untitled.

(** ** The Devin actions: what their catch blocks can see *)

Section DevinFacts.
Import Provider Notion.

Lemma untagged_new_Error msg : Js.untagged (new_Error msg).
Proof. by repeat split. Qed.

Lemma throws_ret {W A} (a : A) : Js.throws_untagged (Js.ret (W:=W) a).
Proof. intros w e w' [=]. Qed.

Lemma throws_throw {W A} e : Js.untagged e -> Js.throws_untagged (Js.throw (W:=W) (A:=A) e).
Proof. intros He w e' w' [= <- _]. exact He. Qed.

Lemma throws_bind {W A B} (m : Js.M W A) (k : A -> Js.M W B) :
  Js.throws_untagged m -> (forall a, Js.throws_untagged (k a)) ->
  Js.throws_untagged (Js.bind m k).
Proof.
  intros Hm Hk w e w' Hb.
  apply bind_inv in Hb as [(e' & Hb & [= <-]) | (a & w1 & _ & Hb)].
  - eapply Hm; eauto.
  - eapply Hk; eauto.
Qed.

Lemma throws_try_catch {W A} (m : Js.M W A) (h : Js.Error -> Js.M W A) :
  Js.throws_untagged m -> (forall e, Js.untagged e -> Js.throws_untagged (h e)) ->
  Js.throws_untagged (Js.try_catch m h).
Proof.
  intros Hm Hh w e w'. unfold Js.try_catch.
  destruct (m w) as [[a|e'] w1] eqn:Hmw; [discriminate|].
  intros Hb. eapply Hh; [|exact Hb]. eauto.
Qed.

Lemma throws_when_id {W} (id : option string) (k : string -> Js.M W unit) :
  (forall i, Js.throws_untagged (k i)) -> Js.throws_untagged (Js.when_id id k).
Proof.
  intros Hk. destruct id as [i|]; simpl; [|apply throws_ret].
  destruct (truthy i); [apply Hk | apply throws_ret].
Qed.

Lemma throws_remote {A} (call : Js.M World A) :
  Js.throws_untagged call -> Js.throws_untagged (remote call).
Proof.
  intros Hc w e w'. unfold remote. destruct (next_fault w).
  - intros [= <- _]. apply untagged_new_Error.
  - apply Hc.
Qed.

Lemma throws_log ev : Js.throws_untagged (log ev).
Proof. intros w e w' [=]. Qed.

Lemma throws_pages_update id props : Js.throws_untagged (pages_update id props).
Proof.
  apply throws_remote. intros w e w'. destruct (pages w !! id); intros [= <- _].
  apply untagged_new_Error.
Qed.

Lemma throws_pages_create db props children :
  Js.throws_untagged (pages_create db props children).
Proof. apply throws_remote. intros w e w' [=]. Qed.

Lemma throws_blocks_children_append id children :
  Js.throws_untagged (blocks_children_append id children).
Proof.
  apply throws_remote. intros w e w'. destruct (pages w !! id); intros [= <- _].
  apply untagged_new_Error.
Qed.

Lemma throws_databases_query db equals : Js.throws_untagged (databases_query db equals).
Proof. apply throws_remote. intros w e w' [=]. Qed.

Lemma throws_appendBlocksInBatches_from fuel blockId blocks batchSize :
  forall i, Js.throws_untagged (appendBlocksInBatches_from fuel blockId blocks batchSize i).
Proof.
  induction fuel as [|fuel IH]; intros i; simpl; [apply throws_ret|].
  destruct (Nat.ltb i (length blocks)); [|apply throws_ret].
  apply throws_bind; [apply throws_blocks_children_append | auto].
Qed.

Lemma throws_convert env markdown : Js.throws_untagged (convert env markdown).
Proof.
  unfold convert. destruct (markdownToBlocks env markdown);
    [apply throws_throw, untagged_new_Error | apply throws_ret].
Qed.

Lemma throws_researchTopic env prompt : Js.throws_untagged (researchTopic env prompt).
Proof.
  intros w e w'. rewrite researchTopic_eq.
  destruct (perplexity env prompt) as [[research|] | [api|] msg | | msg]; simpl;
    intros [= <- _]; apply untagged_new_Error.
Qed.

Lemma throws_generateContent env userPrompt systemPrompt :
  Js.throws_untagged (generateContent env userPrompt systemPrompt).
Proof.
  intros w e w'. rewrite generateContent_eq.
  destruct (claude env systemPrompt userPrompt) as [g | msg]; simpl;
    intros [= <- _]; apply untagged_new_Error.
Qed.

Lemma throws_getInput inputs name : Js.throws_untagged (Devin.getInput inputs name).
Proof.
  unfold Devin.getInput. destruct (truthy_opt (inputs !! name));
    [apply throws_ret | apply throws_throw, untagged_new_Error].
Qed.

Lemma throws_rethrow {W A} (m : Js.M W A) :
  Js.throws_untagged m -> Js.throws_untagged (Js.try_catch m (fun error => Js.throw error)).
Proof. intros Hm. apply throws_try_catch; [done | intros; by apply throws_throw]. Qed.

Lemma throws_Devin_updateBlogPostStatus id status :
  Js.throws_untagged (Devin.updateBlogPostStatus id status).
Proof. apply throws_rethrow, throws_pages_update. Qed.

Lemma throws_Devin_createResearchBrief env id title markdown db :
  Js.throws_untagged (Devin.createResearchBrief env id title markdown db).
Proof.
  apply throws_rethrow.
  apply throws_bind; [apply throws_convert | intros bs].
  apply throws_bind; [apply throws_pages_create | intros newId].
  apply throws_bind; [apply throws_appendBlocksInBatches_from | intros; apply throws_ret].
Qed.

Lemma throws_Devin_createBlogDraft env id title content blogPostId db :
  Js.throws_untagged (Devin.createBlogDraft env id title content blogPostId db).
Proof.
  apply throws_rethrow.
  apply throws_bind; [apply throws_convert | intros bs].
  apply throws_bind; [apply throws_rethrow, throws_pages_create | intros newId].
  apply throws_bind; [apply throws_rethrow, throws_appendBlocksInBatches_from|].
  intros; apply throws_ret.
Qed.

(** No error that leaves the [try] block of the research action carries a
    [topicId]. *)
Lemma throws_research_try env inputs : Js.throws_untagged (Devin.research_try env inputs).
Proof.
  unfold Devin.research_try.
  do 4 (apply throws_bind; [apply throws_getInput | intros ?]).
  apply throws_bind; [apply throws_databases_query | intros topics].
  destruct topics as [|topic rest]; [apply throws_ret|].
  destruct (negb _); [apply throws_log|].
  apply throws_bind; [apply throws_Devin_updateBlogPostStatus | intros _].
  apply throws_bind; [apply throws_researchTopic | intros research].
  apply throws_bind.
  { destruct (usage research); [apply throws_ret | apply throws_throw, untagged_new_Error]. }
  intros _. apply throws_bind; [apply throws_Devin_createResearchBrief | intros _].
  apply throws_Devin_updateBlogPostStatus.
Qed.

(** No error that leaves the [try] block of the draft-writing action
    carries a [draftId]. *)
Lemma throws_draft_try env inputs : Js.throws_untagged (Devin.draft_try env inputs).
Proof.
  unfold Devin.draft_try.
  do 4 (apply throws_bind; [apply throws_getInput | intros ?]).
  apply throws_bind; [apply throws_databases_query | intros drafts].
  destruct drafts as [|draft rest]; [apply throws_ret|].
  apply throws_bind.
  { apply throws_remote. intros w e w'. destruct (pages w !! draft.1); intros [= <- _].
    apply untagged_new_Error. }
  intros researchContent.
  destruct (_ || _); [apply throws_log|].
  apply throws_bind; [apply throws_Devin_updateBlogPostStatus | intros _].
  apply throws_bind.
  { apply throws_when_id. intros; apply throws_Devin_updateBlogPostStatus. }
  intros _. apply throws_bind; [apply throws_generateContent | intros blogPost].
  apply throws_bind.
  { destruct (gen_usage blogPost); [apply throws_ret | apply throws_throw, untagged_new_Error]. }
  intros _. apply throws_bind; [apply throws_Devin_createBlogDraft | intros _].
  apply throws_bind; [apply throws_Devin_updateBlogPostStatus | intros _].
  apply throws_when_id. intros; apply throws_Devin_updateBlogPostStatus.
Qed.

(** C10: in the Devin actions no error that reaches the catch block of
    [run] carries a [topicId] or a [draftId], so on any failure the catch
    block only marks the action failed and writes nothing; in particular
    when the provider fails after the in-progress write, the item stays in
    its in-progress status and no Error status or message is written. *)
Theorem C10_devin_catch_never_records env inputs (w : World) :
  (forall e w1, Devin.research_try env inputs w = (Js.Throw e, w1) ->
     topicId e = None /\
     Devin.research_run env inputs w
       = (Js.Ok tt, record (SetFailed ("Research workflow failed: " +:+ message e)) w1)) /\
  (forall e w1, Devin.draft_try env inputs w = (Js.Throw e, w1) ->
     draftId e = None /\
     Devin.draft_run env inputs w
       = (Js.Ok tt, record (SetFailed ("Draft writing workflow failed: " +:+ message e)) w1)) /\
  (forall topic rest wq wu title e,
     Forall (fun name => truthy_opt (inputs !! name) = true)
       ["notion-api-key"; "notion-blog-posts-id"; "notion-drafts-id"; "perplexity-api-key"] ->
     databases_query (default "" (inputs !! "notion-blog-posts-id"))
       "Ready for Research" w = (Js.Ok (topic :: rest), wq) ->
     properties topic.2 !! "Title" = Some title -> truthy title = true ->
     Devin.updateBlogPostStatus topic.1 "Research In Progress" wq = (Js.Ok tt, wu) ->
     researchTopic_reply (perplexity env (productivityPrompt env title)) = Js.Throw e ->
     let w' := snd (Devin.research_run env inputs w) in
     status_of (pages w') topic.1 = Some "Research In Progress" /\
     property_of (pages w') topic.1 "Error" = property_of (pages w) topic.1 "Error" /\
     new_events wq w' =
       [Updated topic.1 {[ "Status" := "Research In Progress" ]};
        ProviderCalled (productivityPrompt env title) (pages wu);
        SetFailed ("Research workflow failed: " +:+ message e)]) /\
  (forall draft rest wq wr wu wc title researchContent msg,
     Forall (fun name => truthy_opt (inputs !! name) = true)
       ["notion-api-key"; "notion-blog-posts-id"; "notion-drafts-id"; "anthropic-api-key"] ->
     databases_query (default "" (inputs !! "notion-drafts-id"))
       "Ready to Start" w = (Js.Ok (draft :: rest), wq) ->
     Devin.pageToMarkdown env draft.1 wq = (Js.Ok researchContent, wr) ->
     properties draft.2 !! "Title" = Some title -> truthy title = true ->
     truthy researchContent = true ->
     Devin.updateBlogPostStatus draft.1 "Writing in Progress" wr = (Js.Ok tt, wu) ->
     Js.when_id (properties draft.2 !! "Blog Posts")
       (fun id => Devin.updateBlogPostStatus id "Draft In Progress") wu = (Js.Ok tt, wc) ->
     claude env (draftwriterSystemPrompt env title)
       (draftwriterUserPrompt env title researchContent) = ApiError msg ->
     let w' := snd (Devin.draft_run env inputs w) in
     status_of (pages wu) draft.1 = Some "Writing in Progress" /\
     pages w' = pages wc /\
     new_events wc w' =
       [ProviderCalled (draftwriterUserPrompt env title researchContent) (pages wc);
        SetFailed ("Draft writing workflow failed: Claude API error: " +:+ msg)]).
Proof.
  split; [|split; [|split]].
  - intros e w1 Htry. destruct (throws_research_try env inputs w e w1 Htry) as (Ht & _).
    split; [exact Ht|].
    unfold Devin.research_run. rewrite (try_catch_throw _ _ _ _ _ Htry).
    unfold Devin.research_catch. rewrite Ht. reflexivity.
  - intros e w1 Htry. destruct (throws_draft_try env inputs w e w1 Htry) as (_ & Hd & _).
    split; [exact Hd|].
    unfold Devin.draft_run. rewrite (try_catch_throw _ _ _ _ _ Htry).
    unfold Devin.draft_catch. rewrite Hd. reflexivity.
  - intros topic rest wq wu title e Hin Hq Htitle Htruthy Hu Hreply.
    apply Forall_cons in Hin as [H1 Hin]. apply Forall_cons in Hin as [H2 Hin].
    apply Forall_cons in Hin as [H3 Hin]. apply Forall_cons in Hin as [H4 _].
    assert (Devin.research_try env inputs w
            = (Js.Throw e, record (ProviderCalled (productivityPrompt env title) (pages wu)) wu))
      as Htry.
    { unfold Devin.research_try, Devin.getInput. rewrite H1, H2, H3, H4.
      unfold Js.bind at 1 2 3 4. simpl.
      rewrite (bind_ok _ _ _ _ _ Hq). rewrite Htitle. simpl. rewrite Htruthy. simpl.
      rewrite (bind_ok _ _ _ _ _ Hu).
      erewrite bind_throw; [reflexivity|].
      rewrite researchTopic_eq, Hreply. reflexivity. }
    unfold Devin.research_run. rewrite (try_catch_throw _ _ _ _ _ Htry).
    destruct (throws_research_try env inputs w e _ Htry) as (Ht & _).
    unfold Devin.research_catch. rewrite Ht. simpl.
    unfold Devin.updateBlogPostStatus in Hu. fold (updateBlogPostStatus topic.1 "Research In Progress") in Hu.
    apply updateBlogPostStatus_ok in Hu as (Htr & Hs & _ & _ & _ & _ & _ & Hprops).
    apply databases_query_spec in Hq as [Hpq _].
    split; [exact Hs|]. split.
    + rewrite Hprops by done. by rewrite Hpq.
    + unfold new_events. simpl. rewrite Htr, <- !app_assoc, drop_app_length. reflexivity.
  - intros draft rest wq wr wu wc title researchContent msg
      Hin Hq Hread Htitle Htruthy Hcontent Hu Hcomp Hreply.
    apply Forall_cons in Hin as [H1 Hin]. apply Forall_cons in Hin as [H2 Hin].
    apply Forall_cons in Hin as [H3 Hin]. apply Forall_cons in Hin as [H4 _].
    set (e := new_Error ("Claude API error: " +:+ msg)).
    assert (Devin.draft_try env inputs w
            = (Js.Throw e,
               record (ProviderCalled (draftwriterUserPrompt env title researchContent)
                         (pages wc)) wc)) as Htry.
    { unfold Devin.draft_try, Devin.getInput. rewrite H1, H2, H3, H4.
      unfold Js.bind at 1 2 3 4. simpl.
      rewrite (bind_ok _ _ _ _ _ Hq). rewrite (bind_ok _ _ _ _ _ Hread).
      rewrite Htitle. simpl. rewrite Htruthy, Hcontent. simpl.
      rewrite (bind_ok _ _ _ _ _ Hu). rewrite (bind_ok _ _ _ _ _ Hcomp).
      erewrite bind_throw; [reflexivity|].
      rewrite generateContent_eq, Hreply. reflexivity. }
    unfold Devin.draft_run. rewrite (try_catch_throw _ _ _ _ _ Htry).
    unfold Devin.draft_catch. simpl.
    unfold Devin.updateBlogPostStatus in Hu.
    fold (updateBlogPostStatus draft.1 "Writing in Progress") in Hu.
    apply updateBlogPostStatus_ok in Hu as (_ & Hs & _).
    split; [exact Hs|]. split; [reflexivity|].
    unfold new_events. simpl. rewrite <- !app_assoc, drop_app_length. reflexivity.
Qed.

(** The theorem at a run of the research action whose provider does not
    answer: the topic stays in progress. *)
Lemma C10_devin_catch_never_records_witness :
  let w := Scenario.notion_world "topic-1" Scenario.foo [] in
  let env := Scenario.notion_env false ErrRequest in
  status_of (pages (snd (Devin.research_run env Scenario.inputs w))) "topic-1"
    = Some "Research In Progress".
Proof.
  intros w env.
  eapply (proj1 (proj1 (proj2 (proj2 (C10_devin_catch_never_records env Scenario.inputs w)))
            ("topic-1", Scenario.foo) [] _ _ "Foo"
            (new_Error "No response received from Perplexity API")
            ltac:(repeat constructor) eq_refl eq_refl eq_refl eq_refl eq_refl)).
Defined.

End DevinFacts.

(** ** The draft stage creates one new item *)

Section NotionDraft.
Import Provider Notion.

(** A status write that returns touches one existing page and nothing
    else. *)
Lemma updateBlogPostStatus_frame id status w w1 :
  updateBlogPostStatus id status w = (Js.Ok tt, w1) ->
  is_Some (pages w !! id) /\ next_id w1 = next_id w /\
  dom (pages w1) = dom (pages w) /\
  (forall j, j <> id -> pages w1 !! j = pages w !! j).
Proof.
  unfold updateBlogPostStatus. rewrite try_catch_rethrow.
  destruct (pages_update_cases id {[ "Status" := status ]} w)
    as [(msg & _ & ->) | [(_ & _ & ->) | (p & Hf & Hp & ->)]]; try discriminate.
  intros [= <-]. simpl. repeat split; eauto.
  - apply dom_insert_lookup_L. eauto.
  - intros j Hj. by rewrite lookup_insert_ne.
Qed.

Lemma when_id_update_frame (o : option string) status w w1 :
  Js.when_id o (fun id => updateBlogPostStatus id status) w = (Js.Ok tt, w1) ->
  next_id w1 = next_id w /\ dom (pages w1) = dom (pages w) /\
  (forall i, o = Some i -> truthy i = true -> is_Some (pages w !! i)) /\
  (forall j, (forall i, o = Some i -> truthy i = true -> j <> i) ->
     pages w1 !! j = pages w !! j).
Proof.
  destruct o as [i|]; simpl.
  - destruct (truthy i) eqn:Hi.
    + intros (Hsome & Hn & Hd & Hj)%updateBlogPostStatus_frame.
      split; [done|]. split; [done|]. split.
      * by intros ? [= <-] _.
      * intros j Hne. apply Hj. by apply Hne.
    + intros [= <-]. split; [done|]. split; [done|]. split; [|done].
      intros ? [= <-]. congruence.
  - intros [= <-]. split; [done|]. split; [done|]. split; [discriminate|done].
Qed.

(** The batching loop, when it returns, has appended to the page every
    block from index [i] on, in order. *)
Lemma appendBlocksInBatches_from_ok blockId (blocks : list Block) :
  forall fuel i w w1 p,
    length blocks - i <= fuel * 100 ->
    pages w !! blockId = Some p ->
    appendBlocksInBatches_from fuel blockId blocks 100 i w = (Js.Ok tt, w1) ->
    next_id w1 = next_id w /\
    pages w1 = <[blockId := {| parent := parent p; properties := properties p;
                               blocks := Notion.blocks p ++ drop i blocks |}]> (pages w).
Proof.
  induction fuel as [|fuel IH]; intros i w w1 p Hfuel Hp; simpl.
  - intros [= <-]. split; [done|].
    rewrite drop_ge by lia. rewrite app_nil_r.
    symmetry. apply insert_id. by destruct p.
  - destruct (Nat.ltb_spec i (length blocks)) as [Hlt|Hge].
    + intros Hrun. apply bind_inv in Hrun as [(e & _ & [=]) | ([] & w2 & Happ & Hrun)].
      unfold blocks_children_append, remote in Happ.
      destruct (next_fault w); [discriminate|].
      change (pages (pop w)) with (pages w) in Happ. rewrite Hp in Happ.
      injection Happ as <-.
      eapply IH in Hrun; [|lia|simpl; apply lookup_insert_eq].
      destruct Hrun as [Hn ->]. split; [exact Hn|]. simpl.
      rewrite insert_insert_eq. do 2 f_equal.
      rewrite <- app_assoc. f_equal.
      destruct (Nat.le_gt_cases (i + 100) (length blocks)) as [Hle|Hgt].
      * rewrite Nat.min_l by lia. replace (i + 100 - i) with 100 by lia.
        rewrite <- (drop_drop blocks 100 i). apply take_drop.
      * rewrite Nat.min_r by lia. rewrite (drop_ge blocks (i + 100)) by lia.
        rewrite app_nil_r. apply take_ge. rewrite length_drop. lia.
    + intros [= <-]. split; [done|].
      rewrite drop_ge by lia. rewrite app_nil_r.
      symmetry. apply insert_id. by destruct p.
Qed.

Lemma blogDraft_properties_status env title blogPostId :
  blogDraft_properties env title blogPostId !! "Status" = Some "Ready for Review".
Proof.
  unfold blogDraft_properties. destruct blogPostId as [id|]; [destruct (truthy id)|];
    by simplify_map_eq.
Qed.

Lemma blogDraft_properties_relation env title blogPostId :
  blogDraft_properties env title blogPostId !! "Blog Posts" =
  if truthy_opt blogPostId then blogPostId else None.
Proof.
  unfold blogDraft_properties. destruct blogPostId as [id|]; simpl; [destruct (truthy id)|];
    by simplify_map_eq.
Qed.

(** [createBlogDraft], when it returns: the page it made, whole. *)
Lemma createBlogDraft_ok env researchBriefId title content blogPostId w newId w1 :
  createBlogDraft env researchBriefId title content blogPostId w = (Js.Ok newId, w1) ->
  exists allBlocks,
    markdownToBlocks env content = inr allBlocks /\
    newId = new_page_id w /\
    pages w1 = <[newId := {| parent := draftsDbId env;
                             properties := blogDraft_properties env title blogPostId;
                             blocks := heading_1 title :: Utilities.removeAllLinks allBlocks |}]>
                 (pages w).
Proof.
  unfold createBlogDraft. rewrite try_catch_rethrow. intros Hrun.
  apply bind_inv in Hrun as [(e & _ & [=]) | (allBlocks & w2 & Hconv & Hrun)].
  unfold convert in Hconv.
  destruct (markdownToBlocks env content) as [msg|bs] eqn:Hmd; [discriminate|].
  injection Hconv as <- <-.
  apply bind_inv in Hrun as [(e & _ & [=]) | (id & w3 & Hcreate & Hrun)].
  rewrite try_catch_rethrow in Hcreate.
  unfold pages_create, remote in Hcreate.
  destruct (next_fault w); [discriminate|]. injection Hcreate as <- <-.
  apply bind_inv in Hrun as [(e & _ & [=]) | ([] & w4 & Happ & Hrun)].
  injection Hrun as <- <-.
  rewrite try_catch_rethrow in Happ. unfold appendBlocksInBatches in Happ.
  eapply appendBlocksInBatches_from_ok in Happ; [|lia|simpl; apply lookup_insert_eq].
  destruct Happ as [_ ->]. exists bs. split; [done|]. split; [done|].
  simpl. rewrite insert_insert_eq. by rewrite drop_0.
Qed.

(** A successful run of [processDraft] of the Notion command: the store
    gains exactly the new page, Ready for Review, holding the converted
    draft under its heading, related to the blog post of the brief when
    there is one. *)
Lemma notion_draft_success env draftId draftTitle researchContent blogPostId w w' :
  dryRun env = false ->
  pages w !! new_page_id w = None ->
  DraftwriterCommand.processDraft_try env draftId draftTitle researchContent blogPostId w
    = (Js.Ok tt, w') ->
  exists g allBlocks,
    claude env (draftwriterSystemPrompt env draftTitle)
      (draftwriterUserPrompt env draftTitle researchContent) = Completed g /\
    markdownToBlocks env (text g) = inr allBlocks /\
    dom (pages w') = {[ new_page_id w ]} ∪ dom (pages w) /\
    pages w' !! new_page_id w =
      Some {| parent := draftsDbId env;
              properties := blogDraft_properties env draftTitle blogPostId;
              blocks := heading_1 draftTitle :: Utilities.removeAllLinks allBlocks |}.
Proof.
  intros Hdry Hfresh. unfold DraftwriterCommand.processDraft_try. rewrite Hdry.
  intros Hrun.
  apply bind_inv in Hrun as [(e & _ & [=]) | ([] & w1 & Hu1 & Hrun)].
  apply updateBlogPostStatus_frame in Hu1 as (Hdraft & Hn1 & Hd1 & Hk1).
  apply bind_inv in Hrun as [(e & _ & [=]) | ([] & w2 & Hu2 & Hrun)].
  apply when_id_update_frame in Hu2 as (Hn2 & Hd2 & Hbp & Hk2).
  apply bind_inv in Hrun as [(e & _ & [=]) | (g & w3 & Hgen & Hrun)].
  rewrite generateContent_eq in Hgen.
  destruct (claude env (draftwriterSystemPrompt env draftTitle)
              (draftwriterUserPrompt env draftTitle researchContent)) as [g'|msg] eqn:Hreply;
    [|discriminate].
  injection Hgen as <- <-.
  apply bind_inv in Hrun as [(e & _ & [=]) | (newId & w4 & Hnew & Hrun)].
  apply createBlogDraft_ok in Hnew as (allBlocks & Hmd & -> & Hp4).
  change (new_page_id (record _ w2)) with ("page-" +:+ pretty (next_id w2)) in *.
  change (pages (record _ w2)) with (pages w2) in Hp4.
  assert ("page-" +:+ pretty (next_id w2) = new_page_id w) as Hid.
  { unfold new_page_id. by rewrite Hn2, Hn1. }
  rewrite Hid in *. clear Hid.
  assert (new_page_id w <> draftId) as Hne1.
  { intros <-. rewrite Hfresh in Hdraft. by destruct Hdraft. }
  assert (forall i, blogPostId = Some i -> truthy i = true -> new_page_id w <> i) as Hne2.
  { intros i Hi Ht <-. specialize (Hbp _ Hi Ht).
    rewrite Hk1 in Hbp by done. rewrite Hfresh in Hbp. by destruct Hbp. }
  apply bind_inv in Hrun as [(e & _ & [=]) | ([] & w5 & Hu5 & Hrun)].
  apply updateBlogPostStatus_frame in Hu5 as (_ & _ & Hd5 & Hk5).
  apply when_id_update_frame in Hrun as (_ & Hd6 & _ & Hk6).
  exists g', allBlocks. split; [done|]. split; [done|]. split.
  - rewrite Hd6, Hd5, Hp4, dom_insert_L, Hd2, Hd1. done.
  - rewrite Hk6 by done. rewrite Hk5 by done. rewrite Hp4. apply lookup_insert_eq.
Qed.

End NotionDraft.

Section GitDraft.
Import Provider Git.

Lemma updateYamlFrontMatter_frame {gm : GrayMatter} path updates given message w w1 :
  updateYamlFrontMatter path updates given message w = (Js.Ok tt, w1) ->
  is_Some (files w !! path) /\ dom (files w1) = dom (files w) /\
  (forall j, j <> path -> files w1 !! j = files w !! j).
Proof.
  intros [(e & fetched & [=] & _) | (f & _ & Hp & -> & _)]%updateYamlFrontMatter_inv.
  split; [eauto|]. split.
  - apply dom_insert_lookup_L. eauto.
  - intros j Hj. by rewrite lookup_insert_ne.
Qed.

Lemma spread_if_lookup_ne key frontMatter target k :
  k <> key -> GitDraftwriterCommand.spread_if key frontMatter target !! k = target !! k.
Proof.
  intros Hk. unfold GitDraftwriterCommand.spread_if.
  destruct (frontMatter !! key) as [v|]; [|done].
  destruct (truthy v); [|done]. by rewrite lookup_insert_ne.
Qed.

Lemma draftFrontMatter_status env researchFilePath title blog frontMatter :
  GitDraftwriterCommand.draftFrontMatter_of env researchFilePath title blog frontMatter
    !! "status" = Some "Ready for Review".
Proof.
  unfold GitDraftwriterCommand.draftFrontMatter_of.
  rewrite !spread_if_lookup_ne by done. by simplify_map_eq.
Qed.

Lemma draftFrontMatter_source env researchFilePath title blog frontMatter :
  GitDraftwriterCommand.draftFrontMatter_of env researchFilePath title blog frontMatter
    !! "research_brief_filePath" = Some researchFilePath.
Proof.
  unfold GitDraftwriterCommand.draftFrontMatter_of.
  rewrite !spread_if_lookup_ne by done. by simplify_map_eq.
Qed.

Lemma draftPath_truthy env title :
  truthy (GitDraftwriterCommand.draftPath_of env title) = true.
Proof.
  unfold GitDraftwriterCommand.draftPath_of. by destruct (contentDirDrafts env).
Qed.

(** A successful run of [processDraft] of the Git command: the branch
    gains exactly the draft file, made by [stringify] of the reply of the
    provider and of the draft front matter.  When the blog post path is
    that of the draft itself, the last step of the run has updated the
    new file. *)
Lemma git_draft_success {gm : GrayMatter} env researchFilePath title researchContent blog
    frontMatter w w' :
  GitDraftwriterCommand.processDraft_try env researchFilePath title researchContent
    blog frontMatter w = (Js.Ok tt, w') ->
  let draftPath := GitDraftwriterCommand.draftPath_of env title in
  exists g file,
    claude env (draftwriterUserPrompt env title researchContent) = Completed g /\
    files w !! draftPath = None /\
    dom (files w') = {[ draftPath ]} ∪ dom (files w) /\
    files w' !! draftPath = Some file /\
    let created :=
      stringify (text g)
        (GitDraftwriterCommand.draftFrontMatter_of env researchFilePath title blog
           frontMatter) in
    doc file = if bool_decide (blog = draftPath)
               then stringify (body created)
                      (GitObserve.draftComplete draftPath ∪ data created)
               else created.
Proof.
  unfold GitDraftwriterCommand.processDraft_try. intros Hrun.
  apply bind_inv in Hrun as [(e & _ & [=]) | ([] & w1 & Hu1 & Hrun)].
  apply updateYamlFrontMatter_frame in Hu1 as (Hsrc & Hd1 & Hk1).
  apply bind_inv in Hrun as [(e & _ & [=]) | (g & w2 & Hgen & Hrun)].
  rewrite git_generateContent_eq in Hgen.
  destruct (claude env (draftwriterUserPrompt env title researchContent))
    as [g'|msg] eqn:Hreply; [|discriminate].
  injection Hgen as <- <-.
  apply bind_inv in Hrun as [(e & _ & [=]) | ([] & w3 & Hnew & Hrun)].
  apply createFile_inv in Hnew as [(e & [=] & _) | (_ & Hnone & Hf3 & _)].
  change (files (record _ w1)) with (files w1) in *.
  set (draftPath := GitDraftwriterCommand.draftPath_of env title) in *.
  set (created := stringify (text g') _) in *.
  assert (draftPath <> researchFilePath) as Hne.
  { intros Heq. rewrite Heq in Hnone.
    assert (is_Some (files w1 !! researchFilePath)) as [? Hs].
    { apply elem_of_dom. rewrite Hd1. by apply elem_of_dom. }
    congruence. }
  apply bind_inv in Hrun as [(e & _ & [=]) | ([] & w4 & Hu4 & Hrun)].
  apply updateYamlFrontMatter_frame in Hu4 as (_ & Hd4 & Hk4).
  assert (files w4 !! draftPath = Some {| doc := created; sha := 0 |}) as Hp4.
  { rewrite Hk4 by done. rewrite Hf3. apply lookup_insert_eq. }
  assert (dom (files w4) = {[ draftPath ]} ∪ dom (files w)) as Hdom4.
  { rewrite Hd4, Hf3, dom_insert_L, Hd1. done. }
  exists g'. unfold Js.when in Hrun. destruct (truthy blog) eqn:Hblog.
  - apply updateYamlFrontMatter_inv in Hrun
      as [(e & fetched & [=] & _) | (f & _ & Hp & Hfs & _)].
    fold (GitObserve.draftComplete draftPath) in Hfs.
    case_bool_decide as Heq.
    + subst blog. rewrite Hp4 in Hp. injection Hp as <-.
      eexists. split; [done|]. split; [by rewrite <- Hk1|]. split.
      { rewrite Hfs, dom_insert_lookup_L by eauto. exact Hdom4. }
      split; [rewrite Hfs; apply lookup_insert_eq | reflexivity].
    + exists {| doc := created; sha := 0 |}.
      split; [done|]. split; [by rewrite <- Hk1|]. split.
      { rewrite Hfs, dom_insert_lookup_L by eauto. exact Hdom4. }
      split; [|reflexivity]. rewrite Hfs. by rewrite lookup_insert_ne.
  - injection Hrun as <-.
    exists {| doc := created; sha := 0 |}.
    split; [done|]. split; [by rewrite <- Hk1|]. split; [exact Hdom4|].
    split; [exact Hp4|]. simpl. rewrite bool_decide_eq_false_2; [done|].
    intros ->. pose proof (draftPath_truthy env title) as Ht.
    fold draftPath in Ht. congruence.
Qed.

End GitDraft.

Section DraftCreatesOneItem.
Import Provider.

(** C5, as stated, fails on the relation: the Notion command relates the
    new draft to the blog post behind the research brief, not to the brief
    the draft was produced from, and to nothing when the brief has no blog
    post. *)
Lemma C5_counterexample :
  let env := Scenario.notion_env false (Responded (Some Scenario.bar)) in
  let related :=
    DraftwriterCommand.processDraft_try env "brief-1" "Foo" "bar" (Some "topic-1")
      Scenario.drafting_world in
  let unrelated :=
    DraftwriterCommand.processDraft_try env "brief-1" "Foo" "bar" None
      (Scenario.notion_world "brief-1" Scenario.brief []) in
  fst related = Js.Ok tt /\
  Notion.status_of (Notion.pages (snd related)) "page-0" = Some "Ready for Review" /\
  Notion.property_of (Notion.pages (snd related)) "page-0" "Blog Posts" = Some "topic-1" /\
  fst unrelated = Js.Ok tt /\
  Notion.status_of (Notion.pages (snd unrelated)) "page-0" = Some "Ready for Review" /\
  Notion.property_of (Notion.pages (snd unrelated)) "page-0" "Blog Posts" = None.
Proof. vm_compute. auto 10. Qed.

(** C5, amended: a successful run of the draft stage adds exactly one
    item to the store.  In Notion it is Ready for Review, holds the
    provider's output converted to blocks, links removed, under a heading
    with the title, and is related to the blog post of the research brief
    when the brief has one, and to nothing otherwise.  In Git it is the
    file that [stringify] makes of the provider's output and of the draft
    front matter: it names the research file it was made from, it is
    Ready for Review, and when the output opens no front-matter block its
    body is the output closed by a line feed; only when the blog post
    path handed to the command is the path of the draft itself has the
    last step of the run moved the new file to Draft Complete. *)
Theorem C5_draft_creates_one_item {gm : Git.GrayMatter} :
  (forall env draftId draftTitle researchContent blogPostId (w w' : Notion.World),
     Notion.dryRun env = false ->
     Notion.pages w !! Notion.new_page_id w = None ->
     DraftwriterCommand.processDraft_try env draftId draftTitle researchContent blogPostId w
       = (Js.Ok tt, w') ->
     exists g allBlocks page,
       Notion.claude env (Notion.draftwriterSystemPrompt env draftTitle)
         (Notion.draftwriterUserPrompt env draftTitle researchContent) = Completed g /\
       Notion.markdownToBlocks env (text g) = inr allBlocks /\
       dom (Notion.pages w') = {[ Notion.new_page_id w ]} ∪ dom (Notion.pages w) /\
       Notion.pages w' !! Notion.new_page_id w = Some page /\
       Notion.parent page = Notion.draftsDbId env /\
       Notion.properties page !! "Status" = Some "Ready for Review" /\
       Notion.properties page !! "Blog Posts"
         = (if truthy_opt blogPostId then blogPostId else None) /\
       Notion.blocks page
         = Notion.heading_1 draftTitle :: Notion.Utilities.removeAllLinks allBlocks) /\
  (forall env researchFilePath title researchContent blog frontMatter (w w' : Git.World),
     GitDraftwriterCommand.processDraft_try env researchFilePath title researchContent
       blog frontMatter w = (Js.Ok tt, w') ->
     let draftPath := GitDraftwriterCommand.draftPath_of env title in
     exists g file,
       Git.claude env (Git.draftwriterUserPrompt env title researchContent) = Completed g /\
       Git.files w !! draftPath = None /\
       dom (Git.files w') = {[ draftPath ]} ∪ dom (Git.files w) /\
       Git.files w' !! draftPath = Some file /\
       Git.data (Git.doc file) !! "status"
         = Some (if bool_decide (blog = draftPath)
                 then "Draft Complete" else "Ready for Review") /\
       Git.data (Git.doc file) !! "research_brief_filePath" = Some researchFilePath /\
       (blog <> draftPath ->
        Git.doc file
          = Git.stringify (text g)
              (GitDraftwriterCommand.draftFrontMatter_of env researchFilePath title blog
                 frontMatter)) /\
       (Git.opensFrontMatter (text g) = false ->
        Git.body (Git.doc file) = Git.newline (text g))).
Proof.
  split.
  - intros env draftId draftTitle researchContent blogPostId w w' Hdry Hfresh Hrun.
    destruct (notion_draft_success _ _ _ _ _ _ _ Hdry Hfresh Hrun)
      as (g & allBlocks & Hg & Hmd & Hdom & Hpage).
    eexists g, allBlocks, _. repeat (split; [eassumption|]). simpl.
    split; [reflexivity|]. split; [apply blogDraft_properties_status|].
    split; [apply blogDraft_properties_relation | reflexivity].
  - intros env researchFilePath title researchContent blog frontMatter w w' Hrun draftPath.
    destruct (git_draft_success _ _ _ _ _ _ _ _ Hrun)
      as (g & file & Hg & Hnone & Hdom & Hfile & Hdoc).
    fold draftPath in Hnone, Hdom, Hfile, Hdoc. simpl in Hdoc.
    exists g, file. repeat (split; [eassumption|]).
    pose proof (draftFrontMatter_status env researchFilePath title blog frontMatter) as Hs.
    pose proof (draftFrontMatter_source env researchFilePath title blog frontMatter) as Hsrc.
    rewrite Hdoc. case_bool_decide as Heq.
    + split; [apply stringify_lookup, lookup_union_Some_l, lookup_insert_eq|].
      split.
      { apply stringify_lookup. rewrite lookup_union_r.
        - by apply stringify_lookup.
        - unfold GitObserve.draftComplete. by simplify_map_eq. }
      split; [done|]. intros Ho.
      by rewrite stringify_plain_update.
    + split; [by apply stringify_lookup|]. split; [by apply stringify_lookup|].
      split; [done|]. intros Ho.
      by rewrite stringify_plain.
Qed.

(** The theorem at the drafting scenarios.  Notion: the run adds page-0
    and no other page.  Git: the run adds the draft file and no other
    file, and the body of the draft is Claude's text with a line feed. *)
Lemma C5_draft_creates_one_item_witness :
  (let env := Scenario.notion_env false (Responded (Some Scenario.bar)) in
   let w := Scenario.drafting_world in
   let w' := snd (DraftwriterCommand.processDraft_try env "brief-1" "Foo" "bar"
                    (Some "topic-1") w) in
   dom (Notion.pages w') = {[ "page-0" ]} ∪ dom (Notion.pages w)) /\
  (let env := Scenario.git_env false (Responded (Some Scenario.bar)) in
   let w := Cases.git_drafting_world in
   let w' := snd (GitDraftwriterCommand.processDraft_try (gm := Scenario.yaml) env
                    "content/research/foo.md" "Foo" "bar" "content/blog/foo.md"
                    Scenario.ready_frontMatter w) in
   exists file,
     dom (Git.files w') = {[ "content/drafts/Foo-draft.md" ]} ∪ dom (Git.files w) /\
     Git.files w' !! "content/drafts/Foo-draft.md" = Some file /\
     Git.data (Git.doc file) !! "status" = Some "Ready for Review" /\
     Git.body (Git.doc file) = "the draft" +:+ nl).
Proof.
  split.
  - intros env w w'.
    assert (DraftwriterCommand.processDraft_try env "brief-1" "Foo" "bar"
              (Some "topic-1") w = (Js.Ok tt, w')) as Hrun
      by (vm_compute; reflexivity).
    destruct (proj1 (C5_draft_creates_one_item (gm := Scenario.yaml)) env "brief-1" "Foo"
                "bar" (Some "topic-1") w w' eq_refl eq_refl Hrun)
      as (g & allBlocks & page & _ & _ & Hdom & _).
    exact Hdom.
  - intros env w w'.
    assert (GitDraftwriterCommand.processDraft_try (gm := Scenario.yaml) env
              "content/research/foo.md" "Foo" "bar" "content/blog/foo.md"
              Scenario.ready_frontMatter w = (Js.Ok tt, w')) as Hrun
      by (vm_compute; reflexivity).
    destruct (proj2 (C5_draft_creates_one_item (gm := Scenario.yaml)) env
                "content/research/foo.md" "Foo" "bar" "content/blog/foo.md"
                Scenario.ready_frontMatter w w' Hrun)
      as (g & file & Hg & _ & Hdom & Hfile & Hs & _ & _ & Hbody).
    injection Hg as <-.
    exists file. split; [exact Hdom|]. split; [exact Hfile|]. split; [exact Hs|].
    exact (Hbody eq_refl).
Defined.

End DraftCreatesOneItem.

(** ** The outcome of a successful research run *)

Section ResearchOutcome.
Import Provider.

(** A status write leaves the blocks of the page alone. *)
Lemma updateBlogPostStatus_blocks id status (w w1 : Notion.World) :
  Notion.updateBlogPostStatus id status w = (Js.Ok tt, w1) ->
  Notion.blocks <$> Notion.pages w1 !! id = Notion.blocks <$> Notion.pages w !! id.
Proof.
  unfold Notion.updateBlogPostStatus. rewrite try_catch_rethrow.
  destruct (pages_update_cases id {[ "Status" := status ]} w)
    as [(msg & _ & ->) | [(_ & _ & ->) | (p & Hf & Hp & ->)]]; try discriminate.
  intros [= <-]. simpl. by rewrite lookup_insert_eq, Hp.
Qed.

(** The properties of the research brief that [createResearchBrief]
    creates. *)
Lemma createResearchBrief_ok env blogPostId title markdown (w : Notion.World) newId w1 :
  Notion.new_page_id w <> blogPostId ->
  Notion.createResearchBrief env blogPostId title markdown w = (Js.Ok newId, w1) ->
  exists allBlocks,
    Notion.markdownToBlocks env markdown = inr allBlocks /\
    newId = Notion.new_page_id w /\
    Notion.status_of (Notion.pages w1) blogPostId = Some "Ready for Draft" /\
    (forall name, name <> "Status" ->
       Notion.property_of (Notion.pages w1) blogPostId name
         = Notion.property_of (Notion.pages w) blogPostId name) /\
    dom (Notion.pages w1) = {[ newId ]} ∪ dom (Notion.pages w) /\
    Notion.pages w1 !! newId =
      Some {| Notion.parent := Notion.draftsDbId env;
              Notion.properties :=
                <[ "Title" := title ]>
                (<[ "Status" := "Ready to Start" ]>
                 (<[ "Type" := "Research Brief" ]> {[ "Blog Posts" := blogPostId ]}));
              Notion.blocks :=
                Notion.heading_1 title :: Notion.Utilities.removeAllLinks allBlocks |} /\
    Notion.blocks <$> Notion.pages w1 !! blogPostId
      = Notion.blocks <$> Notion.pages w !! blogPostId.
Proof.
  intros Hne. unfold Notion.createResearchBrief. rewrite try_catch_rethrow. intros Hrun.
  apply bind_inv in Hrun as [(e & _ & [=]) | (allBlocks & w2 & Hconv & Hrun)].
  unfold Notion.convert in Hconv.
  destruct (Notion.markdownToBlocks env markdown) as [msg|bs] eqn:Hmd; [discriminate|].
  injection Hconv as <- <-.
  apply bind_inv in Hrun as [(e & _ & [=]) | (id & w3 & Hcreate & Hrun)].
  unfold Notion.pages_create, Notion.remote in Hcreate.
  destruct (Notion.next_fault w); [discriminate|]. injection Hcreate as <- <-.
  apply bind_inv in Hrun as [(e & _ & [=]) | ([] & w4 & Happ & Hrun)].
  unfold Notion.appendBlocksInBatches in Happ.
  eapply appendBlocksInBatches_from_ok in Happ; [|lia|simpl; apply lookup_insert_eq].
  destruct Happ as [_ Hp4]. simpl in Hp4. rewrite insert_insert_eq, drop_0 in Hp4.
  apply bind_inv in Hrun as [(e & _ & [=]) | ([] & w5 & Hu & Hrun)].
  injection Hrun as <- <-.
  pose proof Hu as Hframe. apply updateBlogPostStatus_frame in Hframe as (Hsome & _ & Hd & Hk).
  pose proof (updateBlogPostStatus_blocks _ _ _ _ Hu) as Hblocks.
  apply updateBlogPostStatus_ok in Hu as (_ & Hs & _ & _ & _ & _ & _ & Hprops).
  change (Notion.new_page_id (Notion.pop w)) with (Notion.new_page_id w) in *.
  change (Notion.pages (Notion.pop w)) with (Notion.pages w) in *.
  exists bs. split; [done|]. split; [done|]. split; [exact Hs|]. split.
  - intros name Hname. rewrite Hprops by done.
    unfold Notion.property_of. rewrite Hp4. by rewrite lookup_insert_ne.
  - split; [|split].
    + rewrite Hd, Hp4, dom_insert_L. done.
    + rewrite Hk by done. rewrite Hp4. apply lookup_insert_eq.
    + rewrite Hblocks, Hp4. by rewrite lookup_insert_ne.
Qed.

(** A successful run of the Notion research command. *)
Lemma notion_research_success env id title (w w' : Notion.World) :
  Notion.dryRun env = false ->
  Notion.pages w !! Notion.new_page_id w = None ->
  ResearchCommand.processTopic_try env id title w = (Js.Ok tt, w') ->
  exists research allBlocks,
    researchTopic_reply (Notion.perplexity env (Notion.productivityPrompt env title))
      = Js.Ok research /\
    Notion.markdownToBlocks env (Sources.enhance (content research) (citations research))
      = inr allBlocks /\
    Notion.status_of (Notion.pages w') id = Some "Ready for Draft" /\
    Notion.property_of (Notion.pages w') id "Error"
      = Notion.property_of (Notion.pages w) id "Error" /\
    dom (Notion.pages w') = {[ Notion.new_page_id w ]} ∪ dom (Notion.pages w) /\
    Notion.pages w' !! Notion.new_page_id w =
      Some {| Notion.parent := Notion.draftsDbId env;
              Notion.properties :=
                <[ "Title" := title ]>
                (<[ "Status" := "Ready to Start" ]>
                 (<[ "Type" := "Research Brief" ]> {[ "Blog Posts" := id ]}));
              Notion.blocks :=
                Notion.heading_1 title :: Notion.Utilities.removeAllLinks allBlocks |} /\
    Notion.blocks <$> Notion.pages w' !! id = Notion.blocks <$> Notion.pages w !! id.
Proof.
  intros Hdry Hfresh. unfold ResearchCommand.processTopic_try. rewrite Hdry. intros Hrun.
  apply bind_inv in Hrun as [(e & _ & [=]) | ([] & w1 & Hu1 & Hrun)].
  pose proof Hu1 as Hframe.
  pose proof (updateBlogPostStatus_blocks _ _ _ _ Hu1) as Hblocks1.
  apply updateBlogPostStatus_frame in Hframe as (Hsome & Hn1 & Hd1 & Hk1).
  apply updateBlogPostStatus_ok in Hu1 as (_ & _ & _ & _ & _ & _ & _ & Hprops1).
  apply bind_inv in Hrun as [(e & _ & [=]) | (research & w2 & Hres & Hrun)].
  rewrite researchTopic_eq in Hres.
  destruct (researchTopic_reply (Notion.perplexity env (Notion.productivityPrompt env title)))
    as [research'|e] eqn:Hreply; [|discriminate].
  injection Hres as <- <-.
  apply bind_inv in Hrun as [(e & _ & [=]) | ([] & w3 & Husage & Hrun)].
  destruct (usage research'); [|discriminate]. injection Husage as <-.
  apply bind_inv in Hrun as [(e & _ & [=]) | (newId & w4 & Hbrief & Hrun)].
  injection Hrun as <-.
  assert (Notion.new_page_id w <> id) as Hne.
  { intros <-. rewrite Hfresh in Hsome. by destruct Hsome. }
  apply createResearchBrief_ok in Hbrief
    as (allBlocks & Hmd & -> & Hs & Hprops & Hd & Hpage & Hblocks).
  2:{ change (Notion.new_page_id (Notion.record _ w1))
        with ("page-" +:+ pretty (Notion.next_id w1)).
      rewrite Hn1. exact Hne. }
  change (Notion.pages (Notion.record _ w1)) with (Notion.pages w1) in *.
  change (Notion.new_page_id (Notion.record _ w1))
    with ("page-" +:+ pretty (Notion.next_id w1)) in *.
  rewrite Hn1 in *. fold (Notion.new_page_id w) in *.
  exists research', allBlocks. split; [done|]. split; [done|]. split; [exact Hs|].
  split; [rewrite Hprops by done; by apply Hprops1|].
  split; [by rewrite Hd, Hd1|]. split; [exact Hpage|].
  by rewrite Hblocks.
Qed.

(** [writeFile] without a sha, when it returns, has put the content at
    the path. *)
Lemma writeFile_ok path content message (w w1 : Git.World) :
  Git.writeFile path content None message w = (Js.Ok tt, w1) ->
  exists s, Git.files w1 = <[path := {| Git.doc := content; Git.sha := s |}]> (Git.files w).
Proof.
  unfold Git.writeFile. intros Hrun.
  apply bind_inv in Hrun as [(e & _ & [=]) | (sha & w2 & Hl & Hrun)].
  rewrite try_catch_rethrow in Hrun.
  destruct (sha_lookup_cases path w) as [(Hl' & _) | (f & _ & _ & Hl')]; simpl in Hl';
    rewrite Hl' in Hl; injection Hl as <- <-.
  - destruct (repos_createOrUpdateFileContents_cases path content None message (Git.pop w))
      as [(e & Hc & _) | (ns & _ & Hc & _)]; rewrite Hc in Hrun; [discriminate|].
    injection Hrun as <-. by exists ns.
  - destruct (repos_createOrUpdateFileContents_cases path content (Some (Git.sha f)) message
                (Git.record (Git.Fetched path) (Git.pop w)))
      as [(e & Hc & _) | (ns & _ & Hc & _)]; rewrite Hc in Hrun; [discriminate|].
    injection Hrun as <-. by exists ns.
Qed.

(** A successful run of the Git research command: the file is what the
    last step makes of the file that [stringify] made of the research
    text and of the front matter the command was handed. *)
Lemma git_research_success {gm : Git.GrayMatter} env path title frontMatter
    (w w' : Git.World) :
  GitResearchCommand.processTopic_try env path title frontMatter w = (Js.Ok tt, w') ->
  exists research file,
    researchTopic_reply (Git.perplexity env (Git.productivityPrompt env title))
      = Js.Ok research /\
    Git.files w' !! path = Some file /\
    (let written :=
       Git.stringify (Sources.enhance (content research) (citations research))
         (<[ "date_researched" := Git.toLocaleDateString env ]>
          (<[ "status" := "Ready for Draft" ]> frontMatter)) in
     Git.doc file
       = Git.stringify (Git.body written)
           ({[ "status" := "Research Complete" ]} ∪ Git.data written)) /\
    dom (Git.files w') = dom (Git.files w).
Proof.
  unfold GitResearchCommand.processTopic_try. intros Hrun.
  apply bind_inv in Hrun as [(e & _ & [=]) | ([] & w1 & Hu1 & Hrun)].
  apply updateYamlFrontMatter_frame in Hu1 as (Hsome & Hd1 & _).
  apply bind_inv in Hrun as [(e & _ & [=]) | (research & w2 & Hres & Hrun)].
  rewrite git_researchTopic_eq in Hres.
  destruct (researchTopic_reply (Git.perplexity env (Git.productivityPrompt env title)))
    as [research'|e] eqn:Hreply; [|discriminate].
  injection Hres as <- <-.
  apply bind_inv in Hrun as [(e & _ & [=]) | ([] & w3 & Hw & Hrun)].
  apply writeFile_ok in Hw as (s & Hf3).
  change (Git.files (Git.record _ w1)) with (Git.files w1) in Hf3.
  apply updateYamlFrontMatter_inv in Hrun
    as [(e & fetched & [=] & _) | (f & _ & Hp & Hf & _)].
  rewrite Hf3, lookup_insert_eq in Hp. injection Hp as <-. simpl in Hf.
  replace (or_else (content research') "") with (content research') in Hf
    by (unfold or_else; by destruct (content research')).
  exists research'. eexists. split; [done|]. split.
  { rewrite Hf. apply lookup_insert_eq. }
  split; [reflexivity|].
  rewrite Hf, dom_insert_lookup_L by (rewrite Hf3, lookup_insert_eq; eauto).
  rewrite Hf3, dom_insert_lookup_L; [exact Hd1|].
  apply elem_of_dom. rewrite Hd1. by apply elem_of_dom.
Qed.

(** C4, as stated, fails on Scenario 1 in both commands: after a
    successful run the Notion topic is Ready for Draft but its own body is
    still empty (the research is the body of a new brief), and the Git
    file is left at Research Complete, with a body that is bar and a line
    feed.  Nor does success unset the error message: an item that failed
    before and was made Ready for Research again keeps the message of the
    old failure through a successful run, in Notion and in Git. *)
Lemma C4_counterexample :
  let notion :=
    ResearchCommand.processTopic_try
      (Scenario.notion_env false (Responded (Some Scenario.bar))) "topic-1" "Foo"
      (Scenario.notion_world "topic-1" Scenario.foo []) in
  let path := "content/topics/foo.md" in
  let git :=
    GitResearchCommand.processTopic_try (gm := Scenario.yaml)
      (Scenario.git_env false (Responded (Some Scenario.bar))) path "Foo"
      Scenario.foo_frontMatter (Scenario.git_world path Scenario.foo_file []) in
  let notion_again :=
    ResearchCommand.processTopic_try
      (Scenario.notion_env false (Responded (Some Scenario.bar))) "topic-1" "Foo"
      (Scenario.notion_world "topic-1" Cases.foo_again []) in
  let git_again :=
    GitResearchCommand.processTopic_try (gm := Scenario.yaml)
      (Scenario.git_env false (Responded (Some Scenario.bar))) path "Foo"
      Cases.foo_again_frontMatter (Scenario.git_world path Cases.foo_again_file []) in
  (fst notion = Js.Ok tt /\
   Notion.status_of (Notion.pages (snd notion)) "topic-1" = Some "Ready for Draft" /\
   Notion.blocks <$> Notion.pages (snd notion) !! "topic-1" = Some []) /\
  (fst git = Js.Ok tt /\
   (Git.body ∘ Git.doc) <$> Git.files (snd git) !! path = Some ("bar" +:+ nl) /\
   Git.status_of (Git.files (snd git)) path = Some "Research Complete") /\
  (fst notion_again = Js.Ok tt /\
   Notion.status_of (Notion.pages (snd notion_again)) "topic-1" = Some "Ready for Draft" /\
   Notion.property_of (Notion.pages (snd notion_again)) "topic-1" "Error"
     = Some "No response received from Perplexity API") /\
  (fst git_again = Js.Ok tt /\
   Git.field_of (Git.files (snd git_again)) path "error_message"
     = Some "No response received from Perplexity API").
Proof. vm_compute. auto 15. Qed.

(** C4, amended.  After a successful run of the Notion research command
    the topic's status is exactly Ready for Draft, its error message is
    what it was (none is written, none is removed) and so are its blocks;
    the research text with its Sources section is, converted to blocks,
    links removed, under a heading with the title, the body of one new
    research brief related to the topic.  After a successful run of the
    Git research command the topic file is what [stringify] makes of the
    research text with its Sources section and of the front matter the
    command was handed, with the status of the last step; when that text
    opens no front-matter block, the body of the file is the text closed
    by a line feed and the error message of the file is the one of the
    front matter handed over.  For content bar and no citation the text
    is bar, and the body bar with a line feed. *)
Theorem C4_research_success_outcome {gm : Git.GrayMatter} :
  (forall env id title (w w' : Notion.World),
     Notion.dryRun env = false ->
     Notion.pages w !! Notion.new_page_id w = None ->
     ResearchCommand.processTopic_try env id title w = (Js.Ok tt, w') ->
     exists research allBlocks brief,
       researchTopic_reply (Notion.perplexity env (Notion.productivityPrompt env title))
         = Js.Ok research /\
       Notion.markdownToBlocks env (Sources.enhance (content research) (citations research))
         = inr allBlocks /\
       Notion.status_of (Notion.pages w') id = Some "Ready for Draft" /\
       Notion.property_of (Notion.pages w') id "Error"
         = Notion.property_of (Notion.pages w) id "Error" /\
       Notion.blocks <$> Notion.pages w' !! id = Notion.blocks <$> Notion.pages w !! id /\
       dom (Notion.pages w') = {[ Notion.new_page_id w ]} ∪ dom (Notion.pages w) /\
       Notion.pages w' !! Notion.new_page_id w = Some brief /\
       Notion.properties brief !! "Blog Posts" = Some id /\
       Notion.blocks brief
         = Notion.heading_1 title :: Notion.Utilities.removeAllLinks allBlocks) /\
  (forall env path title frontMatter (w w' : Git.World),
     GitResearchCommand.processTopic_try env path title frontMatter w = (Js.Ok tt, w') ->
     exists research file,
       researchTopic_reply (Git.perplexity env (Git.productivityPrompt env title))
         = Js.Ok research /\
       Git.files w' !! path = Some file /\
       let text := Sources.enhance (content research) (citations research) in
       let written :=
         Git.stringify text
           (<[ "date_researched" := Git.toLocaleDateString env ]>
            (<[ "status" := "Ready for Draft" ]> frontMatter)) in
       Git.doc file
         = Git.stringify (Git.body written)
             ({[ "status" := "Research Complete" ]} ∪ Git.data written) /\
       (Git.opensFrontMatter text = false ->
        Git.body (Git.doc file) = Git.newline text /\
        Git.data (Git.doc file) !! "error_message" = frontMatter !! "error_message")) /\
  Sources.enhance "bar" (Some []) = "bar" /\
  Git.newline (Sources.enhance "bar" (Some [])) = "bar" +:+ nl.
Proof.
  split; [|split; [|split; reflexivity]].
  - intros env id title w w' Hdry Hfresh Hrun.
    destruct (notion_research_success _ _ _ _ _ Hdry Hfresh Hrun)
      as (research & allBlocks & Hr & Hmd & Hs & He & Hd & Hpage & Hblocks).
    eexists research, allBlocks, _. repeat (split; [eassumption|]). simpl.
    split; [by simplify_map_eq | reflexivity].
  - intros env path title frontMatter w w' Hrun.
    destruct (git_research_success _ _ _ _ _ _ Hrun)
      as (research & file & Hr & Hf & Hdoc & _).
    exists research, file. split; [done|]. split; [done|]. simpl in *.
    split; [exact Hdoc|]. intros Ho. rewrite Hdoc.
    rewrite stringify_plain_update by done. simpl.
    split; [done|].
    rewrite lookup_union_r by (by apply lookup_singleton_ne).
    by rewrite !lookup_insert_ne.
Qed.

(** The theorem at Scenario 1.  Notion: the topic ends Ready for Draft.
    Git: the file ends with the body bar and a line feed. *)
Lemma C4_research_success_outcome_witness :
  (let env := Scenario.notion_env false (Responded (Some Scenario.bar)) in
   let w := Scenario.notion_world "topic-1" Scenario.foo [] in
   Notion.status_of
     (Notion.pages (snd (ResearchCommand.processTopic_try env "topic-1" "Foo" w))) "topic-1"
     = Some "Ready for Draft") /\
  (let env := Scenario.git_env false (Responded (Some Scenario.bar)) in
   let w := Scenario.git_world "content/topics/foo.md" Scenario.foo_file [] in
   let w' := snd (GitResearchCommand.processTopic_try (gm := Scenario.yaml) env
                    "content/topics/foo.md" "Foo" Scenario.foo_frontMatter w) in
   exists file,
     Git.files w' !! "content/topics/foo.md" = Some file /\
     Git.body (Git.doc file) = "bar" +:+ nl /\
     Git.data (Git.doc file) !! "error_message" = None).
Proof.
  split.
  - intros env w.
    assert (ResearchCommand.processTopic_try env "topic-1" "Foo" w
            = (Js.Ok tt, snd (ResearchCommand.processTopic_try env "topic-1" "Foo" w)))
      as Hrun by (vm_compute; reflexivity).
    destruct (proj1 (C4_research_success_outcome (gm := Scenario.yaml)) env "topic-1" "Foo"
                w _ eq_refl eq_refl Hrun)
      as (research & allBlocks & brief & _ & _ & Hs & _).
    exact Hs.
  - intros env w w'.
    assert (GitResearchCommand.processTopic_try (gm := Scenario.yaml) env
              "content/topics/foo.md" "Foo" Scenario.foo_frontMatter w = (Js.Ok tt, w'))
      as Hrun by (vm_compute; reflexivity).
    destruct (proj1 (proj2 (C4_research_success_outcome (gm := Scenario.yaml))) env
                "content/topics/foo.md" "Foo" Scenario.foo_frontMatter w w' Hrun)
      as (research & file & Hr & Hfile & _ & Hplain).
    injection Hr as <-.
    destruct (Hplain eq_refl) as [Hbody Herr].
    exists file. split; [exact Hfile|]. split; [exact Hbody | exact Herr].
Defined.

End ResearchOutcome.

(** ** Links are removed, and nothing else *)

Section LinksFacts.
Import Notion Links.

Lemma Block_nested_ind (P : Block -> Prop) :
  (forall type rich_text children, Forall P children -> P (Blk type rich_text children)) ->
  forall block, P block.
Proof.
  intros HP. fix IH 1. intros [type rich_text children]. apply HP.
  induction children as [|c cs IHcs]; constructor; [apply IH | exact IHcs].
Qed.

Lemma removeLinksFromRichText_idem richTextArray :
  removeLinksFromRichText (removeLinksFromRichText richTextArray)
  = removeLinksFromRichText richTextArray.
Proof.
  unfold removeLinksFromRichText. rewrite map_map. apply map_ext. intros textObj. simpl.
  destruct (truthy_opt (href textObj)) eqn:Hhref; simpl; [reflexivity | by rewrite Hhref].
Qed.

Lemma removeLinksFromRichText_linkFree richTextArray :
  forallb (fun textObj => negb (truthy_opt (href textObj)))
    (removeLinksFromRichText richTextArray) = true.
Proof.
  induction richTextArray as [|t ts IH]; [reflexivity|]. simpl.
  destruct (truthy_opt (href t)) eqn:Hhref; simpl; [exact IH | by rewrite Hhref].
Qed.

Lemma forallb_map_Forall {A B} (f : A -> B) (p : B -> bool) (l : list A) :
  Forall (fun x => p (f x) = true) l -> forallb p (map f l) = true.
Proof. induction 1; simpl; [reflexivity|]. by rewrite H, IHForall. Qed.

Lemma removeLinksBlock_linkFree block : linkFree (removeLinksBlock block) = true.
Proof.
  induction block as [type rich_text children IH] using Block_nested_ind. simpl.
  apply andb_true_iff. split.
  - destruct (bool_decide (type ∈ richTextContainers)); [|reflexivity].
    destruct rich_text as [rt|]; [apply removeLinksFromRichText_linkFree | reflexivity].
  - by apply forallb_map_Forall.
Qed.

Lemma removeLinksBlock_withoutLinks block :
  withoutLinks (removeLinksBlock block) = withoutLinks block.
Proof.
  induction block as [type rich_text children IH] using Block_nested_ind. simpl.
  f_equal.
  - destruct (bool_decide (type ∈ richTextContainers)); [|reflexivity].
    destruct rich_text as [rt|]; [|reflexivity]. simpl.
    by rewrite removeLinksFromRichText_idem.
  - rewrite map_map. apply map_ext_Forall. exact IH.
Qed.

Lemma removeLinksBlock_idem block :
  removeLinksBlock (removeLinksBlock block) = removeLinksBlock block.
Proof.
  induction block as [type rich_text children IH] using Block_nested_ind. simpl.
  f_equal.
  - destruct (bool_decide (type ∈ richTextContainers)); [|reflexivity].
    destruct rich_text as [rt|]; [|reflexivity]. simpl.
    by rewrite removeLinksFromRichText_idem.
  - rewrite map_map. apply map_ext_Forall. exact IH.
Qed.

(** X1: after [removeAllLinks] no rich-text item of a container block
    (paragraph, the headings, list items, to_do, toggle, quote, callout)
    carries a link, at any nesting depth; the blocks are otherwise the
    same (same number, types, texts and nesting); and a block of another
    type without children is returned as it was, links included. *)
Theorem removeAllLinks_leaves_no_link (blocks : list Block) :
  forallb linkFree (removeAllLinks blocks) = true /\
  map withoutLinks (removeAllLinks blocks) = map withoutLinks blocks /\
  length (removeAllLinks blocks) = length blocks /\
  (forall type rich_text, type ∉ richTextContainers ->
     removeAllLinks [Blk type rich_text []] = [Blk type rich_text []]).
Proof.
  unfold removeAllLinks. repeat split.
  - apply forallb_map_Forall, Forall_forall. intros b _. apply removeLinksBlock_linkFree.
  - rewrite map_map. apply map_ext. intros b. apply removeLinksBlock_withoutLinks.
  - apply length_map.
  - intros type rich_text Hnot. simpl. by rewrite bool_decide_eq_false_2.
Qed.

(** X2: [removeAllLinks] is idempotent: a second pass changes nothing. *)
Theorem removeAllLinks_idempotent (blocks : list Block) :
  removeAllLinks (removeAllLinks blocks) = removeAllLinks blocks.
Proof.
  unfold removeAllLinks. rewrite map_map. apply map_ext. intros b.
  apply removeLinksBlock_idem.
Qed.

(** *** utilities/removeLinks.js *)

Lemma utilities_removeLinksBlock_noTextLink block :
  noTextLink (Utilities.removeLinksBlock block) = true.
Proof.
  induction block as [type rich_text children IH] using Block_nested_ind. simpl.
  apply andb_true_iff. split.
  - destruct rich_text as [items|]; [|reflexivity]. simpl.
    by apply forallb_map_Forall, Forall_forall.
  - by apply forallb_map_Forall.
Qed.

Lemma utilities_removeLinksBlock_plainOf block :
  plainOf (Utilities.removeLinksBlock block) = plainOf block.
Proof.
  induction block as [type rich_text children IH] using Block_nested_ind. simpl.
  f_equal.
  - destruct rich_text as [items|]; [|reflexivity]. simpl. by rewrite map_map.
  - rewrite map_map. apply map_ext_Forall. exact IH.
Qed.

Lemma utilities_removeLinksBlock_idem block :
  Utilities.removeLinksBlock (Utilities.removeLinksBlock block)
  = Utilities.removeLinksBlock block.
Proof.
  induction block as [type rich_text children IH] using Block_nested_ind. simpl.
  f_equal.
  - destruct rich_text as [items|]; [|reflexivity]. simpl. by rewrite map_map.
  - rewrite map_map. apply map_ext_Forall. exact IH.
Qed.

(** X27: the [removeAllLinks] that the Notion client imports
    (utilities/removeLinks.js) is not the one of the Devin actions.
    After it no rich-text item of a block, whatever the type of the
    block and at any nesting depth, carries a [text.link]; the blocks
    are otherwise the same (types, texts, [href]s, nesting); a second
    pass changes nothing.  On a paragraph whose item has a link object
    and no [href], this function removes the link and the function of
    the Devin actions leaves the block as it is. *)
Theorem utilities_removeAllLinks_removes_text_links (blocks : list Block) :
  forallb noTextLink (Utilities.removeAllLinks blocks) = true /\
  map plainOf (Utilities.removeAllLinks blocks) = map plainOf blocks /\
  Utilities.removeAllLinks (Utilities.removeAllLinks blocks)
    = Utilities.removeAllLinks blocks /\
  (forall text url,
     let linked :=
       Blk "paragraph" (Some [{| plain := text; href := None; link := Some url |}]) [] in
     Utilities.removeAllLinks [linked]
       = [Blk "paragraph" (Some [{| plain := text; href := None; link := None |}]) []] /\
     removeAllLinks [linked] = [linked]).
Proof.
  unfold Utilities.removeAllLinks. repeat split.
  - apply forallb_map_Forall, Forall_forall. intros b _.
    apply utilities_removeLinksBlock_noTextLink.
  - rewrite map_map. apply map_ext. intros b. apply utilities_removeLinksBlock_plainOf.
  - rewrite map_map. apply map_ext. intros b. apply utilities_removeLinksBlock_idem.
Qed.

End LinksFacts.

(** ** Appending in batches *)

Section BatchFacts.
Import Notion.

Lemma batchCount_0 : batchCount 0 = 0.
Proof. reflexivity. Qed.

Lemma batchCount_S d : 0 < d -> batchCount d = S (batchCount (d - 100)).
Proof.
  intros Hd. unfold batchCount.
  destruct (Nat.le_gt_cases d 100) as [Hle|Hgt].
  - replace (d - 100) with 0 by lia.
    replace (d + 99) with (d - 1 + 1 * 100) by lia.
    rewrite Nat.div_add by lia. rewrite Nat.div_small by lia. reflexivity.
  - replace (d + 99) with (d - 100 + 99 + 1 * 100) by lia.
    rewrite Nat.div_add by lia. lia.
Qed.

Lemma page_eta (p : Page) :
  {| parent := parent p; properties := properties p; blocks := Notion.blocks p |} = p.
Proof. by destruct p. Qed.

(** The next batch and what is left after it make up what was left. *)
Lemma batch_split (blocks : list Block) i :
  i < length blocks ->
  take (Nat.min (i + 100) (length blocks) - i) (drop i blocks) ++ drop (i + 100) blocks
  = drop i blocks /\
  0 < length (take (Nat.min (i + 100) (length blocks) - i) (drop i blocks)) <= 100.
Proof.
  intros Hlt. rewrite length_take, length_drop.
  destruct (Nat.le_gt_cases (i + 100) (length blocks)) as [Hle|Hgt].
  - rewrite Nat.min_l by lia. replace (i + 100 - i) with 100 by lia.
    split; [|lia]. rewrite <- (drop_drop blocks 100 i). apply take_drop.
  - rewrite Nat.min_r by lia. split; [|lia].
    rewrite (drop_ge blocks (i + 100)) by lia.
    rewrite app_nil_r. apply take_ge. rewrite length_drop. lia.
Qed.

Lemma blocks_children_append_accepted block_id children w p :
  next_fault w = None -> pages w !! block_id = Some p ->
  blocks_children_append block_id children w =
    (Js.Ok tt,
     record (Appended block_id (length children))
       (set_pages (insert block_id
          {| parent := parent p; properties := properties p;
             blocks := Notion.blocks p ++ children |}) (pop w))).
Proof.
  intros Hf Hp. unfold blocks_children_append, remote. rewrite Hf.
  change (pages (pop w)) with (pages w). by rewrite Hp.
Qed.

Lemma blocks_children_append_rejected block_id children w msg :
  next_fault w = Some msg ->
  blocks_children_append block_id children w = (Js.Throw (new_Error msg), pop w).
Proof. intros Hf. unfold blocks_children_append, remote. by rewrite Hf. Qed.

Lemma next_fault_lookup w : faults w !! 0 = Some (next_fault w) \/ (faults w = [] /\ next_fault w = None).
Proof. unfold next_fault. destruct (faults w); auto. Qed.

Lemma appendBlocksInBatches_from_accepted blockId (blocks : list Block) :
  forall fuel i w p,
    length blocks - i <= fuel * 100 ->
    pages w !! blockId = Some p ->
    Forall (fun fault => fault = None)
      (take (batchCount (length blocks - i)) (faults w)) ->
    exists w1 batches,
      appendBlocksInBatches_from fuel blockId blocks 100 i w = (Js.Ok tt, w1) /\
      pages w1 = <[blockId := {| parent := parent p; properties := properties p;
                                 blocks := Notion.blocks p ++ drop i blocks |}]> (pages w) /\
      trace w1 = trace w ++ map (fun batch => Appended blockId (length batch)) batches /\
      concat batches = drop i blocks /\
      Forall (fun batch => 0 < length batch <= 100) batches /\
      length batches = batchCount (length blocks - i) /\
      faults w1 = drop (length batches) (faults w) /\
      next_id w1 = next_id w.
Proof.
  induction fuel as [|fuel IH]; intros i w p Hfuel Hp Hacc; simpl.
  - exists w, []. simpl. rewrite app_nil_r.
    replace (length blocks - i) with 0 by lia.
    rewrite drop_ge by lia. rewrite app_nil_r, page_eta, insert_id by done.
    repeat split; auto.
  - destruct (Nat.ltb_spec i (length blocks)) as [Hlt|Hge].
    + rewrite batchCount_S in Hacc by lia.
      assert (next_fault w = None /\
              Forall (fun fault => fault = None)
                (take (batchCount (length blocks - (i + 100))) (faults (pop w))))
        as [Hf Hacc'].
      { unfold next_fault, pop. simpl. destruct (faults w) as [|fault rest]; simpl in *.
        - rewrite take_nil. auto.
        - apply Forall_cons in Hacc as [-> Hacc].
          replace (length blocks - (i + 100)) with (length blocks - i - 100) by lia. auto. }
      destruct (batch_split blocks i Hlt) as [Hsplit Hlen].
      set (batch := take (Nat.min (i + 100) (length blocks) - i) (drop i blocks)) in *.
      rewrite (bind_ok _ _ _ _ _ (blocks_children_append_accepted blockId batch w p Hf Hp)).
      edestruct (IH (i + 100)) as (w1 & batches & -> & Hpages & Htrace & Hcat & Hall & Hn & Hfs & Hid);
        [| |exact Hacc'|]; [lia | simpl; apply lookup_insert_eq |].
      exists w1, (batch :: batches). split; [reflexivity|].
      simpl in Hpages, Htrace, Hfs, Hid |- *.
      split; [|split; [|split; [|split; [|split; [|split]]]]].
      * rewrite Hpages, insert_insert_eq, <- app_assoc, Hsplit. reflexivity.
      * rewrite Htrace, <- app_assoc. reflexivity.
      * by rewrite Hcat.
      * by constructor.
      * rewrite Hn, (batchCount_S (length blocks - i)) by lia.
        f_equal. f_equal. lia.
      * rewrite Hfs. destruct (faults w); simpl; [by rewrite drop_nil | reflexivity].
      * exact Hid.
    + exists w, []. simpl. rewrite app_nil_r.
      replace (length blocks - i) with 0 by lia.
      rewrite drop_ge by lia. rewrite app_nil_r, page_eta, insert_id by done.
      repeat split; auto.
Qed.

Lemma appendBlocksInBatches_from_throw blockId (blocks : list Block) :
  forall fuel i w p e w1,
    pages w !! blockId = Some p ->
    appendBlocksInBatches_from fuel blockId blocks 100 i w = (Js.Throw e, w1) ->
    exists k msg,
      faults w !! k = Some (Some msg) /\ e = new_Error msg /\
      Forall (fun fault => fault = None) (take k (faults w)) /\
      i + k * 100 < length blocks /\
      pages w1 = <[blockId := {| parent := parent p; properties := properties p;
                                 blocks := Notion.blocks p ++ take (k * 100) (drop i blocks) |}]>
                   (pages w).
Proof.
  induction fuel as [|fuel IH]; intros i w p e w1 Hp; simpl; [discriminate|].
  destruct (Nat.ltb_spec i (length blocks)) as [Hlt|Hge]; [|discriminate].
  destruct (batch_split blocks i Hlt) as [Hsplit Hlen].
  set (batch := take (Nat.min (i + 100) (length blocks) - i) (drop i blocks)) in *.
  destruct (next_fault w) as [msg|] eqn:Hf.
  - rewrite (bind_throw _ _ _ _ _ (blocks_children_append_rejected blockId batch w msg Hf)).
    intros [= <- <-]. exists 0, msg. simpl.
    rewrite app_nil_r, page_eta, insert_id by done.
    repeat split; auto; [|lia].
    unfold next_fault in Hf. destruct (faults w); [discriminate | by subst].
  - rewrite (bind_ok _ _ _ _ _ (blocks_children_append_accepted blockId batch w p Hf Hp)).
    intros Hrun. eapply IH in Hrun; [|simpl; apply lookup_insert_eq].
    destruct Hrun as (k & msg & Hk & -> & Hacc & Hbound & Hpages).
    simpl in Hk, Hacc, Hpages.
    exists (S k), msg.
    assert (batch = take 100 (drop i blocks)) as Hbatch.
    { unfold batch. f_equal. lia. }
    unfold next_fault in Hf. destruct (faults w) as [|fault rest]; [done|]. subst fault.
    split; [exact Hk|]. split; [reflexivity|]. split; [by constructor|].
    split; [lia|].
    rewrite Hpages, insert_insert_eq, <- app_assoc, Hbatch.
    do 3 f_equal. change (S k * 100) with (100 + k * 100).
    rewrite <- take_take_drop. by rewrite drop_drop.
Qed.

(** X3: when Notion takes the calls, [appendBlocksInBatches] returns
    having put all the blocks, in order, after those the page had; it
    sends them in consecutive non-empty batches of at most 100, one call
    per batch, ceil(n/100) calls in all, so none for an empty list. *)
Theorem appendBlocksInBatches_appends_all blockId (blocks : list Block) w p :
  pages w !! blockId = Some p ->
  Forall (fun fault => fault = None) (take (batchCount (length blocks)) (faults w)) ->
  exists w1 batches,
    appendBlocksInBatches blockId blocks w = (Js.Ok tt, w1) /\
    pages w1 = <[blockId := {| parent := parent p; properties := properties p;
                               blocks := Notion.blocks p ++ blocks |}]> (pages w) /\
    new_events w w1 = map (fun batch => Appended blockId (length batch)) batches /\
    concat batches = blocks /\
    Forall (fun batch => 0 < length batch <= 100) batches /\
    length batches = batchCount (length blocks) /\
    faults w1 = drop (batchCount (length blocks)) (faults w).
Proof.
  intros Hp Hacc. unfold appendBlocksInBatches.
  destruct (appendBlocksInBatches_from_accepted blockId blocks (length blocks) 0 w p)
    as (w1 & batches & Hrun & Hpages & Htrace & Hcat & Hall & Hn & Hfs & _);
    [lia | done | by rewrite Nat.sub_0_r |].
  rewrite Nat.sub_0_r in Hn. rewrite drop_0 in Hpages, Hcat.
  exists w1, batches.
  split; [done|]. split; [done|]. split; [|split; [done|]; split; [done|]; split; [done|]].
  - unfold new_events. by rewrite Htrace, drop_app_length.
  - by rewrite <- Hn.
Qed.

Lemma appendBlocksInBatches_appends_all_witness :
  let b := Blk "paragraph" None [] in
  let w := Scenario.notion_world "brief-1" Scenario.brief [] in
  exists w1 batches,
    appendBlocksInBatches "brief-1" [b; b] w = (Js.Ok tt, w1) /\
    pages w1 = <[ "brief-1" := {| parent := "drafts";
                                  properties := properties Scenario.brief;
                                  blocks := [b; b] |}]> (pages w) /\
    new_events w w1 = map (fun batch => Appended "brief-1" (length batch)) batches /\
    concat batches = [b; b] /\
    Forall (fun batch => 0 < length batch <= 100) batches /\
    length batches = 1 /\
    faults w1 = [].
Proof.
  intros b w.
  apply (appendBlocksInBatches_appends_all "brief-1" [b; b] w Scenario.brief).
  - reflexivity.
  - constructor.
Defined.

(** X4: [appendBlocksInBatches] does not roll back: when it throws, the
    page holds, after the blocks it had, the first k whole batches of 100
    (k the number of calls Notion took before rejecting one), no other
    page has changed, and the error is the rejection itself. *)
Theorem appendBlocksInBatches_keeps_whole_batches blockId (blocks : list Block) w p e w1 :
  pages w !! blockId = Some p ->
  appendBlocksInBatches blockId blocks w = (Js.Throw e, w1) ->
  exists k msg,
    faults w !! k = Some (Some msg) /\ e = new_Error msg /\
    k * 100 < length blocks /\
    pages w1 !! blockId =
      Some {| parent := parent p; properties := properties p;
              blocks := Notion.blocks p ++ take (k * 100) blocks |} /\
    (forall j, j <> blockId -> pages w1 !! j = pages w !! j).
Proof.
  intros Hp Hrun. unfold appendBlocksInBatches in Hrun.
  eapply appendBlocksInBatches_from_throw in Hrun as (k & msg & Hk & -> & _ & Hb & Hpages);
    [|exact Hp].
  rewrite drop_0 in Hpages. exists k, msg. rewrite Hpages.
  repeat split; auto.
  - apply lookup_insert_eq.
  - intros j Hj. by rewrite lookup_insert_ne.
Qed.

Lemma appendBlocksInBatches_keeps_whole_batches_witness :
  let b := Blk "paragraph" None [] in
  let w := Scenario.notion_world "brief-1" Scenario.brief [Some "rate limited"] in
  exists k msg,
    faults w !! k = Some (Some msg) /\ new_Error "rate limited" = new_Error msg /\
    k * 100 < 1 /\
    pages (pop w) !! "brief-1" =
      Some {| parent := "drafts"; properties := properties Scenario.brief;
              blocks := take (k * 100) [b] |} /\
    (forall j, j <> "brief-1" -> pages (pop w) !! j = pages w !! j).
Proof.
  intros b w.
  apply (appendBlocksInBatches_keeps_whole_batches "brief-1" [b] w Scenario.brief
           (new_Error "rate limited") (pop w)); reflexivity.
Defined.

(** X5: [updateBlogPostError] never throws.  It makes one call; it
    leaves every other page, and every property of the page other than
    Error and Status, as they were; and with [setErrorStatus] false it
    leaves Status as it was too. *)
Theorem updateBlogPostError_never_throws blogPostId errorMessage setErrorStatus w :
  exists w1,
    updateBlogPostError blogPostId errorMessage setErrorStatus w = (Js.Ok tt, w1) /\
    faults w1 = tail (faults w) /\
    (forall j, j <> blogPostId -> pages w1 !! j = pages w !! j) /\
    (forall name, name <> "Error" -> name <> "Status" ->
       property_of (pages w1) blogPostId name = property_of (pages w) blogPostId name) /\
    (setErrorStatus = false ->
       status_of (pages w1) blogPostId = status_of (pages w) blogPostId) /\
    (next_fault w = None -> is_Some (pages w !! blogPostId) ->
       property_of (pages w1) blogPostId "Error" = Some errorMessage /\
       (setErrorStatus = true -> status_of (pages w1) blogPostId = Some "Error")).
Proof.
  unfold updateBlogPostError.
  match goal with |- context [pages_update blogPostId ?props] => set (props' := props) end.
  destruct (pages_update_cases blogPostId props' w)
    as [(m & Hf & Hu) | [(Hf & Hp & Hu) | (p & Hf & Hp & Hu)]].
  - rewrite (try_catch_throw _ _ _ _ _ Hu). eexists. split; [reflexivity|].
    split; [reflexivity|]. split; [done|]. split; [done|]. split; [done|].
    intros Hn. congruence.
  - rewrite (try_catch_throw _ _ _ _ _ Hu). eexists. split; [reflexivity|].
    split; [reflexivity|]. split; [done|]. split; [done|]. split; [done|].
    intros _ [? ?]. congruence.
  - rewrite (try_catch_ok _ _ _ _ _ Hu). eexists. split; [reflexivity|].
    unfold status_of, property_of. simpl. rewrite Hp. simpl.
    split; [reflexivity|]. split; [intros j Hj; by rewrite lookup_insert_ne|].
    rewrite lookup_insert_eq. simpl.
    assert (forall name, name <> "Error" -> (name <> "Status" \/ setErrorStatus = false) ->
              (props' ∪ properties p) !! name = properties p !! name) as Hother.
    { intros name H1 H2. apply lookup_union_r. unfold props'.
      destruct setErrorStatus.
      - destruct H2 as [H2|]; [|done]. by rewrite lookup_insert_ne, lookup_singleton_ne.
      - by rewrite lookup_singleton_ne. }
    split; [intros name H1 H2; apply Hother; auto|].
    split; [intros ->; apply Hother; [done | by right]|].
    intros _ _. split.
    + apply lookup_union_Some_l. unfold props'.
      destruct setErrorStatus; [by rewrite lookup_insert_ne, lookup_singleton_eq|].
      apply lookup_singleton_eq.
    + intros ->. apply lookup_union_Some_l. apply lookup_insert_eq.
Qed.

End BatchFacts.

(** ** The Notion commands as whole runs *)

Section NotionRuns.
Import Provider Notion Observe.

Lemma providerCalls_app evs evs' :
  providerCalls (evs ++ evs') = providerCalls evs + providerCalls evs'.
Proof. induction evs as [|ev evs IH]; simpl; [reflexivity|]. rewrite IH. lia. Qed.

Lemma providerCalls_quiet evs : Forall quiet evs -> providerCalls evs = 0.
Proof.
  induction 1 as [|ev evs Hev _ IH]; [reflexivity|]. simpl. rewrite IH.
  by destruct ev.
Qed.

Lemma returns_for_of {W A} (xs : list A) (body : A -> Js.M W unit) :
  (forall x, returns (body x)) -> returns (Js.for_of xs body).
Proof.
  intros Hb. induction xs as [|x xs IH]; intros w; simpl; [by exists tt, w|].
  destruct (Hb x w) as ([] & w1 & Hx). rewrite (bind_ok _ _ _ _ _ Hx). apply IH.
Qed.

Lemma new_events_emits {A} ok (m : Js.M World A) w :
  Js.emits ok m -> Forall ok (new_events w (snd (m w))).
Proof.
  intros Hm. destruct (Hm w) as (evs & Ht & Hok).
  rewrite !trace_of_trace in Ht. unfold new_events. by rewrite Ht, drop_app_length.
Qed.

(** *** commands/research.js *)

Lemma processTopic_returns env id title : returns (ResearchCommand.processTopic env id title).
Proof.
  intros w. unfold ResearchCommand.processTopic, Js.try_catch.
  destruct (ResearchCommand.processTopic_try env id title w) as [[[]|e] w1]; [by eauto|].
  destruct (updateBlogPostError_cases id (ResearchCommand.errorMessage e) w1) as (w' & -> & _).
  eauto.
Qed.

Lemma execute_topic_returns env topic : returns (ResearchCommand.execute_topic env topic).
Proof.
  intros w. unfold ResearchCommand.execute_topic.
  destruct (truthy_opt _); [apply processTopic_returns | by eexists _, _].
Qed.

Lemma unexited_updateBlogPostStatus id status :
  Js.emits unexited (updateBlogPostStatus id status).
Proof.
  apply emits_try_catch; [by apply emits_pages_update | intros; apply emits_throw].
Qed.

Lemma unexited_updateBlogPostError id msg b :
  Js.emits unexited (updateBlogPostError id msg b).
Proof.
  apply emits_try_catch; [by apply emits_pages_update | intros; apply emits_ret].
Qed.

Lemma unexited_researchTopic env prompt : Js.emits unexited (researchTopic env prompt).
Proof.
  apply emits_bind; [apply emits_get | intros w].
  apply emits_bind; [by apply emits_log | intros _; apply emits_lift].
Qed.

Lemma unexited_generateContent env userPrompt systemPrompt :
  Js.emits unexited (generateContent env userPrompt systemPrompt).
Proof.
  apply emits_bind; [apply emits_get | intros w].
  apply emits_bind; [by apply emits_log | intros _; apply emits_lift].
Qed.

Lemma unexited_createResearchBrief env id title markdown :
  Js.emits unexited (createResearchBrief env id title markdown).
Proof.
  apply emits_try_catch; [|intros; apply emits_throw].
  apply emits_bind; [apply emits_convert | intros bs].
  apply emits_bind; [by apply emits_pages_create | intros newId].
  apply emits_bind; [by apply emits_appendBlocksInBatches_from | intros _].
  apply emits_bind; [apply unexited_updateBlogPostStatus | intros _; apply emits_ret].
Qed.

Lemma unexited_processTopic env id title :
  Js.emits unexited (ResearchCommand.processTopic env id title).
Proof.
  apply emits_try_catch; [|intros; apply unexited_updateBlogPostError].
  apply emits_bind; [apply unexited_updateBlogPostStatus | intros _].
  destruct (dryRun env); [apply emits_ret|].
  apply emits_bind; [apply unexited_researchTopic | intros research].
  apply emits_bind; [destruct (usage research); [apply emits_ret | apply emits_throw] | intros _].
  apply emits_bind; [apply unexited_createResearchBrief | intros _; apply emits_ret].
Qed.

Lemma unexited_execute_topic env topic :
  Js.emits unexited (ResearchCommand.execute_topic env topic).
Proof.
  unfold ResearchCommand.execute_topic.
  destruct (truthy_opt _); [apply unexited_processTopic | by apply emits_log].
Qed.

Lemma databases_query_rejected database_id equals w msg :
  next_fault w = Some msg ->
  databases_query database_id equals w = (Js.Throw (new_Error msg), pop w).
Proof. intros Hf. unfold databases_query, remote. by rewrite Hf. Qed.

Lemma databases_query_accepted database_id equals w :
  next_fault w = None ->
  databases_query database_id equals w =
    (Js.Ok (filter (fun e => matches database_id equals e) (map_to_list (pages w))),
     record (Queried database_id equals) (pop w)).
Proof. intros Hf. unfold databases_query, remote. by rewrite Hf. Qed.

(** X6: [ResearchCommand.execute] never throws, and it reaches
    [process.exit(1)] only when listing the topics fails, in which case
    nothing else has happened; once the list is in hand no failure of a
    topic stops the run. *)
Theorem ResearchCommand_execute_exits_only_on_listing env (w : World) :
  exists w1,
    ResearchCommand.execute env w = (Js.Ok tt, w1) /\
    (truthy_opt (option_id env) = false -> is_Some (next_fault w) ->
       new_events w w1 = [Exited 1] /\ pages w1 = pages w) /\
    (truthy_opt (option_id env) = true \/ next_fault w = None ->
       Forall unexited (new_events w w1)).
Proof.
  unfold ResearchCommand.execute.
  destruct (truthy_opt (option_id env)) eqn:Hid.
  { exists w. split; [reflexivity|]. split; [discriminate|].
    intros _. unfold new_events. by rewrite drop_all. }
  unfold getBlogPostsReadyForResearch.
  destruct (next_fault w) as [msg|] eqn:Hf.
  - rewrite (try_catch_bind_throw _ _ _ _ _ _
               (databases_query_rejected (blogPostsDbId env) "Ready for Research" w msg Hf)).
    eexists. split; [reflexivity|]. split.
    + intros _ _. unfold new_events. simpl. by rewrite drop_app_length.
    + intros [?|?]; discriminate.
  - rewrite (try_catch_bind_ok _ _ _ _ _ _
               (databases_query_accepted (blogPostsDbId env) "Ready for Research" w Hf)).
    match goal with |- context [Js.try_catch (Js.for_of ?xs ?body) _ ?w0] =>
      destruct (returns_for_of xs body (execute_topic_returns env) w0) as ([] & w1 & Hrun);
      destruct (emits_for_of unexited xs body (unexited_execute_topic env) w0)
        as (evs & Hevs & Hok)
    end.
    rewrite (try_catch_ok _ _ _ _ _ Hrun). rewrite Hrun in Hevs.
    exists w1. split; [reflexivity|]. split.
    + intros _ [? ?]. discriminate.
    + intros _. rewrite !trace_of_trace in Hevs.
      assert (trace w1 = trace w ++ Queried (blogPostsDbId env) "Ready for Research" :: evs)
        as Ht.
      { simpl in Hevs. rewrite Hevs, trace_of_record. by rewrite <- app_assoc. }
      unfold new_events. rewrite Ht, drop_app_length.
      by constructor.
Qed.

(** *** Counting provider calls *)

Lemma calls_quiet {A} (m : Js.M World A) : Js.emits quiet m -> calls_at_most 0 m.
Proof.
  intros Hm w. destruct (Hm w) as (evs & Ht & Hq). exists evs.
  split; [exact Ht|]. by rewrite providerCalls_quiet.
Qed.

Lemma calls_mono {A} n n' (m : Js.M World A) :
  n <= n' -> calls_at_most n m -> calls_at_most n' m.
Proof. intros Hn Hm w. destruct (Hm w) as (evs & Ht & Hc). exists evs. split; [done | lia]. Qed.

Lemma calls_bind {A B} n n' (m : Js.M World A) (k : A -> Js.M World B) :
  calls_at_most n m -> (forall a, calls_at_most n' (k a)) ->
  calls_at_most (n + n') (Js.bind m k).
Proof.
  intros Hm Hk w. unfold Js.bind.
  destruct (Hm w) as (evs & Ht & Hc).
  destruct (m w) as [[a|e] w1]; simpl in *.
  - destruct (Hk a w1) as (evs' & Ht' & Hc').
    exists (evs ++ evs'). rewrite Ht', Ht, app_assoc, providerCalls_app. split; [done | lia].
  - exists evs. split; [done | lia].
Qed.

Lemma calls_try_catch {A} n n' (m : Js.M World A) (h : Js.Error -> Js.M World A) :
  calls_at_most n m -> (forall e, calls_at_most n' (h e)) ->
  calls_at_most (n + n') (Js.try_catch m h).
Proof.
  intros Hm Hh w. unfold Js.try_catch.
  destruct (Hm w) as (evs & Ht & Hc).
  destruct (m w) as [[a|e] w1]; simpl in *.
  - exists evs. split; [done | lia].
  - destruct (Hh e w1) as (evs' & Ht' & Hc').
    exists (evs ++ evs'). rewrite Ht', Ht, app_assoc, providerCalls_app. split; [done | lia].
Qed.

Lemma calls_for_of {A} (xs : list A) (body : A -> Js.M World unit) :
  (forall x, calls_at_most 1 (body x)) -> calls_at_most (length xs) (Js.for_of xs body).
Proof.
  intros Hb. induction xs as [|x xs IH]; simpl.
  - apply calls_quiet, emits_ret.
  - apply (calls_bind 1 (length xs)); auto.
Qed.

Lemma calls_new_events {A} n (m : Js.M World A) w :
  calls_at_most n m -> providerCalls (new_events w (snd (m w))) <= n.
Proof.
  intros Hm. destruct (Hm w) as (evs & Ht & Hc).
  unfold new_events. by rewrite Ht, drop_app_length.
Qed.

Lemma calls_processTopic env id title :
  calls_at_most 1 (ResearchCommand.processTopic env id title).
Proof.
  intros w. destruct (ResearchCommand_processTopic_events env id title w)
    as (evs & Ht & [[Hq _] | (seen & rest & -> & _ & Hq)]); exists evs || eexists;
    (split; [exact Ht|]).
  - rewrite providerCalls_quiet by done. lia.
  - simpl. rewrite providerCalls_quiet by done. lia.
Qed.

Lemma calls_execute_topic env topic :
  calls_at_most 1 (ResearchCommand.execute_topic env topic).
Proof.
  unfold ResearchCommand.execute_topic.
  destruct (truthy_opt _); [apply calls_processTopic|].
  eapply calls_mono; [|apply calls_quiet, emits_log]; [lia | exact I].
Qed.

(** X7: a run of [ResearchCommand.execute] calls the research provider at
    most once per listed topic, so at most once in all under
    [--single-item]. *)
Theorem ResearchCommand_execute_provider_calls env (w : World) :
  let ready := filter (fun e => matches (blogPostsDbId env) "Ready for Research" e)
                 (map_to_list (pages w)) in
  providerCalls (new_events w (snd (ResearchCommand.execute env w)))
    <= if singleItem env then Nat.min 1 (length ready) else length ready.
Proof.
  intros ready. unfold ResearchCommand.execute.
  destruct (truthy_opt (option_id env)).
  { unfold new_events. simpl. rewrite drop_all. simpl. lia. }
  unfold getBlogPostsReadyForResearch.
  destruct (next_fault w) as [msg|] eqn:Hf.
  - rewrite (try_catch_bind_throw _ _ _ _ _ _
               (databases_query_rejected (blogPostsDbId env) "Ready for Research" w msg Hf)).
    unfold new_events. simpl. rewrite drop_app_length. simpl. lia.
  - rewrite (try_catch_bind_ok _ _ _ _ _ _
               (databases_query_accepted (blogPostsDbId env) "Ready for Research" w Hf)).
    fold ready.
    set (topicsToProcess := if singleItem env then take 1 ready else ready).
    set (w0 := record (Queried (blogPostsDbId env) "Ready for Research") (pop w)).
    destruct (calls_try_catch (length topicsToProcess) 0
                (Js.for_of topicsToProcess (ResearchCommand.execute_topic env))
                (fun error => log (Exited 1))
                (calls_for_of _ _ (calls_execute_topic env))
                (fun e => calls_quiet _ (emits_log quiet (Exited 1) I)) w0)
      as (evs & Ht & Hc).
    unfold new_events. rewrite Ht. unfold w0. simpl.
    rewrite <- app_assoc, drop_app_length. simpl.
    etransitivity; [exact Hc|]. unfold topicsToProcess.
    destruct (singleItem env); rewrite ?length_take;
      generalize (length ready); intros [|n]; simpl; lia.
Qed.

End NotionRuns.

(** ** commands/draftwriter.js *)

Section DraftwriterRuns.
Import Provider Notion NotionClient Observe.

Lemma next_fault_nil w : faults w = [] -> next_fault w = None.
Proof. unfold next_fault. by intros ->. Qed.

Lemma updateBlogPostStatus_accepted id status w :
  next_fault w = None -> is_Some (pages w !! id) ->
  exists w1,
    updateBlogPostStatus id status w = (Js.Ok tt, w1) /\
    faults w1 = tail (faults w) /\
    trace w1 = trace w ++ [Updated id {[ "Status" := status ]}] /\
    status_of (pages w1) id = Some status /\
    (forall j, j <> id -> pages w1 !! j = pages w !! j) /\
    dom (pages w1) = dom (pages w).
Proof.
  intros Hf [p Hp]. unfold updateBlogPostStatus.
  destruct (pages_update_cases id {[ "Status" := status ]} w)
    as [(m & Hf' & _) | [(_ & Hp' & _) | (p' & _ & _ & Hu)]]; [congruence..|].
  rewrite try_catch_rethrow, Hu. eexists. split; [reflexivity|]. simpl.
  split; [done|]. split; [done|]. split; [|split].
  - unfold status_of, property_of. rewrite lookup_insert_eq. simpl.
    apply lookup_union_Some_l, lookup_singleton_eq.
  - intros j Hj. by rewrite lookup_insert_ne.
  - apply dom_insert_lookup_L. eauto.
Qed.

Lemma updateBlogPostError_accepted id msg w :
  next_fault w = None -> is_Some (pages w !! id) ->
  exists w1,
    updateBlogPostError id msg true w = (Js.Ok tt, w1) /\
    faults w1 = tail (faults w) /\
    trace w1 = trace w ++ [Updated id (<[ "Status" := "Error" ]> {[ "Error" := msg ]})] /\
    status_of (pages w1) id = Some "Error" /\
    property_of (pages w1) id "Error" = Some msg /\
    (forall j, j <> id -> pages w1 !! j = pages w !! j) /\
    dom (pages w1) = dom (pages w).
Proof.
  intros Hf [p Hp]. unfold updateBlogPostError.
  destruct (pages_update_cases id (<[ "Status" := "Error" ]> {[ "Error" := msg ]}) w)
    as [(m & Hf' & _) | [(_ & Hp' & _) | (p' & _ & _ & Hu)]]; [congruence..|].
  rewrite (try_catch_ok _ _ _ _ _ Hu). eexists. split; [reflexivity|]. simpl.
  split; [done|]. split; [done|]. split; [|split; [|split]].
  - unfold status_of, property_of. rewrite lookup_insert_eq. simpl.
    apply lookup_union_Some_l, lookup_insert_eq.
  - unfold property_of. rewrite lookup_insert_eq. simpl.
    apply lookup_union_Some_l. by rewrite lookup_insert_ne, lookup_singleton_eq.
  - intros j Hj. by rewrite lookup_insert_ne.
  - apply dom_insert_lookup_L. eauto.
Qed.

Lemma is_Some_dom (ps ps' : gmap string Page) id :
  dom ps' = dom ps -> is_Some (ps !! id) -> is_Some (ps' !! id).
Proof. intros Hd. rewrite <- !elem_of_dom. by rewrite Hd. Qed.

(** X8: when Claude fails and Notion takes every call, [processDraft]
    returns with the brief back in Ready to Start, so that the next run
    picks it up again, and with the blog post in Error carrying Claude's
    message; no page has been created, and Claude was called once. *)
Theorem DraftwriterCommand_provider_failure_resets env draftId draftTitle researchContent
    blogPostId (w : World) msg :
  dryRun env = false ->
  faults w = [] ->
  truthy blogPostId = true ->
  draftId <> blogPostId ->
  is_Some (pages w !! draftId) ->
  is_Some (pages w !! blogPostId) ->
  claude env (draftwriterSystemPrompt env draftTitle)
    (draftwriterUserPrompt env draftTitle researchContent) = ApiError msg ->
  exists w1,
    DraftwriterCommand.processDraft env draftId draftTitle researchContent (Some blogPostId) w
      = (Js.Ok tt, w1) /\
    status_of (pages w1) draftId = Some "Ready to Start" /\
    status_of (pages w1) blogPostId = Some "Error" /\
    property_of (pages w1) blogPostId "Error" = Some ("Claude API error: " +:+ msg) /\
    dom (pages w1) = dom (pages w) /\
    providerCalls (new_events w w1) = 1.
Proof.
  intros Hdry Hfaults Htruthy Hne Hdraft Hpost Hclaude.
  unfold DraftwriterCommand.processDraft, DraftwriterCommand.processDraft_try.
  destruct (updateBlogPostStatus_accepted draftId "Writing in Progress" w)
    as (w1 & Hu1 & Hf1 & Ht1 & _ & Hk1 & Hd1); [by apply next_fault_nil | done |].
  rewrite Hfaults in Hf1. simpl in Hf1.
  rewrite (try_catch_bind_ok _ _ _ _ _ _ Hu1), Hdry. simpl. rewrite Htruthy.
  destruct (updateBlogPostStatus_accepted blogPostId "Draft In Progress" w1)
    as (w2 & Hu2 & Hf2 & Ht2 & _ & Hk2 & Hd2);
    [by apply next_fault_nil | by eapply is_Some_dom |].
  rewrite Hf1 in Hf2. simpl in Hf2.
  rewrite (try_catch_bind_ok _ _ _ _ _ _ Hu2).
  pose proof (generateContent_eq env (draftwriterUserPrompt env draftTitle researchContent)
                (draftwriterSystemPrompt env draftTitle) w2) as Hgen.
  rewrite Hclaude in Hgen. simpl in Hgen.
  rewrite (try_catch_bind_throw _ _ _ _ _ _ Hgen).
  set (w3 := record (ProviderCalled (draftwriterUserPrompt env draftTitle researchContent)
                       (pages w2)) w2).
  destruct (updateBlogPostStatus_accepted draftId "Ready to Start" w3)
    as (w4 & Hu4 & Hf4 & Ht4 & Hs4 & Hk4 & Hd4).
  { apply next_fault_nil. exact Hf2. }
  { change (pages w3) with (pages w2). eapply is_Some_dom; [exact Hd2|].
    by eapply is_Some_dom. }
  change (faults w3) with (faults w2) in Hf4. rewrite Hf2 in Hf4. simpl in Hf4.
  rewrite (bind_ok _ _ _ _ _ (try_catch_ok _ _ _ _ _ Hu4)).
  destruct (updateBlogPostError_accepted blogPostId ("Claude API error: " +:+ msg) w4)
    as (w5 & Hu5 & _ & Ht5 & Hs5 & He5 & Hk5 & Hd5).
  { by apply next_fault_nil. }
  { eapply is_Some_dom; [exact Hd4|]. change (pages w3) with (pages w2).
    eapply is_Some_dom; [exact Hd2|]. by eapply is_Some_dom. }
  assert (or_else (message (new_Error ("Claude API error: " +:+ msg)))
            "Unknown error occurred during draft writing" = "Claude API error: " +:+ msg)
    as -> by reflexivity.
  rewrite Hu5. exists w5. split; [reflexivity|].
  split; [|split; [done|]; split; [done|]; split].
  - unfold status_of, property_of in *. rewrite Hk5 by done. exact Hs4.
  - rewrite Hd5, Hd4. change (pages w3) with (pages w2). by rewrite Hd2, Hd1.
  - unfold new_events. rewrite Ht5, Ht4. unfold w3. simpl. rewrite Ht2, Ht1.
    rewrite <- !app_assoc, drop_app_length. reflexivity.
Qed.

Lemma DraftwriterCommand_provider_failure_resets_witness :
  let env := Cases.claude_down in
  let w := Scenario.drafting_world in
  exists w1,
    DraftwriterCommand.processDraft env "brief-1" "Foo" "bar" (Some "topic-1") w
      = (Js.Ok tt, w1) /\
    status_of (pages w1) "brief-1" = Some "Ready to Start" /\
    status_of (pages w1) "topic-1" = Some "Error" /\
    property_of (pages w1) "topic-1" "Error" = Some ("Claude API error: " +:+ "overloaded") /\
    dom (pages w1) = dom (pages w) /\
    providerCalls (new_events w w1) = 1.
Proof.
  intros env w.
  apply (DraftwriterCommand_provider_failure_resets env "brief-1" "Foo" "bar" "topic-1" w
           "overloaded"); try reflexivity.
  - discriminate.
  - vm_compute. eauto.
  - vm_compute. eauto.
Defined.

Lemma databases_retrieve_swallowed database_id w :
  Js.try_catch (databases_retrieve database_id) (fun error => Js.ret tt) w = (Js.Ok tt, pop w).
Proof.
  unfold Js.try_catch, databases_retrieve, remote. by destruct (next_fault w).
Qed.

Lemma pageToMarkdown_rejected env pageId w msg :
  next_fault w = Some msg ->
  getPageContent env pageId w = (Js.Throw (new_Error msg), pop w).
Proof.
  intros Hf. unfold getPageContent. rewrite try_catch_rethrow.
  unfold Devin.pageToMarkdown, remote. by rewrite Hf.
Qed.

(** X9: [DraftwriterCommand.execute] reads the content of a draft before
    anything else and outside [processDraft]: when that read is rejected
    for the first draft listed, the run ends at [process.exit(1)] with no
    page changed and no later draft looked at.  (A failure of the schema
    lookup that precedes the listing, by contrast, is ignored.) *)
Theorem DraftwriterCommand_execute_stops_on_unreadable_draft env (w : World)
    fault msg rest :
  truthy_opt (option_id env) = false ->
  faults w = fault :: None :: Some msg :: rest ->
  filter (fun e => matches (draftsDbId env) "Ready to Start" e) (map_to_list (pages w)) <> [] ->
  exists w1,
    DraftwriterExecute.execute env w = (Js.Ok tt, w1) /\
    pages w1 = pages w /\
    faults w1 = rest /\
    new_events w w1 = [Queried (draftsDbId env) "Ready to Start"; Exited 1].
Proof.
  intros Hid Hfaults Hready.
  unfold DraftwriterExecute.execute, getDraftsReadyToStart. rewrite Hid.
  erewrite try_catch_bind_ok; cycle 1.
  { erewrite bind_ok; [|apply databases_retrieve_swallowed].
    apply databases_query_accepted. unfold next_fault, pop. simpl. by rewrite Hfaults. }
  set (drafts := filter _ _) in *.
  set (w0 := record _ _).
  assert (exists draft more, (if singleItem env then take 1 drafts else drafts) = draft :: more)
    as (draft & more & ->).
  { destruct drafts as [|d ds]; [done|]. destruct (singleItem env); simpl; eauto. }
  simpl. unfold DraftwriterExecute.execute_draft at 1.
  erewrite try_catch_bind_throw; cycle 1.
  { erewrite bind_throw; [reflexivity|].
    apply pageToMarkdown_rejected. unfold next_fault, w0, pop. simpl. by rewrite Hfaults. }
  eexists. split; [reflexivity|]. unfold new_events, w0, pop. simpl.
  rewrite Hfaults. simpl. split; [done|]. split; [done|].
  by rewrite <- app_assoc, drop_app_length.
Qed.

Lemma DraftwriterCommand_execute_stops_on_unreadable_draft_witness :
  let env := Scenario.notion_env false ErrRequest in
  let w := Scenario.notion_world "brief-1" Scenario.brief
             [Some "schema"; None; Some "rate limited"] in
  exists w1,
    DraftwriterExecute.execute env w = (Js.Ok tt, w1) /\
    pages w1 = pages w /\
    faults w1 = [] /\
    new_events w w1 = [Queried "drafts" "Ready to Start"; Exited 1].
Proof.
  intros env w.
  apply (DraftwriterCommand_execute_stops_on_unreadable_draft env w
           (Some "schema") "rate limited" []); [reflexivity | reflexivity |].
  vm_compute. discriminate.
Defined.

(** X19: a dry run of the draft command is not dry.  [processDraft]
    checks [dryRun] after its first write, so the run moves the brief
    from Ready to Start to Writing in Progress and stops there: no
    provider is called, nothing sets the status back, and no later
    listing of the briefs that are Ready to Start contains it. *)
Theorem DraftwriterCommand_dry_run_moves_brief env draftId draftTitle researchContent
    blogPostId (w : World) :
  dryRun env = true ->
  next_fault w = None ->
  is_Some (pages w !! draftId) ->
  exists w1,
    DraftwriterCommand.processDraft env draftId draftTitle researchContent blogPostId w
      = (Js.Ok tt, w1) /\
    new_events w w1 = [Updated draftId {[ "Status" := "Writing in Progress" ]}] /\
    status_of (pages w1) draftId = Some "Writing in Progress" /\
    forall database_id page,
      (draftId, page) ∉ filter (fun e => matches database_id "Ready to Start" e)
                          (map_to_list (pages w1)).
Proof.
  intros Hdry Hf Hdraft.
  unfold DraftwriterCommand.processDraft, DraftwriterCommand.processDraft_try.
  destruct (updateBlogPostStatus_accepted draftId "Writing in Progress" w Hf Hdraft)
    as (w1 & Hu & _ & Ht & Hs & _ & _).
  rewrite (try_catch_bind_ok _ _ _ _ _ _ Hu), Hdry.
  exists w1. split; [reflexivity|]. split; [|split; [exact Hs|]].
  - unfold new_events. by rewrite Ht, drop_app_length.
  - intros database_id page [Hm Hin]%list_elem_of_filter.
    apply elem_of_map_to_list in Hin.
    unfold status_of, property_of in Hs. rewrite Hin in Hs. simpl in Hs.
    unfold matches in Hm. simpl in Hm.
    apply Is_true_true, andb_true_iff in Hm as [_ Hst].
    apply bool_decide_eq_true in Hst. congruence.
Qed.

Lemma DraftwriterCommand_dry_run_moves_brief_witness :
  let env := Scenario.notion_env true ErrRequest in
  let w := Scenario.notion_world "brief-1" Scenario.brief [] in
  exists w1,
    DraftwriterCommand.processDraft env "brief-1" "Foo" "bar" None w = (Js.Ok tt, w1) /\
    new_events w w1 = [Updated "brief-1" {[ "Status" := "Writing in Progress" ]}] /\
    status_of (pages w1) "brief-1" = Some "Writing in Progress" /\
    forall database_id page,
      ("brief-1", page) ∉ filter (fun e => matches database_id "Ready to Start" e)
                           (map_to_list (pages w1)).
Proof.
  intros env w.
  apply (DraftwriterCommand_dry_run_moves_brief env "brief-1" "Foo" "bar" None w);
    [reflexivity | reflexivity | vm_compute; eauto].
Defined.

End DraftwriterRuns.

(** ** GitHubFileClient.js: reading back what was written *)

Section GitClientFacts.
Import Provider Git GitClient.

(** The read-modify-write at the heart of [updateYamlFrontMatter]: three
    remote calls (read, sha lookup, commit).  Either it throws and no
    file has changed, or it returns and the file holds the new document
    under the next sha. *)
Lemma read_modify_write_inv path (g : Doc -> Doc) message w r w1 :
  (fileContent <- readFile path ;; writeFile path (g fileContent) None message) w = (r, w1) ->
  (exists e, r = Js.Throw e /\ files w1 = files w) \/
  (exists f, r = Js.Ok tt /\ files w !! path = Some f /\
     files w1 = <[path := {| doc := g (doc f); sha := S (sha f) |}]> (files w)).
Proof.
  destruct (readFile_cases path w) as [(e & He & Hn) | (f & Hf & Hp & Hr)].
  { rewrite (bind_throw _ _ _ _ _ He). intros [= <- <-]. left. eauto. }
  rewrite (bind_ok _ _ _ _ _ Hr). unfold writeFile.
  set (w2 := record (Fetched path) (pop w)).
  destruct (sha_lookup_cases path w2) as [(Hl & Hn) | (f' & Hf' & Hp' & Hl)]; simpl in Hl.
  - rewrite (bind_ok _ _ _ _ _ Hl), try_catch_rethrow.
    destruct (repos_createOrUpdateFileContents_cases path (g (doc f)) None message (pop w2))
      as [(e & -> & _) | (ns & _ & _ & Hm)].
    + intros [= <- <-]. left. eauto.
    + change (files (pop w2)) with (files w) in Hm. by rewrite Hp in Hm.
  - rewrite (bind_ok _ _ _ _ _ Hl), try_catch_rethrow.
    change (files w2) with (files w) in Hp'. rewrite Hp in Hp'. injection Hp' as <-.
    set (w3 := record (Fetched path) (pop w2)).
    destruct (repos_createOrUpdateFileContents_cases path (g (doc f)) (Some (sha f)) message w3)
      as [(e & -> & Hn) | (ns & _ & -> & Hm)].
    + intros [= <- <-]. left. eauto.
    + change (files w3) with (files w) in Hm. rewrite Hp in Hm. destruct Hm as [_ ->].
      intros [= <- <-]. right. exists f. auto.
Qed.

Lemma applyUpdates_lookup updates frontMatter key :
  applyUpdates updates frontMatter !! key =
  match updates !! key with
  | Some None => None
  | Some (Some value) => Some value
  | None => frontMatter !! key
  end.
Proof.
  unfold applyUpdates. rewrite lookup_merge.
  destruct (updates !! key) as [[v|]|], (frontMatter !! key); reflexivity.
Qed.

Lemma applyUpdates_strings (updates frontMatter : gmap string string) :
  applyUpdates (Some <$> updates) frontMatter = updates ∪ frontMatter.
Proof.
  apply map_eq. intros key. rewrite applyUpdates_lookup, lookup_fmap.
  destruct (updates !! key) as [v|] eqn:Hu; simpl.
  - symmetry. by apply lookup_union_Some_l.
  - symmetry. by apply lookup_union_r.
Qed.

Lemma updateYamlFrontMatter_strings {gm : GrayMatter} path message strings given w :
  updateYamlFrontMatter path strings given message w
  = updateYamlFrontMatter_any path (Some <$> strings) message w.
Proof.
  unfold updateYamlFrontMatter, updateYamlFrontMatter_any, Js.bind.
  destruct (readFile path w) as [[fileContent|e] w1]; [|reflexivity].
  by rewrite applyUpdates_strings.
Qed.

(** X10: [updateYamlFrontMatter] touches one file only.  When it
    returns, the file is, one version further, what [stringify] makes of
    its body and of its front matter with the updates applied, so every
    key that [updates] gives a value holds that value.  When the body
    opens no front-matter block, the new body is the old one closed by a
    line feed, each key of [updates] holds its new value, or is gone when
    the update is [null], and every other key is as it was.  When it
    throws, no file has changed.  With updates that are all strings it is
    the function the commands are modelled with. *)
Theorem updateYamlFrontMatter_any_outcome {gm : GrayMatter} path updates message
    (w : World) r w1 :
  updateYamlFrontMatter_any path updates message w = (r, w1) ->
  (forall other, other <> path -> files w1 !! other = files w !! other) /\
  match r with
  | Js.Throw _ => files w1 = files w
  | Js.Ok _ =>
      exists f f1,
        files w !! path = Some f /\ files w1 !! path = Some f1 /\
        sha f1 = S (sha f) /\
        doc f1 = stringify (body (doc f)) (applyUpdates updates (data (doc f))) /\
        (forall key value,
           updates !! key = Some (Some value) -> data (doc f1) !! key = Some value) /\
        (opensFrontMatter (body (doc f)) = false ->
         body (doc f1) = newline (body (doc f)) /\
         forall key,
           data (doc f1) !! key =
           match updates !! key with
           | Some None => None
           | Some (Some value) => Some value
           | None => data (doc f) !! key
           end)
  end /\
  (forall strings given w0,
     updateYamlFrontMatter path strings given message w0
     = updateYamlFrontMatter_any path (Some <$> strings) message w0).
Proof.
  intros Hrun. unfold updateYamlFrontMatter_any in Hrun.
  apply (read_modify_write_inv path
           (fun fileContent =>
              stringify (body fileContent) (applyUpdates updates (data fileContent)))) in Hrun
    as [(e & -> & Hfs) | (f & -> & Hp & Hfs)].
  - split; [by rewrite Hfs|]. split; [exact Hfs|].
    apply updateYamlFrontMatter_strings.
  - split; [intros other Hne; by rewrite Hfs, lookup_insert_ne|]. split.
    + eexists f, _. split; [exact Hp|]. split; [rewrite Hfs; apply lookup_insert_eq|].
      simpl. split; [reflexivity|]. split; [reflexivity|]. split.
      * intros key value Hk. apply stringify_lookup.
        by rewrite applyUpdates_lookup, Hk.
      * intros Ho. rewrite (stringify_plain _ _ Ho). simpl.
        split; [reflexivity|]. intros key. apply applyUpdates_lookup.
    + apply updateYamlFrontMatter_strings.
Qed.

(** The theorem at two files.  The file of the scenarios, with the body
    bar: the new body is bar and a line feed, the status is the new one
    and the title is gone.  A file whose body opens with a block of its
    own: the block is read as front matter, so the title that the update
    deletes is back, with the value the block gives it, and the body is
    what follows the block. *)
Lemma updateYamlFrontMatter_any_outcome_witness :
  let updates : gmap string (option string) :=
    <[ "status" := Some "Published" ]> {[ "title" := None ]} in
  (let w := Scenario.git_world "research/foo.md" Scenario.ready_file [] in
   let w1 := snd (updateYamlFrontMatter_any (gm := Scenario.yaml) "research/foo.md"
                    updates "Publish" w) in
   exists f1,
     files w1 !! "research/foo.md" = Some f1 /\
     body (doc f1) = "bar" +:+ nl /\
     data (doc f1) !! "status" = Some "Published" /\
     data (doc f1) !! "title" = None) /\
  (let w := Scenario.git_world "research/foo.md" Cases.nested_file [] in
   let w1 := snd (updateYamlFrontMatter_any (gm := Scenario.yaml) "research/foo.md"
                    updates "Publish" w) in
   exists f1,
     files w1 !! "research/foo.md" = Some f1 /\
     doc f1 = {| data := <[ "status" := "Published" ]> {[ "title" := "Bar" ]};
                 body := "bar" +:+ nl |}).
Proof.
  intros updates. split.
  - intros w w1.
    assert (updateYamlFrontMatter_any (gm := Scenario.yaml) "research/foo.md" updates
              "Publish" w = (Js.Ok tt, w1)) as Hrun by (vm_compute; reflexivity).
    destruct (updateYamlFrontMatter_any_outcome (gm := Scenario.yaml) _ _ _ _ _ _ Hrun)
      as (_ & (f & f1 & Hf & Hf1 & _ & _ & _ & Hplain) & _).
    replace f with Scenario.ready_file in Hplain
      by (apply (inj Some); rewrite <- Hf; vm_compute; reflexivity).
    destruct (Hplain eq_refl) as [Hbody Hdata].
    exists f1. split; [exact Hf1|]. split; [exact Hbody|].
    split; [exact (Hdata "status") | exact (Hdata "title")].
  - intros w w1.
    assert (updateYamlFrontMatter_any (gm := Scenario.yaml) "research/foo.md" updates
              "Publish" w = (Js.Ok tt, w1)) as Hrun by (vm_compute; reflexivity).
    destruct (updateYamlFrontMatter_any_outcome (gm := Scenario.yaml) _ _ _ _ _ _ Hrun)
      as (_ & (f & f1 & Hf & Hf1 & _ & Hdoc & _) & _).
    replace f with Cases.nested_file in Hdoc
      by (apply (inj Some); rewrite <- Hf; vm_compute; reflexivity).
    exists f1. split; [exact Hf1|]. rewrite Hdoc. vm_compute. reflexivity.
Defined.

Lemma accepts_next n w : accepts (S n) w -> next_fault w = None.
Proof. by intros [? _]%accepts_S. Qed.

(** X11: what [writeFile] writes is what [readFile] then reads, whether
    the file existed or not, when GitHub takes the three calls (sha
    lookup, commit, read); the file is then one version further, and no
    other file has changed. *)
Theorem writeFile_then_readFile path content message (w : World) :
  accepts 3 w ->
  exists w1,
    (writeFile path content None message ;; readFile path) w = (Js.Ok content, w1) /\
    files w1 !! path =
      Some {| doc := content;
              sha := match files w !! path with Some f => S (sha f) | None => 0 end |} /\
    (forall other, other <> path -> files w1 !! other = files w !! other).
Proof.
  intros Hacc.
  pose proof (accepts_next _ _ Hacc) as Hf0.
  apply accepts_S in Hacc as [_ Hacc].
  pose proof (accepts_next _ _ Hacc) as Hf1. apply accepts_S in Hacc as [_ Hacc].
  pose proof (accepts_next _ _ Hacc) as Hf2.
  assert (exists w2,
            writeFile path content None message w = (Js.Ok tt, w2) /\
            next_fault w2 = next_fault (pop (pop w)) /\
            files w2 = <[path := {| doc := content;
                                    sha := match files w !! path with
                                           | Some f => S (sha f)
                                           | None => 0
                                           end |}]> (files w)) as (w2 & Hw & Hf & Hfs).
  { unfold writeFile.
    destruct (sha_lookup_cases path w) as [(Hl & Hn) | (f & _ & Hp & Hl)]; simpl in Hl.
    - specialize (Hn Hf0). rewrite (bind_ok _ _ _ _ _ Hl), try_catch_rethrow.
      destruct (repos_createOrUpdateFileContents_cases path content None message (pop w))
        as [(e & _ & Hno) | (ns & _ & Hc & Hm)].
      { specialize (Hno Hf1). change (files (pop w)) with (files w) in Hno.
        by rewrite Hn in Hno. }
      change (files (pop w)) with (files w) in Hm. rewrite Hn in Hm. subst ns.
      eexists. split; [exact Hc|]. rewrite Hn. split; reflexivity.
    - rewrite (bind_ok _ _ _ _ _ Hl), try_catch_rethrow.
      set (w2 := record (Fetched path) (pop w)).
      destruct (repos_createOrUpdateFileContents_cases path content (Some (sha f)) message w2)
        as [(e & _ & Hno) | (ns & _ & Hc & Hm)].
      { specialize (Hno Hf1). change (files w2) with (files w) in Hno.
        rewrite Hp in Hno. done. }
      change (files w2) with (files w) in Hm. rewrite Hp in Hm. destruct Hm as [_ ->].
      eexists. split; [exact Hc|]. rewrite Hp. split; reflexivity. }
  rewrite (bind_ok _ _ _ _ _ Hw).
  destruct (readFile_cases path w2) as [(e & _ & Hno) | (f2 & _ & Hp2 & ->)].
  { rewrite Hfs, lookup_insert_eq in Hno. rewrite Hf in Hno. specialize (Hno Hf2).
    discriminate. }
  rewrite Hfs, lookup_insert_eq in Hp2. injection Hp2 as <-.
  eexists. split; [reflexivity|]. simpl. rewrite Hfs, lookup_insert_eq.
  split; [reflexivity|]. intros other Hne. by rewrite lookup_insert_ne.
Qed.

Lemma writeFile_then_readFile_witness :
  let w := Scenario.git_world "research/foo.md" Scenario.foo_file [] in
  let content := {| data := {[ "status" := "Draft" ]}; body := "new" |} in
  exists w1,
    (writeFile "drafts/new.md" content None "Create" ;; readFile "drafts/new.md") w
      = (Js.Ok content, w1) /\
    files w1 !! "drafts/new.md" = Some {| doc := content; sha := 0 |} /\
    (forall other, other <> "drafts/new.md" -> files w1 !! other = files w !! other).
Proof.
  intros w content.
  apply (writeFile_then_readFile "drafts/new.md" content "Create" w).
  vm_compute. constructor.
Defined.

End GitClientFacts.

(** ** The Git store when GitHub takes every call *)

Section GitQuietStore.
Import Provider Git.

Lemma world_eta (w : World) : faults w = [] -> pop w = w.
Proof. destruct w as [fs fl tr]. simpl. intros ->. reflexivity. Qed.

Lemma remote_nil {A} (call : Js.M World A) w : faults w = [] -> remote call w = call w.
Proof.
  intros Hf. unfold remote, next_fault. rewrite Hf. by rewrite world_eta.
Qed.

Lemma repos_getContent_nil path w :
  faults w = [] ->
  repos_getContent path w =
    match files w !! path with
    | Some f => (Js.Ok f, record (Fetched path) w)
    | None => (Js.Throw (new_Error "Not Found"), w)
    end.
Proof. intros Hf. unfold repos_getContent. by rewrite remote_nil. Qed.

Lemma readFile_nil path w :
  faults w = [] ->
  readFile path w =
    match files w !! path with
    | Some f => (Js.Ok (doc f), record (Fetched path) w)
    | None => (Js.Throw (new_Error "Not Found"), w)
    end.
Proof.
  intros Hf. unfold readFile. rewrite try_catch_rethrow. unfold Js.bind.
  rewrite repos_getContent_nil by done. by destruct (files w !! path).
Qed.

Lemma createFile_nil path content message w :
  faults w = [] ->
  createFile path content message w =
    match files w !! path with
    | Some f => (Js.Throw (new_Error "Invalid request: sha was not supplied"), w)
    | None => (Js.Ok tt, record (Committed path content message)
                           (set_files (insert path {| doc := content; sha := 0 |}) w))
    end.
Proof.
  intros Hf. unfold createFile. rewrite try_catch_rethrow.
  unfold repos_createOrUpdateFileContents. rewrite remote_nil by done.
  by destruct (files w !! path).
Qed.

Lemma writeFile_nil path content message w :
  faults w = [] ->
  writeFile path content None message w =
    match files w !! path with
    | Some f => (Js.Ok tt, record (Committed path content message)
                             (set_files (insert path {| doc := content; sha := S (sha f) |})
                                (record (Fetched path) w)))
    | None => (Js.Ok tt, record (Committed path content message)
                           (set_files (insert path {| doc := content; sha := 0 |}) w))
    end.
Proof.
  intros Hf. unfold writeFile, getFileSha, Js.bind at 1, Js.try_catch at 1, Js.bind at 1 2.
  rewrite repos_getContent_nil by done.
  destruct (files w !! path) as [f|] eqn:Hp; simpl.
  - rewrite try_catch_rethrow. unfold repos_createOrUpdateFileContents.
    rewrite remote_nil by done. simpl. rewrite Hp. by rewrite bool_decide_eq_true_2.
  - rewrite try_catch_rethrow. unfold repos_createOrUpdateFileContents.
    rewrite remote_nil by done. by rewrite Hp.
Qed.

Lemma updateYamlFrontMatter_nil {gm : GrayMatter} path updates given message w :
  faults w = [] ->
  updateYamlFrontMatter path updates given message w =
    match files w !! path with
    | Some f =>
        let updated := (stringify (body (doc f)) (updates ∪ data (doc f))) in
        (Js.Ok tt, record (Committed path updated message)
                     (set_files (insert path {| doc := updated; sha := S (sha f) |})
                        (record (Fetched path) (record (Fetched path) w))))
    | None => (Js.Throw (new_Error "Not Found"), w)
    end.
Proof.
  intros Hf. unfold updateYamlFrontMatter, Js.bind. rewrite readFile_nil by done.
  destruct (files w !! path) as [f|] eqn:Hp; [|reflexivity].
  rewrite writeFile_nil by done. simpl. by rewrite Hp.
Qed.

Lemma getFileSha_or_null_nil path w :
  faults w = [] ->
  GitDraftwriterCommand.getFileSha_or_null path w =
    match files w !! path with
    | Some f => (Js.Ok (Some (sha f)), record (Fetched path) w)
    | None => (Js.Ok None, w)
    end.
Proof.
  intros Hf. unfold GitDraftwriterCommand.getFileSha_or_null, Js.try_catch, Js.bind.
  rewrite repos_getContent_nil by done. by destruct (files w !! path).
Qed.

End GitQuietStore.

(** ** GitDraftwriterCommand.js: when the draft is made but the run fails *)

Section GitDraftFailures.
Import Provider Git.

Ltac files_lookup :=
  repeat (first [rewrite lookup_insert_eq | rewrite lookup_insert_ne by congruence]).

(** X12: when GitHub takes every call and Claude answers, but the blog
    file named in the run does not exist, [processDraft] of the Git
    command returns having created the draft (the file that [stringify]
    makes of Claude's text and of the draft front matter: over a text
    that opens no front-matter block, that front matter and the text
    closed by a line feed) and recorded its path in the research file,
    and with the research file in status Error: the last step, which
    updates the blog file, fails with Not Found after everything else has
    been committed. *)
Theorem GitDraftwriterCommand_missing_blog_file {gm : GrayMatter} env researchFilePath title
    researchContent blog frontMatter (w : World) f g :
  dryRun env = false ->
  faults w = [] ->
  files w !! researchFilePath = Some f ->
  files w !! GitDraftwriterCommand.draftPath_of env title = None ->
  truthy blog = true ->
  files w !! blog = None ->
  blog <> GitDraftwriterCommand.draftPath_of env title ->
  claude env (draftwriterUserPrompt env title researchContent) = Completed g ->
  let draftFrontMatter :=
    GitDraftwriterCommand.draftFrontMatter_of env researchFilePath title blog frontMatter in
  exists w1,
    GitDraftwriterCommand.processDraft env researchFilePath title researchContent
      blog frontMatter w = (Js.Ok tt, w1) /\
    files w1 !! GitDraftwriterCommand.draftPath_of env title =
      Some {| doc := stringify (text g) draftFrontMatter; sha := 0 |} /\
    (opensFrontMatter (text g) = false ->
     stringify (text g) draftFrontMatter
     = {| data := draftFrontMatter; body := newline (text g) |}) /\
    status_of (files w1) researchFilePath = Some "Error" /\
    field_of (files w1) researchFilePath "error_message" = Some "Drafting failed: Not Found" /\
    field_of (files w1) researchFilePath "draft_filePath"
      = Some (GitDraftwriterCommand.draftPath_of env title) /\
    files w1 !! blog = None.
Proof.
  intros Hdry Hfaults Hp Hdraft Htruthy Hblog Hne Hclaude draftFrontMatter.
  set (draftPath := GitDraftwriterCommand.draftPath_of env title) in *.
  assert (draftPath <> researchFilePath) as Hne1 by congruence.
  assert (blog <> researchFilePath) as Hne2 by congruence.
  unfold GitDraftwriterCommand.processDraft. rewrite Hdry.
  unfold GitDraftwriterCommand.processDraft_try.
  (* 1: Draft In Progress *)
  pose proof (updateYamlFrontMatter_nil researchFilePath {[ "status" := "Draft In Progress" ]}
                None ("WIP: Start drafting for " +:+ title) w Hfaults) as H1.
  rewrite Hp in H1. cbv zeta in H1.
  set (d1 := stringify (body (doc f)) (_ ∪ data (doc f))) in H1.
  rewrite (try_catch_bind_ok _ _ _ _ _ _ H1).
  match type of H1 with _ = (_, ?x) => set (w1 := x) in * end.
  (* 2: Claude *)
  pose proof (git_generateContent_eq env (draftwriterUserPrompt env title researchContent) w1)
    as H2.
  rewrite Hclaude in H2. simpl generateContent_reply in H2.
  rewrite (try_catch_bind_ok _ _ _ _ _ _ H2).
  match type of H2 with _ = (_, ?x) => set (w2 := x) in * end.
  (* 3: the draft file *)
  fold draftPath. fold draftFrontMatter.
  match goal with |- context [createFile draftPath ?c ?m] =>
    pose proof (createFile_nil draftPath c m w2 Hfaults) as H3 end.
  replace (files w2 !! draftPath) with (@None File) in H3
    by (unfold w2, w1; simpl; by files_lookup).
  rewrite (try_catch_bind_ok _ _ _ _ _ _ H3).
  match type of H3 with _ = (_, ?x) => set (w3 := x) in * end.
  (* 4: Draft Complete on the research file *)
  match goal with |- context [updateYamlFrontMatter researchFilePath ?u None ?m] =>
    pose proof (updateYamlFrontMatter_nil researchFilePath u None m w3 Hfaults) as H4 end.
  replace (files w3 !! researchFilePath) with (Some {| doc := d1; sha := S (sha f) |}) in H4
    by (unfold w3, w2, w1; simpl; by files_lookup).
  cbv zeta in H4. cbn [doc sha] in H4.
  set (d4 := stringify (body d1) (_ ∪ data d1)) in H4.
  rewrite (try_catch_bind_ok _ _ _ _ _ _ H4).
  match type of H4 with _ = (_, ?x) => set (w4 := x) in * end.
  (* 5: the blog file is missing *)
  rewrite Htruthy. unfold Js.when.
  match goal with |- context [updateYamlFrontMatter blog ?u None ?m] =>
    pose proof (updateYamlFrontMatter_nil blog u None m w4 Hfaults) as H5 end.
  replace (files w4 !! blog) with (@None File) in H5
    by (unfold w4, w3, w2, w1; simpl; by files_lookup).
  rewrite (try_catch_throw _ _ _ _ _ H5).
  (* the catch *)
  unfold GitDraftwriterCommand.processDraft_catch. rewrite Htruthy. unfold Js.when.
  match goal with |- context [updateYamlFrontMatter researchFilePath ?u None ?m] =>
    pose proof (updateYamlFrontMatter_nil researchFilePath u None m w4 Hfaults) as H6 end.
  replace (files w4 !! researchFilePath) with (Some {| doc := d4; sha := S (S (sha f)) |})
    in H6 by (unfold w4, w3, w2, w1; simpl; by files_lookup).
  cbv zeta in H6. cbn [doc sha] in H6.
  set (d6 := stringify (body d4) (_ ∪ data d4)) in H6.
  rewrite (try_catch_bind_ok _ _ _ _ _ _ H6).
  match type of H6 with _ = (_, ?x) => set (w5 := x) in * end.
  pose proof (getFileSha_or_null_nil blog w5 Hfaults) as H7.
  replace (files w5 !! blog) with (@None File) in H7
    by (unfold w5, w4, w3, w2, w1; simpl; by files_lookup).
  rewrite (try_catch_bind_ok _ _ _ _ _ _ H7).
  eexists. split; [reflexivity|].
  unfold status_of, field_of, w5, w4, w3, w2, w1. simpl. files_lookup. simpl.
  split; [reflexivity|].
  split; [intros Ho; by apply stringify_plain|].
  split; [by apply stringify_lookup, lookup_union_Some_l, lookup_insert_eq|].
  split.
  { apply stringify_lookup, lookup_union_Some_l.
    by rewrite lookup_insert_ne, lookup_singleton_eq. }
  split; [|exact Hblog].
  apply stringify_lookup.
  rewrite lookup_union_r by (by rewrite lookup_insert_ne, lookup_singleton_ne).
  apply stringify_lookup, lookup_union_Some_l.
  by rewrite lookup_insert_ne, lookup_singleton_eq.
Qed.

Lemma GitDraftwriterCommand_missing_blog_file_witness :
  let env := Scenario.git_env false ErrRequest in
  let w := Scenario.git_world "research/foo.md" Scenario.ready_file [] in
  let draftFrontMatter :=
    GitDraftwriterCommand.draftFrontMatter_of env "research/foo.md" "Foo" "blog/foo.md"
      Scenario.ready_frontMatter in
  exists w1,
    GitDraftwriterCommand.processDraft (gm := Scenario.yaml) env "research/foo.md" "Foo"
      "bar" "blog/foo.md" Scenario.ready_frontMatter w = (Js.Ok tt, w1) /\
    files w1 !! "content/drafts/Foo-draft.md" =
      Some {| doc := {| data := draftFrontMatter; body := "the draft" +:+ nl |};
              sha := 0 |} /\
    status_of (files w1) "research/foo.md" = Some "Error" /\
    field_of (files w1) "research/foo.md" "error_message" = Some "Drafting failed: Not Found" /\
    field_of (files w1) "research/foo.md" "draft_filePath" = Some "content/drafts/Foo-draft.md" /\
    files w1 !! "blog/foo.md" = None.
Proof.
  intros env w draftFrontMatter.
  destruct (GitDraftwriterCommand_missing_blog_file (gm := Scenario.yaml) env
              "research/foo.md" "Foo" "bar" "blog/foo.md" Scenario.ready_frontMatter w
              Scenario.ready_file {| text := "the draft"; gen_usage := true |})
    as (w1 & Hrun & Hdraft & Hplain & Hrest); try reflexivity; [discriminate|].
  exists w1. split; [exact Hrun|]. split; [|exact Hrest].
  refine (eq_trans Hdraft _). by rewrite (Hplain eq_refl).
Defined.

(** The part of the [catch] of [processDraft] that flags the blog file
    returns and touches no other file. *)
Lemma processDraft_catch_blog_frame {gm : GrayMatter} blog failed msg (w : World) :
  faults w = [] ->
  exists w1,
    Js.when (truthy blog)
      (blogPostSha <- GitDraftwriterCommand.getFileSha_or_null blog ;;
       match blogPostSha with
       | Some _ => updateYamlFrontMatter blog failed blogPostSha msg
       | None => log (Warned blog)
       end) w = (Js.Ok tt, w1) /\
    (forall other, other <> blog -> files w1 !! other = files w !! other) /\
    exists evs, trace w1 = trace w ++ evs /\ GitObserve.providerCalls evs = 0.
Proof.
  intros Hfaults. destruct (truthy blog); simpl.
  { unfold Js.bind. rewrite getFileSha_or_null_nil by done.
    destruct (files w !! blog) as [b|] eqn:Hb.
    - rewrite updateYamlFrontMatter_nil by done. simpl. rewrite Hb.
      eexists. split; [reflexivity|]. split.
      + intros other Hne. simpl. by rewrite lookup_insert_ne.
      + simpl. eexists. rewrite <- !app_assoc. split; reflexivity.
    - eexists. split; [reflexivity|]. split; [done|].
      simpl. eexists. split; reflexivity. }
  exists w. split; [reflexivity|]. split; [done|]. exists []. by rewrite app_nil_r.
Qed.

Lemma git_providerCalls_app evs evs' :
  GitObserve.providerCalls (evs ++ evs')
  = GitObserve.providerCalls evs + GitObserve.providerCalls evs'.
Proof. induction evs as [|ev evs IH]; simpl; [reflexivity|]. rewrite IH. lia. Qed.

(** X13: [createFile] never overwrites.  When the draft file already
    exists (a second run on the same title), GitHub takes every call and
    Claude answers, [processDraft] of the Git command returns with the
    existing draft untouched, nothing recorded as draft path in the
    research file (a draft path it had is kept, and it has the same as
    before, or none, when its body opens no front-matter block), and the
    research file in status Error with a message that starts with
    Drafting failed; Claude has been called for nothing. *)
Theorem GitDraftwriterCommand_existing_draft_is_kept {gm : GrayMatter} env researchFilePath
    title researchContent blog frontMatter (w : World) f draft g :
  dryRun env = false ->
  faults w = [] ->
  files w !! researchFilePath = Some f ->
  files w !! GitDraftwriterCommand.draftPath_of env title = Some draft ->
  researchFilePath <> GitDraftwriterCommand.draftPath_of env title ->
  blog <> GitDraftwriterCommand.draftPath_of env title ->
  blog <> researchFilePath ->
  claude env (draftwriterUserPrompt env title researchContent) = Completed g ->
  exists w1 reason,
    GitDraftwriterCommand.processDraft env researchFilePath title researchContent
      blog frontMatter w = (Js.Ok tt, w1) /\
    files w1 !! GitDraftwriterCommand.draftPath_of env title = Some draft /\
    status_of (files w1) researchFilePath = Some "Error" /\
    field_of (files w1) researchFilePath "error_message"
      = Some ("Drafting failed: " +:+ reason) /\
    (forall draft_filePath,
       field_of (files w) researchFilePath "draft_filePath" = Some draft_filePath ->
       field_of (files w1) researchFilePath "draft_filePath" = Some draft_filePath) /\
    (opensFrontMatter (body (doc f)) = false ->
     field_of (files w1) researchFilePath "draft_filePath"
     = field_of (files w) researchFilePath "draft_filePath") /\
    GitObserve.providerCalls (new_events w w1) = 1.
Proof.
  intros Hdry Hfaults Hp Hdraft Hne1 Hne2 Hne3 Hclaude.
  set (draftPath := GitDraftwriterCommand.draftPath_of env title) in *.
  unfold GitDraftwriterCommand.processDraft. rewrite Hdry.
  unfold GitDraftwriterCommand.processDraft_try.
  (* 1: Draft In Progress *)
  pose proof (updateYamlFrontMatter_nil researchFilePath {[ "status" := "Draft In Progress" ]}
                None ("WIP: Start drafting for " +:+ title) w Hfaults) as H1.
  rewrite Hp in H1. cbv zeta in H1.
  rewrite (try_catch_bind_ok _ _ _ _ _ _ H1).
  match type of H1 with _ = (_, ?x) => set (w1 := x) in * end.
  (* 2: Claude *)
  pose proof (git_generateContent_eq env (draftwriterUserPrompt env title researchContent) w1)
    as H2.
  rewrite Hclaude in H2. simpl generateContent_reply in H2.
  rewrite (try_catch_bind_ok _ _ _ _ _ _ H2).
  match type of H2 with _ = (_, ?x) => set (w2 := x) in * end.
  (* 3: the draft file exists *)
  fold draftPath.
  match goal with |- context [createFile draftPath ?c ?m] =>
    pose proof (createFile_nil draftPath c m w2 Hfaults) as H3 end.
  replace (files w2 !! draftPath) with (Some draft) in H3
    by (unfold w2, w1; simpl; by files_lookup).
  rewrite (try_catch_bind_throw _ _ _ _ _ _ H3).
  (* the catch *)
  unfold GitDraftwriterCommand.processDraft_catch.
  match goal with |- context [updateYamlFrontMatter researchFilePath ?u None ?m] =>
    pose proof (updateYamlFrontMatter_nil researchFilePath u None m w2 Hfaults) as H4 end.
  match type of H4 with context [files w2 !! researchFilePath] =>
    replace (files w2 !! researchFilePath) with
      (Some {| doc := stringify (body (doc f))
                               ({[ "status" := "Draft In Progress" ]} ∪ data (doc f));
               sha := S (sha f) |}) in H4
      by (unfold w2, w1; simpl; by files_lookup) end.
  cbv zeta in H4.
  rewrite (try_catch_bind_ok _ _ _ _ _ _ H4).
  match type of H4 with _ = (_, ?x) => set (w3 := x) in * end.
  match goal with |- context [Js.when (truthy blog) ?m] =>
    match m with context [updateYamlFrontMatter blog ?failed _ ?msg] =>
      destruct (processDraft_catch_blog_frame blog failed msg w3 Hfaults)
        as (w4 & H5 & Hframe & evs & Ht & Hcalls)
    end
  end.
  rewrite (try_catch_ok _ _ _ _ _ H5).
  exists w4, "Invalid request: sha was not supplied". split; [reflexivity|].
  unfold status_of, field_of. rewrite !Hframe by congruence.
  unfold w3, w2, w1. simpl. files_lookup. rewrite Hp. simpl.
  split; [done|].
  split; [by apply stringify_lookup, lookup_union_Some_l, lookup_insert_eq|].
  split.
  { apply stringify_lookup, lookup_union_Some_l.
    by rewrite lookup_insert_ne, lookup_singleton_eq. }
  split; [|split].
  - intros draft_filePath Hhad. apply stringify_lookup.
    rewrite lookup_union_r by (by rewrite lookup_insert_ne, lookup_singleton_ne).
    apply stringify_lookup.
    rewrite lookup_union_r by (by rewrite lookup_singleton_ne). exact Hhad.
  - intros Ho. rewrite stringify_plain_update by done. simpl.
    rewrite lookup_union_r by (by rewrite lookup_insert_ne, lookup_singleton_ne).
    apply lookup_union_r. by rewrite lookup_singleton_ne.
  - unfold new_events. rewrite Ht. unfold w3, w2, w1. simpl.
    rewrite <- !app_assoc, drop_app_length. simpl. by rewrite Hcalls.
Qed.

Lemma GitDraftwriterCommand_existing_draft_is_kept_witness :
  let env := Scenario.git_env false ErrRequest in
  let old := {| doc := {| data := {[ "status" := "Published" ]}; body := "old" |}; sha := 4 |} in
  let w := {| files := <[ "content/drafts/Foo-draft.md" := old ]>
                         {[ "research/foo.md" := Scenario.ready_file ]};
              faults := []; trace := [] |} in
  exists w1 reason,
    GitDraftwriterCommand.processDraft (gm := Scenario.yaml) env "research/foo.md" "Foo"
      "bar" "blog/foo.md" Scenario.ready_frontMatter w = (Js.Ok tt, w1) /\
    files w1 !! "content/drafts/Foo-draft.md" = Some old /\
    status_of (files w1) "research/foo.md" = Some "Error" /\
    field_of (files w1) "research/foo.md" "error_message"
      = Some ("Drafting failed: " +:+ reason) /\
    field_of (files w1) "research/foo.md" "draft_filePath"
      = field_of (files w) "research/foo.md" "draft_filePath" /\
    GitObserve.providerCalls (new_events w w1) = 1.
Proof.
  intros env old w.
  destruct (GitDraftwriterCommand_existing_draft_is_kept (gm := Scenario.yaml) env
              "research/foo.md" "Foo" "bar" "blog/foo.md" Scenario.ready_frontMatter w
              Scenario.ready_file old {| text := "the draft"; gen_usage := true |})
    as (w1 & reason & Hrun & Hdraft & Hs & He & _ & Hplain & Hcalls);
    try reflexivity; try discriminate.
  exists w1, reason. repeat (split; [assumption|]). split; [exact (Hplain eq_refl) | exact Hcalls].
Defined.

End GitDraftFailures.

(** ** GitResearchCommand.js: the run as a whole *)

Section GitResearchRuns.
Import Provider Git GitObserve GitResearchExecute.

Lemma on_path_readFile path q : Js.emits (on_path q) (readFile path).
Proof.
  apply emits_try_catch; [|intros; apply emits_throw].
  apply emits_bind; [by apply emits_repos_getContent | intros; apply emits_ret].
Qed.

Lemma on_path_writeFile path content given message :
  Js.emits (on_path path) (writeFile path content given message).
Proof.
  apply emits_bind.
  - destruct given; [apply emits_ret|].
    apply emits_try_catch; [|intros; apply emits_ret].
    apply emits_bind; [|intros; apply emits_ret].
    apply emits_bind; [by apply emits_repos_getContent | intros; apply emits_ret].
  - intros sha. apply emits_try_catch; [|intros; apply emits_throw].
    by apply emits_repos_createOrUpdateFileContents.
Qed.

Lemma on_path_updateYamlFrontMatter {gm : GrayMatter} path updates given message :
  Js.emits (on_path path) (updateYamlFrontMatter path updates given message).
Proof.
  apply emits_bind; [apply on_path_readFile | intros; apply on_path_writeFile].
Qed.

Lemma on_path_researchTopic env prompt q : Js.emits (on_path q) (researchTopic env prompt).
Proof.
  apply emits_bind; [apply emits_get | intros w].
  apply emits_bind; [|intros; intros w0; exists []; by rewrite app_nil_r].
  intros w0. exists [ProviderCalled prompt (files w)]. split; [reflexivity | by constructor].
Qed.

Lemma on_path_processTopic {gm : GrayMatter} env path title frontMatter :
  Js.emits (on_path path) (GitResearchCommand.processTopic env path title frontMatter).
Proof.
  unfold GitResearchCommand.processTopic. destruct (dryRun env); [apply emits_ret|].
  apply emits_try_catch.
  - apply emits_bind; [apply on_path_updateYamlFrontMatter | intros _].
    apply emits_bind; [apply on_path_researchTopic | intros research].
    apply emits_bind; [apply on_path_writeFile | intros _].
    apply on_path_updateYamlFrontMatter.
  - intros e. apply emits_try_catch; [apply on_path_updateYamlFrontMatter|].
    intros; apply emits_ret.
Qed.

Lemma git_providerCalls_quiet evs : Forall quiet evs -> providerCalls evs = 0.
Proof.
  induction 1 as [|ev evs Hev _ IH]; [reflexivity|]. simpl. rewrite IH.
  by destruct ev.
Qed.

Lemma confined_processTopic {gm : GrayMatter} env path title frontMatter :
  confined 1 (fun q => q = path) (GitResearchCommand.processTopic env path title frontMatter).
Proof.
  intros w.
  destruct (on_path_processTopic env path title frontMatter w) as (evs & Ht & Hon).
  destruct (GitResearchCommand_processTopic_events env path title frontMatter w)
    as (evs' & Ht' & Hshape).
  rewrite !git_trace_of_trace in Ht. rewrite Ht in Ht'. apply app_inv_head in Ht'. subst evs'.
  exists evs. split; [exact Ht|]. split; [|exact Hon].
  destruct Hshape as [[Hq _] | (committed & seen & rest & -> & _ & _ & Hq)].
  - rewrite git_providerCalls_quiet by done. lia.
  - simpl. rewrite git_providerCalls_quiet by done. lia.
Qed.

Lemma processTopic_git_returns {gm : GrayMatter} env path title frontMatter w :
  exists w1, GitResearchCommand.processTopic env path title frontMatter w = (Js.Ok tt, w1).
Proof.
  unfold GitResearchCommand.processTopic. destruct (dryRun env); [by eexists|].
  unfold Js.try_catch at 1.
  destruct (GitResearchCommand.processTopic_try env path title frontMatter w)
    as [[[]|e] w1]; [by eexists|].
  unfold GitResearchCommand.processTopic_catch, Js.try_catch.
  destruct (updateYamlFrontMatter _ _ _ _ w1) as [[[]|e'] w2]; by eexists.
Qed.

Lemma confined_ret {A} on (a : A) : confined 0 on (Js.ret a).
Proof. intros w. exists []. rewrite app_nil_r. repeat split; auto. Qed.

Lemma confined_weaken {A} n n' (on on' : string -> Prop) (m : Js.M World A) :
  n <= n' -> (forall q, on q -> on' q) -> confined n on m -> confined n' on' m.
Proof.
  intros Hn Hon Hm w. destruct (Hm w) as (evs & Ht & Hc & Hall).
  exists evs. split; [done|]. split; [lia|].
  eapply Forall_impl; [exact Hall|]. intros [] ?; auto.
Qed.

Lemma confined_bind {A B} n n' on (m : Js.M World A) (k : A -> Js.M World B) :
  confined n on m -> (forall a, confined n' on (k a)) -> confined (n + n') on (Js.bind m k).
Proof.
  intros Hm Hk w. unfold Js.bind.
  destruct (Hm w) as (evs & Ht & Hc & Hall).
  destruct (m w) as [[a|e] w1]; simpl in *.
  - destruct (Hk a w1) as (evs' & Ht' & Hc' & Hall').
    exists (evs ++ evs'). rewrite Ht', Ht, app_assoc, git_providerCalls_app.
    split; [done|]. split; [lia | by apply Forall_app].
  - exists evs. split; [done|]. split; [lia | done].
Qed.

Lemma confined_for_of {A} on (xs : list A) (body : A -> Js.M World unit) :
  Forall (fun x => confined 1 on (body x)) xs ->
  confined (length xs) on (Js.for_of xs body).
Proof.
  induction 1 as [|x xs Hx _ IH]; simpl; [apply confined_ret|].
  apply (confined_bind 1 (length xs)); auto.
Qed.

Lemma for_of_git_returns {A} (xs : list A) (body : A -> Js.M World unit) :
  (forall x w, exists w1, body x w = (Js.Ok tt, w1)) ->
  forall w, exists w1, Js.for_of xs body w = (Js.Ok tt, w1).
Proof.
  intros Hb. induction xs as [|x xs IH]; intros w; simpl; [by eexists|].
  destruct (Hb x w) as (w1 & Hx). rewrite (bind_ok _ _ _ _ _ Hx). apply IH.
Qed.

(** The gathering loop returns, reads only, and adds a topic only for a
    candidate whose file says Ready for Research; under [singleItem] it
    stops at the first topic. *)
Lemma gather_spec singleItem (candidates : list Candidate) :
  forall (acc : list Topic) (w : World),
  exists topics w1 evs,
    gather singleItem candidates acc w = (Js.Ok topics, w1) /\
    files w1 = files w /\
    trace w1 = trace w ++ evs /\
    Forall (fun ev => exists q, ev = Fetched q) evs /\
    (forall topic, topic ∈ topics ->
       topic ∈ acc \/
       exists candidate, candidate ∈ candidates /\
         c_filePath candidate = Some (filePath topic) /\
         status_of (files w) (filePath topic) = Some "Ready for Research") /\
    length topics <= length acc + length candidates /\
    (singleItem = true -> acc = [] -> length topics <= 1).
Proof.
  induction candidates as [|candidate rest IH]; intros acc w; simpl.
  { exists acc, w, []. rewrite app_nil_r. repeat split; auto; [lia|].
    intros _ ->. simpl. lia. }
  destruct (negb (truthy_opt (c_filePath candidate)) || negb (truthy_opt (c_title candidate)))
    eqn:Hskip.
  { destruct (IH acc w) as (topics & w1 & evs & -> & Hfs & Ht & Hev & Hin & Hlen & Hsingle).
    exists topics, w1, evs. repeat split; auto; [|lia].
    intros topic Htopic. destruct (Hin topic Htopic) as [?|(c & Hc & ?)]; [by left|].
    right. exists c. split; [by apply list_elem_of_further | done]. }
  apply orb_false_iff in Hskip as [Hpath _]. apply negb_false_iff in Hpath.
  destruct (c_filePath candidate) as [path|] eqn:Hcp; [|discriminate]. simpl.
  (* the read of the file and what it adds *)
  assert (exists acc' w0 evs0,
            Js.try_catch
              (fileContent <- readFile path ;;
               if bool_decide (data fileContent !! "status" = Some "Ready for Research")
               then Js.ret (acc ++ [{| filePath := path;
                                       title := default "" (c_title candidate);
                                       frontMatter := data fileContent |}])
               else Js.ret acc)
              (fun fileError => Js.ret acc) w = (Js.Ok acc', w0) /\
            files w0 = files w /\ trace w0 = trace w ++ evs0 /\
            Forall (fun ev => exists q, ev = Fetched q) evs0 /\
            (acc' = acc \/
             exists t, acc' = acc ++ [t] /\ filePath t = path /\
               status_of (files w) path = Some "Ready for Research"))
    as (acc' & w0 & evs0 & Hread & Hfs0 & Ht0 & Hev0 & Hacc').
  { destruct (readFile_cases path w) as [(e & He & _) | (f & _ & Hp & Hr)].
    - rewrite (try_catch_bind_throw _ _ _ _ _ _ He).
      exists acc, (pop w), []. rewrite app_nil_r. repeat split; auto.
    - rewrite (try_catch_bind_ok _ _ _ _ _ _ Hr).
      destruct (bool_decide_reflect (data (doc f) !! "status" = Some "Ready for Research"))
        as [Hs|Hs].
      + eexists _, _, [Fetched path]. split; [reflexivity|].
        split; [done|]. split; [done|]. split; [repeat constructor; eauto|].
        right. eexists. split; [reflexivity|]. split; [done|].
        unfold status_of, field_of. by rewrite Hp.
      + eexists _, _, [Fetched path]. split; [reflexivity|].
        split; [done|]. split; [done|]. split; [repeat constructor; eauto|]. by left. }
  rewrite (bind_ok _ _ _ _ _ Hread).
  assert (forall t, t ∈ acc' ->
            t ∈ acc \/
            exists c, c ∈ candidate :: rest /\ c_filePath c = Some (filePath t) /\
              status_of (files w) (filePath t) = Some "Ready for Research") as Hin'.
  { intros t Ht. destruct Hacc' as [->|(t' & -> & Hpt & Hst)]; [by left|].
    apply elem_of_app in Ht as [?|Heq]; [by left|].
    apply list_elem_of_singleton in Heq as ->. right.
    exists candidate. split; [apply list_elem_of_here|]. by rewrite Hpt. }
  assert (length acc' <= length acc + 1) as Hlen'.
  { destruct Hacc' as [->|(t' & -> & _)]; [lia|]. rewrite length_app. simpl. lia. }
  destruct (singleItem && Nat.ltb 0 (length acc')) eqn:Hbreak.
  - exists acc', w0, evs0. split; [reflexivity|]. split; [done|]. split; [done|].
    split; [done|]. split; [exact Hin'|]. split; [simpl; lia|].
    intros _ ->. simpl in Hlen'. lia.
  - destruct (IH acc' w0) as (topics & w1 & evs & -> & Hfs & Ht & Hev & Hin & Hlen & Hsingle).
    exists topics, w1, (evs0 ++ evs). split; [reflexivity|].
    split; [congruence|]. split; [by rewrite Ht, Ht0, app_assoc|].
    split; [by apply Forall_app|]. split; [|split; [lia|]].
    + intros t Htin. destruct (Hin t Htin) as [Ha|(c & Hc & Hcp' & Hst)].
      * apply Hin', Ha.
      * right. exists c. split; [by apply list_elem_of_further|]. by rewrite <- Hfs0.
    + intros Hs _. apply Hsingle; [done|]. rewrite Hs in Hbreak. simpl in Hbreak.
      apply Nat.ltb_ge in Hbreak. destruct acc'; [done | simpl in Hbreak; lia].
Qed.

(** X14: [GitResearchCommand.execute], when it takes its candidates
    from the JSON index, never throws; it commits only to files that the
    index lists as Ready for Research and whose own front matter said
    Ready for Research when the run read it; and it calls the research
    provider at most once per such candidate, at most once in all under
    [singleItem].  When the index cannot be fetched nothing happens. *)
Theorem GitResearchCommand_execute_selection {gm : GrayMatter} env singleItem researchJson
    (w : World) :
  let ready := filter (fun candidate => readyForResearch candidate)
                 (default [] (default None researchJson)) in
  exists w1,
    execute env singleItem researchJson w = (Js.Ok tt, w1) /\
    providerCalls (new_events w w1)
      <= (if singleItem then Nat.min 1 (length ready) else length ready) /\
    Forall (fun ev =>
              match ev with
              | Committed path _ _ =>
                  exists candidate,
                    candidate ∈ ready /\ c_filePath candidate = Some path /\
                    status_of (files w) path = Some "Ready for Research"
              | _ => True
              end) (new_events w w1) /\
    (researchJson = None -> w1 = w).
Proof.
  intros ready. unfold execute, topics.
  destruct researchJson as [entries|]; cycle 1.
  { exists w. split; [reflexivity|]. unfold new_events. rewrite drop_all. simpl.
    split; [destruct singleItem; lia|]. split; [constructor | done]. }
  simpl in ready.
  destruct (gather_spec singleItem ready [] w)
    as (topics & w0 & evs0 & Hg & Hfs & Ht0 & Hev0 & Hin & Hlen & Hsingle).
  fold ready. rewrite (bind_ok _ _ _ _ _ (try_catch_ok _ _ _ _ _ Hg)).
  set (selected := fun path => exists candidate,
         candidate ∈ ready /\ c_filePath candidate = Some path /\
         status_of (files w) path = Some "Ready for Research").
  set (body := fun topic : Topic =>
         GitResearchCommand.processTopic env (filePath topic) (title topic) (frontMatter topic)).
  destruct (for_of_git_returns topics body
              (fun topic => processTopic_git_returns env _ _ _) w0) as (w1 & Hrun).
  destruct (confined_for_of selected topics body) with (w := w0) as (evs & Ht & Hc & Hall).
  { apply Forall_forall. intros topic Htopic.
    eapply confined_weaken; [reflexivity| |apply confined_processTopic].
    intros q ->. destruct (Hin topic Htopic) as [Hnil|Hsel]; [by apply elem_of_nil in Hnil|].
    exact Hsel. }
  rewrite Hrun in Ht. simpl in Ht.
  exists w1. split; [exact Hrun|].
  unfold new_events. rewrite Ht, Ht0, <- app_assoc, drop_app_length.
  split; [|split; [|discriminate]].
  - rewrite git_providerCalls_app, git_providerCalls_quiet; cycle 1.
    { eapply Forall_impl; [exact Hev0|]. by intros ev [q ->]. }
    simpl in Hlen. destruct singleItem.
    + specialize (Hsingle eq_refl eq_refl).
      assert (length topics <= Nat.min 1 (length ready)); [|lia].
      destruct (length ready); simpl; lia.
    + lia.
  - apply Forall_app. split; [|exact Hall].
    eapply Forall_impl; [exact Hev0|]. by intros ev [q ->].
Qed.

End GitResearchRuns.

(** ** From the Git research command to the Git draft command *)

Section GitHandOver.
Import Provider Git.

(** X15: a successful run of the Git research command leaves the file
    in status Research Complete, and the Git draft command, asked for
    that file, does not draft a file in that status: it reads it, finds
    that the status is not Ready for Draft, and returns without a commit
    or a provider call.  So the research command does not hand its
    result over to the draft command. *)
Theorem GitResearchCommand_result_is_not_drafted {gm : GrayMatter} env path title
    frontMatter (w w' : World) :
  GitResearchCommand.processTopic_try env path title frontMatter w = (Js.Ok tt, w') ->
  status_of (files w') path = Some "Research Complete" /\
  forall env' contentDirBlog (wd : World),
    status_of (files wd) path = status_of (files w') path ->
    exists w1,
      GitDraftwriterExecute.execute_single env' contentDirBlog path wd = (Js.Ok tt, w1) /\
      files w1 = files wd /\
      Forall (fun ev => ev = Fetched path) (new_events wd w1).
Proof.
  intros Hrun. apply git_research_success_status in Hrun. split; [exact Hrun|].
  intros env' contentDirBlog wd Hsame. rewrite Hrun in Hsame.
  unfold GitDraftwriterExecute.execute_single.
  destruct (readFile_cases path wd) as [(e & He & _) | (f & _ & Hp & Hr)].
  - rewrite (bind_ok _ _ _ _ _ (try_catch_bind_throw _ _ _ _ _ _ He)). simpl.
    eexists. split; [reflexivity|]. split; [reflexivity|].
    unfold new_events. simpl. rewrite drop_all. constructor.
  - erewrite bind_ok; cycle 1.
    { rewrite (try_catch_bind_ok _ _ _ _ _ _ Hr).
      unfold status_of, field_of in Hsame. rewrite Hp in Hsame. simpl in Hsame.
      rewrite bool_decide_eq_false_2 by (rewrite Hsame; discriminate).
      reflexivity. }
    simpl. eexists. split; [reflexivity|]. split; [reflexivity|].
    unfold new_events. simpl. rewrite drop_app_length. by constructor.
Qed.

Lemma GitResearchCommand_result_is_not_drafted_witness :
  let env := Scenario.git_env false (Responded (Some Scenario.bar)) in
  let w := Scenario.git_world "research/foo.md" Scenario.foo_file [] in
  let w' := snd (GitResearchCommand.processTopic_try (gm := Scenario.yaml) env
                   "research/foo.md" "Foo" Scenario.foo_frontMatter w) in
  status_of (files w') "research/foo.md" = Some "Research Complete" /\
  forall env' contentDirBlog (wd : World),
    status_of (files wd) "research/foo.md" = status_of (files w') "research/foo.md" ->
    exists w1,
      GitDraftwriterExecute.execute_single (gm := Scenario.yaml) env' contentDirBlog
        "research/foo.md" wd = (Js.Ok tt, w1) /\
      files w1 = files wd /\
      Forall (fun ev => ev = Fetched "research/foo.md") (new_events wd w1).
Proof.
  intros env w w'.
  apply (GitResearchCommand_result_is_not_drafted (gm := Scenario.yaml) env
           "research/foo.md" "Foo" Scenario.foo_frontMatter w w').
  vm_compute. reflexivity.
Defined.

End GitHandOver.

(** ** The Copilot action *)

Section CopilotHelpersFacts.
Import CopilotHelpers.

Lemma newSet_elem seen files file :
  file ∈ newSet seen files <-> file ∈ files /\ file ∉ seen.
Proof.
  revert seen. induction files as [|x rest IH]; intros seen; simpl.
  { split; [by intros ?%elem_of_nil | by intros [?%elem_of_nil _]]. }
  destruct (bool_decide_reflect (x ∈ seen)) as [Hx|Hx].
  - rewrite IH, elem_of_cons. split; [tauto|]. intros [[->|?] ?]; tauto.
  - rewrite !elem_of_cons, IH, elem_of_cons. split.
    + intros [->|[? Hn]]; [tauto|]. split; [tauto|]. tauto.
    + intros [[->|?] ?]; [tauto|]. destruct (decide (file = x)); [tauto|]. right. tauto.
Qed.

Lemma newSet_NoDup seen files : NoDup (newSet seen files).
Proof.
  revert seen. induction files as [|x rest IH]; intros seen; simpl; [constructor|].
  destruct (bool_decide (x ∈ seen)); [apply IH|].
  constructor; [|apply IH]. rewrite newSet_elem, elem_of_cons. tauto.
Qed.

Lemma newSet_sublist seen files : sublist (newSet seen files) files.
Proof.
  revert seen. induction files as [|x rest IH]; intros seen; simpl; [constructor|].
  destruct (bool_decide (x ∈ seen)); [apply sublist_cons | apply sublist_skip]; apply IH.
Qed.

Lemma pushAll_elem commits files file :
  file ∈ pushAll commits files <->
  file ∈ files \/
  exists commit, commit ∈ commits /\
    (file ∈ default [] (added commit) \/ file ∈ default [] (modified commit)).
Proof.
  revert files. induction commits as [|c rest IH]; intros files; simpl.
  { split; [tauto|]. intros [?|(c & ?%elem_of_nil & _)]; tauto. }
  rewrite IH, !elem_of_app. split.
  - intros [[[?|?]|?]|(c' & Hc' & H)]; [by left| | |].
    + right. exists c. split; [apply list_elem_of_here | by left].
    + right. exists c. split; [apply list_elem_of_here | by right].
    + right. exists c'. split; [by apply list_elem_of_further | done].
  - intros [?|(c' & Hc' & H)]; [tauto|].
    apply elem_of_cons in Hc' as [->|Hc']; [tauto|]. right. eauto.
Qed.

(** Where an element of [newSet] stands: what comes before it in the
    result is what came before its first occurrence in the list, the
    elements seen before the list apart. *)
Lemma newSet_split files :
  forall seen before file after,
    newSet seen files = before ++ file :: after ->
    exists earlier later,
      files = earlier ++ file :: later /\
      (forall other, other ∈ earlier -> other ∈ seen \/ other ∈ before) /\
      (forall other, other ∈ before -> other ∈ earlier).
Proof.
  induction files as [|x rest IH]; intros seen before file after; simpl.
  { by destruct before. }
  destruct (bool_decide_reflect (x ∈ seen)) as [Hx|Hx].
  - intros (earlier & later & -> & Hin & Hout)%IH.
    exists (x :: earlier), later. split; [done|]. split.
    + intros other [->|?]%elem_of_cons; [by left | by apply Hin].
    + intros other ?. apply list_elem_of_further. by apply Hout.
  - destruct before as [|y before]; simpl.
    + intros [= -> <-]. exists [], rest. split; [done|]. split.
      * by intros other ?%elem_of_nil.
      * by intros other ?%elem_of_nil.
    + intros [= -> Hrest]. apply IH in Hrest as (earlier & later & -> & Hin & Hout).
      exists (y :: earlier), later. split; [done|]. split.
      * intros other [->|Hother]%elem_of_cons; [right; apply list_elem_of_here|].
        destruct (Hin other Hother) as [[->|?]%elem_of_cons|?].
        -- right. apply list_elem_of_here.
        -- by left.
        -- right. by apply list_elem_of_further.
      * intros other [->|?]%elem_of_cons; [apply list_elem_of_here|].
        apply list_elem_of_further. by apply Hout.
Qed.

(** X16: [parseChangedFiles] lists each file that some commit of the
    push added or modified, once, in the order of first mention, and no
    other file (a file that commits only removed is not listed); without
    commits it lists nothing.  The order of first mention: where the
    mentions are taken commit by commit, the added files of a commit
    before its modified files, the files listed before a file are the
    files mentioned before the first mention of that file. *)
Theorem parseChangedFiles_lists_each_once (commits : option (list Commit)) :
  NoDup (parseChangedFiles commits) /\
  (forall file,
     file ∈ parseChangedFiles commits <->
     exists commit, commit ∈ default [] commits /\
       (file ∈ default [] (added commit) \/ file ∈ default [] (modified commit))) /\
  sublist (parseChangedFiles commits) (pushAll (default [] commits) []) /\
  (forall before file after,
     parseChangedFiles commits = before ++ file :: after ->
     exists earlier later,
       pushAll (default [] commits) [] = earlier ++ file :: later /\
       file ∉ earlier /\
       (forall other, other ∈ earlier <-> other ∈ before)) /\
  parseChangedFiles None = [].
Proof.
  unfold parseChangedFiles. split; [apply newSet_NoDup|]. split; [|split; [|split]].
  - intros file. rewrite newSet_elem, pushAll_elem. split.
    + intros [[?%elem_of_nil|?] _]; tauto.
    + intros H. split; [by right|]. by intros ?%elem_of_nil.
  - apply newSet_sublist.
  - intros before file after Heq.
    pose proof (newSet_NoDup [] (pushAll (default [] commits) [])) as Hnodup.
    rewrite Heq in Hnodup. apply NoDup_app in Hnodup as (_ & Hsep & _).
    destruct (newSet_split _ _ _ _ _ Heq) as (earlier & later & Hall & Hin & Hout).
    exists earlier, later. split; [exact Hall|].
    assert (forall other, other ∈ earlier -> other ∈ before) as Hin'.
    { intros other Hother. by destruct (Hin other Hother) as [?%elem_of_nil|?]. }
    split.
    + intros Hfile. apply (Hsep file (Hin' _ Hfile)), list_elem_of_here.
    + intros other. split; [apply Hin' | apply Hout].
  - reflexivity.
Qed.

End CopilotHelpersFacts.

(** ** The Copilot research action and the sha it reuses *)

Section CopilotResearchFacts.
Import Git CopilotHelpers CopilotClient CopilotResearch.

Lemma copilot_getFileContent_inv path w r w1 :
  Copilot.getFileContent path w = (r, w1) ->
  files w1 = files w /\
  match r with
  | Js.Ok f => files w !! path = Some f /\ next_fault w = None /\
               w1 = record (Fetched path) (pop w)
  | Js.Throw _ => w1 = pop w
  end.
Proof.
  unfold Copilot.getFileContent.
  destruct (repos_getContent_cases path w) as [(e & He & _) | (f & Hf & Hp & Hg)].
  - rewrite (try_catch_throw _ _ _ _ _ He). intros [= <- <-]. done.
  - rewrite (try_catch_ok _ _ _ _ _ Hg). intros [= <- <-]. done.
Qed.

Lemma updateFile_inv path content commitMessage given w r w1 :
  updateFile path content commitMessage given w = (r, w1) ->
  match r with
  | Js.Ok _ =>
      exists f, files w !! path = Some f /\ given = sha f /\ next_fault w = None /\
        w1 = record (Committed path content commitMessage)
               (set_files (insert path {| doc := content; sha := S (sha f) |}) (pop w))
  | Js.Throw _ => w1 = pop w
  end.
Proof.
  unfold updateFile.
  destruct (repos_createOrUpdateFileContents_cases path content (Some given) commitMessage w)
    as [(e & He & _) | (ns & Hf & Hc & Hm)].
  - rewrite (try_catch_throw _ _ _ _ _ He). intros [= <- <-]. done.
  - rewrite (try_catch_ok _ _ _ _ _ Hc). intros [= <- <-].
    destruct (files w !! path) as [f|]; [|done]. destruct Hm as [-> ->]. eauto.
Qed.

(** [updateFrontMatter] commits only when the sha it is handed is the
    current one. *)
Lemma updateFrontMatter_inv {gm : GrayMatter} path updates commitMessage given bodyContent
    w r w1 :
  updateFrontMatter path updates commitMessage given bodyContent w = (r, w1) ->
  match r with
  | Js.Ok _ =>
      exists f, files w !! path = Some f /\ given = sha f /\
        files w1 = <[path := {| doc := stringify bodyContent (updates ∪ data (doc f));
                                sha := S (sha f) |}]> (files w)
  | Js.Throw _ => files w1 = files w
  end.
Proof.
  unfold updateFrontMatter, Js.try_catch at 1, Js.bind at 1.
  destruct (Copilot.getFileContent path w) as [[f|e] w0] eqn:Hg;
    apply copilot_getFileContent_inv in Hg as [Hfs Hg].
  - destruct Hg as (Hp & _ & ->).
    match goal with |- context [updateFile ?p ?c ?m ?s ?w2] =>
      destruct (updateFile p c m s w2) as [[[]|e] w3] eqn:Hu end;
      apply updateFile_inv in Hu.
    + destruct Hu as (f' & Hp' & -> & _ & ->). intros [= <- <-].
      change (files (record (Fetched path) (pop w))) with (files w) in Hp'.
      rewrite Hp in Hp'. injection Hp' as <-. exists f. simpl. auto.
    + subst w3. intros [= <- <-]. reflexivity.
  - subst w0. intros [= <- <-]. reflexivity.
Qed.

Lemma copilot_getFileContent_nil path w :
  faults w = [] ->
  Copilot.getFileContent path w =
    match files w !! path with
    | Some f => (Js.Ok f, record (Fetched path) w)
    | None => (Js.Throw (new_Error ("Failed to get file content for " +:+ path +:+ ": "
                                     +:+ "Not Found")), w)
    end.
Proof.
  intros Hf. unfold Copilot.getFileContent, Js.try_catch.
  rewrite repos_getContent_nil by done. by destruct (files w !! path).
Qed.

Lemma updateFrontMatter_nil {gm : GrayMatter} path updates commitMessage given bodyContent
    w f :
  faults w = [] -> files w !! path = Some f ->
  updateFrontMatter path updates commitMessage given bodyContent w =
    let newContent := stringify bodyContent (updates ∪ data (doc f)) in
    if bool_decide (given = sha f)
    then (Js.Ok tt, record (Committed path newContent commitMessage)
                      (set_files (insert path {| doc := newContent; sha := S (sha f) |})
                         (record (Fetched path) w)))
    else (Js.Throw (new_Error ("Failed to update frontmatter for " +:+ path +:+ ": " +:+
                               ("Failed to update file " +:+ path +:+ ": " +:+
                                "sha does not match"))),
          record (Fetched path) w).
Proof.
  intros Hf Hp. unfold updateFrontMatter, Js.try_catch at 1, Js.bind.
  rewrite copilot_getFileContent_nil, Hp by done.
  unfold updateFile, Js.try_catch, repos_createOrUpdateFileContents.
  rewrite remote_nil by done. simpl. rewrite Hp.
  by destruct (bool_decide (given = sha f)).
Qed.

Lemma git_new_events_providerCalls (w w1 : World) evs :
  trace w1 = trace w ++ evs ->
  GitObserve.providerCalls (new_events w w1) = GitObserve.providerCalls evs.
Proof. intros Ht. unfold new_events. by rewrite Ht, drop_app_length. Qed.

Section Action.
Context (basePrompt : string -> string) (fetch : string -> FetchReply).
Context (titleFromText : Doc -> string).
Context (replaceResearchSection : string -> string -> string).
Context (toISOString : string).

Lemma handleResearchError_returns {gm : GrayMatter} filePath error w :
  exists w1, handleResearchError filePath error w = (Js.Ok tt, w1).
Proof.
  unfold handleResearchError, Js.try_catch.
  match goal with |- context [Js.bind ?m ?k w] => destruct (Js.bind m k w) as [[[]|e] w1] end;
    by eexists.
Qed.

(** The [try] block of [processResearchFile] never reaches its end: the
    second write is handed the sha that the first write has replaced. *)
Lemma processResearchFile_try_stale {gm : GrayMatter} filePath w r w1 :
  processResearchFile_try basePrompt fetch titleFromText replaceResearchSection toISOString
    filePath w = (Js.Ok r, w1) -> False.
Proof.
  unfold processResearchFile_try. intros Hrun.
  apply bind_inv in Hrun as [(e & _ & [=]) | (f & w2 & Hg & Hrun)].
  apply copilot_getFileContent_inv in Hg as (Hfs2 & Hp & _ & _).
  apply bind_inv in Hrun as [(e & _ & [=]) | (valid & w3 & Hv & Hrun)].
  assert (w3 = w2) as ->.
  { unfold lift in Hv. by injection Hv. }
  apply bind_inv in Hrun as [(e & _ & [=]) | ([] & w4 & Hc & Hrun)].
  assert (w4 = w2) as ->.
  { destruct valid; [by injection Hc | discriminate]. }
  apply bind_inv in Hrun as [(e & _ & [=]) | ([] & w5 & Hu & Hrun)].
  unfold updateFileStatus in Hu. apply updateFrontMatter_inv in Hu as (f' & Hp' & _ & Hfs5).
  rewrite Hfs2, Hp in Hp'. injection Hp' as <-.
  apply bind_inv in Hrun as [(e & _ & [=]) | (research & w6 & Hr & Hrun)].
  assert (files w6 = files w5) as Hfs6.
  { unfold generateResearch, Js.bind, Js.get, log, Js.modify, lift in Hr.
    injection Hr as _ <-. reflexivity. }
  apply bind_inv in Hrun as [(e & _ & [=]) | ([] & w7 & Hu2 & _)].
  apply updateFrontMatter_inv in Hu2 as (f2 & Hp2 & Hsha & _).
  rewrite Hfs6, Hfs5, lookup_insert_eq in Hp2. injection Hp2 as <-.
  simpl in Hsha. lia.
Qed.

(** X17: [processResearchFile] of the Copilot action never reports
    success, whatever the repository, the provider and GitHub do: the
    write that would record the research passes the sha read before the
    status was set to Research In Progress, which that first write has
    replaced, so GitHub refuses it.  The call itself always returns, with
    [success: false] and [newStatus: 'Error']. *)
Theorem Copilot_processResearchFile_never_succeeds {gm : GrayMatter} filePath (w : World) :
  exists result w1,
    processResearchFile basePrompt fetch titleFromText replaceResearchSection toISOString
      filePath w = (Js.Ok result, w1) /\
    success result = false /\ newStatus result = "Error" /\
    result_filePath result = filePath.
Proof.
  unfold processResearchFile, Js.try_catch.
  destruct (processResearchFile_try _ _ _ _ _ filePath w) as [[r|e] w1] eqn:Htry.
  { by apply processResearchFile_try_stale in Htry. }
  destruct (handleResearchError_returns filePath e w1) as (w2 & Hh).
  rewrite (bind_ok _ _ _ _ _ Hh). eexists _, _. split; [reflexivity|]. done.
Qed.

(** X18: what that costs.  On a file that is Ready for Research, with
    GitHub taking every call and Perplexity answering,
    [processResearchFile] calls Perplexity once and then leaves the file
    in status Error, with an error message that names the refused update.
    The file is what two passes of [stringify] make of it; when its body
    opened no front-matter block, the body is the one it had, closed by a
    line feed (the research is dropped), and no research date is
    added. *)
Theorem Copilot_processResearchFile_ends_in_error {gm : GrayMatter} filePath (w : World) f
    research :
  faults w = [] ->
  files w !! filePath = Some f ->
  data (doc f) !! "status" = Some "Ready for Research" ->
  fetch (buildResearchPrompt basePrompt (extractTitleFromContent titleFromText f)
           (body (doc f))) = Json (Some research) ->
  truthy research = true ->
  exists result w1 reason,
    processResearchFile basePrompt fetch titleFromText replaceResearchSection toISOString
      filePath w = (Js.Ok result, w1) /\
    success result = false /\
    status_of (files w1) filePath = Some "Error" /\
    field_of (files w1) filePath "error_message"
      = Some ("Failed to update frontmatter for " +:+ filePath +:+ ": " +:+
              ("Failed to update file " +:+ filePath +:+ ": " +:+ reason)) /\
    (let started :=
       stringify (body (doc f))
         ({[ "status" := "Research In Progress" ]} ∪ data (doc f)) in
     doc <$> files w1 !! filePath
     = Some (stringify (body started)
               (createErrorFrontMatter (data started)
                  (new_Error ("Failed to update frontmatter for " +:+ filePath +:+ ": " +:+
                              ("Failed to update file " +:+ filePath +:+ ": " +:+ reason)))
                ∪ data started))) /\
    (opensFrontMatter (body (doc f)) = false ->
     field_of (files w1) filePath "date_researched" = data (doc f) !! "date_researched" /\
     (body ∘ doc) <$> files w1 !! filePath = Some (newline (body (doc f)))) /\
    GitObserve.providerCalls (new_events w w1) = 1.
Proof.
  intros Hfaults Hp Hstatus Hfetch Htruthy.
  unfold processResearchFile, processResearchFile_try.
  (* the read *)
  pose proof (copilot_getFileContent_nil filePath w Hfaults) as H1. rewrite Hp in H1.
  rewrite (try_catch_bind_ok _ _ _ _ _ _ H1). set (w1 := record (Fetched filePath) w).
  (* the transition is valid *)
  rewrite Hstatus.
  assert (lift (isValidStatusTransition_of (Some "Ready for Research")
                  Helpers.Research_In_Progress) w1 = (Js.Ok true, w1)) as H2 by reflexivity.
  rewrite (try_catch_bind_ok _ _ _ _ _ _ H2).
  assert (Js.ret (W:=World) tt w1 = (Js.Ok tt, w1)) as H3 by reflexivity.
  rewrite (try_catch_bind_ok _ _ _ _ _ _ H3).
  (* Research In Progress *)
  set (title := extractTitleFromContent titleFromText f) in *.
  pose proof (updateFrontMatter_nil filePath {[ "status" := "Research In Progress" ]}
                ("Start research for " +:+ title) (sha f) (body (doc f)) w1 f Hfaults Hp) as H4.
  rewrite bool_decide_eq_true_2 in H4 by done. cbv zeta in H4.
  unfold updateFileStatus at 1. rewrite (try_catch_bind_ok _ _ _ _ _ _ H4).
  match type of H4 with _ = (_, ?x) => set (w2 := x) in * end.
  set (f2 := {| doc := stringify (body (doc f))
                         ({[ "status" := "Research In Progress" ]} ∪ data (doc f));
                sha := S (sha f) |}).
  assert (files w2 !! filePath = Some f2) as Hp2 by (simpl; apply lookup_insert_eq).
  (* Perplexity *)
  assert (generateResearch basePrompt fetch title (body (doc f)) w2
          = (Js.Ok research,
             record (ProviderCalled (buildResearchPrompt basePrompt title (body (doc f)))
                       (files w2)) w2)) as H5.
  { unfold generateResearch, Js.bind, Js.get, log, Js.modify, lift. rewrite Hfetch. simpl.
    by rewrite Htruthy. }
  rewrite (try_catch_bind_ok _ _ _ _ _ _ H5).
  match type of H5 with _ = (_, ?x) => set (w3 := x) in * end.
  (* the stale sha *)
  match goal with |- context [updateFrontMatter filePath ?u ?m (sha f) ?b] =>
    pose proof (updateFrontMatter_nil filePath u m (sha f) b w3 f2 Hfaults Hp2) as H6 end.
  rewrite bool_decide_eq_false_2 in H6 by (simpl; lia). cbv zeta in H6.
  rewrite (try_catch_bind_throw _ _ _ _ _ _ H6).
  match type of H6 with _ = (Js.Throw ?err, ?x) => set (e := err) in *; set (w4 := x) in * end.
  (* the catch *)
  assert (Hp4 : files w4 !! filePath = Some f2) by exact Hp2.
  pose proof (copilot_getFileContent_nil filePath w4 Hfaults) as H7. rewrite Hp4 in H7.
  set (w5 := record (Fetched filePath) w4) in *.
  pose proof (updateFrontMatter_nil filePath (createErrorFrontMatter (data (doc f2)) e)
                ("Research error: " +:+ message e) (sha f2) (body (doc f2)) w5 f2
                Hfaults Hp4) as H8.
  rewrite bool_decide_eq_true_2 in H8 by done. cbv zeta in H8.
  match type of H8 with _ = (_, ?x) => set (w6 := x) in * end.
  assert (handleResearchError filePath e w4 = (Js.Ok tt, w6)) as H9.
  { unfold handleResearchError.
    rewrite (try_catch_bind_ok _ _ _ _ _ _ H7). by rewrite (try_catch_ok _ _ _ _ _ H8). }
  rewrite (bind_ok _ _ _ _ _ H9).
  eexists _, w6, "sha does not match". split; [reflexivity|]. split; [reflexivity|].
  unfold status_of, field_of. simpl. rewrite lookup_insert_eq. simpl.
  unfold createErrorFrontMatter.
  split.
  { apply stringify_lookup, lookup_union_Some_l. by rewrite lookup_insert_ne, lookup_insert_eq. }
  split; [apply stringify_lookup, lookup_union_Some_l; by rewrite lookup_insert_eq|].
  split; [reflexivity|].
  split.
  - intros Ho. rewrite !(stringify_plain _ _ Ho). simpl.
    rewrite stringify_plain by (by rewrite opensFrontMatter_newline). simpl.
    split; [|by rewrite newline_idem].
    rewrite lookup_union, !lookup_insert_ne by done.
    rewrite (lookup_union_r {[ "status" := "Research In Progress" ]})
      by (by rewrite lookup_singleton_ne).
    by destruct (data (doc f) !! "date_researched").
  - apply git_new_events_providerCalls with
      (evs := [Fetched filePath; Fetched filePath;
               Committed filePath (doc f2) ("Start research for " +:+ title);
               ProviderCalled (buildResearchPrompt basePrompt title (body (doc f))) (files w2);
               Fetched filePath; Fetched filePath; Fetched filePath;
               Committed filePath
                 (stringify (body (doc f2))
                    (createErrorFrontMatter (data (doc f2)) e ∪ data (doc f2)))
                 ("Research error: " +:+ message e)]).
    simpl. rewrite <- !app_assoc. reflexivity.
Qed.

End Action.

Lemma Copilot_processResearchFile_ends_in_error_witness :
  let basePrompt := fun topic => "Research the topic: " +:+ topic in
  let fetch := fun _ : string => Json (Some "findings") in
  let titleFromText := fun _ : Doc => "Untitled" in
  let replaceResearchSection := fun original _ : string => original in
  let w := Scenario.git_world "research/foo.md" Scenario.foo_file [] in
  exists result w1 reason,
    processResearchFile (gm := Scenario.yaml) basePrompt fetch titleFromText
      replaceResearchSection "2025-05-01T00:00:00.000Z" "research/foo.md" w
      = (Js.Ok result, w1) /\
    success result = false /\
    status_of (files w1) "research/foo.md" = Some "Error" /\
    field_of (files w1) "research/foo.md" "error_message"
      = Some ("Failed to update frontmatter for " +:+ "research/foo.md" +:+ ": " +:+
              ("Failed to update file " +:+ "research/foo.md" +:+ ": " +:+ reason)) /\
    field_of (files w1) "research/foo.md" "date_researched" = None /\
    (body ∘ doc) <$> files w1 !! "research/foo.md" = Some nl /\
    GitObserve.providerCalls (new_events w w1) = 1.
Proof.
  intros basePrompt fetch titleFromText replaceResearchSection w.
  destruct (Copilot_processResearchFile_ends_in_error (gm := Scenario.yaml) basePrompt fetch
              titleFromText replaceResearchSection "2025-05-01T00:00:00.000Z"
              "research/foo.md" w Scenario.foo_file "findings")
    as (result & w1 & reason & Hrun & Hsuccess & Hs & He & _ & Hplain & Hcalls);
    try reflexivity.
  destruct (Hplain eq_refl) as [Hdate Hbody].
  exists result, w1, reason. repeat (split; [assumption|]). exact Hcalls.
Defined.

End CopilotResearchFacts.

(** ** The Notion store when Notion takes every call *)

Section NotionQuietStore.
Import Provider Notion NotionClient.

Lemma notion_world_eta (w : World) : faults w = [] -> pop w = w.
Proof. destruct w as [ps fl n tr]. simpl. intros ->. reflexivity. Qed.

Lemma notion_remote_nil {A} (call : Js.M World A) w : faults w = [] -> remote call w = call w.
Proof.
  intros Hf. unfold remote, next_fault. rewrite Hf. by rewrite notion_world_eta.
Qed.

Lemma updateBlogPostStatus_nil id status w p :
  faults w = [] -> pages w !! id = Some p ->
  updateBlogPostStatus id status w =
    (Js.Ok tt,
     record (Updated id {[ "Status" := status ]})
       (set_pages (insert id {| parent := parent p;
                                properties := {[ "Status" := status ]} ∪ properties p;
                                blocks := blocks p |}) w)).
Proof.
  intros Hf Hp. unfold updateBlogPostStatus. rewrite try_catch_rethrow.
  unfold pages_update. rewrite notion_remote_nil by done. by rewrite Hp.
Qed.

Lemma databases_query_nil database_id equals w :
  faults w = [] ->
  databases_query database_id equals w =
    (Js.Ok (filter (fun e => matches database_id equals e) (map_to_list (pages w))),
     record (Queried database_id equals) w).
Proof. intros Hf. unfold databases_query. by rewrite notion_remote_nil. Qed.

Lemma pages_create_nil database_id props children w :
  faults w = [] ->
  pages_create database_id props children w =
    (Js.Ok (new_page_id w),
     record (Created (new_page_id w) database_id)
       (bump_id (set_pages (insert (new_page_id w)
          {| parent := database_id; properties := props; blocks := children |}) w))).
Proof. intros Hf. unfold pages_create. by rewrite notion_remote_nil. Qed.

Lemma appendBlocksInBatches_nil blockId (blocks : list Block) w p :
  faults w = [] -> pages w !! blockId = Some p ->
  exists evs,
    appendBlocksInBatches blockId blocks w =
      (Js.Ok tt,
       {| pages := <[blockId := {| parent := parent p; properties := properties p;
                                   blocks := Notion.blocks p ++ blocks |}]> (pages w);
          faults := [];
          next_id := next_id w;
          trace := trace w ++ evs |}).
Proof.
  intros Hf Hp. unfold appendBlocksInBatches.
  destruct (appendBlocksInBatches_from_accepted blockId blocks (length blocks) 0 w p)
    as (w1 & batches & Hrun & Hpages & Htrace & _ & _ & _ & Hfs & Hid);
    [lia | done | rewrite Hf, take_nil; constructor |].
  rewrite Hf, drop_nil in Hfs. rewrite drop_0 in Hpages.
  eexists. rewrite Hrun. f_equal. destruct w1 as [ps fl n tr]. simpl in *. by subst.
Qed.

Lemma pageToMarkdown_nil env pageId w p :
  faults w = [] -> pages w !! pageId = Some p ->
  getPageContent env pageId w =
    (Js.Ok (toMarkdownString env (blocks p)), record (Read pageId) w).
Proof.
  intros Hf Hp. unfold getPageContent. rewrite try_catch_rethrow.
  unfold Devin.pageToMarkdown. rewrite notion_remote_nil by done. by rewrite Hp.
Qed.

(** A list without duplicates whose only possible element is [a], and
    which holds [a], is [[a]]. *)
Lemma NoDup_singleton_eq {A} (l : list A) (a : A) :
  NoDup l -> a ∈ l -> (forall x, x ∈ l -> x = a) -> l = [a].
Proof.
  intros Hnd Ha Hall. destruct l as [|x [|y l]].
  - by apply elem_of_nil in Ha.
  - f_equal. apply Hall, list_elem_of_here.
  - exfalso. apply NoDup_cons in Hnd as [Hx _]. apply Hx.
    rewrite (Hall x) by apply list_elem_of_here.
    rewrite <- (Hall y) by (apply list_elem_of_further, list_elem_of_here).
    apply list_elem_of_here.
Qed.

Lemma query_singleton (ps : gmap string Page) database_id equals id page :
  ps !! id = Some page ->
  matches database_id equals (id, page) = true ->
  (forall id' page', ps !! id' = Some page' ->
     matches database_id equals (id', page') = true -> id' = id) ->
  filter (fun e => matches database_id equals e) (map_to_list ps) = [(id, page)].
Proof.
  intros Hp Hm Hall. apply NoDup_singleton_eq.
  - apply NoDup_filter, NoDup_map_to_list.
  - apply list_elem_of_filter. split; [by rewrite Hm|]. by apply elem_of_map_to_list.
  - intros [id' page'] [Hm' Hin]%list_elem_of_filter.
    apply elem_of_map_to_list in Hin. apply Is_true_true in Hm'.
    assert (id' = id) as -> by eauto. congruence.
Qed.

Lemma query_empty_inv (ps : gmap string Page) database_id equals id page :
  filter (fun e => matches database_id equals e) (map_to_list ps) = [] ->
  ps !! id = Some page -> matches database_id equals (id, page) = false.
Proof.
  intros Hnil Hp. destruct (matches database_id equals (id, page)) eqn:Hm; [|done].
  assert ((id, page) ∈ filter (fun e => matches database_id equals e) (map_to_list ps)) as Hin.
  { apply list_elem_of_filter. split; [by rewrite Hm|]. by apply elem_of_map_to_list. }
  rewrite Hnil in Hin. by apply elem_of_nil in Hin.
Qed.

Lemma new_page_id_inj (n m : nat) : "page-" +:+ pretty n = "page-" +:+ pretty m -> n = m.
Proof.
  change ("page-" +:+ pretty n) with
    (String "p" (String "a" (String "g" (String "e" (String "-" (pretty n)))))).
  change ("page-" +:+ pretty m) with
    (String "p" (String "a" (String "g" (String "e" (String "-" (pretty m)))))).
  intros [= H]. by apply (inj pretty) in H.
Qed.

End NotionQuietStore.

(** ** Runs that go through *)

Section NotionForward.
Import Provider Notion NotionClient Observe.

Ltac pages_lookup :=
  repeat (first [rewrite lookup_insert_eq | rewrite lookup_insert_ne by congruence]).

Lemma createResearchBrief_forward env blogPostId title markdown (w : World) p allBlocks :
  faults w = [] ->
  pages w !! blogPostId = Some p ->
  pages w !! new_page_id w = None ->
  markdownToBlocks env markdown = inr allBlocks ->
  exists evs,
    createResearchBrief env blogPostId title markdown w =
      (Js.Ok (new_page_id w),
       {| pages := <[blogPostId := with_status "Ready for Draft" p]>
                     (<[new_page_id w :=
                          {| parent := draftsDbId env;
                             properties :=
                               <[ "Title" := title ]>
                               (<[ "Status" := "Ready to Start" ]>
                                (<[ "Type" := "Research Brief" ]>
                                 {[ "Blog Posts" := blogPostId ]}));
                             blocks := heading_1 title :: Utilities.removeAllLinks allBlocks |}]>
                        (pages w));
          faults := [];
          next_id := S (next_id w);
          trace := trace w ++ evs |}) /\
    Forall quiet evs.
Proof.
  intros Hf Hp Hfresh Hmd.
  assert (new_page_id w <> blogPostId) as Hne by congruence.
  destruct (quiet_createResearchBrief env blogPostId title markdown w) as (evs & Ht & Hq).
  exists evs. split; [|exact Hq]. revert Ht.
  unfold createResearchBrief. rewrite try_catch_rethrow.
  unfold convert. rewrite Hmd.
  assert (Js.ret (W:=World) allBlocks w = (Js.Ok allBlocks, w)) as H0 by reflexivity.
  rewrite (bind_ok _ _ _ _ _ H0).
  match goal with |- context [pages_create ?db ?props ?children] =>
    rewrite (bind_ok _ _ _ _ _ (pages_create_nil db props children w Hf)) end.
  cbv beta.
  match goal with |- context [Js.bind (appendBlocksInBatches ?b ?bs) _ ?w1] =>
    destruct (appendBlocksInBatches_nil b bs w1
                {| parent := draftsDbId env;
                   properties := <[ "Title" := title ]>
                                 (<[ "Status" := "Ready to Start" ]>
                                  (<[ "Type" := "Research Brief" ]>
                                   {[ "Blog Posts" := blogPostId ]}));
                   blocks := [heading_1 title] |} Hf)
      as (evs1 & Happ); [simpl; apply lookup_insert_eq|] end.
  rewrite (bind_ok _ _ _ _ _ Happ).
  match goal with |- context [Js.bind (updateBlogPostStatus blogPostId ?s) _ ?w2] =>
    rewrite (bind_ok _ _ _ _ _ (updateBlogPostStatus_nil blogPostId s w2 p eq_refl
               ltac:(simpl; by pages_lookup))) end.
  simpl. rewrite !trace_of_trace. simpl. intros Ht.
  unfold with_status, record, set_pages. simpl. rewrite insert_insert_eq, Ht. reflexivity.
Qed.

Lemma processTopic_forward env id title (w : World) page research allBlocks :
  dryRun env = false ->
  faults w = [] ->
  pages w !! id = Some page ->
  pages w !! new_page_id w = None ->
  perplexity env (productivityPrompt env title) = Responded (Some research) ->
  usage research = true ->
  markdownToBlocks env (Sources.enhance (content research) (citations research))
    = inr allBlocks ->
  exists evs,
    ResearchCommand.processTopic env id title w =
      (Js.Ok tt,
       {| pages := <[id := with_status "Ready for Draft"
                             (with_status "Research In Progress" page)]>
                     (<[new_page_id w :=
                          {| parent := draftsDbId env;
                             properties :=
                               <[ "Title" := title ]>
                               (<[ "Status" := "Ready to Start" ]>
                                (<[ "Type" := "Research Brief" ]>
                                 {[ "Blog Posts" := id ]}));
                             blocks := heading_1 title :: Utilities.removeAllLinks allBlocks |}]>
                        (<[id := with_status "Research In Progress" page]> (pages w)));
          faults := [];
          next_id := S (next_id w);
          trace := trace w ++ evs |}) /\
    providerCalls evs = 1.
Proof.
  intros Hdry Hf Hp Hfresh Hreply Husage Hmd.
  assert (new_page_id w <> id) as Hne by congruence.
  unfold ResearchCommand.processTopic, ResearchCommand.processTopic_try.
  rewrite (try_catch_bind_ok _ _ _ _ _ _
             (updateBlogPostStatus_nil id "Research In Progress" w page Hf Hp)), Hdry.
  match goal with |- context [Js.try_catch _ _ ?x] => set (w1 := x) end.
  pose proof (researchTopic_eq env (productivityPrompt env title) w1) as Hr.
  rewrite Hreply in Hr. simpl researchTopic_reply in Hr.
  rewrite (try_catch_bind_ok _ _ _ _ _ _ Hr), Husage.
  match goal with |- context [Js.try_catch _ _ ?x] => set (w2 := x) end.
  assert (Js.ret (W:=World) tt w2 = (Js.Ok tt, w2)) as H0 by reflexivity.
  rewrite (try_catch_bind_ok _ _ _ _ _ _ H0).
  destruct (createResearchBrief_forward env id title
              (Sources.enhance (content research) (citations research)) w2
              (with_status "Research In Progress" page) allBlocks)
    as (evs & Hbrief & Hq); [exact Hf | apply lookup_insert_eq | |exact Hmd|].
  { change (new_page_id w2) with (new_page_id w). simpl. by rewrite lookup_insert_ne. }
  rewrite (try_catch_bind_ok _ _ _ _ _ _ Hbrief).
  exists (Updated id {[ "Status" := "Research In Progress" ]}
          :: ProviderCalled (productivityPrompt env title) (pages w1) :: evs).
  split.
  - unfold Js.try_catch, Js.ret. f_equal. unfold w2, w1. simpl.
    rewrite <- !app_assoc. reflexivity.
  - simpl. by rewrite providerCalls_quiet.
Qed.

Lemma createBlogDraft_forward env researchBriefId title content blogPostId (w : World)
    allBlocks :
  faults w = [] ->
  markdownToBlocks env content = inr allBlocks ->
  exists evs,
    createBlogDraft env researchBriefId title content blogPostId w =
      (Js.Ok (new_page_id w),
       {| pages := <[new_page_id w :=
                       {| parent := draftsDbId env;
                          properties := blogDraft_properties env title blogPostId;
                          blocks := heading_1 title :: Utilities.removeAllLinks allBlocks |}]>
                     (pages w);
          faults := [];
          next_id := S (next_id w);
          trace := trace w ++ evs |}) /\
    Forall quiet evs.
Proof.
  intros Hf Hmd.
  assert (Js.emits quiet (createBlogDraft env researchBriefId title content blogPostId)) as Hq.
  { apply emits_try_catch; [|intros; apply emits_throw].
    apply emits_bind; [apply emits_convert | intros bs].
    apply emits_bind.
    - apply emits_try_catch; [by apply emits_pages_create | intros; apply emits_throw].
    - intros newId. apply emits_bind; [|intros; apply emits_ret].
      apply emits_try_catch; [|intros; apply emits_throw].
      by apply emits_appendBlocksInBatches_from. }
  destruct (Hq w) as (evs & Ht & Hquiet). exists evs. split; [|exact Hquiet]. revert Ht.
  unfold createBlogDraft. rewrite try_catch_rethrow.
  unfold convert. rewrite Hmd.
  assert (Js.ret (W:=World) allBlocks w = (Js.Ok allBlocks, w)) as H0 by reflexivity.
  rewrite (bind_ok _ _ _ _ _ H0). cbv beta zeta.
  erewrite bind_ok; cycle 1.
  { rewrite try_catch_rethrow. apply pages_create_nil, Hf. }
  cbv beta.
  match goal with |- context [Js.bind (Js.try_catch (appendBlocksInBatches ?b ?bs) _) _ ?w1] =>
    destruct (appendBlocksInBatches_nil b bs w1
                {| parent := draftsDbId env;
                   properties := blogDraft_properties env title blogPostId;
                   blocks := [heading_1 title] |} Hf)
      as (evs1 & Happ); [simpl; apply lookup_insert_eq|] end.
  erewrite bind_ok; cycle 1.
  { rewrite try_catch_rethrow. exact Happ. }
  simpl. rewrite !trace_of_trace. simpl. intros Ht.
  unfold Js.ret. rewrite insert_insert_eq, Ht. reflexivity.
Qed.

Lemma processDraft_forward env draftId title content blogPostId (w : World)
    draft post g allBlocks :
  dryRun env = false ->
  faults w = [] ->
  truthy blogPostId = true ->
  draftId <> blogPostId ->
  pages w !! draftId = Some draft ->
  pages w !! blogPostId = Some post ->
  pages w !! new_page_id w = None ->
  claude env (draftwriterSystemPrompt env title) (draftwriterUserPrompt env title content)
    = Completed g ->
  markdownToBlocks env (text g) = inr allBlocks ->
  exists evs,
    DraftwriterCommand.processDraft env draftId title content (Some blogPostId) w =
      (Js.Ok tt,
       {| pages :=
            <[blogPostId := with_status "Draft Created" (with_status "Draft In Progress" post)]>
            (<[draftId := with_status "Research Processed"
                            (with_status "Writing in Progress" draft)]>
             (<[new_page_id w :=
                  {| parent := draftsDbId env;
                     properties := blogDraft_properties env title (Some blogPostId);
                     blocks := heading_1 title :: Utilities.removeAllLinks allBlocks |}]>
                (<[blogPostId := with_status "Draft In Progress" post]>
                   (<[draftId := with_status "Writing in Progress" draft]> (pages w)))));
          faults := [];
          next_id := S (next_id w);
          trace := trace w ++ evs |}) /\
    providerCalls evs = 1.
Proof.
  intros Hdry Hf Htruthy Hne Hdraft Hpost Hfresh Hclaude Hmd.
  assert (new_page_id w <> draftId) as Hne1 by congruence.
  assert (new_page_id w <> blogPostId) as Hne2 by congruence.
  unfold DraftwriterCommand.processDraft, DraftwriterCommand.processDraft_try.
  rewrite (try_catch_bind_ok _ _ _ _ _ _
             (updateBlogPostStatus_nil draftId "Writing in Progress" w draft Hf Hdraft)), Hdry.
  match goal with |- context [Js.try_catch _ _ ?x] => set (w1 := x) end.
  simpl Js.when_id. rewrite Htruthy.
  rewrite (try_catch_bind_ok _ _ _ _ _ _
             (updateBlogPostStatus_nil blogPostId "Draft In Progress" w1 post Hf
                ltac:(simpl; by pages_lookup))).
  match goal with |- context [Js.try_catch _ _ ?x] => set (w2 := x) end.
  pose proof (generateContent_eq env (draftwriterUserPrompt env title content)
                (draftwriterSystemPrompt env title) w2) as Hgen.
  rewrite Hclaude in Hgen. simpl generateContent_reply in Hgen.
  rewrite (try_catch_bind_ok _ _ _ _ _ _ Hgen).
  match goal with |- context [Js.try_catch _ _ ?x] => set (w3 := x) end.
  destruct (createBlogDraft_forward env draftId title (text g) (Some blogPostId) w3 allBlocks
              Hf Hmd) as (evs & Hnew & Hq).
  rewrite (try_catch_bind_ok _ _ _ _ _ _ Hnew).
  change (new_page_id w3) with (new_page_id w).
  match goal with |- context [Js.try_catch _ _ ?x] => set (w4 := x) end.
  rewrite (try_catch_bind_ok _ _ _ _ _ _
             (updateBlogPostStatus_nil draftId "Research Processed" w4
                (with_status "Writing in Progress" draft) eq_refl
                ltac:(unfold w4, w3, w2, w1; simpl; by pages_lookup))).
  match goal with |- context [Js.try_catch _ _ ?x] => set (w5 := x) end.
  rewrite (try_catch_ok _ _ _ _ _
             (updateBlogPostStatus_nil blogPostId "Draft Created" w5
                (with_status "Draft In Progress" post) eq_refl
                ltac:(unfold w5, w4, w3, w2, w1; simpl; by pages_lookup))).
  exists (Updated draftId {[ "Status" := "Writing in Progress" ]}
          :: Updated blogPostId {[ "Status" := "Draft In Progress" ]}
          :: ProviderCalled (draftwriterUserPrompt env title content) (pages w2)
          :: evs ++ [Updated draftId {[ "Status" := "Research Processed" ]};
                     Updated blogPostId {[ "Status" := "Draft Created" ]}]).
  split.
  - f_equal. unfold w5, w4, w3, w2, w1, record, set_pages. simpl.
    rewrite <- !app_assoc. reflexivity.
  - simpl. rewrite providerCalls_app, providerCalls_quiet by done. reflexivity.
Qed.

End NotionForward.

(** ** The research command, then the draftwriter command *)

Section CommandsInSequence.
Import Provider Notion NotionClient Observe.

Ltac pages_lookup :=
  repeat (first [rewrite lookup_insert_eq | rewrite lookup_insert_ne by congruence]).

Lemma query_empty (ps : gmap string Page) database_id equals :
  (forall id page, ps !! id = Some page -> matches database_id equals (id, page) = false) ->
  filter (fun e => matches database_id equals e) (map_to_list ps) = [].
Proof.
  intros Hall.
  destruct (filter _ (map_to_list ps)) as [|[id page] l] eqn:Hfilter; [done|]. exfalso.
  assert ((id, page) ∈ filter (fun e => matches database_id equals e) (map_to_list ps))
    as [Hm Hin]%list_elem_of_filter by (rewrite Hfilter; apply list_elem_of_here).
  apply elem_of_map_to_list in Hin. by rewrite (Hall id page Hin) in Hm.
Qed.

Lemma with_status_status status p : properties (with_status status p) !! "Status" = Some status.
Proof. by apply lookup_union_Some_l, lookup_singleton_eq. Qed.

Lemma matches_other_status database_id equals id page status :
  properties page !! "Status" = Some status -> status <> equals ->
  matches database_id equals (id, page) = false.
Proof.
  intros Hs Hne. unfold matches. simpl. rewrite Hs.
  rewrite (bool_decide_eq_false_2 (Some status = Some equals)) by congruence.
  apply andb_false_r.
Qed.

(** The store after one round on one ready topic. *)
Lemma research_then_draft_forward env (w : World) id page title research allBlocks g
    draftBlocks :
  dryRun env = false ->
  truthy_opt (option_id env) = false ->
  faults w = [] ->
  filter (fun e => matches (blogPostsDbId env) "Ready for Research" e) (map_to_list (pages w))
    = [(id, page)] ->
  filter (fun e => matches (draftsDbId env) "Ready to Start" e) (map_to_list (pages w)) = [] ->
  properties page !! "Title" = Some title ->
  truthy title = true ->
  truthy id = true ->
  pages w !! new_page_id w = None ->
  pages w !! ("page-" +:+ pretty (S (next_id w))) = None ->
  perplexity env (productivityPrompt env title) = Responded (Some research) ->
  usage research = true ->
  markdownToBlocks env (Sources.enhance (content research) (citations research))
    = inr allBlocks ->
  truthy (toMarkdownString env (heading_1 title :: Utilities.removeAllLinks allBlocks)) = true ->
  claude env (draftwriterSystemPrompt env title)
    (draftwriterUserPrompt env title
       (toMarkdownString env (heading_1 title :: Utilities.removeAllLinks allBlocks)))
    = Completed g ->
  markdownToBlocks env (text g) = inr draftBlocks ->
  exists w1,
    (ResearchCommand.execute env ;; DraftwriterExecute.execute env) w = (Js.Ok tt, w1) /\
    faults w1 = [] /\
    pages w1 !! id
      = Some (with_status "Draft Created"
                (with_status "Draft In Progress"
                   (with_status "Ready for Draft"
                      (with_status "Research In Progress" page)))) /\
    pages w1 !! new_page_id w
      = Some (with_status "Research Processed"
                (with_status "Writing in Progress"
                   {| parent := draftsDbId env;
                      properties :=
                        <[ "Title" := title ]>
                        (<[ "Status" := "Ready to Start" ]>
                         (<[ "Type" := "Research Brief" ]>
                          {[ "Blog Posts" := id ]}));
                      blocks := heading_1 title :: Utilities.removeAllLinks allBlocks |})) /\
    pages w1 !! ("page-" +:+ pretty (S (next_id w))) =
      Some {| parent := draftsDbId env;
              properties := blogDraft_properties env title (Some id);
              blocks := heading_1 title :: Utilities.removeAllLinks draftBlocks |} /\
    (forall k, k <> id -> k <> new_page_id w -> k <> "page-" +:+ pretty (S (next_id w)) ->
       pages w1 !! k = pages w !! k) /\
    providerCalls (new_events w w1) = 2.
Proof.
  intros Hdry Hopt Hf Htopics Hnone Htitle Htt Htid Hfresh1 Hfresh2 Hreply Husage Hmd
    Hcontent Hclaude Hmd2.
  set (brief := new_page_id w) in *.
  set (draft := "page-" +:+ pretty (S (next_id w))) in *.
  assert (pages w !! id = Some page) as Hp.
  { apply elem_of_map_to_list.
    assert ((id, page) ∈ filter (fun e => matches (blogPostsDbId env) "Ready for Research" e)
                           (map_to_list (pages w))) as Hin
      by (rewrite Htopics; apply list_elem_of_here).
    by apply list_elem_of_filter in Hin as [_ ?]. }
  assert (brief <> id) as Hne1 by congruence.
  assert (draft <> id) as Hne2 by congruence.
  assert (draft <> brief) as Hne3.
  { unfold draft, brief, new_page_id. intros Heq%new_page_id_inj. lia. }
  (* the research command *)
  assert (exists evs,
            ResearchCommand.execute env w =
              (Js.Ok tt,
               {| pages := <[id := with_status "Ready for Draft"
                                     (with_status "Research In Progress" page)]>
                             (<[brief :=
                                  {| parent := draftsDbId env;
                                     properties :=
                                       <[ "Title" := title ]>
                                       (<[ "Status" := "Ready to Start" ]>
                                        (<[ "Type" := "Research Brief" ]>
                                         {[ "Blog Posts" := id ]}));
                                     blocks := heading_1 title :: Utilities.removeAllLinks allBlocks |}]>
                                (<[id := with_status "Research In Progress" page]> (pages w)));
                  faults := [];
                  next_id := S (next_id w);
                  trace := trace w ++ evs |}) /\
            providerCalls evs = 1) as (evs1 & Hresearch & Hcalls1).
  { unfold ResearchCommand.execute, getBlogPostsReadyForResearch. rewrite Hopt.
    rewrite (try_catch_bind_ok _ _ _ _ _ _
               (databases_query_nil (blogPostsDbId env) "Ready for Research" w Hf)).
    rewrite Htopics.
    replace (if singleItem env then take 1 [(id, page)] else [(id, page)])
      with [(id, page)] by (by destruct (singleItem env)).
    simpl Js.for_of.
    unfold ResearchCommand.execute_topic. simpl fst. simpl snd. rewrite Htitle.
    simpl truthy_opt. rewrite Htt. simpl default.
    match goal with |- context [Js.try_catch _ _ ?x] =>
      destruct (processTopic_forward env id title x page research allBlocks)
        as (evs & Hrun & Hc); try done end.
    rewrite (try_catch_bind_ok _ _ _ _ _ _ Hrun).
    exists (Queried (blogPostsDbId env) "Ready for Research" :: evs). split.
    - unfold Js.try_catch, Js.ret. f_equal. simpl. rewrite <- app_assoc. reflexivity.
    - simpl. exact Hc. }
  match type of Hresearch with _ = (_, ?x) => set (w1 := x) in * end.
  rewrite (bind_ok _ _ _ _ _ Hresearch). clear Hresearch.
  set (briefPage := {| parent := draftsDbId env;
                       properties := <[ "Title" := title ]>
                                     (<[ "Status" := "Ready to Start" ]>
                                      (<[ "Type" := "Research Brief" ]>
                                       {[ "Blog Posts" := id ]}));
                       blocks := heading_1 title :: Utilities.removeAllLinks allBlocks |}) in *.
  set (post1 := with_status "Ready for Draft" (with_status "Research In Progress" page)) in *.
  (* the draftwriter command lists the brief just made, and only it *)
  assert (filter (fun e => matches (draftsDbId env) "Ready to Start" e) (map_to_list (pages w1))
          = [(brief, briefPage)]) as Hdrafts.
  { apply query_singleton.
    - unfold w1. simpl. by pages_lookup.
    - unfold matches. simpl. rewrite bool_decide_eq_true_2 by done.
      by rewrite bool_decide_eq_true_2.
    - intros id' page' Hp' Hm'. unfold w1 in Hp'. simpl in Hp'.
      destruct (decide (id' = brief)) as [->|Hnb]; [done|]. exfalso.
      destruct (decide (id' = id)) as [->|Hni].
      + rewrite lookup_insert_eq in Hp'. injection Hp' as <-.
        unfold matches in Hm'. simpl in Hm'. apply andb_true_iff in Hm' as [_ Hs].
        apply bool_decide_eq_true in Hs.
        rewrite (lookup_union_Some_l _ _ _ "Ready for Draft") in Hs
          by apply lookup_singleton_eq.
        discriminate.
      + rewrite !lookup_insert_ne in Hp' by done.
        rewrite (query_empty_inv _ _ _ _ _ Hnone Hp') in Hm'. discriminate. }
  destruct (processDraft_forward env brief title
              (toMarkdownString env (heading_1 title :: Utilities.removeAllLinks allBlocks)) id
              (record (Read brief) (record (Queried (draftsDbId env) "Ready to Start") w1))
              briefPage post1 g draftBlocks)
    as (evs2 & Hdraft & Hcalls2); try done.
  { unfold w1. simpl. by pages_lookup. }
  { unfold w1. simpl. by pages_lookup. }
  { change (new_page_id _) with draft. unfold w1. simpl. by pages_lookup. }
  set (w2 := record (Queried (draftsDbId env) "Ready to Start") w1) in *.
  assert (pages w2 !! brief = Some briefPage) as Hbrief
    by (unfold w2, w1; simpl; by pages_lookup).
  assert (getDraftsReadyToStart env w1 = (Js.Ok [(brief, briefPage)], w2)) as Hlist.
  { unfold getDraftsReadyToStart.
    rewrite (bind_ok _ _ _ _ _ (databases_retrieve_swallowed (draftsDbId env) w1)).
    change (pop w1) with w1. rewrite databases_query_nil by reflexivity.
    by rewrite Hdrafts. }
  assert (DraftwriterExecute.execute_draft env (brief, briefPage) w2 =
          DraftwriterCommand.processDraft env brief title
            (toMarkdownString env (heading_1 title :: Utilities.removeAllLinks allBlocks)) (Some id)
            (record (Read brief) w2)) as Hbody.
  { unfold DraftwriterExecute.execute_draft. simpl fst. simpl snd.
    rewrite (bind_ok _ _ _ _ _ (pageToMarkdown_nil env brief w2 briefPage eq_refl Hbrief)).
    replace (properties briefPage !! "Title") with (Some title) by reflexivity.
    replace (properties briefPage !! "Blog Posts") with (Some id)
      by (unfold briefPage; simpl; by rewrite !lookup_insert_ne, lookup_singleton_eq).
    change (truthy_opt (Some title)) with (truthy title).
    change (blocks briefPage) with (heading_1 title :: Utilities.removeAllLinks allBlocks).
    rewrite Htt, Hcontent. reflexivity. }
  assert (DraftwriterExecute.execute env w1 = DraftwriterCommand.processDraft env brief title
            (toMarkdownString env (heading_1 title :: Utilities.removeAllLinks allBlocks)) (Some id)
            (record (Read brief) w2)) as Hexec.
  { unfold DraftwriterExecute.execute. rewrite Hopt.
    rewrite (try_catch_bind_ok _ _ _ _ _ _ Hlist).
    replace (if singleItem env then take 1 [(brief, briefPage)] else [(brief, briefPage)])
      with [(brief, briefPage)] by (by destruct (singleItem env)).
    simpl Js.for_of. rewrite (try_catch_bind_ok _ _ _ _ _ _ (eq_trans Hbody Hdraft)).
    rewrite Hdraft. reflexivity. }
  rewrite Hexec, Hdraft. eexists. split; [reflexivity|].
  change (new_page_id (record _ (record _ w1))) with draft.
  unfold w1. simpl. split; [reflexivity|]. pages_lookup.
  split; [reflexivity|]. split; [reflexivity|]. split; [reflexivity|]. split.
  - intros k Hk1 Hk2 Hk3. by rewrite !lookup_insert_ne by done.
  - unfold new_events. simpl. rewrite <- !app_assoc, drop_app_length.
    rewrite providerCalls_app, Hcalls1. simpl. exact (f_equal S Hcalls2).
Qed.

(** X20: the research command followed by the draftwriter command
    takes a topic all the way.  With one titled topic Ready for Research,
    no brief waiting, Notion taking every call and both providers
    answering, the two [execute] in sequence return with the blog post at
    Draft Created, the research brief made on the way at Research
    Processed, and a blog draft, Ready for Review and related to the blog
    post, holding Claude's text as blocks, the links of their text items
    removed, under a heading with the title; these two pages are the only
    new ones, and each provider was called once.  The research that
    Claude is given is the markdown of the brief as it was stored, links
    removed. *)
Theorem research_then_draft_round env (w : World) id page title research allBlocks g
    draftBlocks :
  dryRun env = false ->
  truthy_opt (option_id env) = false ->
  faults w = [] ->
  filter (fun e => matches (blogPostsDbId env) "Ready for Research" e) (map_to_list (pages w))
    = [(id, page)] ->
  filter (fun e => matches (draftsDbId env) "Ready to Start" e) (map_to_list (pages w)) = [] ->
  properties page !! "Title" = Some title ->
  truthy title = true ->
  truthy id = true ->
  pages w !! new_page_id w = None ->
  pages w !! ("page-" +:+ pretty (S (next_id w))) = None ->
  perplexity env (productivityPrompt env title) = Responded (Some research) ->
  usage research = true ->
  markdownToBlocks env (Sources.enhance (content research) (citations research))
    = inr allBlocks ->
  truthy (toMarkdownString env (heading_1 title :: Utilities.removeAllLinks allBlocks)) = true ->
  claude env (draftwriterSystemPrompt env title)
    (draftwriterUserPrompt env title
       (toMarkdownString env (heading_1 title :: Utilities.removeAllLinks allBlocks)))
    = Completed g ->
  markdownToBlocks env (text g) = inr draftBlocks ->
  exists w1,
    (ResearchCommand.execute env ;; DraftwriterExecute.execute env) w = (Js.Ok tt, w1) /\
    status_of (pages w1) id = Some "Draft Created" /\
    status_of (pages w1) (new_page_id w) = Some "Research Processed" /\
    pages w1 !! ("page-" +:+ pretty (S (next_id w))) =
      Some {| parent := draftsDbId env;
              properties := blogDraft_properties env title (Some id);
              blocks := heading_1 title :: Utilities.removeAllLinks draftBlocks |} /\
    dom (pages w1)
      = {[ new_page_id w; "page-" +:+ pretty (S (next_id w)) ]} ∪ dom (pages w) /\
    providerCalls (new_events w w1) = 2.
Proof.
  intros Hdry Hopt Hf Htopics Hnone Htitle Htt Htid Hfresh1 Hfresh2 Hreply Husage Hmd
    Hcontent Hclaude Hmd2.
  destruct (research_then_draft_forward env w id page title research allBlocks g draftBlocks)
    as (w1 & Hrun & _ & Hid & Hbrief & Hdraft & Hrest & Hcalls); try done.
  exists w1. split; [exact Hrun|].
  unfold status_of, property_of. rewrite Hid, Hbrief. simpl.
  split; [by apply lookup_union_Some_l, lookup_singleton_eq|].
  split; [by apply lookup_union_Some_l, lookup_singleton_eq|].
  split; [exact Hdraft|]. split; [|exact Hcalls].
  assert (pages w !! id = Some page) as Hp.
  { apply elem_of_map_to_list.
    assert ((id, page) ∈ filter (fun e => matches (blogPostsDbId env) "Ready for Research" e)
                           (map_to_list (pages w))) as Hin
      by (rewrite Htopics; apply list_elem_of_here).
    by apply list_elem_of_filter in Hin as [_ ?]. }
  apply set_eq. intros k.
  rewrite elem_of_union, elem_of_union, !elem_of_singleton, !elem_of_dom.
  destruct (decide (k = id)) as [->|Hk1]; [rewrite Hid, Hp; split; eauto|].
  destruct (decide (k = new_page_id w)) as [->|Hk2]; [rewrite Hbrief; split; eauto|].
  destruct (decide (k = "page-" +:+ pretty (S (next_id w)))) as [->|Hk3];
    [rewrite Hdraft; split; eauto|].
  rewrite (Hrest k Hk1 Hk2 Hk3). split; [by right | by intros [[?|?]|?]].
Qed.

(** X21: a second round finds nothing to do.  After the round of X20,
    running the two commands again only lists the two databases: no page
    changes and no provider is called, since the topic, its brief and the
    new draft have all left the statuses the commands select. *)
Theorem research_then_draft_second_round_idle env (w : World) id page title research
    allBlocks g draftBlocks :
  dryRun env = false ->
  truthy_opt (option_id env) = false ->
  faults w = [] ->
  filter (fun e => matches (blogPostsDbId env) "Ready for Research" e) (map_to_list (pages w))
    = [(id, page)] ->
  filter (fun e => matches (draftsDbId env) "Ready to Start" e) (map_to_list (pages w)) = [] ->
  properties page !! "Title" = Some title ->
  truthy title = true ->
  truthy id = true ->
  pages w !! new_page_id w = None ->
  pages w !! ("page-" +:+ pretty (S (next_id w))) = None ->
  perplexity env (productivityPrompt env title) = Responded (Some research) ->
  usage research = true ->
  markdownToBlocks env (Sources.enhance (content research) (citations research))
    = inr allBlocks ->
  truthy (toMarkdownString env (heading_1 title :: Utilities.removeAllLinks allBlocks)) = true ->
  claude env (draftwriterSystemPrompt env title)
    (draftwriterUserPrompt env title
       (toMarkdownString env (heading_1 title :: Utilities.removeAllLinks allBlocks)))
    = Completed g ->
  markdownToBlocks env (text g) = inr draftBlocks ->
  exists w1 w2,
    (ResearchCommand.execute env ;; DraftwriterExecute.execute env) w = (Js.Ok tt, w1) /\
    (ResearchCommand.execute env ;; DraftwriterExecute.execute env) w1 = (Js.Ok tt, w2) /\
    pages w2 = pages w1 /\
    new_events w1 w2 = [Queried (blogPostsDbId env) "Ready for Research";
                        Queried (draftsDbId env) "Ready to Start"].
Proof.
  intros Hdry Hopt Hf Htopics Hnone Htitle Htt Htid Hfresh1 Hfresh2 Hreply Husage Hmd
    Hcontent Hclaude Hmd2.
  destruct (research_then_draft_forward env w id page title research allBlocks g draftBlocks)
    as (w1 & Hrun & Hf1 & Hid & Hbrief & Hdraft & Hrest & _); try done.
  exists w1. eexists. split; [exact Hrun|].
  assert (forall equals k p, equals = "Ready for Research" \/ equals = "Ready to Start" ->
            pages w1 !! k = Some p ->
            (pages w !! k = Some p /\ k <> id) \/
            exists status, properties p !! "Status" = Some status /\ status <> equals)
    as Hcases.
  { intros equals k p Heq Hk.
    destruct (decide (k = id)) as [->|Hk1].
    { right. rewrite Hid in Hk. injection Hk as <-. eexists. split;
        [apply with_status_status | destruct Heq as [-> | ->]; congruence]. }
    destruct (decide (k = new_page_id w)) as [->|Hk2].
    { right. rewrite Hbrief in Hk. injection Hk as <-. eexists. split;
        [apply with_status_status | destruct Heq as [-> | ->]; congruence]. }
    destruct (decide (k = "page-" +:+ pretty (S (next_id w)))) as [->|Hk3].
    { right. rewrite Hdraft in Hk. injection Hk as <-. exists "Ready for Review". split.
      - unfold blogDraft_properties. simpl. rewrite Htid.
        do 2 (rewrite lookup_insert_ne by done). apply lookup_insert_eq.
      - destruct Heq as [-> | ->]; congruence. }
    left. by rewrite <- (Hrest k). }
  assert (filter (fun e => matches (blogPostsDbId env) "Ready for Research" e)
            (map_to_list (pages w1)) = []) as Hq1.
  { apply query_empty. intros k p Hk.
    destruct (Hcases "Ready for Research" k p (or_introl eq_refl) Hk)
      as [[Hold Hne] | (status & Hs & Hne)].
    - destruct (matches (blogPostsDbId env) "Ready for Research" (k, p)) eqn:Hm; [|done].
      exfalso. apply Hne.
      assert ((k, p) ∈ filter (fun e => matches (blogPostsDbId env) "Ready for Research" e)
                         (map_to_list (pages w))) as Hin.
      { apply list_elem_of_filter. split; [by rewrite Hm|]. by apply elem_of_map_to_list. }
      rewrite Htopics in Hin. apply list_elem_of_singleton in Hin. congruence.
    - by apply (matches_other_status _ _ _ _ status). }
  assert (filter (fun e => matches (draftsDbId env) "Ready to Start" e)
            (map_to_list (pages w1)) = []) as Hq2.
  { apply query_empty. intros k p Hk.
    destruct (Hcases "Ready to Start" k p (or_intror eq_refl) Hk)
      as [[Hold _] | (status & Hs & Hne)].
    - by apply (query_empty_inv (pages w)).
    - by apply (matches_other_status _ _ _ _ status). }
  assert (ResearchCommand.execute env w1
          = (Js.Ok tt, record (Queried (blogPostsDbId env) "Ready for Research") w1)) as Hr.
  { unfold ResearchCommand.execute, getBlogPostsReadyForResearch. rewrite Hopt.
    rewrite (try_catch_bind_ok _ _ _ _ _ _
               (databases_query_nil (blogPostsDbId env) "Ready for Research" w1 Hf1)).
    rewrite Hq1. by destruct (singleItem env). }
  set (w1' := record (Queried (blogPostsDbId env) "Ready for Research") w1) in *.
  assert (DraftwriterExecute.execute env w1'
          = (Js.Ok tt, record (Queried (draftsDbId env) "Ready to Start") w1')) as Hd.
  { assert (getDraftsReadyToStart env w1'
            = (Js.Ok [], record (Queried (draftsDbId env) "Ready to Start") w1')) as Hlist.
    { unfold getDraftsReadyToStart.
      rewrite (bind_ok _ _ _ _ _ (databases_retrieve_swallowed (draftsDbId env) w1')).
      assert (pop w1' = w1') as ->.
      { unfold pop, w1', record, set_faults. simpl. by rewrite Hf1. }
      rewrite databases_query_nil by exact Hf1.
      change (pages w1') with (pages w1). by rewrite Hq2. }
    unfold DraftwriterExecute.execute. rewrite Hopt.
    rewrite (try_catch_bind_ok _ _ _ _ _ _ Hlist). by destruct (singleItem env). }
  rewrite (bind_ok _ _ _ _ _ Hr), Hd.
  split; [reflexivity|]. split; [reflexivity|].
  unfold new_events. simpl. by rewrite <- !app_assoc, drop_app_length.
Qed.


Lemma research_then_draft_round_witness :
  let env := Scenario.notion_env false (Responded (Some Scenario.bar)) in
  let w := Scenario.notion_world "topic-1" Scenario.foo [] in
  exists w1,
    (ResearchCommand.execute env ;; DraftwriterExecute.execute env) w = (Js.Ok tt, w1) /\
    status_of (pages w1) "topic-1" = Some "Draft Created" /\
    status_of (pages w1) (new_page_id w) = Some "Research Processed" /\
    pages w1 !! ("page-" +:+ pretty (S (next_id w))) =
      Some {| parent := draftsDbId env;
              properties := blogDraft_properties env "Foo" (Some "topic-1");
              blocks :=
                [heading_1 "Foo";
                 Blk "paragraph"
                   (Some [{| plain := "the draft"; href := None; link := None |}]) []] |} /\
    dom (pages w1)
      = {[ new_page_id w; "page-" +:+ pretty (S (next_id w)) ]} ∪ dom (pages w) /\
    providerCalls (new_events w w1) = 2.
Proof.
  intros env w.
  apply (research_then_draft_round env w "topic-1" Scenario.foo "Foo" Scenario.bar
           [Scenario.linked "bar"] {| text := "the draft"; gen_usage := true |}
           [Scenario.linked "the draft"]);
    vm_compute; reflexivity.
Defined.

Lemma research_then_draft_second_round_idle_witness :
  let env := Scenario.notion_env false (Responded (Some Scenario.bar)) in
  let w := Scenario.notion_world "topic-1" Scenario.foo [] in
  exists w1 w2,
    (ResearchCommand.execute env ;; DraftwriterExecute.execute env) w = (Js.Ok tt, w1) /\
    (ResearchCommand.execute env ;; DraftwriterExecute.execute env) w1 = (Js.Ok tt, w2) /\
    pages w2 = pages w1 /\
    new_events w1 w2 = [Queried (blogPostsDbId env) "Ready for Research";
                        Queried (draftsDbId env) "Ready to Start"].
Proof.
  intros env w.
  apply (research_then_draft_second_round_idle env w "topic-1" Scenario.foo "Foo" Scenario.bar
           [Scenario.linked "bar"] {| text := "the draft"; gen_usage := true |}
           [Scenario.linked "the draft"]);
    vm_compute; reflexivity.
Defined.

End CommandsInSequence.

(** ** The Copilot draft action: the same sha, and the draft it strands *)

Section CopilotDraftFacts.
Import Git CopilotHelpers CopilotClient CopilotResearch CopilotDraft.

Lemma copilot_createFile_inv path content commitMessage w r w1 :
  CopilotClient.createFile path content commitMessage w = (r, w1) ->
  match r with
  | Js.Ok _ => files w !! path = None /\
               files w1 = <[path := {| doc := content; sha := 0 |}]> (files w)
  | Js.Throw _ => files w1 = files w
  end.
Proof.
  unfold CopilotClient.createFile.
  destruct (repos_createOrUpdateFileContents_cases path content None commitMessage w)
    as [(e & He & _) | (ns & Hf & Hc & Hm)].
  - rewrite (try_catch_throw _ _ _ _ _ He). intros [= <- <-]. done.
  - rewrite (try_catch_ok _ _ _ _ _ Hc). intros [= <- <-].
    destruct (files w !! path) as [f|]; [done|]. by subst ns.
Qed.

Lemma copilot_createFile_nil path content commitMessage w :
  faults w = [] -> files w !! path = None ->
  CopilotClient.createFile path content commitMessage w =
    (Js.Ok tt, record (Committed path content commitMessage)
                 (set_files (insert path {| doc := content; sha := 0 |}) w)).
Proof.
  intros Hf Hp. unfold CopilotClient.createFile, Js.try_catch, repos_createOrUpdateFileContents.
  rewrite remote_nil by done. by rewrite Hp.
Qed.

Section Action.
Context (buildDraftPrompt : string -> string -> option string -> string).
Context (fetch : string -> FetchReply).
Context (titleFromText : Doc -> string).
Context (generateSlug : string -> string) (contentDirBlog : string).
Context (blogPost : string -> string -> string -> Doc).
Context (toISOString : string).

Lemma handleDraftError_returns {gm : GrayMatter} filePath error w :
  exists w1, handleDraftError filePath error w = (Js.Ok tt, w1).
Proof.
  unfold handleDraftError, Js.try_catch.
  match goal with |- context [Js.bind ?m ?k w] => destruct (Js.bind m k w) as [[[]|e] w1] end;
    by eexists.
Qed.

(** The [try] block of [processDraftFile] never reaches its end: the
    last write is handed the sha that the first write has replaced. *)
Lemma processDraftFile_try_stale {gm : GrayMatter} filePath w r w1 :
  processDraftFile_try buildDraftPrompt fetch titleFromText generateSlug contentDirBlog
    blogPost toISOString filePath w = (Js.Ok r, w1) -> False.
Proof.
  unfold processDraftFile_try. intros Hrun.
  apply bind_inv in Hrun as [(e & _ & [=]) | (f & w2 & Hg & Hrun)].
  apply copilot_getFileContent_inv in Hg as (Hfs2 & Hp & _ & _).
  apply bind_inv in Hrun as [(e & _ & [=]) | (valid & w3 & Hv & Hrun)].
  assert (w3 = w2) as ->.
  { unfold lift in Hv. by injection Hv. }
  apply bind_inv in Hrun as [(e & _ & [=]) | ([] & w4 & Hc & Hrun)].
  assert (w4 = w2) as ->.
  { destruct valid; [by injection Hc | discriminate]. }
  apply bind_inv in Hrun as [(e & _ & [=]) | ([] & w5 & Hu & Hrun)].
  unfold CopilotDraft.updateFileStatus in Hu.
  apply updateFrontMatter_inv in Hu as (f' & Hp' & _ & Hfs5).
  rewrite Hfs2, Hp in Hp'. injection Hp' as <-.
  apply bind_inv in Hrun as [(e & _ & [=]) | (draft & w6 & Hr & Hrun)].
  assert (files w6 = files w5) as Hfs6.
  { unfold generateDraft, Js.bind, Js.get, log, Js.modify, lift in Hr.
    injection Hr as _ <-. reflexivity. }
  apply bind_inv in Hrun as [(e & _ & [=]) | ([] & w7 & Hcreate & Hrun)].
  apply copilot_createFile_inv in Hcreate as (Hnone & Hfs7).
  apply bind_inv in Hrun as [(e & _ & [=]) | ([] & w8 & Hu2 & _)].
  apply updateFrontMatter_inv in Hu2 as (f2 & Hp2 & Hsha & _).
  rewrite Hfs7, Hfs6, Hfs5 in Hp2. rewrite Hfs6, Hfs5 in Hnone.
  destruct (decide (blogPostPath_of titleFromText generateSlug contentDirBlog f = filePath))
    as [Heq|Hne].
  - rewrite Heq, lookup_insert_eq in Hnone. discriminate.
  - rewrite lookup_insert_ne, lookup_insert_eq in Hp2 by done. injection Hp2 as <-.
    simpl in Hsha. lia.
Qed.

(** X22: [processDraftFile] of the Copilot action never reports
    success, whatever the repository, Claude and GitHub do: the update
    that would set Draft Complete passes the sha read before the status
    was set to Draft In Progress.  The call itself always returns, with
    [success: false] and [newStatus: 'Error']. *)
Theorem Copilot_processDraftFile_never_succeeds {gm : GrayMatter} filePath (w : World) :
  exists result w1,
    processDraftFile buildDraftPrompt fetch titleFromText generateSlug contentDirBlog
      blogPost toISOString filePath w = (Js.Ok result, w1) /\
    success result = false /\ newStatus result = "Error" /\
    result_filePath result = filePath.
Proof.
  unfold processDraftFile, Js.try_catch.
  destruct (processDraftFile_try _ _ _ _ _ _ _ filePath w) as [[r|e] w1] eqn:Htry.
  { by apply processDraftFile_try_stale in Htry. }
  destruct (handleDraftError_returns filePath e w1) as (w2 & Hh).
  rewrite (bind_ok _ _ _ _ _ Hh). eexists _, _. split; [reflexivity|]. done.
Qed.

(** X23: the draft it strands.  On a file that is Ready for Draft, with
    GitHub taking every call, Claude answering and no blog post at the
    path yet, [processDraftFile] calls Claude once, creates the blog post
    file with the draft, and then fails: the research file ends in status
    Error and does not record the blog post path (a path it had is kept,
    and it has the same as before, or none, when its body opens no
    front-matter block). *)
Theorem Copilot_processDraftFile_strands_draft {gm : GrayMatter} filePath (w : World) f
    draft :
  let title := extractTitleFromContent titleFromText f in
  let blogPostPath := blogPostPath_of titleFromText generateSlug contentDirBlog f in
  faults w = [] ->
  files w !! filePath = Some f ->
  data (doc f) !! "status" = Some "Ready for Draft" ->
  files w !! blogPostPath = None ->
  fetch (buildDraftPrompt title (body (doc f)) (data (doc f) !! "category"))
    = Json (Some draft) ->
  truthy draft = true ->
  exists result w1,
    processDraftFile buildDraftPrompt fetch titleFromText generateSlug contentDirBlog
      blogPost toISOString filePath w = (Js.Ok result, w1) /\
    success result = false /\
    files w1 !! blogPostPath = Some {| doc := blogPost title filePath draft; sha := 0 |} /\
    status_of (files w1) filePath = Some "Error" /\
    (forall blog_post_filePath,
       data (doc f) !! "blog_post_filePath" = Some blog_post_filePath ->
       field_of (files w1) filePath "blog_post_filePath" = Some blog_post_filePath) /\
    (opensFrontMatter (body (doc f)) = false ->
     field_of (files w1) filePath "blog_post_filePath"
     = data (doc f) !! "blog_post_filePath") /\
    (forall other, other <> filePath -> other <> blogPostPath ->
       files w1 !! other = files w !! other) /\
    GitObserve.providerCalls (new_events w w1) = 1.
Proof.
  intros title blogPostPath Hfaults Hp Hstatus Hblog Hfetch Htruthy.
  assert (blogPostPath <> filePath) as Hne by congruence.
  unfold processDraftFile, processDraftFile_try.
  (* the read *)
  pose proof (copilot_getFileContent_nil filePath w Hfaults) as H1. rewrite Hp in H1.
  rewrite (try_catch_bind_ok _ _ _ _ _ _ H1). set (w1 := record (Fetched filePath) w).
  (* the transition is valid *)
  rewrite Hstatus.
  assert (lift (isValidStatusTransition_of (Some "Ready for Draft")
                  Helpers.Draft_In_Progress) w1 = (Js.Ok true, w1)) as H2 by reflexivity.
  rewrite (try_catch_bind_ok _ _ _ _ _ _ H2).
  assert (Js.ret (W:=World) tt w1 = (Js.Ok tt, w1)) as H3 by reflexivity.
  rewrite (try_catch_bind_ok _ _ _ _ _ _ H3).
  (* Draft In Progress *)
  fold title. fold blogPostPath.
  pose proof (updateFrontMatter_nil filePath {[ "status" := "Draft In Progress" ]}
                ("Start draft writing for " +:+ title) (sha f) (body (doc f)) w1 f
                Hfaults Hp) as H4.
  rewrite bool_decide_eq_true_2 in H4 by done. cbv zeta in H4.
  unfold CopilotDraft.updateFileStatus at 1. rewrite (try_catch_bind_ok _ _ _ _ _ _ H4).
  match type of H4 with _ = (_, ?x) => set (w2 := x) in * end.
  set (f2 := {| doc := stringify (body (doc f))
                         ({[ "status" := "Draft In Progress" ]} ∪ data (doc f));
                sha := S (sha f) |}).
  assert (files w2 !! filePath = Some f2) as Hp2 by (simpl; apply lookup_insert_eq).
  (* Claude *)
  set (prompt := buildDraftPrompt title (body (doc f)) (data (doc f) !! "category")) in *.
  assert (generateDraft buildDraftPrompt fetch title (body (doc f))
            (data (doc f) !! "category") w2
          = (Js.Ok draft, record (ProviderCalled prompt (files w2)) w2)) as H5.
  { unfold generateDraft, Js.bind, Js.get, log, Js.modify, lift. fold prompt.
    rewrite Hfetch. simpl. by rewrite Htruthy. }
  rewrite (try_catch_bind_ok _ _ _ _ _ _ H5).
  match type of H5 with _ = (_, ?x) => set (w3 := x) in * end.
  (* the blog post *)
  match goal with |- context [CopilotClient.createFile blogPostPath ?c ?m] =>
    pose proof (copilot_createFile_nil blogPostPath c m w3 Hfaults) as H6 end.
  rewrite (try_catch_bind_ok _ _ _ _ _ _
             (H6 ltac:(simpl; by rewrite lookup_insert_ne by done))).
  clear H6.
  match goal with |- context [Js.try_catch _ _ ?x] => set (w4 := x) end.
  assert (files w4 !! filePath = Some f2) as Hp4
    by (simpl; by rewrite lookup_insert_ne, lookup_insert_eq by done).
  (* the stale sha *)
  match goal with |- context [updateFrontMatter filePath ?u ?m (sha f) ?b] =>
    pose proof (updateFrontMatter_nil filePath u m (sha f) b w4 f2 Hfaults Hp4) as H7 end.
  rewrite bool_decide_eq_false_2 in H7 by (simpl; lia). cbv zeta in H7.
  rewrite (try_catch_bind_throw _ _ _ _ _ _ H7).
  match type of H7 with _ = (Js.Throw ?err, ?x) => set (e := err) in *; set (w5 := x) in * end.
  (* the catch *)
  assert (Hp5 : files w5 !! filePath = Some f2) by exact Hp4.
  pose proof (copilot_getFileContent_nil filePath w5 Hfaults) as H8. rewrite Hp5 in H8.
  set (w6 := record (Fetched filePath) w5) in *.
  pose proof (updateFrontMatter_nil filePath (createErrorFrontMatter (data (doc f2)) e)
                ("Draft error: " +:+ message e) (sha f2) (body (doc f2)) w6 f2
                Hfaults Hp5) as H9.
  rewrite bool_decide_eq_true_2 in H9 by done. cbv zeta in H9.
  match type of H9 with _ = (_, ?x) => set (w7 := x) in * end.
  assert (handleDraftError filePath e w5 = (Js.Ok tt, w7)) as H10.
  { unfold handleDraftError.
    rewrite (try_catch_bind_ok _ _ _ _ _ _ H8). by rewrite (try_catch_ok _ _ _ _ _ H9). }
  rewrite (bind_ok _ _ _ _ _ H10).
  eexists _, w7. split; [reflexivity|]. split; [reflexivity|].
  unfold status_of, field_of. simpl.
  split; [by rewrite lookup_insert_ne, lookup_insert_eq by done|].
  rewrite lookup_insert_eq. simpl. unfold createErrorFrontMatter.
  split.
  { apply stringify_lookup, lookup_union_Some_l. by rewrite lookup_insert_ne, lookup_insert_eq. }
  split; [|split].
  - intros blog_post_filePath Hhad. apply stringify_lookup, lookup_union_Some_l.
    rewrite !lookup_insert_ne by done. apply stringify_lookup.
    rewrite lookup_union_r by (by rewrite lookup_singleton_ne). exact Hhad.
  - intros Ho. rewrite !(stringify_plain _ _ Ho). simpl.
    rewrite stringify_plain by (by rewrite opensFrontMatter_newline). simpl.
    rewrite lookup_union, !lookup_insert_ne by done.
    rewrite (lookup_union_r {[ "status" := "Draft In Progress" ]})
      by (by rewrite lookup_singleton_ne).
    by destruct (data (doc f) !! "blog_post_filePath").
  - split.
    + intros other Ho1 Ho2. by rewrite !lookup_insert_ne by done.
    + apply git_new_events_providerCalls with
        (evs := [Fetched filePath; Fetched filePath;
                 Committed filePath (doc f2) ("Start draft writing for " +:+ title);
                 ProviderCalled prompt (files w2);
                 Committed blogPostPath (blogPost title filePath draft)
                   (createCommitMessage "Create draft" title None
                      (Some Helpers.Ready_for_Review));
                 Fetched filePath; Fetched filePath; Fetched filePath;
                 Committed filePath
                   (stringify (body (doc f2))
                      (createErrorFrontMatter (data (doc f2)) e ∪ data (doc f2)))
                   ("Draft error: " +:+ message e)]).
      simpl. rewrite <- !app_assoc. reflexivity.
Qed.

End Action.

Lemma Copilot_processDraftFile_strands_draft_witness :
  let buildDraftPrompt := fun (title research : string) (_ : option string) =>
                            "Write about " +:+ title +:+ ": " +:+ research in
  let fetch := fun _ : string => Json (Some "the draft") in
  let titleFromText := fun _ : Doc => "Untitled" in
  let generateSlug := fun title : string => title in
  let blogPost := fun (title path content : string) =>
                    {| data := <[ "title" := title ]> {[ "status" := "Ready for Review" ]};
                       body := content |} in
  let f := {| doc := {| data := <[ "title" := "foo" ]> {[ "status" := "Ready for Draft" ]};
                        body := "notes" |};
              sha := 3 |} in
  let w := Scenario.git_world "research/foo.md" f [] in
  exists result w1,
    processDraftFile (gm := Scenario.yaml) buildDraftPrompt fetch titleFromText
      generateSlug "blog" blogPost "2025-05-01T00:00:00.000Z" "research/foo.md" w
      = (Js.Ok result, w1) /\
    success result = false /\
    files w1 !! "blog/foo.md" = Some {| doc := blogPost "foo" "research/foo.md" "the draft";
                                        sha := 0 |} /\
    status_of (files w1) "research/foo.md" = Some "Error" /\
    field_of (files w1) "research/foo.md" "blog_post_filePath" = None /\
    (forall other, other <> "research/foo.md" -> other <> "blog/foo.md" ->
       files w1 !! other = files w !! other) /\
    GitObserve.providerCalls (new_events w w1) = 1.
Proof.
  intros buildDraftPrompt fetch titleFromText generateSlug blogPost f w.
  destruct (Copilot_processDraftFile_strands_draft (gm := Scenario.yaml) buildDraftPrompt
              fetch titleFromText generateSlug "blog" blogPost "2025-05-01T00:00:00.000Z"
              "research/foo.md" w f "the draft")
    as (result & w1 & Hrun & Hsuccess & Hblog & Hs & _ & Hplain & Hrest);
    try reflexivity.
  exists result, w1. repeat (split; [assumption|]). split; [exact (Hplain eq_refl) | exact Hrest].
Defined.

End CopilotDraftFacts.

(** ** GitDraftwriterCommand.js: when the provider fails *)

Section GitDraftProviderFailure.
Import Provider Git.

Ltac files_lookup :=
  repeat (first [rewrite lookup_insert_eq | rewrite lookup_insert_ne by congruence]).

(** The draft command, asked for a file whose status is not Ready for
    Draft, only reads it. *)
Lemma execute_single_other_status {gm : GrayMatter} env contentDirBlog path (w : World) status :
  status_of (files w) path = Some status -> status <> "Ready for Draft" ->
  exists w1,
    GitDraftwriterExecute.execute_single env contentDirBlog path w = (Js.Ok tt, w1) /\
    files w1 = files w /\
    GitObserve.providerCalls (new_events w w1) = 0.
Proof.
  intros Hstatus Hne. unfold GitDraftwriterExecute.execute_single.
  destruct (readFile_cases path w) as [(e & He & _) | (f & _ & Hp & Hr)].
  - rewrite (bind_ok _ _ _ _ _ (try_catch_bind_throw _ _ _ _ _ _ He)). simpl.
    eexists. split; [reflexivity|]. split; [reflexivity|].
    unfold new_events. simpl. by rewrite drop_all.
  - erewrite bind_ok; cycle 1.
    { rewrite (try_catch_bind_ok _ _ _ _ _ _ Hr).
      unfold status_of, field_of in Hstatus. rewrite Hp in Hstatus. simpl in Hstatus.
      rewrite bool_decide_eq_false_2 by (rewrite Hstatus; congruence).
      reflexivity. }
    simpl. eexists. split; [reflexivity|]. split; [reflexivity|].
    unfold new_events. simpl. by rewrite drop_app_length.
Qed.

(** X24: when Claude fails and GitHub takes every call, [processDraft]
    of the Git command returns with the research file and the blog file
    both in status Error, carrying the provider's message after Drafting
    failed; no file has been created, and Claude was called once.  The
    failure is final: the draft command, asked for the file again, reads
    it and does nothing (the Notion command, by contrast, sets the brief
    back to its entry status). *)
Theorem GitDraftwriterCommand_provider_failure_is_final {gm : GrayMatter} env path title
    researchContent blog frontMatter (w : World) f b msg :
  dryRun env = false ->
  faults w = [] ->
  files w !! path = Some f ->
  files w !! blog = Some b ->
  truthy blog = true ->
  blog <> path ->
  claude env (draftwriterUserPrompt env title researchContent) = ApiError msg ->
  exists w1,
    GitDraftwriterCommand.processDraft env path title researchContent blog frontMatter w
      = (Js.Ok tt, w1) /\
    status_of (files w1) path = Some "Error" /\
    field_of (files w1) path "error_message"
      = Some ("Drafting failed: " +:+ ("Claude API error: " +:+ msg)) /\
    status_of (files w1) blog = Some "Error" /\
    field_of (files w1) blog "error_message"
      = Some ("Drafting failed: " +:+ ("Claude API error: " +:+ msg)) /\
    dom (files w1) = dom (files w) /\
    GitObserve.providerCalls (new_events w w1) = 1 /\
    forall env' contentDirBlog,
      exists w2,
        GitDraftwriterExecute.execute_single env' contentDirBlog path w1 = (Js.Ok tt, w2) /\
        files w2 = files w1 /\
        GitObserve.providerCalls (new_events w1 w2) = 0.
Proof.
  intros Hdry Hfaults Hp Hb Htruthy Hne Hclaude.
  unfold GitDraftwriterCommand.processDraft. rewrite Hdry.
  unfold GitDraftwriterCommand.processDraft_try.
  (* Draft In Progress *)
  pose proof (updateYamlFrontMatter_nil path {[ "status" := "Draft In Progress" ]}
                None ("WIP: Start drafting for " +:+ title) w Hfaults) as H1.
  rewrite Hp in H1. cbv zeta in H1.
  rewrite (try_catch_bind_ok _ _ _ _ _ _ H1).
  match type of H1 with _ = (_, ?x) => set (w1 := x) in * end.
  (* Claude fails *)
  pose proof (git_generateContent_eq env (draftwriterUserPrompt env title researchContent) w1)
    as H2.
  rewrite Hclaude in H2. simpl generateContent_reply in H2.
  rewrite (try_catch_bind_throw _ _ _ _ _ _ H2).
  match type of H2 with _ = (_, ?x) => set (w2 := x) in * end.
  (* the catch: the research file *)
  unfold GitDraftwriterCommand.processDraft_catch. rewrite Htruthy. unfold Js.when.
  cbn [message new_Error].
  set (failed := <[ "status" := "Error" ]>
                 {[ "error_message" := "Drafting failed: " +:+ ("Claude API error: " +:+ msg) ]}
                 : gmap string string).
  pose proof (updateYamlFrontMatter_nil path failed None
                ("Error: Drafting failed for " +:+ title) w2 Hfaults) as H3.
  replace (files w2 !! path) with
    (Some {| doc := stringify (body (doc f))
                      ({[ "status" := "Draft In Progress" ]} ∪ data (doc f));
             sha := S (sha f) |}) in H3
    by (unfold w2, w1; simpl; by files_lookup).
  cbv zeta in H3.
  rewrite (try_catch_bind_ok _ _ _ _ _ _ H3).
  match type of H3 with _ = (_, ?x) => set (w3 := x) in * end.
  (* the catch: the blog file *)
  pose proof (getFileSha_or_null_nil blog w3 Hfaults) as H4.
  replace (files w3 !! blog) with (Some b) in H4
    by (unfold w3, w2, w1; simpl; by files_lookup).
  rewrite (try_catch_bind_ok _ _ _ _ _ _ H4).
  set (w4 := record (Fetched blog) w3) in *.
  pose proof (updateYamlFrontMatter_nil blog failed (Some (sha b))
                ("Error: Drafting failed for blog post related to " +:+ title) w4 Hfaults)
    as H5.
  replace (files w4 !! blog) with (Some b) in H5
    by (unfold w4, w3, w2, w1; simpl; by files_lookup).
  cbv zeta in H5.
  rewrite (try_catch_ok _ _ _ _ _ H5).
  match type of H5 with _ = (_, ?x) => set (w5 := x) in * end.
  assert (status_of (files w5) path = Some "Error") as Hstatus.
  { unfold status_of, field_of, w5, w4, w3, w2, w1. simpl. files_lookup. simpl.
    by apply stringify_lookup, lookup_union_Some_l, lookup_insert_eq. }
  exists w5. split; [reflexivity|]. split; [exact Hstatus|].
  split.
  { unfold field_of, w5, w4, w3, w2, w1. simpl. files_lookup. simpl.
    apply stringify_lookup, lookup_union_Some_l. unfold failed.
    by rewrite lookup_insert_ne, lookup_singleton_eq. }
  split.
  { unfold status_of, field_of, w5. simpl. files_lookup. simpl.
    by apply stringify_lookup, lookup_union_Some_l, lookup_insert_eq. }
  split.
  { unfold field_of, w5. simpl. files_lookup. simpl.
    apply stringify_lookup, lookup_union_Some_l. unfold failed.
    by rewrite lookup_insert_ne, lookup_singleton_eq. }
  split.
  { unfold w5, w4, w3, w2, w1. simpl. rewrite !dom_insert_L.
    assert (path ∈ dom (files w)) by (apply elem_of_dom; eauto).
    assert (blog ∈ dom (files w)) by (apply elem_of_dom; eauto).
    apply set_eq. intros k. rewrite !elem_of_union, !elem_of_singleton.
    intuition (subst; auto). }
  split.
  { unfold new_events, w5, w4, w3, w2, w1. simpl.
    rewrite <- !app_assoc, drop_app_length. reflexivity. }
  intros env' contentDirBlog.
  apply (execute_single_other_status env' contentDirBlog path w5 "Error" Hstatus).
  discriminate.
Qed.

Lemma GitDraftwriterCommand_provider_failure_is_final_witness :
  let env := {| productivityPrompt := fun title => "Research " +:+ title;
                draftwriterUserPrompt := fun title research => title +:+ ": " +:+ research;
                perplexity := fun _ => ErrRequest;
                claude := fun _ => ApiError "overloaded";
                slugify := fun title => title;
                contentDirDrafts := "content/drafts";
                toLocaleDateString := "2025-05-01";
                dryRun := false |} in
  let w := {| files := <[ "blog/foo.md" := Scenario.foo_file ]>
                       {[ "research/foo.md" := Scenario.ready_file ]};
              faults := []; trace := [] |} in
  exists w1,
    GitDraftwriterCommand.processDraft (gm := Scenario.yaml) env "research/foo.md" "Foo"
      "bar" "blog/foo.md" Scenario.ready_frontMatter w = (Js.Ok tt, w1) /\
    status_of (files w1) "research/foo.md" = Some "Error" /\
    field_of (files w1) "research/foo.md" "error_message"
      = Some ("Drafting failed: " +:+ ("Claude API error: " +:+ "overloaded")) /\
    status_of (files w1) "blog/foo.md" = Some "Error" /\
    field_of (files w1) "blog/foo.md" "error_message"
      = Some ("Drafting failed: " +:+ ("Claude API error: " +:+ "overloaded")) /\
    dom (files w1) = dom (files w) /\
    GitObserve.providerCalls (new_events w w1) = 1 /\
    forall env' contentDirBlog,
      exists w2,
        GitDraftwriterExecute.execute_single (gm := Scenario.yaml) env' contentDirBlog
          "research/foo.md" w1 = (Js.Ok tt, w2) /\
        files w2 = files w1 /\
        GitObserve.providerCalls (new_events w1 w2) = 0.
Proof.
  intros env w.
  apply (GitDraftwriterCommand_provider_failure_is_final (gm := Scenario.yaml) env
           "research/foo.md" "Foo" "bar" "blog/foo.md" Scenario.ready_frontMatter w
           Scenario.ready_file Scenario.foo_file "overloaded"); try reflexivity.
  discriminate.
Defined.

End GitDraftProviderFailure.

(** ** research.js and draftwriter.js: when the content of a new page is refused *)

Section PartialPages.
Import Provider Notion NotionClient Observe.

Ltac pages_lookup :=
  repeat (first [rewrite lookup_insert_eq | rewrite lookup_insert_ne by congruence]).

Lemma updateBlogPostStatus_next id status w p :
  next_fault w = None -> pages w !! id = Some p ->
  updateBlogPostStatus id status w =
    (Js.Ok tt,
     record (Updated id {[ "Status" := status ]})
       (set_pages (insert id (with_status status p)) (pop w))).
Proof.
  intros Hf Hp. unfold updateBlogPostStatus. rewrite try_catch_rethrow.
  unfold pages_update, remote. rewrite Hf. change (pages (pop w)) with (pages w).
  by rewrite Hp.
Qed.

Lemma pages_create_next database_id props children w :
  next_fault w = None ->
  pages_create database_id props children w =
    (Js.Ok (new_page_id w),
     record (Created (new_page_id w) database_id)
       (bump_id (set_pages (insert (new_page_id w)
          {| parent := database_id; properties := props; blocks := children |}) (pop w)))).
Proof. intros Hf. unfold pages_create, remote. by rewrite Hf. Qed.

(** With blocks to send, [appendBlocksInBatches] makes a first call; when
    that one is rejected nothing is appended. *)
Lemma appendBlocksInBatches_first_rejected blockId (blocks : list Block) w msg :
  blocks <> [] -> next_fault w = Some msg ->
  appendBlocksInBatches blockId blocks w = (Js.Throw (new_Error msg), pop w).
Proof.
  intros Hne Hf. unfold appendBlocksInBatches.
  destruct blocks as [|block blocks]; [done|]. simpl.
  erewrite bind_throw; [reflexivity|]. by apply blocks_children_append_rejected.
Qed.

(** X25: a draft page is created before its content is sent.  When
    Notion takes the calls up to [pages.create] and refuses the first
    [blocks.children.append], [processDraft] returns with a new page in
    the drafts database that is Ready for Review and holds the title
    heading only; the brief is back in Ready to Start, so the next run
    drafts it again, and the blog post is in Error with Notion's message.
    Claude has been called once. *)
Theorem DraftwriterCommand_refused_content_leaves_empty_draft env draftId title content
    blogPostId (w : World) draft post g allBlocks msg :
  dryRun env = false ->
  faults w = [None; None; None; Some msg] ->
  truthy blogPostId = true ->
  draftId <> blogPostId ->
  pages w !! draftId = Some draft ->
  pages w !! blogPostId = Some post ->
  pages w !! new_page_id w = None ->
  claude env (draftwriterSystemPrompt env title) (draftwriterUserPrompt env title content)
    = Completed g ->
  markdownToBlocks env (text g) = inr allBlocks ->
  allBlocks <> [] ->
  exists w1,
    DraftwriterCommand.processDraft env draftId title content (Some blogPostId) w
      = (Js.Ok tt, w1) /\
    pages w1 !! new_page_id w =
      Some {| parent := draftsDbId env;
              properties := blogDraft_properties env title (Some blogPostId);
              blocks := [heading_1 title] |} /\
    status_of (pages w1) (new_page_id w) = Some "Ready for Review" /\
    status_of (pages w1) draftId = Some "Ready to Start" /\
    status_of (pages w1) blogPostId = Some "Error" /\
    property_of (pages w1) blogPostId "Error"
      = Some (or_else msg "Unknown error occurred during draft writing") /\
    dom (pages w1) = {[ new_page_id w ]} ∪ dom (pages w) /\
    providerCalls (new_events w w1) = 1.
Proof.
  intros Hdry Hfaults Htruthy Hne Hdraft Hpost Hfresh Hclaude Hmd Hblocks.
  assert (new_page_id w <> draftId) as Hne1 by congruence.
  assert (new_page_id w <> blogPostId) as Hne2 by congruence.
  destruct w as [ps fl n tr]. simpl in Hfaults, Hdraft, Hpost, Hfresh. subst fl.
  set (w := {| pages := ps; faults := [None; None; None; Some msg];
               next_id := n; trace := tr |}) in *.
  unfold DraftwriterCommand.processDraft, DraftwriterCommand.processDraft_try.
  (* Writing in Progress, Draft In Progress *)
  rewrite (try_catch_bind_ok _ _ _ _ _ _
             (updateBlogPostStatus_next draftId "Writing in Progress" w draft eq_refl Hdraft)),
    Hdry.
  match goal with |- context [Js.try_catch _ _ ?x] => set (w1 := x) end.
  simpl Js.when_id. rewrite Htruthy.
  rewrite (try_catch_bind_ok _ _ _ _ _ _
             (updateBlogPostStatus_next blogPostId "Draft In Progress" w1 post eq_refl
                ltac:(simpl; by pages_lookup))).
  match goal with |- context [Js.try_catch _ _ ?x] => set (w2 := x) end.
  (* Claude *)
  pose proof (generateContent_eq env (draftwriterUserPrompt env title content)
                (draftwriterSystemPrompt env title) w2) as Hgen.
  rewrite Hclaude in Hgen. simpl generateContent_reply in Hgen.
  rewrite (try_catch_bind_ok _ _ _ _ _ _ Hgen).
  match goal with |- context [Js.try_catch _ _ ?x] => set (w3 := x) end.
  (* the page is created, its content refused *)
  set (newPage := {| parent := draftsDbId env;
                     properties := blogDraft_properties env title (Some blogPostId);
                     blocks := [heading_1 title] |}).
  set (w4 := record (Created (new_page_id w) (draftsDbId env))
               (bump_id (set_pages (insert (new_page_id w) newPage) (pop w3)))).
  assert (createBlogDraft env draftId title (text g) (Some blogPostId) w3
          = (Js.Throw (new_Error msg), pop w4)) as Hcreate.
  { unfold createBlogDraft. rewrite try_catch_rethrow. unfold convert. rewrite Hmd.
    assert (Js.ret (W:=World) allBlocks w3 = (Js.Ok allBlocks, w3)) as H0 by reflexivity.
    rewrite (bind_ok _ _ _ _ _ H0). cbv beta zeta.
    erewrite bind_ok; cycle 1.
    { rewrite try_catch_rethrow. by apply pages_create_next. }
    cbv beta. change (new_page_id w3) with (new_page_id w). fold newPage. fold w4.
    erewrite bind_throw; [reflexivity|].
    rewrite try_catch_rethrow. apply appendBlocksInBatches_first_rejected; [|reflexivity].
    unfold Utilities.removeAllLinks. destruct allBlocks; [done | discriminate]. }
  rewrite (try_catch_bind_throw _ _ _ _ _ _ Hcreate).
  (* the catch *)
  set (w5 := pop w4).
  assert (faults w5 = []) as Hf5 by reflexivity.
  assert (pages w5 !! draftId = Some (with_status "Writing in Progress" draft)) as Hd5
    by (simpl; by pages_lookup).
  rewrite (bind_ok _ _ _ _ _
             (try_catch_ok _ _ _ _ _
                (updateBlogPostStatus_nil draftId "Ready to Start" w5 _ Hf5 Hd5))).
  cbv beta. cbn [message new_Error].
  match goal with |- updateBlogPostError _ _ _ ?x = _ /\ _ => set (w6 := x)
                | |- exists _, updateBlogPostError _ _ _ ?x = _ /\ _ => set (w6 := x) end.
  destruct (updateBlogPostError_accepted blogPostId
              (or_else msg "Unknown error occurred during draft writing") w6)
    as (w7 & Hu7 & _ & Ht7 & Hs7 & He7 & Hk7 & Hd7).
  { reflexivity. }
  { simpl. pages_lookup. eauto. }
  rewrite Hu7. exists w7. split; [reflexivity|].
  assert (pages w7 !! new_page_id w = Some newPage) as Hnew.
  { rewrite Hk7 by done. simpl. by pages_lookup. }
  split; [exact Hnew|].
  split.
  { unfold status_of, property_of. rewrite Hnew. simpl.
    unfold blogDraft_properties. rewrite Htruthy.
    do 2 (rewrite lookup_insert_ne by done). apply lookup_insert_eq. }
  split.
  { unfold status_of, property_of. rewrite Hk7 by done. simpl. pages_lookup. simpl.
    by apply lookup_union_Some_l, lookup_singleton_eq. }
  split; [exact Hs7|]. split; [exact He7|]. split.
  - rewrite Hd7. simpl. rewrite !dom_insert_L.
    assert (draftId ∈ dom ps) by (apply elem_of_dom; eauto).
    assert (blogPostId ∈ dom ps) by (apply elem_of_dom; eauto).
    apply set_eq. intros k. rewrite !elem_of_union, !elem_of_singleton.
    intuition (subst; auto).
  - unfold new_events. rewrite Ht7. simpl. rewrite <- !app_assoc, drop_app_length.
    reflexivity.
Qed.

Lemma DraftwriterCommand_refused_content_leaves_empty_draft_witness :
  let env := Scenario.notion_env false ErrRequest in
  let w := {| pages := pages Scenario.drafting_world;
              faults := [None; None; None; Some "validation_error"];
              next_id := 0; trace := [] |} in
  exists w1,
    DraftwriterCommand.processDraft env "brief-1" "Foo" "bar" (Some "topic-1") w
      = (Js.Ok tt, w1) /\
    pages w1 !! new_page_id w =
      Some {| parent := draftsDbId env;
              properties := blogDraft_properties env "Foo" (Some "topic-1");
              blocks := [heading_1 "Foo"] |} /\
    status_of (pages w1) (new_page_id w) = Some "Ready for Review" /\
    status_of (pages w1) "brief-1" = Some "Ready to Start" /\
    status_of (pages w1) "topic-1" = Some "Error" /\
    property_of (pages w1) "topic-1" "Error"
      = Some (or_else "validation_error" "Unknown error occurred during draft writing") /\
    dom (pages w1) = {[ new_page_id w ]} ∪ dom (pages w) /\
    providerCalls (new_events w w1) = 1.
Proof.
  intros env w.
  apply (DraftwriterCommand_refused_content_leaves_empty_draft env "brief-1" "Foo" "bar"
           "topic-1" w (Scenario.brief_of "topic-1") Scenario.researched
           {| text := "the draft"; gen_usage := true |}
           [Scenario.linked "the draft"] "validation_error"); try reflexivity; discriminate.
Defined.

(** X26: the same on the research side, with a consequence downstream.
    When Notion takes the calls up to [pages.create] and refuses the
    first [blocks.children.append], [processTopic] returns with the topic
    in Error carrying Notion's message, and with a research brief in the
    drafts database that holds the title heading only and is Ready to
    Start: the draftwriter command's listing contains it. *)
Theorem ResearchCommand_refused_content_leaves_empty_brief env topicId title (w : World)
    page research allBlocks msg :
  dryRun env = false ->
  faults w = [None; None; Some msg] ->
  pages w !! topicId = Some page ->
  pages w !! new_page_id w = None ->
  perplexity env (productivityPrompt env title) = Responded (Some research) ->
  usage research = true ->
  markdownToBlocks env (Sources.enhance (content research) (citations research))
    = inr allBlocks ->
  allBlocks <> [] ->
  let brief := {| parent := draftsDbId env;
                  properties := <[ "Title" := title ]>
                                (<[ "Status" := "Ready to Start" ]>
                                 (<[ "Type" := "Research Brief" ]>
                                  {[ "Blog Posts" := topicId ]}));
                  blocks := [heading_1 title] |} in
  exists w1,
    ResearchCommand.processTopic env topicId title w = (Js.Ok tt, w1) /\
    status_of (pages w1) topicId = Some "Error" /\
    property_of (pages w1) topicId "Error"
      = Some (or_else msg "Unknown error occurred during research") /\
    pages w1 !! new_page_id w = Some brief /\
    (new_page_id w, brief) ∈ filter (fun e => matches (draftsDbId env) "Ready to Start" e)
                               (map_to_list (pages w1)) /\
    providerCalls (new_events w w1) = 1.
Proof.
  intros Hdry Hfaults Hpage Hfresh Hreply Husage Hmd Hblocks brief.
  assert (new_page_id w <> topicId) as Hne by congruence.
  destruct w as [ps fl n tr]. simpl in Hfaults, Hpage, Hfresh. subst fl.
  set (w := {| pages := ps; faults := [None; None; Some msg]; next_id := n; trace := tr |})
    in *.
  unfold ResearchCommand.processTopic, ResearchCommand.processTopic_try.
  (* Research In Progress *)
  rewrite (try_catch_bind_ok _ _ _ _ _ _
             (updateBlogPostStatus_next topicId "Research In Progress" w page eq_refl Hpage)),
    Hdry.
  match goal with |- context [Js.try_catch _ _ ?x] => set (w1 := x) end.
  (* Perplexity *)
  pose proof (researchTopic_eq env (productivityPrompt env title) w1) as Hres.
  rewrite Hreply in Hres. simpl researchTopic_reply in Hres.
  rewrite (try_catch_bind_ok _ _ _ _ _ _ Hres), Husage.
  match goal with |- context [Js.try_catch _ _ ?x] => set (w2 := x) end.
  assert (Js.ret (W:=World) tt w2 = (Js.Ok tt, w2)) as Hret by reflexivity.
  rewrite (try_catch_bind_ok _ _ _ _ _ _ Hret). cbv zeta.
  (* the brief is created, its content refused *)
  set (w3 := record (Created (new_page_id w) (draftsDbId env))
               (bump_id (set_pages (insert (new_page_id w) brief) (pop w2)))).
  assert (createResearchBrief env topicId title
            (Sources.enhance (content research) (citations research)) w2
          = (Js.Throw (new_Error msg), pop w3)) as Hcreate.
  { unfold createResearchBrief. rewrite try_catch_rethrow. unfold convert. rewrite Hmd.
    assert (Js.ret (W:=World) allBlocks w2 = (Js.Ok allBlocks, w2)) as H0 by reflexivity.
    rewrite (bind_ok _ _ _ _ _ H0). cbv beta zeta.
    erewrite bind_ok; cycle 1.
    { by apply pages_create_next. }
    cbv beta. change (new_page_id w2) with (new_page_id w). fold brief. fold w3.
    erewrite bind_throw; [reflexivity|].
    apply appendBlocksInBatches_first_rejected; [|reflexivity].
    unfold Utilities.removeAllLinks. destruct allBlocks; [done | discriminate]. }
  rewrite (try_catch_bind_throw _ _ _ _ _ _ Hcreate).
  (* the catch *)
  unfold ResearchCommand.errorMessage. cbn [message new_Error].
  destruct (updateBlogPostError_accepted topicId
              (or_else msg "Unknown error occurred during research") (pop w3))
    as (w4 & Hu4 & _ & Ht4 & Hs4 & He4 & Hk4 & _).
  { reflexivity. }
  { simpl. pages_lookup. eauto. }
  rewrite Hu4. exists w4. split; [reflexivity|].
  assert (pages w4 !! new_page_id w = Some brief) as Hnew.
  { rewrite Hk4 by done. simpl. by pages_lookup. }
  split; [exact Hs4|]. split; [exact He4|]. split; [exact Hnew|]. split.
  - apply list_elem_of_filter. split; [|by apply elem_of_map_to_list].
    unfold matches. simpl. rewrite bool_decide_eq_true_2 by done.
    by rewrite bool_decide_eq_true_2.
  - unfold new_events. rewrite Ht4. simpl. rewrite <- !app_assoc, drop_app_length.
    reflexivity.
Qed.

Lemma ResearchCommand_refused_content_leaves_empty_brief_witness :
  let env := Scenario.notion_env false (Responded (Some Scenario.bar)) in
  let w := Scenario.notion_world "topic-1" Scenario.foo [None; None; Some "validation_error"] in
  let brief := {| parent := draftsDbId env;
                  properties := <[ "Title" := "Foo" ]>
                                (<[ "Status" := "Ready to Start" ]>
                                 (<[ "Type" := "Research Brief" ]>
                                  {[ "Blog Posts" := "topic-1" ]}));
                  blocks := [heading_1 "Foo"] |} in
  exists w1,
    ResearchCommand.processTopic env "topic-1" "Foo" w = (Js.Ok tt, w1) /\
    status_of (pages w1) "topic-1" = Some "Error" /\
    property_of (pages w1) "topic-1" "Error"
      = Some (or_else "validation_error" "Unknown error occurred during research") /\
    pages w1 !! new_page_id w = Some brief /\
    (new_page_id w, brief) ∈ filter (fun e => matches (draftsDbId env) "Ready to Start" e)
                               (map_to_list (pages w1)) /\
    providerCalls (new_events w w1) = 1.
Proof.
  intros env w brief.
  apply (ResearchCommand_refused_content_leaves_empty_brief env "topic-1" "Foo" w
           Scenario.foo Scenario.bar
           [Scenario.linked "bar"] "validation_error"); try reflexivity; discriminate.
Defined.

End PartialPages.
